(** * pdfcraft: the processing pipeline of the PDF processors

    A shallow embedding of the page-range and layout resolvers and of the
    four processors of [src/lib/pdf/processors] (rasterize, PDF to image,
    watermark, PDF to DOCX) together with the conversion worker, and the
    properties of the specification that concern them.

    Conventions of the embedding.
    - A JavaScript [number] that holds a page number, an index or a count is
      an integer of [Z]; a progress percentage or a length is an exact
      rational of [Q] (rounding of doubles is monotone, so the order of the
      percentages is the one of the rationals).
    - A JavaScript string is a [string] of 8-bit characters; white space is
      the ASCII white space.
    - [NaN] resulting from [parseInt] is [None].
    - The external collaborators (pdf.js, jsPDF, JSZip, the canvas, the
      worker channel) are oracles gathered in environment records: they say
      which call throws and what a page measures. *)

From Stdlib Require Import List ZArith Lia Bool Ascii String QArith Qminmax Lqa.
From Stdlib Require Import Sorting.Sorted Numbers.DecimalString.
From Stdlib Require Import QArith.Qround QArith.Qfield Numbers.DecimalPos Numbers.DecimalZ.
Import ListNotations.

Open Scope Z_scope.

(* ================================================================== *)
(** ** JavaScript strings *)

Module JsString.

Open Scope string_scope.
Open Scope Z_scope.

(** White space removed by [String.prototype.trim] and skipped by
    [parseInt], among the characters below 256: tab, line feed, vertical
    tab, form feed, carriage return, space, no-break space. *)
Definition isWhiteSpace (c : ascii) : bool :=
  let n := nat_of_ascii c in
  ((9 <=? n)%nat && (n <=? 13)%nat) || (n =? 32)%nat || (n =? 160)%nat.

Fixpoint trimStart (s : string) : string :=
  match s with
  | String c r => if isWhiteSpace c then trimStart r else s
  | EmptyString => EmptyString
  end.

(** [trimEnd] keeps a character when it is not white space or when
    something is left after it. *)
Fixpoint trimEnd (s : string) : string :=
  match s with
  | EmptyString => EmptyString
  | String c r =>
      match trimEnd r with
      | EmptyString => if isWhiteSpace c then EmptyString else String c EmptyString
      | r' => String c r'
      end
  end.

Definition trim (s : string) : string := trimEnd (trimStart s).

(** [s.split(sep)] for a separator of one character: the pieces between
    the separators, the empty string giving one empty piece. *)
Fixpoint split (sep : ascii) (s : string) : list string :=
  match s with
  | EmptyString => [EmptyString]
  | String c r =>
      if Ascii.eqb c sep then EmptyString :: split sep r
      else match split sep r with
           | p :: ps => String c p :: ps
           | [] => [String c EmptyString]
           end
  end.

(** [s.includes(c)] for a pattern of one character. *)
Fixpoint includesChar (c : ascii) (s : string) : bool :=
  match s with
  | EmptyString => false
  | String d r => Ascii.eqb d c || includesChar c r
  end.

(** [s.startsWith(p)], [s.includes(p)], [s.endsWith(p)]. *)
Fixpoint startsWith (p s : string) : bool :=
  match p, s with
  | EmptyString, _ => true
  | String a p', String b s' => Ascii.eqb a b && startsWith p' s'
  | String _ _, EmptyString => false
  end.

Fixpoint includes (p s : string) : bool :=
  startsWith p s ||
  match s with
  | EmptyString => false
  | String _ r => includes p r
  end.

Fixpoint endsWith (p s : string) : bool :=
  String.eqb p s ||
  match s with
  | EmptyString => false
  | String _ r => endsWith p r
  end.

(** [s.toLowerCase()] on the ASCII letters. *)
Definition lowerChar (c : ascii) : ascii :=
  let n := nat_of_ascii c in
  if ((65 <=? n)%nat && (n <=? 90)%nat)%bool then ascii_of_nat (n + 32) else c.

Fixpoint toLowerCase (s : string) : string :=
  match s with
  | EmptyString => EmptyString
  | String c r => String (lowerChar c) (toLowerCase r)
  end.

(** The value of a decimal digit. *)
Definition digitValue (c : ascii) : option Z :=
  let n := nat_of_ascii c in
  if ((48 <=? n)%nat && (n <=? 57)%nat)%bool then Some (Z.of_nat (n - 48)) else None.

(** The longest prefix of digits, read in base 10 onto the accumulator;
    the boolean tells whether a digit was read. *)
Fixpoint readDigits (s : string) (acc : Z) (seen : bool) : Z * bool :=
  match s with
  | String c r =>
      match digitValue c with
      | Some d => readDigits r (10 * acc + d) true
      | None => (acc, seen)
      end
  | EmptyString => (acc, seen)
  end.

(** [parseInt(s, 10)]: leading white space is skipped, one sign is
    accepted, the digits that follow are read and the rest is ignored;
    without a digit the result is [NaN]. The value is the integer the
    digits write: that is the number JavaScript gives up to 2^53 in
    magnitude, and what it rounds to the nearest double beyond. *)
Definition parseInt (s : string) : option Z :=
  let t := trimStart s in
  let '(neg, body) :=
    match t with
    | String "-" r => (true, r)
    | String "+" r => (false, r)
    | _ => (false, t)
    end in
  match readDigits body 0 false with
  | (v, true) => Some (if neg then - v else v)
  | (_, false) => None
  end.

(** [String(n)] for an integer: its decimal digits, which is what
    JavaScript writes for the integers a double holds exactly below
    10^21 (page numbers, counts, the clock). *)
Definition ofZ (n : Z) : string := NilZero.string_of_int (Z.to_int n).

End JsString.

(* ================================================================== *)
(** ** Arrays, sets and sorting of numbers *)

(** [Array.from({ length: n }, (_, i) => i + k)]. *)
Definition arrayFrom (n : Z) (k : Z) : list Z :=
  map (fun i => Z.of_nat i + k) (seq 0 (Z.to_nat n)).

(** The integers visited by [for (let i = lo; i <= hi; i++)]. *)
Definition forRange (lo hi : Z) : list Z :=
  map (fun i => lo + Z.of_nat i) (seq 0 (Z.to_nat (hi + 1 - lo))).

(** [Set.prototype.add] on a set kept in insertion order. *)
Definition setAdd (x : Z) (s : list Z) : list Z :=
  if existsb (Z.eqb x) s then s else s ++ [x].

Definition setAddAll (xs : list Z) (s : list Z) : list Z :=
  fold_left (fun acc x => setAdd x acc) xs s.

(** [arr.sort((a, b) => a - b)]. *)
Fixpoint insertNum (x : Z) (l : list Z) : list Z :=
  match l with
  | [] => [x]
  | y :: r => if x <=? y then x :: l else y :: insertNum x r
  end.

Definition sortNum (l : list Z) : list Z := fold_right insertNum [] l.

(* ================================================================== *)
(** ** Page-range resolution (rasterize.ts, [parsePageRange]) *)

Module PageRange.

Import JsString.
Open Scope string_scope.
Open Scope Z_scope.

(** The pages one comma-separated part adds to the set. *)
Definition partPages (part : string) (totalPages : Z) : list Z :=
  if includesChar "-" part then
    match map (fun n => parseInt (trim n)) (split "-" part) with
    | Some start :: Some end_ :: _ =>
        forRange (Z.max 1 start) (Z.min totalPages end_)
    | _ => []
    end
  else
    match parseInt part with
    | Some pageNum =>
        if (1 <=? pageNum) && (pageNum <=? totalPages) then [pageNum] else []
    | None => []
    end.

Definition parsePageRange (rangeStr : string) (totalPages : Z) : list Z :=
  if String.eqb rangeStr "" || String.eqb (trim rangeStr) "" then
    arrayFrom totalPages 1
  else
    let parts := map trim (split "," rangeStr) in
    let pages :=
      fold_left (fun pages part => setAddAll (partPages part totalPages) pages)
                parts [] in
    sortNum pages.

(** The set [pages] after the loop over [parts], from the set [acc]. *)
Definition collect (totalPages : Z) (parts : list string) (acc : list Z) : list Z :=
  fold_left (fun pages part => setAddAll (partPages part totalPages) pages)
            parts acc.

(** The page numbers [1..n]. *)
Definition upTo (n : Z) : list Z := map Z.of_nat (seq 1 (Z.to_nat n)).

(** The vocabulary of the specification for the parts of a range string.
    A string is blank when the parser takes it for "no restriction". *)
Definition isBlank (rangeStr : string) : bool :=
  String.eqb rangeStr "" || String.eqb (trim rangeStr) "".

Definition tokens (rangeStr : string) : list string :=
  map trim (split "," rangeStr).

Definition endpoints (part : string) : list (option Z) :=
  map (fun n => parseInt (trim n)) (split "-" part).

(** A token is non-numeric when a number it needs does not parse. *)
Definition isNonNumeric (part : string) : bool :=
  if includesChar "-" part then
    match endpoints part with
    | Some _ :: Some _ :: _ => false
    | _ => true
    end
  else
    match parseInt part with
    | Some _ => false
    | None => true
    end.

(** A range is reversed when its end is below its start. *)
Definition isReversed (part : string) : bool :=
  includesChar "-" part &&
  match endpoints part with
  | Some start :: Some end_ :: _ => end_ <? start
  | _ => false
  end.

(** A token is entirely out of bounds when none of the pages it names is
    in [1..totalPages]. *)
Definition isOutOfBounds (part : string) (totalPages : Z) : bool :=
  if includesChar "-" part then
    match endpoints part with
    | Some start :: Some end_ :: _ => (end_ <? 1) || (totalPages <? start)
    | _ => false
    end
  else
    match parseInt part with
    | Some pageNum => (pageNum <? 1) || (totalPages <? pageNum)
    | None => false
    end.

Definition isInvalid (part : string) (totalPages : Z) : bool :=
  isNonNumeric part || isReversed part || isOutOfBounds part totalPages.

End PageRange.

(* ================================================================== *)
(** ** Page selection of the watermark processor ([getPageIndices]) *)

Module PageIndices.

Open Scope string_scope.
Open Scope Z_scope.

(** [WatermarkOptions['pages']]: an array of page numbers or a keyword. *)
Inductive PagesOption : Type :=
| PagesArray (pages : list Z)
| PagesKeyword (keyword : string).

Definition getPageIndices (pages : PagesOption) (totalPages : Z) : list Z :=
  match pages with
  | PagesArray ps =>
      filter (fun p => (0 <=? p) && (p <? totalPages)) (map (fun p => p - 1) ps)
  | PagesKeyword k =>
      if String.eqb k "odd" then
        filter (fun i => Z.rem i 2 =? 0) (arrayFrom totalPages 0)
      else if String.eqb k "even" then
        filter (fun i => Z.rem i 2 =? 1) (arrayFrom totalPages 0)
      else arrayFrom totalPages 0
  end.

End PageIndices.

(* ================================================================== *)
(** ** Grouping of the pages of a grid (PDF to image, grid layout mode) *)

Module GridLayout.

Open Scope Z_scope.

Definition len (pages : list Z) : Z := Z.of_nat (List.length pages).

(** [pagesToConvert[k]]: an index outside the array reads [undefined];
    the loops below only read inside it, the default is never used. *)
Definition at_ (pages : list Z) (k : Z) : Z := nth (Z.to_nat k) pages 0.

(** The inner loop
    [for (j = 0; j < pagesPerImage && (i + j) < length; j++) group.push(pages[i + j])]
    runs for [j] from 0 below the smaller of the two bounds. *)
Definition groupAt (pages : list Z) (pagesPerImage i : Z) : list Z :=
  map (fun j => at_ pages (i + Z.of_nat j))
      (seq 0 (Z.to_nat (Z.min pagesPerImage (len pages - i)))).

(** The outer loop [for (i = startIndex; i < length; i += pagesPerImage)].
    It does not end when [pagesPerImage <= 0]: the iterations are counted
    by [fuel] and [None] is the loop still running when it is used up. *)
Fixpoint groupLoop (fuel : nat) (pages : list Z) (pagesPerImage i : Z)
    (pageGroups : list (list Z)) : option (list (list Z)) :=
  if i <? len pages then
    match fuel with
    | O => None
    | S fuel' =>
        groupLoop fuel' pages pagesPerImage (i + pagesPerImage)
                  (pageGroups ++ [groupAt pages pagesPerImage i])
    end
  else Some pageGroups.

Definition pageGroups (fuel : nat) (skipFirst : bool) (pages : list Z)
    (pagesPerImage : Z) : option (list (list Z)) :=
  if skipFirst && (0 <? len pages) then
    groupLoop fuel pages pagesPerImage 1 [[at_ pages 0]]
  else
    groupLoop fuel pages pagesPerImage 0 [].

(** The grouping in the words of the specification: ordered batches of
    [size] pages, the last one possibly shorter; with [skipFirstPage] the
    first page is a batch of its own. *)
Fixpoint batchesAux (fuel size : nat) (pages : list Z) : list (list Z) :=
  match fuel, pages with
  | S fuel', _ :: _ => firstn size pages :: batchesAux fuel' size (skipn size pages)
  | _, _ => []
  end.

Definition batches (size : nat) (pages : list Z) : list (list Z) :=
  batchesAux (List.length pages) size pages.

Definition specGroups (skipFirst : bool) (size : nat) (pages : list Z)
    : list (list Z) :=
  match skipFirst, pages with
  | true, first :: rest => [first] :: batches size rest
  | _, _ => batches size pages
  end.

End GridLayout.

(* ================================================================== *)
(** ** The result envelope and the data the processors exchange *)

Module Pdf.

Open Scope string_scope.

(** Modelled from the spec: [PDFErrorCode] of the absent [@/types/pdf],
    with the error kinds the specification lists. *)
Inductive PDFErrorCode : Type :=
| INVALID_OPTIONS
| FILE_TYPE_INVALID
| INVALID_PAGE_RANGE
| PROCESSING_CANCELLED
| PROCESSING_FAILED
| WORKER_FAILED
| PDF_ENCRYPTED.

Definition PDFErrorCode_eqb (a b : PDFErrorCode) : bool :=
  match a, b with
  | INVALID_OPTIONS, INVALID_OPTIONS
  | FILE_TYPE_INVALID, FILE_TYPE_INVALID
  | INVALID_PAGE_RANGE, INVALID_PAGE_RANGE
  | PROCESSING_CANCELLED, PROCESSING_CANCELLED
  | PROCESSING_FAILED, PROCESSING_FAILED
  | WORKER_FAILED, WORKER_FAILED
  | PDF_ENCRYPTED, PDF_ENCRYPTED => true
  | _, _ => false
  end.

(** A [File] handle: what the processors read of it. *)
Record File : Type := mkFile { name : string; type : string }.

Inductive Orientation : Type := landscape | portrait.

(** One page of a jsPDF document: its format in millimetres, its
    orientation and the source page whose raster fills it. *)
Record PdfPage : Type := mkPdfPage {
  widthMm : Q;
  heightMm : Q;
  orientation : Orientation;
  imageOf : Z
}.

Inductive WatermarkKind : Type := TextMark | ImageMark.

(** What [canvas.toBlob(cb, mimeType, quality)] encodes: the pages drawn
    on the canvas and the encoder settings. *)
Record Raster : Type := mkRaster {
  drawn : list Z;
  mimeType : string;
  quality : option Q
}.

(** A [Blob], by the way it was produced. *)
Inductive Blob : Type :=
| ImageBlob (r : Raster)
| ZipBlob (entries : list (string * Raster))
| RasterPdfBlob (pages : list PdfPage)
| WatermarkedPdfBlob (marks : list (Z * WatermarkKind))
| WorkerBlob (tag : string).

Inductive ResultData : Type :=
| OneBlob (b : Blob)
| ManyBlobs (bs : list Blob).

Inductive MetaValue : Type :=
| MetaInt (z : Z)
| MetaNum (q : Q)
| MetaStr (s : string)
| MetaLayout (columns rows : Z) (skipFirstPage : bool).

Record PDFError : Type := mkPDFError {
  code : PDFErrorCode;
  message : string;
  details : option string
}.

Record ProcessOutput : Type := mkOutput {
  success : bool;
  result : option ResultData;
  filename : option string;
  error : option PDFError;
  metadata : list (string * MetaValue)
}.

Record ProcessInput (Options : Type) : Type := mkInput {
  files : list File;
  options : Options
}.
Arguments mkInput {Options}.
Arguments files {Options}.
Arguments options {Options}.

(** The items of a result, each with the pages it shows: the images of a
    blob, of an archive or of a sequence of blobs, the pages of a
    rasterized document. *)
Definition blobItems (b : Blob) : list (list Z) :=
  match b with
  | ImageBlob r => [drawn r]
  | ZipBlob entries => map (fun e => drawn (snd e)) entries
  | RasterPdfBlob ps => map (fun p => [imageOf p]) ps
  | WatermarkedPdfBlob _ => []
  | WorkerBlob _ => []
  end.

Definition itemsOf (o : ProcessOutput) : list (list Z) :=
  match result o with
  | Some (OneBlob b) => blobItems b
  | Some (ManyBlobs bs) => flat_map blobItems bs
  | None => []
  end.

(** The error code of an envelope, when it carries an error. *)
Definition errorCode (o : ProcessOutput) : option PDFErrorCode :=
  option_map code (error o).

(** A thrown JavaScript value: an [Error] with its message, or anything
    else, with the text [String(value)] gives for it. *)
Inductive Thrown : Type :=
| ErrorObj (message : string)
| OtherValue (text : string).

(** [error instanceof Error ? error.message : 'Unknown error'] *)
Definition errorMessageOr (dflt : string) (e : Thrown) : string :=
  match e with
  | ErrorObj m => m
  | OtherValue _ => dflt
  end.

(** What an external call does: it gives a value or it throws. *)
Inductive Outcome (A : Type) : Type :=
| Done (a : A)
| Fails (e : Thrown).
Arguments Done {A}.
Arguments Fails {A}.

(** The document pdf.js gives: its page count and, for a page number, what
    [getPage] does (it throws, or the page measures [(width, height)]
    points at scale 1) and what rendering that page on a canvas does. *)
Record PdfDocument : Type := mkDoc {
  numPages : Z;
  getPage : Z -> Outcome (Q * Q);
  render : Z -> Outcome unit
}.

(** The canvas of the host: whether [getContext('2d')] gives a context and
    whether [toBlob] yields a blob for a canvas showing the given pages. *)
Record Canvas : Type := mkCanvas {
  context2d : bool;
  toBlob : list Z -> bool
}.

(** [name.replace(/\.pdf$/i, '')] *)
Definition stripPdfSuffix (name : string) : string :=
  if JsString.endsWith ".pdf" (JsString.toLowerCase name)
  then String.substring 0 (String.length name - 4) name
  else name.

(** [s.replace(pat, rep)] for a string pattern: the first occurrence. *)
Fixpoint replaceFirst (pat rep s : string) : string :=
  if JsString.startsWith pat s
  then rep ++ String.substring (String.length pat) (String.length s) s
  else match s with
       | EmptyString => EmptyString
       | String c r => String c (replaceFirst pat rep r)
       end.

(** The file type test the processors share:
    [file.type.includes('pdf') || file.name.toLowerCase().endsWith('.pdf')]. *)
Definition looksLikePdf (file : File) : bool :=
  JsString.includes "pdf" (type file) ||
  JsString.endsWith ".pdf" (JsString.toLowerCase (name file)).

End Pdf.

(* ================================================================== *)
(** ** The processor base class *)

Module Base.

Import Pdf.
Open Scope string_scope.

(** Modelled from the spec: the class [BasePDFProcessor] of [../processor]
    is not among the sources. The specification gives its state (a progress
    percentage in [0,100], a message, a cancellation flag), its progress
    callback [(percent, message)] and the two envelope constructors. The
    message does not influence any control flow and is left out; the
    cancellation flag is written from outside the call, so every poll of
    it is answered by the environment. *)
Record BaseState : Type := mkBase {
  progress : Q;
  reports : list Q;      (* the percentages handed to [onProgress] *)
  polls : nat            (* the number of [checkCancelled] calls so far *)
}.

(** The state of a processor extends the state of the base class. *)
Class Processor (St : Type) : Type := {
  getBase : St -> BaseState;
  setBase : BaseState -> St -> St
}.

#[export] Instance BaseProcessor : Processor BaseState := {
  getBase := fun b => b;
  setBase := fun b _ => b
}.

(** How a piece of an [async] body ends: it goes on with a value, it
    executes [return], it throws, or it awaits a promise that never
    settles. *)
Inductive Step (A : Type) : Type :=
| Next (a : A)
| Return (o : ProcessOutput)
| Throw (e : Thrown)
| Hang.
Arguments Next {A}.
Arguments Return {A}.
Arguments Throw {A}.
Arguments Hang {A}.

Definition M (St A : Type) : Type := St -> Step A * St.

Section Monad.
Context {St : Type}.

Definition ret {A} (a : A) : M St A := fun s => (Next a, s).

Definition bind {A B} (m : M St A) (k : A -> M St B) : M St B :=
  fun s =>
    match m s with
    | (Next a, s') => k a s'
    | (Return o, s') => (Return o, s')
    | (Throw e, s') => (Throw e, s')
    | (Hang, s') => (Hang, s')
    end.

(** The [return] statement. *)
Definition return_ {A} (o : ProcessOutput) : M St A := fun s => (Return o, s).

Definition throw {A} (e : Thrown) : M St A := fun s => (Throw e, s).

(** [try { body } catch (e) { handler }] *)
Definition tryCatch {A} (body : M St A) (handler : Thrown -> M St A) : M St A :=
  fun s =>
    match body s with
    | (Throw e, s') => handler e s'
    | r => r
    end.

(** [await] of an external call. *)
Definition await {A} (o : Outcome A) : M St A :=
  match o with
  | Done a => ret a
  | Fails e => throw e
  end.

Definition modify (f : St -> St) : M St unit := fun s => (Next tt, f s).
Definition gets {A} (f : St -> A) : M St A := fun s => (Next (f s), s).
End Monad.

Notation "x <- m ;; k" := (bind m (fun x => k))
  (at level 61, m at next level, right associativity).
Notation "m ;; k" := (bind m (fun _ => k))
  (at level 61, right associativity).

(** How the promise of an [async] function settles. *)
Inductive Settled : Type :=
| Resolved (o : ProcessOutput)
| Rejected (e : Thrown)
| Pending.

Definition settle {St} (body : M St ProcessOutput) (s : St) : Settled * St :=
  match body s with
  | (Next o, s') => (Resolved o, s')
  | (Return o, s') => (Resolved o, s')
  | (Throw e, s') => (Rejected e, s')
  | (Hang, s') => (Pending, s')
  end.

Definition clamp (p : Q) : Q := Qmin 100 (Qmax 0 p).

Section Methods.
Context {St : Type} `{Processor St}.

(** Modelled from the spec: [reset()] of the absent base class: progress
    0, not cancelled; the reports of the call start empty. *)
Definition reset : M St unit :=
  modify (fun s => setBase (mkBase 0 [] 0) s).

(** Modelled from the spec: [updateProgress(percent, message)] of the
    absent base class: the percentage is kept within [0,100], stored and
    handed to the callback. *)
Definition updateProgress (p : Q) : M St unit :=
  modify (fun s =>
    let b := getBase s in
    setBase (mkBase (clamp p) (reports b ++ [clamp p]) (polls b)) s).

(** [this.progress] *)
Definition getProgress : M St Q := gets (fun s => progress (getBase s)).

(** Modelled from the spec: [checkCancelled()] of the absent base class:
    the flag as it stands at this poll. *)
Definition checkCancelled (cancelledAt : nat -> bool) : M St bool :=
  fun s =>
    let b := getBase s in
    (Next (cancelledAt (polls b)),
     setBase (mkBase (progress b) (reports b) (S (polls b))) s).
End Methods.

(** Modelled from the spec: [createErrorOutput(code, message, details?)]
    of the absent base class: an envelope with the error and no result. *)
Definition createErrorOutput (c : PDFErrorCode) (msg : string)
    (det : option string) : ProcessOutput :=
  mkOutput false None None (Some (mkPDFError c msg det)) [].

(** Modelled from the spec: [createSuccessOutput(result, filename,
    metadata)] of the absent base class: an envelope with the result and
    no error. *)
Definition createSuccessOutput (r : ResultData) (fname : string)
    (meta : list (string * MetaValue)) : ProcessOutput :=
  mkOutput true (Some r) (Some fname) None meta.

Definition cancelledOutput : ProcessOutput :=
  createErrorOutput PROCESSING_CANCELLED "Processing was cancelled." None.

End Base.

(* ================================================================== *)
(** ** Specifications of processor bodies *)

Module Spec.

Import Pdf Base.

(** [triple P m Q R E]: from a state in [P], the body [m] goes on with a
    value and a state in [Q], or returns an envelope with a state in [R],
    or throws with a state in [E]; a body that waits for ever satisfies
    every triple. *)
Definition triple {St A} (P : St -> Prop) (m : M St A) (Q : A -> St -> Prop)
    (R : ProcessOutput -> St -> Prop) (E : Thrown -> St -> Prop) : Prop :=
  forall s, P s ->
    match m s with
    | (Next a, s') => Q a s'
    | (Return o, s') => R o s'
    | (Throw e, s') => E e s'
    | (Hang, _) => True
    end.

(** [onlyReturns G m]: every envelope [m] returns is in [G]. *)
Definition onlyReturns {St A} (G : ProcessOutput -> Prop) (m : M St A) : Prop :=
  triple (fun _ => True) m (fun _ _ => True) (fun o _ => G o) (fun _ _ => True).

(** [resolvesIn G m]: the body of an [async] function whose promise, when
    it resolves, resolves with an envelope in [G]. *)
Definition resolvesIn {St} (G : ProcessOutput -> Prop)
    (m : M St ProcessOutput) : Prop :=
  triple (fun _ => True) m (fun o _ => G o) (fun o _ => G o) (fun _ _ => True).

(** [keeps P m]: the body [m] preserves the property [P] of the state,
    however it ends. *)
Definition keeps {St A} (P : St -> Prop) (m : M St A) : Prop :=
  triple P m (fun _ => P) (fun _ => P) (fun _ => P).

(** A step that goes on with [value] exactly when [ok], and throws
    otherwise. *)
Definition goesOnWhen {A} (ok : bool) (value : A) (r : Step A) : Prop :=
  (ok = true -> r = Next value) /\ (ok = false -> exists e, r = Throw e).

(** What a loop that stops at the first failure gives: all the images, or
    an envelope with [PROCESSING_FAILED]. *)
Definition allOrFailed (ok : bool) (images : list Blob) (r : Step (list Blob))
    : Prop :=
  (ok = true -> r = Next images) /\
  (ok = false -> exists out, r = Return out /\
                             errorCode out = Some PROCESSING_FAILED).

End Spec.

(* ================================================================== *)
(** ** The progress contract, in the words of the specification *)

Module Progress.

Import Pdf Base.

(** The first reported percentage is near 0: at most 10. *)
Definition started (l : list Q) : Prop :=
  match l with
  | [] => False
  | first :: _ => (first <= 10)%Q
  end.

(** The reports so far are non-decreasing, start near 0 and are all at
    most [b]. *)
Definition reportedUpTo (b : Q) (s : BaseState) : Prop :=
  StronglySorted Qle (reports s) /\
  Forall (fun x => (x <= b)%Q) (reports s) /\
  started (reports s).

(** 100 has not been reported. *)
Definition below100 (s : BaseState) : Prop :=
  Forall (fun x => (x < 100)%Q) (reports s).

(** The reports of a successful call: non-decreasing, starting near 0,
    ending with 100. *)
Definition completed (s : BaseState) : Prop :=
  StronglySorted Qle (reports s) /\
  started (reports s) /\
  last (reports s) 0%Q = 100%Q.

(** An envelope that is not a success. *)
Definition failing (o : ProcessOutput) : Prop := success o = false.

(** The progress contract of a call that resolved with [o]. *)
Definition contract (o : ProcessOutput) (s : BaseState) : Prop :=
  (success o = true -> completed s) /\
  (success o = false -> below100 s).

End Progress.

(* ================================================================== *)
(** ** The rasterize processor (rasterize.ts) *)

Module Rasterize.

Import JsString PageRange Pdf Base.
Open Scope string_scope.
Open Scope Z_scope.

Inductive RasterizeFormat : Type := png | jpeg | webp | pdf.

Record RasterizePDFOptions : Type := mkOptions {
  dpi : Q;
  format : RasterizeFormat;
  quality : Q;
  pageRange : option string;
  backgroundColor : string
}.

(** [Partial<RasterizePDFOptions>]: an absent key is [None]. *)
Record PartialOptions : Type := mkPartial {
  dpi_ : option Q;
  format_ : option RasterizeFormat;
  quality_ : option Q;
  pageRange_ : option string;
  backgroundColor_ : option string
}.

Definition DEFAULT_RASTERIZE_OPTIONS : RasterizePDFOptions :=
  mkOptions 150 png (92 # 100) (Some "") "white".

Definition orElse {A} (o : option A) (d : A) : A :=
  match o with Some a => a | None => d end.

(** [{ ...DEFAULT_RASTERIZE_OPTIONS, ...options }] *)
Definition mergeOptions (o : PartialOptions) : RasterizePDFOptions :=
  let d := DEFAULT_RASTERIZE_OPTIONS in
  mkOptions (orElse (dpi_ o) (dpi d)) (orElse (format_ o) (format d))
            (orElse (quality_ o) (quality d))
            (match pageRange_ o with Some r => Some r | None => pageRange d end)
            (orElse (backgroundColor_ o) (backgroundColor d)).

Definition getMimeType (f : RasterizeFormat) : string :=
  match f with
  | png => "image/png"
  | jpeg => "image/jpeg"
  | webp => "image/webp"
  | _ => "image/png"
  end.

Definition getFileExtension (f : RasterizeFormat) : string :=
  match f with
  | png => ".png"
  | jpeg => ".jpg"
  | webp => ".webp"
  | _ => ".png"
  end.

Definition formatName (f : RasterizeFormat) : string :=
  match f with
  | png => "png" | jpeg => "jpeg" | webp => "webp" | pdf => "pdf"
  end.

(** The external calls of one [process] call. *)
Record Env : Type := mkEnv {
  cancelledAt : nat -> bool;
  loadPdfjs : Outcome unit;
  arrayBuffer : Outcome unit;
  getDocument : Outcome PdfDocument;
  canvas : Canvas;
  importJsPDF : Outcome unit;
  importJSZip : Outcome unit;
  generateAsync : Outcome unit
}.

Record Image : Type := mkImage {
  pageNum : Z;
  blob : Raster;
  filename : string
}.

(** [15 + ((i / pagesToRender.length) * 75)] *)
Definition pageProgress (i n : Z) : Q :=
  (15 + (inject_Z i / inject_Z n) * 75)%Q.

(** The page of the output document for a viewport at [scale], for a
    resolution that is not 0 (at 0 the code divides 0 by 0). *)
Definition pdfPageOf (o : RasterizePDFOptions) (pageNum : Z) (size : Q * Q)
    : PdfPage :=
  let scale := (dpi o / 72)%Q in
  let vw := (fst size * scale)%Q in
  let vh := (snd size * scale)%Q in
  let widthMm := ((vw / dpi o) * (254 # 10))%Q in
  let heightMm := ((vh / dpi o) * (254 # 10))%Q in
  let orientation :=
    if Qle_bool widthMm heightMm then portrait else landscape in
  mkPdfPage widthMm heightMm orientation pageNum.

(** [canvas.getContext('2d')!] followed by a use of the context: a
    [TypeError] when there is no context. *)
Definition useContext {St} (cv : Canvas) : M St unit :=
  if context2d cv then ret tt
  else throw (ErrorObj "Cannot set properties of null (setting 'fillStyle')").

(** The promise around [canvas.toBlob]. *)
Definition awaitBlob {St} (cv : Canvas) (pages : list Z) : M St unit :=
  if toBlob cv pages then ret tt
  else throw (ErrorObj "Failed to create image blob").

(** Whether the [try] body of a page gets as far as the rendered canvas,
    and then the size of the page; whether it also gets the encoded blob. *)
Definition pageDraws (env : Env) (doc : PdfDocument) (pageNum : Z)
    : option (Q * Q) :=
  match getPage doc pageNum, context2d (canvas env), render doc pageNum with
  | Done size, true, Done _ => Some size
  | _, _, _ => None
  end.

Definition pageRenders (env : Env) (doc : PdfDocument) (pageNum : Z) : bool :=
  match pageDraws env doc pageNum with
  | Some _ => toBlob (canvas env) [pageNum]
  | None => false
  end.

(** The entry pushed on [images] for a page. *)
Definition imageFor (o : RasterizePDFOptions) (baseName : string) (pageNum : Z)
    : Image :=
  mkImage pageNum
    (mkRaster [pageNum] (getMimeType (format o)) (Some (quality o)))
    (baseName ++ "_page_" ++ ofZ pageNum ++ getFileExtension (format o)).

(** [parsePageRange(rasterizeOptions.pageRange || '', totalPages)] *)
Definition pagesToRender (o : RasterizePDFOptions) (totalPages : Z) : list Z :=
  parsePageRange (orElse (pageRange o) "") totalPages.

(** The pages of the output document for the pages of [pages] that draw,
    each in the format of its own page. *)
Definition pdfPagesFor (env : Env) (o : RasterizePDFOptions) (doc : PdfDocument)
    (pages : list Z) : list PdfPage :=
  flat_map (fun p => match pageDraws env doc p with
                     | Some size => [pdfPageOf o p size]
                     | None => []
                     end) pages.

(** The output document after the [try] of page [p] at loop index [i]. *)
Definition afterPage (env : Env) (o : RasterizePDFOptions) (doc : PdfDocument)
    (i p : Z) (pdfOutput : option (list PdfPage)) : option (list PdfPage) :=
  match pageDraws env doc p with
  | Some size =>
      if i =? 0 then Some [pdfPageOf o p size]
      else match pdfOutput with
           | Some ps => Some (ps ++ [pdfPageOf o p size])%list
           | None => None
           end
  | None => pdfOutput
  end.

(** The loop of the PDF output mode, from index [i] on; [pdfOutput] is the
    jsPDF document, [None] while it is [null]. [pdfOutput!.addPage] on
    [null] throws a [TypeError] inside the [try] of the page. *)
Fixpoint pdfLoop (env : Env) (o : RasterizePDFOptions) (doc : PdfDocument)
    (n : Z) (pages : list Z) (i : Z) (pdfOutput : option (list PdfPage))
    : M BaseState (option (list PdfPage)) :=
  match pages with
  | [] => ret pdfOutput
  | pageNum :: rest =>
      c <- checkCancelled (cancelledAt env) ;;
      if c : bool then return_ cancelledOutput else
      updateProgress (pageProgress i n) ;;
      out <- tryCatch
        (size <- await (getPage doc pageNum) ;;
         useContext (canvas env) ;;
         await (render doc pageNum) ;;
         let page := pdfPageOf o pageNum size in
         if i =? 0 then ret (Some [page])
         else match pdfOutput with
              | Some ps => ret (Some (ps ++ [page])%list)
              | None =>
                  throw (ErrorObj "Cannot read properties of null (reading 'addPage')")
              end)
        (fun _ => ret pdfOutput) ;;
      pdfLoop env o doc n rest (i + 1) out
  end.

(** The loop of the image output mode. *)
Fixpoint imageLoop (env : Env) (o : RasterizePDFOptions) (doc : PdfDocument)
    (baseName : string) (n : Z) (pages : list Z) (i : Z) (images : list Image)
    : M BaseState (list Image) :=
  match pages with
  | [] => ret images
  | pageNum :: rest =>
      c <- checkCancelled (cancelledAt env) ;;
      if c : bool then return_ cancelledOutput else
      updateProgress (pageProgress i n) ;;
      out <- tryCatch
        (await (getPage doc pageNum) ;;
         useContext (canvas env) ;;
         await (render doc pageNum) ;;
         awaitBlob (canvas env) [pageNum] ;;
         ret (images ++ [imageFor o baseName pageNum])%list)
        (fun _ => ret images) ;;
      imageLoop env o doc baseName n rest (i + 1) out
  end.

Definition renderFailed : ProcessOutput :=
  createErrorOutput PROCESSING_FAILED "Failed to render any pages."
                    (Some "Unknown rendering error").

Definition metadataOf (totalPages rendered : Z) (o : RasterizePDFOptions)
    (fmt : string) : list (string * MetaValue) :=
  [("totalPages", MetaInt totalPages); ("renderedPages", MetaInt rendered);
   ("dpi", MetaNum (dpi o)); ("format", MetaStr fmt)].

Definition lengthZ {A} (l : list A) : Z := Z.of_nat (List.length l).

Definition process (env : Env) (input : ProcessInput PartialOptions)
    : M BaseState ProcessOutput :=
  reset ;;
  let o := mergeOptions (options input) in
  match files input with
  | [file] =>
      tryCatch
        (updateProgress 5 ;;
         await (loadPdfjs env) ;;
         updateProgress 10 ;;
         await (arrayBuffer env) ;;
         pdfDoc <- await (getDocument env) ;;
         let totalPages := numPages pdfDoc in
         c <- checkCancelled (cancelledAt env) ;;
         if c : bool then return_ cancelledOutput else
         updateProgress 10 ;;
         let pagesToRender := pagesToRender o totalPages in
         if lengthZ pagesToRender =? 0 then
           return_ (createErrorOutput INVALID_OPTIONS "No valid pages specified."
                      (Some "Please enter a valid page range."))
         else
         updateProgress 15 ;;
         let baseName := stripPdfSuffix (name file) in
         match format o with
         | pdf =>
             await (importJsPDF env) ;;
             pdfOutput <- pdfLoop env o pdfDoc (lengthZ pagesToRender)
                                  pagesToRender 0 None ;;
             match pdfOutput with
             | None => return_ renderFailed
             | Some ps =>
                 updateProgress 92 ;;
                 updateProgress 100 ;;
                 return_ (createSuccessOutput (OneBlob (RasterPdfBlob ps))
                            (baseName ++ "_rasterized.pdf")
                            (metadataOf totalPages (lengthZ pagesToRender) o "pdf"))
             end
         | _ =>
             images <- imageLoop env o pdfDoc baseName (lengthZ pagesToRender)
                                 pagesToRender 0 [] ;;
             match images with
             | [] => return_ renderFailed
             | [img] =>
                 updateProgress 92 ;;
                 updateProgress 100 ;;
                 return_ (createSuccessOutput (OneBlob (ImageBlob (blob img)))
                            (filename img)
                            (metadataOf totalPages 1 o (formatName (format o))))
             | _ =>
                 updateProgress 92 ;;
                 await (importJSZip env) ;;
                 await (generateAsync env) ;;
                 updateProgress 100 ;;
                 return_ (createSuccessOutput
                            (OneBlob (ZipBlob
                               (map (fun img => (filename img, blob img)) images)))
                            (baseName ++ "_images.zip")
                            (metadataOf totalPages (lengthZ images) o
                                        (formatName (format o))))
             end
         end)
        (fun error =>
           match error with
           | ErrorObj m =>
               if includes "encrypt" m then
                 return_ (createErrorOutput PDF_ENCRYPTED
                            "The PDF file is encrypted."
                            (Some "Please decrypt the file first."))
               else
                 return_ (createErrorOutput PROCESSING_FAILED
                            "Failed to rasterize PDF." (Some m))
           | OtherValue _ =>
               return_ (createErrorOutput PROCESSING_FAILED
                          "Failed to rasterize PDF." (Some "Unknown error"))
           end)
  | _ =>
      return_ (createErrorOutput INVALID_OPTIONS
                 "Please provide exactly one PDF file."
                 (Some ("Received " ++ ofZ (lengthZ (files input)) ++ " file(s).")))
  end.

(** A fresh processor and the call [processor.process(input, onProgress)]. *)
Definition fresh : BaseState := mkBase 0 [] 0.

Definition run (env : Env) (input : ProcessInput PartialOptions)
    : Settled * BaseState :=
  settle (process env input) fresh.

End Rasterize.

(* ================================================================== *)
(** ** The PDF to image processor *)

Module PDFToImage.

Import JsString GridLayout Pdf Base.
Open Scope string_scope.
Open Scope Z_scope.

Inductive ImageFormat : Type := png | jpg | jpeg | webp | bmp | tiff.

Record PageLayoutOptions : Type := mkLayout {
  preset : string;
  columns : Z;
  rows : Z;
  skipFirstPage : bool
}.

Record PDFToImageOptions : Type := mkOptions {
  format : ImageFormat;
  quality : Q;
  scale : Q;
  pages : list Z;
  backgroundColor : string;
  pageLayout : PageLayoutOptions
}.

(** [Partial<PDFToImageOptions>]: an absent key is [None]. *)
Record PartialOptions : Type := mkPartial {
  format_ : option ImageFormat;
  quality_ : option Q;
  scale_ : option Q;
  pages_ : option (list Z);
  backgroundColor_ : option string;
  pageLayout_ : option PageLayoutOptions
}.

Definition DEFAULT_PAGE_LAYOUT : PageLayoutOptions := mkLayout "1x1" 1 1 false.

Definition DEFAULT_OPTIONS : PDFToImageOptions :=
  mkOptions png (92 # 100) 2 [] "#ffffff" DEFAULT_PAGE_LAYOUT.

Definition orElse {A} (o : option A) (d : A) : A :=
  match o with Some a => a | None => d end.

(** [{ ...DEFAULT_OPTIONS, ...options }] *)
Definition mergeOptions (o : PartialOptions) : PDFToImageOptions :=
  let d := DEFAULT_OPTIONS in
  mkOptions (orElse (format_ o) (format d)) (orElse (quality_ o) (quality d))
            (orElse (scale_ o) (scale d)) (orElse (pages_ o) (pages d))
            (orElse (backgroundColor_ o) (backgroundColor d))
            (orElse (pageLayout_ o) (pageLayout d)).

Definition FORMAT_MIME_TYPES (f : ImageFormat) : string :=
  match f with
  | png => "image/png"
  | jpg => "image/jpeg"
  | jpeg => "image/jpeg"
  | webp => "image/webp"
  | bmp => "image/bmp"
  | tiff => "image/tiff"
  end.

Definition FORMAT_EXTENSIONS (f : ImageFormat) : string :=
  match f with
  | png => ".png"
  | jpg => ".jpg"
  | jpeg => ".jpg"
  | webp => ".webp"
  | bmp => ".bmp"
  | tiff => ".tiff"
  end.

Definition formatName (f : ImageFormat) : string :=
  match f with
  | png => "png" | jpg => "jpg" | jpeg => "jpeg"
  | webp => "webp" | bmp => "bmp" | tiff => "tiff"
  end.

(** [['jpg', 'jpeg', 'webp'].includes(format) ? quality : undefined] *)
Definition qualityFor (o : PDFToImageOptions) : option Q :=
  match format o with
  | jpg | jpeg | webp => Some (quality o)
  | _ => None
  end.

Record Env : Type := mkEnv {
  cancelledAt : nat -> bool;
  loadPdfjs : Outcome unit;
  arrayBuffer : Outcome unit;
  getDocument : Outcome PdfDocument;
  canvas : Canvas
}.

Definition needContext {St} (cv : Canvas) : M St unit :=
  if context2d cv then ret tt
  else throw (ErrorObj "Failed to get canvas context").

Definition awaitBlob {St} (cv : Canvas) (ps : list Z) : M St unit :=
  if toBlob cv ps then ret tt
  else throw (ErrorObj "Failed to create image blob").

(** [renderPageToImage(pdf, pageNum, options)] *)
Definition renderPageToImage {St} (env : Env) (doc : PdfDocument) (pageNum : Z)
    (o : PDFToImageOptions) : M St Blob :=
  await (getPage doc pageNum) ;;
  needContext (canvas env) ;;
  await (render doc pageNum) ;;
  awaitBlob (canvas env) [pageNum] ;;
  ret (ImageBlob (mkRaster [pageNum] (FORMAT_MIME_TYPES (format o)) (qualityFor o))).

(** Whether [renderPageToImage] gives the image of a page. *)
Definition pageRenders (env : Env) (doc : PdfDocument) (pageNum : Z) : bool :=
  match getPage doc pageNum, context2d (canvas env), render doc pageNum with
  | Done _, true, Done _ => toBlob (canvas env) [pageNum]
  | _, _, _ => false
  end.

(** The pages to convert: the requested ones that exist, or all of them
    when none is requested. *)
Definition pagesToConvert (o : PDFToImageOptions) (totalPages : Z) : list Z :=
  if 0 <? Z.of_nat (List.length (pages o))
  then filter (fun p => (1 <=? p) && (p <=? totalPages)) (pages o)
  else arrayFrom totalPages 1.

(** [for (const x of xs) await f(x)] *)
Fixpoint forEachM {St A} (f : A -> M St unit) (xs : list A) : M St unit :=
  match xs with
  | [] => ret tt
  | x :: r => f x ;; forEachM f r
  end.

(** [renderGridPagesToImage(pdf, pageNums, columns, rows, options)]: every
    page is fetched, then every page is drawn in its cell, then the canvas
    is encoded. *)
Definition renderGridPagesToImage {St} (env : Env) (doc : PdfDocument)
    (pageNums : list Z) (o : PDFToImageOptions) : M St Blob :=
  forEachM (fun n => await (getPage doc n) ;; ret tt) pageNums ;;
  needContext (canvas env) ;;
  forEachM (fun n => await (render doc n)) pageNums ;;
  awaitBlob (canvas env) pageNums ;;
  ret (ImageBlob (mkRaster pageNums (FORMAT_MIME_TYPES (format o)) (qualityFor o))).

(** Whether the image of a group is obtained: by [renderPageToImage] for
    a group of one page, by [renderGridPagesToImage] otherwise. *)
Definition isDone {A} (o : Outcome A) : bool :=
  match o with Done _ => true | Fails _ => false end.

Definition groupRenders (env : Env) (doc : PdfDocument) (group : list Z) : bool :=
  match group with
  | [single] => pageRenders env doc single
  | _ =>
      forallb (fun n => isDone (getPage doc n)) group &&
      context2d (canvas env) &&
      forallb (fun n => isDone (render doc n)) group &&
      toBlob (canvas env) group
  end.

(** The image of a group of pages. *)
Definition imageOfGroup (o : PDFToImageOptions) (group : list Z) : Blob :=
  ImageBlob (mkRaster group (FORMAT_MIME_TYPES (format o)) (qualityFor o)).

Definition failedOutput (msg : string) (e : Thrown) : ProcessOutput :=
  createErrorOutput PROCESSING_FAILED msg (Some (errorMessageOr "Unknown error" e)).

(** [15 + (i * progressPerPage)] with [progressPerPage = 80 / n] *)
Definition stepProgress (i n : Z) : Q :=
  (15 + inject_Z i * (80 / inject_Z n))%Q.

(** The loop of the single page mode. *)
Fixpoint pageLoop (env : Env) (doc : PdfDocument) (o : PDFToImageOptions)
    (n : Z) (ps : list Z) (i : Z) (images : list Blob)
    : M BaseState (list Blob) :=
  match ps with
  | [] => ret images
  | pageNum :: rest =>
      c <- checkCancelled (cancelledAt env) ;;
      if c : bool then return_ cancelledOutput else
      updateProgress (stepProgress i n) ;;
      imageBlob <- tryCatch (renderPageToImage env doc pageNum o)
        (fun error =>
           return_ (failedOutput ("Failed to convert page " ++ ofZ pageNum ++ ".")
                                 error)) ;;
      pageLoop env doc o n rest (i + 1) (images ++ [imageBlob])
  end.

(** The image of one group in the grid layout mode: by the standard
    rendering for a single page, by the grid rendering otherwise. *)
Definition groupImage (env : Env) (doc : PdfDocument) (o : PDFToImageOptions)
    (n : Z) (i : Z) (group : list Z) : M BaseState Blob :=
  match group with
  | [single] =>
      updateProgress (stepProgress i n) ;;
      tryCatch (renderPageToImage env doc single o)
        (fun error =>
           return_ (failedOutput
                      ("Failed to convert page " ++ ofZ single ++ ".") error))
  | _ =>
      let pageRange := ofZ (hd 0 group) ++ "-" ++ ofZ (last group 0) in
      updateProgress (stepProgress i n) ;;
      tryCatch (renderGridPagesToImage env doc group o)
        (fun error =>
           return_ (failedOutput
                      ("Failed to convert pages " ++ pageRange ++ ".") error))
  end.

(** The loop over the groups of the grid layout mode. *)
Fixpoint groupsLoop (env : Env) (doc : PdfDocument) (o : PDFToImageOptions)
    (n : Z) (groups : list (list Z)) (i : Z) (images : list Blob)
    : M BaseState (list Blob) :=
  match groups with
  | [] => ret images
  | group :: rest =>
      c <- checkCancelled (cancelledAt env) ;;
      if c : bool then return_ cancelledOutput else
      imageBlob <- groupImage env doc o n i group ;;
      groupsLoop env doc o n rest (i + 1) (images ++ [imageBlob])
  end.

Definition lengthZ {A} (l : list A) : Z := Z.of_nat (List.length l).

Definition metadataOf (count : Z) (o : PDFToImageOptions)
    : list (string * MetaValue) :=
  let l := pageLayout o in
  [("pageCount", MetaInt count); ("format", MetaStr (formatName (format o)));
   ("layout", MetaLayout (columns l) (rows l) (skipFirstPage l))].

Definition process (env : Env) (input : ProcessInput PartialOptions)
    : M BaseState ProcessOutput :=
  reset ;;
  let o := mergeOptions (options input) in
  match files input with
  | [file] =>
      if negb (includes "pdf" (type file)) &&
         negb (endsWith ".pdf" (toLowerCase (name file)))
      then
        return_ (createErrorOutput FILE_TYPE_INVALID
                   "Invalid file type. Please upload a PDF file."
                   (Some ("Received: " ++
                          (if String.eqb (type file) "" then "unknown"
                           else type file))))
      else
      tryCatch
        (updateProgress 5 ;;
         await (loadPdfjs env) ;;
         c <- checkCancelled (cancelledAt env) ;;
         if c : bool then return_ cancelledOutput else
         updateProgress 10 ;;
         await (arrayBuffer env) ;;
         pdf <- await (getDocument env) ;;
         let totalPages := numPages pdf in
         let pagesToConvert := pagesToConvert o totalPages in
         if lengthZ pagesToConvert =? 0 then
           return_ (createErrorOutput INVALID_PAGE_RANGE
                      "No valid pages to convert."
                      (Some ("PDF has " ++ ofZ totalPages ++ " pages.")))
         else
         updateProgress 15 ;;
         let layout := pageLayout o in
         let pagesPerImage := columns layout * rows layout in
         let isSinglePage := pagesPerImage =? 1 in
         images <-
           (if isSinglePage then
              pageLoop env pdf o (lengthZ pagesToConvert) pagesToConvert 0 []
            else
              match pageGroups (List.length pagesToConvert)
                               (skipFirstPage layout) pagesToConvert
                               pagesPerImage with
              | None => fun s => (Hang, s)
              | Some groups =>
                  groupsLoop env pdf o (lengthZ groups) groups 0 []
              end) ;;
         updateProgress 95 ;;
         let baseName := stripPdfSuffix (name file) in
         let ext := FORMAT_EXTENSIONS (format o) in
         let layoutSuffix :=
           if isSinglePage then ""
           else "_" ++ ofZ (columns layout) ++ "x" ++ ofZ (rows layout) in
         match images with
         | [image] =>
             updateProgress 100 ;;
             return_ (createSuccessOutput (OneBlob image)
                        (baseName ++ layoutSuffix ++ ext) (metadataOf 1 o))
         | _ =>
             updateProgress 100 ;;
             return_ (createSuccessOutput (ManyBlobs images)
                        (baseName ++ layoutSuffix ++ "_pages" ++ ext)
                        (metadataOf (lengthZ images) o))
         end)
        (fun error =>
           return_ (failedOutput "Failed to convert PDF to images." error))
  | _ =>
      return_ (createErrorOutput INVALID_OPTIONS
                 "Please provide exactly one PDF file."
                 (Some ("Received " ++ ofZ (lengthZ (files input)) ++ " file(s).")))
  end.

Definition fresh : BaseState := mkBase 0 [] 0.

Definition run (env : Env) (input : ProcessInput PartialOptions)
    : Settled * BaseState :=
  settle (process env input) fresh.

End PDFToImage.

(* ================================================================== *)
(** ** The watermark processor *)

Module Watermark.

Import JsString PageIndices Pdf Base.
Open Scope string_scope.
Open Scope Z_scope.

Inductive WatermarkType : Type := text_ | image_.

(** The options that decide what is drawn on which page. The placement of
    the mark (position, rotation, opacity, font size, colour) is computed
    in floating point and only parametrises the drawing call; it is not
    part of the model. *)
Record WatermarkOptions : Type := mkOptions {
  type : WatermarkType;
  text : option string;
  imageData : bool;
  pages : PagesOption
}.

(** [Partial<WatermarkOptions>]: an absent key is [None]. *)
Record PartialOptions : Type := mkPartial {
  type' : option WatermarkType;
  text' : option string;
  imageData' : bool;
  pages' : option PagesOption
}.

Definition orElse {A} (o : option A) (d : A) : A :=
  match o with Some a => a | None => d end.

(** [type: inputOptions.type ?? 'text', ..., pages: inputOptions.pages ?? 'all'] *)
Definition resolveOptions (o : PartialOptions) : WatermarkOptions :=
  mkOptions (orElse (type' o) text_) (text' o) (imageData' o)
            (orElse (pages' o) (PagesKeyword "all")).

(** The document pdf-lib gives. Measuring the text with the embedded font
    and drawing on a page are calls into the library: they throw on what
    the library refuses (a character the font cannot encode, a colour or
    an opacity outside its range). *)
Record WmDocument : Type := mkWmDoc {
  embedFont : Outcome unit;
  getPageCount : Z;
  getPage : Z -> Outcome unit;      (* by 0-based index *)
  widthOfTextAtSize : Outcome unit; (* [font.widthOfTextAtSize], [heightAtSize] *)
  drawText : Z -> Outcome unit;     (* [pdfLib.rgb] and [page.drawText] *)
  embedPng : Outcome unit;
  drawImage : Z -> Outcome unit;    (* [page.drawImage] *)
  save : Outcome unit
}.

Record Env : Type := mkEnv {
  cancelledAt : nat -> bool;
  loadPdfLib : Outcome unit;
  arrayBuffer : Outcome unit;
  load : Outcome WmDocument
}.

(** [wmOptions.type === 'text' && wmOptions.text]: the text is truthy
    when it is present and not empty. *)
Definition drawsText (o : WatermarkOptions) : bool :=
  match type o, text o with
  | text_, Some t => negb (String.eqb t "")
  | _, _ => false
  end.

Definition drawsImage (o : WatermarkOptions) : bool :=
  match type o with
  | image_ => imageData o
  | _ => false
  end.

(** [30 + (60 * (i + 1) / pagesToProcess.length)] *)
Definition pageProgress (i n : Z) : Q :=
  (30 + 60 * (inject_Z i + 1) / inject_Z n)%Q.

Fixpoint markLoop (env : Env) (doc : WmDocument) (o : WatermarkOptions)
    (n : Z) (indices : list Z) (i : Z) (marks : list (Z * WatermarkKind))
    : M BaseState (list (Z * WatermarkKind)) :=
  match indices with
  | [] => ret marks
  | pageIndex :: rest =>
      c <- checkCancelled (cancelledAt env) ;;
      if c : bool then return_ cancelledOutput else
      await (getPage doc pageIndex) ;;
      marks' <-
        (if drawsText o then
           await (widthOfTextAtSize doc) ;;
           await (drawText doc pageIndex) ;;
           ret (marks ++ [(pageIndex, TextMark)])%list
         else if drawsImage o then
           await (embedPng doc) ;;
           await (drawImage doc pageIndex) ;;
           ret (marks ++ [(pageIndex, ImageMark)])%list
         else ret marks) ;;
      updateProgress (pageProgress i n) ;;
      markLoop env doc o n rest (i + 1) marks'
  end.

Definition lengthZ {A} (l : list A) : Z := Z.of_nat (List.length l).

Definition process (env : Env) (input : ProcessInput PartialOptions)
    : M BaseState ProcessOutput :=
  reset ;;
  let wmOptions := resolveOptions (options input) in
  match files input with
  | [file] =>
      tryCatch
        (updateProgress 10 ;;
         await (loadPdfLib env) ;;
         updateProgress 20 ;;
         await (arrayBuffer env) ;;
         pdf <- await (load env) ;;
         await (embedFont pdf) ;;
         let totalPages := getPageCount pdf in
         updateProgress 30 ;;
         let pagesToProcess := getPageIndices (pages wmOptions) totalPages in
         marks <- markLoop env pdf wmOptions (lengthZ pagesToProcess)
                           pagesToProcess 0 [] ;;
         updateProgress 95 ;;
         await (save pdf) ;;
         updateProgress 100 ;;
         return_ (createSuccessOutput (OneBlob (WatermarkedPdfBlob marks))
                    (replaceFirst ".pdf" "_watermarked.pdf" (name file))
                    [("pageCount", MetaInt totalPages)]))
        (fun error =>
           return_ (createErrorOutput PROCESSING_FAILED "Failed to add watermark."
                      (Some (errorMessageOr "Unknown error" error))))
  | _ =>
      return_ (createErrorOutput INVALID_OPTIONS
                 "Exactly 1 PDF file is required." None)
  end.

Definition fresh : BaseState := mkBase 0 [] 0.

Definition run (env : Env) (input : ProcessInput PartialOptions)
    : Settled * BaseState :=
  settle (process env input) fresh.

End Watermark.

(* ================================================================== *)
(** ** The conversion worker (pdf-to-docx.worker.js) *)

Module Worker.

Import JsString Pdf.
Open Scope string_scope.

(** A message on the channel between the page and the worker; an absent
    field is [None]. *)
Record WorkerMessage : Type := mkMsg {
  type : string;
  id : option string;
  result : option Blob;
  error : option string;
  message : option string;
  percent : option Q
}.

Definition statusMsg (m : string) : WorkerMessage :=
  mkMsg "status" None None None (Some m) None.

Definition progressMsg (m : string) (p : Q) : WorkerMessage :=
  mkMsg "progress" None None None (Some m) (Some p).

(** The external calls of the worker: Pyodide, its packages and the Python
    helpers. *)
Record Env : Type := mkEnv {
  loadPyodide : Outcome unit;
  installDependencies : Outcome unit;   (* mocks and wheels up to opencv *)
  installPdf2docx : Outcome unit;
  defineHelpers : Outcome unit;
  fileBytes : Outcome unit;             (* [file.arrayBuffer()] *)
  pdf_write_input : Outcome unit;
  pdf_convert : Outcome Z;              (* the page count *)
  pdf_read_result : Outcome unit
}.

(** The module variables [pyodide] and [initPromise]: whether Pyodide is
    loaded, whether the helpers are defined in it, and how the promise of
    [init()] settled once it was created. *)
Record State : Type := mkState {
  pyodide : bool;
  helpers : bool;
  initPromise : option (Outcome unit)
}.

Definition initial : State := mkState false false None.

(** [init()]: the messages it posts, the way it settles and the state. *)
Definition init (env : Env) (st : State)
    : list WorkerMessage * Outcome unit * State :=
  if pyodide st then ([], Done tt, st) else
  let m1 := statusMsg "Loading Python environment..." in
  match loadPyodide env with
  | Fails e => ([m1], Fails e, st)
  | Done _ =>
      let st1 := mkState true false (initPromise st) in
      let m2 := statusMsg "Installing dependencies..." in
      match installDependencies env with
      | Fails e => ([m1; m2], Fails e, st1)
      | Done _ =>
          let m3 := statusMsg "Installing pdf2docx..." in
          match installPdf2docx env with
          | Fails e => ([m1; m2; m3], Fails e, st1)
          | Done _ =>
              let m4 := statusMsg "Initializing converter..." in
              match defineHelpers env with
              | Fails e => ([m1; m2; m3; m4], Fails e, st1)
              | Done _ => ([m1; m2; m3; m4], Done tt, mkState true true (initPromise st))
              end
          end
      end
  end.

(** [if (!initPromise) initPromise = init(); await initPromise;] *)
Definition ensureInit (env : Env) (st : State)
    : list WorkerMessage * Outcome unit * State :=
  match initPromise st with
  | Some settled => ([], settled, st)
  | None =>
      let '(posted, settled, st') := init env st in
      (posted, settled, mkState (pyodide st') (helpers st') (Some settled))
  end.

(** [error.message || String(error)] *)
Definition errorText (e : Thrown) : string :=
  match e with
  | ErrorObj m => if String.eqb m "" then "Error" else m
  | OtherValue t => t
  end.

Definition errorMsg (rid : option string) (e : Thrown) : WorkerMessage :=
  mkMsg "error" rid None (Some (errorText e)) None None.

Definition docxBlob : Blob :=
  WorkerBlob "application/vnd.openxmlformats-officedocument.wordprocessingml.document".

(** The conversion steps after the initialisation. *)
Definition convert (env : Env) (rid : option string) (st : State)
    : list WorkerMessage :=
  match fileBytes env with
  | Fails e => [errorMsg rid e]
  | Done _ =>
      let p1 := progressMsg "Preparing PDF..." 5 in
      if negb (helpers st) then
        [p1; errorMsg rid (ErrorObj "writeInput is not a function")]
      else
      match pdf_write_input env with
      | Fails e => [p1; errorMsg rid e]
      | Done _ =>
          let p2 := progressMsg "Converting to DOCX..." 10 in
          match pdf_convert env with
          | Fails e => [p1; p2; errorMsg rid e]
          | Done totalPages =>
              let p3 := progressMsg
                ("Converted " ++ ofZ totalPages ++ " pages successfully") 85 in
              let p4 := progressMsg "Reading result..." 90 in
              match pdf_read_result env with
              | Fails e => [p1; p2; p3; p4; errorMsg rid e]
              | Done _ =>
                  [p1; p2; p3; p4;
                   mkMsg "convert-complete" rid (Some docxBlob) None None None]
              end
          end
      end
  end.

(** [self.onmessage] for a request [{ type, id, data }]: the messages
    posted in answer and the state afterwards. *)
Definition onmessage (env : Env) (st : State) (reqType : string)
    (rid : option string) : list WorkerMessage * State :=
  if String.eqb reqType "init" then
    let '(posted, settled, st') := ensureInit env st in
    match settled with
    | Done _ => (posted ++ [mkMsg "init-complete" rid None None None None], st')%list
    | Fails e => (posted ++ [errorMsg rid e], st')%list
    end
  else if String.eqb reqType "convert" then
    let '(posted, settled, st') :=
      if pyodide st then ([], Done tt, st) else ensureInit env st in
    match settled with
    | Done _ => (posted ++ convert env rid st', st')%list
    | Fails e => (posted ++ [errorMsg rid e], st')%list
    end
  else ([], st).

End Worker.

(* ================================================================== *)
(** ** The PDF to DOCX processor (pdf-to-docx.ts) *)

Module PDFToDocx.

Import JsString Pdf Base.
Import Worker(WorkerMessage, type, id, result, error, message, percent).
Open Scope string_scope.

(** What the page receives from a [Worker] object: a message, or an
    [error] event of the channel itself. *)
Inductive WorkerEvent : Type :=
| MessageEvent (data : WorkerMessage)
| ErrorEvent (message : string).

(** The processor: the base class, [this.worker] (the worker contexts are
    numbered in the order of their creation) and [this.workerReady];
    [spawned] counts the contexts created so far and [terminated] lists the
    ones shut down. *)
Record State : Type := mkState {
  base : BaseState;
  worker : option nat;
  workerReady : bool;
  spawned : nat;
  terminated : list nat
}.

#[global] Instance DocxProcessor : Processor State := {
  getBase := base;
  setBase := fun b s =>
    mkState b (worker s) (workerReady s) (spawned s) (terminated s)
}.

(** The external side of one [process] call: the cancellation polls, the
    [Worker] constructor, the events that arrive after the [init] request,
    the clock read for the correlation id, and the events that arrive
    after the [convert] request. *)
Record Env : Type := mkEnv {
  cancelledAt : nat -> bool;
  newWorker : Outcome unit;
  initEvents : list WorkerEvent;
  now : Z;
  convertEvents : list WorkerEvent
}.

(** [error || dflt] for an optional string. *)
Definition orDefault (e : option string) (dflt : string) : string :=
  match e with
  | Some t => if String.eqb t "" then dflt else t
  | None => dflt
  end.

(** The listeners [initWorker] attaches; they stay on the worker for as
    long as it lives. [settled] tells whether the promise of [initWorker]
    is already settled: [resolve] and [reject] then do nothing. *)
Definition initHandleMessage (settled : bool) (m : WorkerMessage)
    : M State unit :=
  if String.eqb (type m) "init-complete" then
    modify (fun s => mkState (base s) (worker s) true (spawned s) (terminated s))
  else if String.eqb (type m) "status" then
    updateProgress 0
  else if String.eqb (type m) "error" then
    if settled then ret tt
    else throw (ErrorObj (orDefault (error m) "Worker initialization failed"))
  else ret tt.

(** The events of the handshake, in order, until the promise settles;
    when they run out before, the promise stays pending. *)
Fixpoint awaitInit (events : list WorkerEvent) : M State unit :=
  match events with
  | [] => fun s => (Hang, s)
  | MessageEvent m :: rest =>
      initHandleMessage false m ;;
      if String.eqb (type m) "init-complete" then ret tt else awaitInit rest
  | ErrorEvent _ :: _ => throw (ErrorObj "Worker connection failed")
  end.

(** [initWorker()] *)
Definition initWorker (env : Env) : M State unit :=
  w <- gets worker ;;
  match w with
  | Some _ => ret tt
  | None =>
      await (newWorker env) ;;
      modify (fun s => mkState (base s) (Some (spawned s)) (workerReady s)
                               (S (spawned s)) (terminated s)) ;;
      awaitInit (initEvents env)
  end.

(** [terminateWorker()] *)
Definition terminateWorker : M State unit :=
  modify (fun s =>
    match worker s with
    | Some w => mkState (base s) None false (spawned s) (w :: terminated s)
    | None => s
    end).

Definition idMatches (i : option string) (msgId : string) : bool :=
  match i with
  | Some t => String.eqb t msgId
  | None => false
  end.

(** The vocabulary of the specification for the events of a conversion
    with correlation id [msgId]. An application-level error is an [error]
    message that carries the id of the request. *)
Definition isAppError (msgId : string) (m : WorkerMessage) : bool :=
  String.eqb (type m) "error" && idMatches (id m) msgId.

(** An event that does not settle the request: a [status] or [progress]
    message, a message with another id or without one, or a message of
    another type than the two terminal ones. *)
Definition nonTerminal (msgId : string) (ev : WorkerEvent) : bool :=
  match ev with
  | MessageEvent m =>
      String.eqb (type m) "status" || String.eqb (type m) "progress" ||
      negb (idMatches (id m) msgId) ||
      (negb (String.eqb (type m) "convert-complete") &&
       negb (String.eqb (type m) "error"))
  | ErrorEvent _ => false
  end.

(** The correlation id of the conversion request of a call. *)
Definition msgIdOf (env : Env) : string := "convert-" ++ ofZ (now env).

(** The events of the conversion, in order, until its promise settles.
    Each message first reaches the listener of [initWorker], then
    [handleMessage] of the conversion. *)
Fixpoint awaitConvert (msgId : string) (events : list WorkerEvent)
    : M State (option Blob) :=
  match events with
  | [] => fun s => (Hang, s)
  | MessageEvent m :: rest =>
      initHandleMessage true m ;;
      if String.eqb (type m) "status" then
        p <- getProgress ;;
        updateProgress p ;;
        awaitConvert msgId rest
      else if String.eqb (type m) "progress" then
        p <- getProgress ;;
        updateProgress (match percent m with Some v => v | None => p end) ;;
        awaitConvert msgId rest
      else if negb (idMatches (id m) msgId) then awaitConvert msgId rest
      else if String.eqb (type m) "convert-complete" then ret (result m)
      else if String.eqb (type m) "error" then
        throw (ErrorObj (orDefault (error m) "Conversion failed"))
      else awaitConvert msgId rest
  | ErrorEvent text :: _ => throw (ErrorObj ("Worker error: " ++ text))
  end.

Definition lengthZ {A} (l : list A) : Z := Z.of_nat (List.length l).

Definition process (env : Env) (input : ProcessInput unit)
    : M State ProcessOutput :=
  reset ;;
  match files input with
  | [file] =>
      if negb (includes "pdf" (Pdf.type file)) &&
         negb (endsWith ".pdf" (toLowerCase (name file)))
      then
        return_ (createErrorOutput FILE_TYPE_INVALID
                   "Invalid file type. Please upload a PDF file."
                   (Some ("Received: " ++
                          (if String.eqb (Pdf.type file) "" then "unknown"
                           else Pdf.type file))))
      else
      tryCatch
        (updateProgress 10 ;;
         tryCatch (initWorker env)
           (fun err =>
              return_ (createErrorOutput WORKER_FAILED
                         "Failed to initialize conversion worker."
                         (Some (match err with
                                | ErrorObj m => m
                                | OtherValue t => t
                                end)))) ;;
         c <- checkCancelled (cancelledAt env) ;;
         if c : bool then return_ cancelledOutput else
         updateProgress 30 ;;
         w <- gets worker ;;
         docxBlob <-
           match w with
           | None => throw (ErrorObj "Worker not initialized")
           | Some _ => awaitConvert (msgIdOf env) (convertEvents env)
           end ;;
         c' <- checkCancelled (cancelledAt env) ;;
         if c' : bool then return_ cancelledOutput else
         updateProgress 100 ;;
         let baseName := stripPdfSuffix (name file) in
         return_ (mkOutput true (option_map OneBlob docxBlob)
                    (Some (baseName ++ ".docx")) None
                    [("format", MetaStr "docx")]))
        (fun error =>
           terminateWorker ;;
           return_ (createErrorOutput PROCESSING_FAILED
                      "Failed to convert PDF to DOCX."
                      (Some (errorMessageOr "Unknown error" error))))
  | _ =>
      return_ (createErrorOutput INVALID_OPTIONS
                 "Please provide exactly one PDF file."
                 (Some ("Received " ++ ofZ (lengthZ (files input)) ++ " file(s).")))
  end.

(** A processor just constructed, and a call on a processor in state [s]. *)
Definition fresh : State := mkState (mkBase 0 [] 0) None false 0 [].

Definition run (env : Env) (input : ProcessInput unit) (s : State)
    : Settled * State :=
  settle (process env input) s.

(** Two states with the same worker contexts. *)
Definition sameWorkers (s s' : State) : Prop :=
  worker s' = worker s /\ spawned s' = spawned s /\ terminated s' = terminated s.

(** The number of worker contexts created so far is [k]. *)
Definition spawnedIs (k : nat) (s : State) : Prop := spawned s = k.

(** The last percentage handed to the callback is 100. *)
Definition endsAt100 (s : State) : Prop :=
  last (reports (base s)) 0%Q = 100%Q.

(** The first percentage handed to the callback is near 0: at most 10. *)
Definition startsNear0 (s : State) : Prop :=
  Progress.started (reports (base s)).

(** 100 was not handed to the callback, and the progress stored is below
    100 too. *)
Definition under100 (s : State) : Prop :=
  Progress.below100 (base s) /\ (progress (base s) < 100)%Q.

(** An event whose message, when it carries a percentage, carries one
    below 100 (as the messages of the worker do). *)
Definition percentBelow100 (ev : WorkerEvent) : Prop :=
  match ev with
  | MessageEvent m =>
      match percent m with
      | Some v => (v < 100)%Q
      | None => True
      end
  | ErrorEvent _ => True
  end.

End PDFToDocx.

(* ================================================================== *)
(** ** Concrete inputs *)

Module Examples.

Import Pdf Base.
Open Scope string_scope.
Open Scope Z_scope.

(** A document of [n] US Letter pages whose pages in [bad] fail to render. *)
Definition docOf (n : Z) (bad : Z -> bool) : PdfDocument :=
  mkDoc n (fun _ => Done (612%Q, 792%Q))
        (fun p => if bad p then Fails (ErrorObj "render failed") else Done tt).

Definition goodCanvas : Canvas := mkCanvas true (fun _ => true).

Definition never (k : nat) : bool := false.

Definition pdfFile : File := mkFile "report.pdf" "application/pdf".

(** A PDF under a name and a type that do not say so. *)
Definition disguisedFile : File := mkFile "scan.bin" "".

Definition rasterEnv (doc : PdfDocument) : Rasterize.Env :=
  Rasterize.mkEnv never (Done tt) (Done tt) (Done doc) goodCanvas
                  (Done tt) (Done tt) (Done tt).

Definition rasterInput (file : File) (fmt : Rasterize.RasterizeFormat)
    (range : string) : ProcessInput Rasterize.PartialOptions :=
  mkInput [file] (Rasterize.mkPartial None (Some fmt) None (Some range) None).

(** The envelope of the 3 pages of [scan.bin] rasterized to PNG. *)
Definition scanImages : ProcessOutput :=
  createSuccessOutput
    (OneBlob (ZipBlob
       [("scan.bin_page_1.png", mkRaster [1] "image/png" (Some (92 # 100)));
        ("scan.bin_page_2.png", mkRaster [2] "image/png" (Some (92 # 100)));
        ("scan.bin_page_3.png", mkRaster [3] "image/png" (Some (92 # 100)))]))
    "scan.bin_images.zip"
    [("totalPages", MetaInt 3); ("renderedPages", MetaInt 3);
     ("dpi", MetaNum 150); ("format", MetaStr "png")].

Definition imageEnv (doc : PdfDocument) : PDFToImage.Env :=
  PDFToImage.mkEnv never (Done tt) (Done tt) (Done doc) goodCanvas.

Definition imageInput (file : File) (pages : list Z)
    (layout : option PDFToImage.PageLayoutOptions)
    : ProcessInput PDFToImage.PartialOptions :=
  mkInput [file] (PDFToImage.mkPartial None None None (Some pages) None layout).

Definition wmDoc (n : Z) : Watermark.WmDocument :=
  Watermark.mkWmDoc (Done tt) n (fun _ => Done tt) (Done tt) (fun _ => Done tt)
                    (Done tt) (fun _ => Done tt) (Done tt).

Definition wmEnv (n : Z) : Watermark.Env :=
  Watermark.mkEnv never (Done tt) (Done tt) (Done (wmDoc n)).

Definition wmInput (file : File) (pages : PageIndices.PagesOption)
    : ProcessInput Watermark.PartialOptions :=
  mkInput [file] (Watermark.mkPartial None (Some "DRAFT") false (Some pages)).

(** The envelope of the 3 pages of [scan.bin] with a text mark on each. *)
Definition scanMarked : ProcessOutput :=
  createSuccessOutput
    (OneBlob (WatermarkedPdfBlob [(0, TextMark); (1, TextMark); (2, TextMark)]))
    "scan.bin" [("pageCount", MetaInt 3)].

(** A worker whose steps all succeed on a document of 3 pages, and one on
    which the conversion itself raises. *)
Definition workerOk : Worker.Env :=
  Worker.mkEnv (Done tt) (Done tt) (Done tt) (Done tt) (Done tt) (Done tt)
               (Done 3) (Done tt).

Definition workerBadPdf : Worker.Env :=
  Worker.mkEnv (Done tt) (Done tt) (Done tt) (Done tt) (Done tt) (Done tt)
               (Fails (ErrorObj "cannot open broken document")) (Done tt).

(** The events the page sees when the worker code answers the [init]
    request sent at a fresh context. *)
Definition initEventsOf (w : Worker.Env) : list PDFToDocx.WorkerEvent :=
  map PDFToDocx.MessageEvent
      (fst (Worker.onmessage w Worker.initial "init" (Some "init-1000"))).

Definition workerAfterInit (w : Worker.Env) : Worker.State :=
  snd (Worker.onmessage w Worker.initial "init" (Some "init-1000")).

(** The events of a [convert] request sent at time [t] to a worker in
    state [st]. *)
Definition convertEventsOf (w : Worker.Env) (st : Worker.State) (t : Z)
    : list PDFToDocx.WorkerEvent :=
  map PDFToDocx.MessageEvent
      (fst (Worker.onmessage w st "convert"
              (Some ("convert-" ++ JsString.ofZ t)))).

(** A first call on a fresh processor, served by the worker code. *)
Definition docxEnvFirst (w : Worker.Env) (t : Z) : PDFToDocx.Env :=
  PDFToDocx.mkEnv never (Done tt) (initEventsOf w) t
                  (convertEventsOf w (workerAfterInit w) t).

(** A later call on a processor whose worker is initialised. *)
Definition docxEnvLater (w : Worker.Env) (t : Z) : PDFToDocx.Env :=
  PDFToDocx.mkEnv never (Done tt) [] t
                  (convertEventsOf w (workerAfterInit workerOk) t).

(** A call during which the channel itself fails after one progress
    message. *)
Definition docxEnvCrash (t : Z) : PDFToDocx.Env :=
  PDFToDocx.mkEnv never (Done tt) [] t
    [PDFToDocx.MessageEvent (Worker.progressMsg "Preparing PDF..." 5);
     PDFToDocx.ErrorEvent "out of memory"].

Definition docxInput (file : File) : ProcessInput unit := mkInput [file] tt.

(** A processor whose worker 0 is initialised and idle. *)
Definition docxReady : PDFToDocx.State :=
  PDFToDocx.mkState (mkBase 0 [] 0) (Some 0%nat) true 1 [].

End Examples.

(* ================================================================== *)
(** ** Numbers as JavaScript holds them *)

Module JsNumber.

Open Scope Z_scope.

(** [Number.MAX_SAFE_INTEGER], 2^53 - 1. Numbers are doubles: up to this
    magnitude a double holds every integer exactly, [parseInt] gives the
    integer its digits write and [i++] gives the next integer. Beyond it
    numerals are rounded and counting stalls: at 2^53, [i++] gives 2^53
    again. *)
Definition MAX_SAFE_INTEGER : Z := 9007199254740991.

Definition isSafeInteger (n : Z) : bool :=
  (- MAX_SAFE_INTEGER <=? n) && (n <=? MAX_SAFE_INTEGER).

(** The greatest length of an array, 2^32 - 1: [push] throws beyond. *)
Definition MAX_ARRAY_LENGTH : Z := 4294967295.

End JsNumber.

(* ================================================================== *)
(** ** The PDF to image tool (PDFToImageTool.tsx) *)

Module ImageTool.

Import JsString JsNumber Pdf Base.
Open Scope string_scope.
Open Scope Z_scope.

(** The pages one part of the page field asks for: the range is walked as
    it is written, nothing is known of the document yet. The walk
    [for (let i = start; i <= end; i++)] is the walk on the integers when
    both ends are safe integers; the code is followed there only. [None]
    stands for the rest: a number the double rounds, a range whose walk
    reaches 2^53 and never ends. *)
Definition partPages (part : string) : option (list Z) :=
  let trimmed := trim part in
  if includesChar "-" trimmed then
    match map (fun s => parseInt (trim s)) (split "-" trimmed) with
    | Some start :: Some end_ :: _ =>
        if isSafeInteger start && isSafeInteger end_
        then Some (forRange start end_)
        else None
    | _ => Some []
    end
  else
    match parseInt trimmed with
    | Some num => if isSafeInteger num then Some [num] else None
    | None => Some []
    end.

(** One round of the loop over the parts: [pages.includes] keeps the
    array free of duplicates. [None] also when the array would outgrow
    [MAX_ARRAY_LENGTH], where [pages.push] throws. *)
Definition addPart (pages : option (list Z)) (part : string)
    : option (list Z) :=
  match pages, partPages part with
  | Some ps, Some asked =>
      let ps' := setAddAll asked ps in
      if Z.of_nat (List.length ps') <=? MAX_ARRAY_LENGTH then Some ps'
      else None
  | _, _ => None
  end.

(** [parsePageRange(rangeStr)] of the tool, where the code is followed:
    the array is sorted at the end. *)
Definition parsePageRange (rangeStr : string) : option (list Z) :=
  if String.eqb (trim rangeStr) "" then Some []
  else option_map sortNum (fold_left addPart (split "," rangeStr) (Some [])).

(** The handlers of the two number fields of the custom grid:
    [Math.max(1, Math.min(10, parseInt(e.target.value) || 1))]. *)
Definition customSize (value : string) : Z :=
  let parsed := match parseInt value with
                | Some v => if v =? 0 then 1 else v
                | None => 1
                end in
  Z.max 1 (Z.min 10 parsed).

(** What the tool holds when [handleConvert] runs. *)
Record ToolState : Type := mkTool {
  format : PDFToImage.ImageFormat;
  quality : Q;
  scale : Q;
  pageRange : string;
  layoutPreset : string;
  customColumns : Z;
  customRows : Z;
  skipFirstPage : bool
}.

(** [getGridDimensions()] *)
Definition getGridDimensions (t : ToolState) : Z * Z :=
  let p := layoutPreset t in
  if String.eqb p "1x1" then (1, 1)
  else if String.eqb p "2x1" then (2, 1)
  else if String.eqb p "1x2" then (1, 2)
  else if String.eqb p "2x2" then (2, 2)
  else if String.eqb p "3x3" then (3, 3)
  else if String.eqb p "custom" then (customColumns t, customRows t)
  else (1, 1).

(** The options [handleConvert] builds, [pages] being the array
    [parsePageRange(pageRange)] returned. *)
Definition optionsWith (t : ToolState) (pages : list Z)
    : PDFToImage.PartialOptions :=
  let '(cols, rows) := getGridDimensions t in
  PDFToImage.mkPartial (Some (format t)) (Some (quality t)) (Some (scale t))
    (Some pages) None
    (Some (PDFToImage.mkLayout (layoutPreset t) cols rows (skipFirstPage t))).

(** The options [handleConvert] hands to [pdfToImages]; they are built
    before the [try], so there are none when [parsePageRange] does not
    return. *)
Definition convertOptions (t : ToolState) : option PDFToImage.PartialOptions :=
  option_map (optionsWith t) (parsePageRange (pageRange t)).

(** [pdfToImages(file, options, onProgress)]: a new processor and one
    call of it with the file alone. *)
Definition pdfToImages (env : PDFToImage.Env) (file : File)
    (options : option PDFToImage.PartialOptions) : Settled * BaseState :=
  PDFToImage.run env
    (mkInput [file]
       (match options with
        | Some o => o
        | None => PDFToImage.mkPartial None None None None None None
        end)).

(** The call of [handleConvert], once the options are built. *)
Definition handleConvert (env : PDFToImage.Env) (file : File) (t : ToolState)
    : option (Settled * BaseState) :=
  option_map (fun options => pdfToImages env file (Some options))
             (convertOptions t).

(** The pages of a document of [totalPages] pages the processor converts
    for the tool. *)
Definition selection (t : ToolState) (totalPages : Z) : option (list Z) :=
  option_map
    (fun options =>
       PDFToImage.pagesToConvert (PDFToImage.mergeOptions options) totalPages)
    (convertOptions t).

(** The layout the processor reads for the tool; it does not depend on
    the pages. *)
Definition layout (t : ToolState) : PDFToImage.PageLayoutOptions :=
  PDFToImage.pageLayout (PDFToImage.mergeOptions (optionsWith t [])).

End ImageTool.

(* ================================================================== *)
(** ** The canvas of a grid image ([renderGridPagesToImage]) *)

Module GridCanvas.

Open Scope Q_scope.

Record Viewport : Type := mkViewport { width : Q; height : Q }.

(** [page.getViewport({ scale })] for a page of [size] points. *)
Definition getViewport (scale : Q) (size : Q * Q) : Viewport :=
  mkViewport (fst size * scale) (snd size * scale).

(** The two running maxima of the loop over the viewports, from 0. *)
Definition maxCellWidth (viewports : list Viewport) : Q :=
  fold_left (fun m v => Qmax m (width v)) viewports 0.

Definition maxCellHeight (viewports : list Viewport) : Q :=
  fold_left (fun m v => Qmax m (height v)) viewports 0.

(** Where the page of index [i] is drawn. *)
Record Placement : Type := mkPlacement {
  col : Z;
  row : Z;
  cellX : Q;
  cellY : Q;
  xOffset : Q;
  yOffset : Q
}.

(** [col = i % columns], [row = Math.floor(i / columns)], the cell and the
    offset that centres the page in it. *)
Definition place (columns : Z) (cellWidth cellHeight : Q) (i : Z)
    (viewport : Viewport) : Placement :=
  let col := Z.rem i columns in
  let row := Qfloor (inject_Z i / inject_Z columns) in
  let cellX := inject_Z col * cellWidth in
  let cellY := inject_Z row * cellHeight in
  mkPlacement col row cellX cellY
    (cellX + (cellWidth - width viewport) / 2)
    (cellY + (cellHeight - height viewport) / 2).

Record Layout : Type := mkLayout {
  canvasWidth : Q;
  canvasHeight : Q;
  placements : list Placement
}.

(** The placements of the loop [for (i = 0; i < pages.length; i++)]. *)
Fixpoint placeFrom (columns : Z) (cellWidth cellHeight : Q) (i : Z)
    (viewports : list Viewport) : list Placement :=
  match viewports with
  | [] => []
  | v :: rest =>
      place columns cellWidth cellHeight i v ::
      placeFrom columns cellWidth cellHeight (i + 1)%Z rest
  end.

(** The canvas and the placements for the viewports of a group. *)
Definition gridLayout (columns rows : Z) (viewports : list Viewport) : Layout :=
  let cellWidth := maxCellWidth viewports in
  let cellHeight := maxCellHeight viewports in
  mkLayout (cellWidth * inject_Z columns) (cellHeight * inject_Z rows)
           (placeFrom columns cellWidth cellHeight 0 viewports).

(** The page drawn by a placement lies in the rectangle
    [x0 <= x <= x1], [y0 <= y <= y1]. *)
Definition drawnWithin (p : Placement) (v : Viewport) (x0 y0 x1 y1 : Q) : Prop :=
  x0 <= xOffset p /\ xOffset p + width v <= x1 /\
  y0 <= yOffset p /\ yOffset p + height v <= y1.

(** Two cells of the given size share at most a border. *)
Definition cellsApart (cellWidth cellHeight : Q) (p q : Placement) : Prop :=
  cellX p + cellWidth <= cellX q \/ cellX q + cellWidth <= cellX p \/
  cellY p + cellHeight <= cellY q \/ cellY q + cellHeight <= cellY p.

End GridCanvas.

(* ================================================================== *)
(** ** The convenience call of the rasterize processor and its tool *)

Module RasterizeCall.

Import Pdf Base.
Open Scope string_scope.

(** [rasterizePDF(file, options, onProgress)] *)
Definition rasterizePDF (env : Rasterize.Env) (file : File)
    (options : option Rasterize.PartialOptions) : Settled * BaseState :=
  Rasterize.run env
    (mkInput [file]
       (match options with
        | Some o => o
        | None => Rasterize.mkPartial None None None None None
        end)).

(** The options [handleRasterize] of the rasterize tool builds:
    [pageRange: pageRange || undefined]. *)
Definition toolOptions (dpi : Q) (format : Rasterize.RasterizeFormat)
    (quality : Q) (pageRange backgroundColor : string)
    : Rasterize.PartialOptions :=
  Rasterize.mkPartial (Some dpi) (Some format) (Some quality)
    (if String.eqb pageRange "" then None else Some pageRange)
    (Some backgroundColor).

End RasterizeCall.

(* ================================================================== *)
(** ** Vocabulary for the envelopes of a processor *)

Module Envelope.

Import Pdf Base.

(** A success envelope carries a result and a file name and no error; an
    error envelope carries an error and no result. *)
Definition isSuccess (o : ProcessOutput) : Prop :=
  success o = true /\ result o <> None /\ filename o <> None /\ error o = None.

Definition isError (codes : list PDFErrorCode) (o : ProcessOutput) : Prop :=
  success o = false /\ result o = None /\
  exists c, errorCode o = Some c /\ In c codes.

(** The envelopes of a processor whose error codes are [codes]. *)
Definition answers (codes : list PDFErrorCode) (o : ProcessOutput) : Prop :=
  isSuccess o \/ isError codes o.

(** The promise did not reject. *)
Definition notRejected (r : Settled) : Prop :=
  match r with
  | Rejected _ => False
  | _ => True
  end.

(** The file names of the entries of an archive. *)
Definition entryNames (o : ProcessOutput) : list string :=
  match result o with
  | Some (OneBlob (ZipBlob entries)) => map fst entries
  | _ => []
  end.

(** The images of a result: the settings of their encoder. *)
Definition encodings (o : ProcessOutput) : list (string * option Q) :=
  let enc b := match b with
               | ImageBlob r => [(mimeType r, quality r)]
               | ZipBlob entries =>
                   map (fun e => (mimeType (snd e), quality (snd e))) entries
               | _ => []
               end in
  match result o with
  | Some (OneBlob b) => enc b
  | Some (ManyBlobs bs) => flat_map enc bs
  | None => []
  end.

(** An image of a PDF to image call with the options [o]: a raster with
    the MIME type of the format and the quality the format takes. *)
Definition imageFor (o : PDFToImage.PDFToImageOptions) (b : Blob) : Prop :=
  exists group, b = PDFToImage.imageOfGroup o group.

(** Every image of the result is encoded as the options [o] say. *)
Definition encodedFor (o : PDFToImage.PDFToImageOptions) (out : ProcessOutput)
    : Prop :=
  Forall (fun enc => enc = (PDFToImage.FORMAT_MIME_TYPES (PDFToImage.format o),
                            PDFToImage.qualityFor o))
         (encodings out).

(** A body that never waits for ever: from every state it goes on,
    returns or throws. *)
Definition settles {St A} (m : M St A) : Prop :=
  forall s, fst (m s) <> Hang.

End Envelope.

(* ================================================================== *)
(** ** Vocabulary for the worker and its use by the processor *)

Module WorkerUse.

Import Pdf Base.
Open Scope string_scope.

(** A message that answers no request: a [status] or a [progress]
    message without an id. *)
Definition isNotice (m : Worker.WorkerMessage) : Prop :=
  (Worker.type m = "status" \/ Worker.type m = "progress") /\
  Worker.id m = None.

(** An event whose message, when it is [convert-complete], carries the
    document (as the one of the worker does). *)
Definition carriesDocument (ev : PDFToDocx.WorkerEvent) : Prop :=
  match ev with
  | PDFToDocx.MessageEvent m =>
      Worker.type m = "convert-complete" -> Worker.result m <> None
  | PDFToDocx.ErrorEvent _ => True
  end.

(** The percentages of the messages that carry one. *)
Definition percents (ms : list Worker.WorkerMessage) : list Q :=
  flat_map (fun m => match Worker.percent m with
                     | Some p => [p]
                     | None => []
                     end) ms.

(** The answer of the worker to an [init] request with id [rid] once the
    promise of [init()] is settled. *)
Definition initAnswer (settled : Outcome unit) (rid : option string)
    : Worker.WorkerMessage :=
  match settled with
  | Done _ => Worker.mkMsg "init-complete" rid None None None None
  | Fails e => Worker.errorMsg rid e
  end.

Definition isDone {A} (o : Outcome A) : bool :=
  match o with Done _ => true | Fails _ => false end.

(** Whether the four steps of the initialisation, and the four steps of a
    conversion, succeed in a worker. *)
Definition initSteps (w : Worker.Env) : bool :=
  isDone (Worker.loadPyodide w) && isDone (Worker.installDependencies w) &&
  isDone (Worker.installPdf2docx w) && isDone (Worker.defineHelpers w).

Definition convertSteps (w : Worker.Env) : bool :=
  isDone (Worker.fileBytes w) && isDone (Worker.pdf_write_input w) &&
  isDone (Worker.pdf_convert w) && isDone (Worker.pdf_read_result w).

(** From [s0] to [s] no worker context was shut down, and a worker that
    was alive is still the worker of the processor. *)
Definition kept (s0 s : PDFToDocx.State) : Prop :=
  PDFToDocx.terminated s = PDFToDocx.terminated s0 /\
  (PDFToDocx.worker s0 <> None ->
   PDFToDocx.worker s = PDFToDocx.worker s0 /\
   PDFToDocx.spawned s = PDFToDocx.spawned s0).

(** The environment of a call that differs from [env] only by the
    [Worker] constructor and by the events of the handshake. *)
Definition withHandshake (env : PDFToDocx.Env) (newWorker : Outcome unit)
    (initEvents : list PDFToDocx.WorkerEvent) : PDFToDocx.Env :=
  PDFToDocx.mkEnv (PDFToDocx.cancelledAt env) newWorker initEvents
                  (PDFToDocx.now env) (PDFToDocx.convertEvents env).

End WorkerUse.

(* ================================================================== *)
(** ** What a watermark call draws *)

Module Marks.

Import Pdf.

(** The marks of a call on the pages of [indices]: the text on every page
    when there is a text to draw, else the image on every page when there
    are image data, else nothing. *)
Definition expected (o : Watermark.WatermarkOptions) (indices : list Z)
    : list (Z * WatermarkKind) :=
  if Watermark.drawsText o then map (fun i => (i, TextMark)) indices
  else if Watermark.drawsImage o then map (fun i => (i, ImageMark)) indices
  else [].

(** The marks of a result. *)
Definition marksOf (o : ProcessOutput) : list (Z * WatermarkKind) :=
  match result o with
  | Some (OneBlob (WatermarkedPdfBlob marks)) => marks
  | _ => []
  end.

End Marks.

(* ================================================================== *)
(** ** The style of a watermark (WatermarkProcessor) *)

Module MarkStyle.

Open Scope Q_scope.

Inductive Position : Type :=
  center | top_left | top_right | bottom_left | bottom_right | diagonal.

Record Color : Type := mkColor { r : Q; g : Q; b : Q }.

(** The style keys of [Partial<WatermarkOptions>]: an absent key is
    [None]. *)
Record PartialStyle : Type := mkPartialStyle {
  position' : option Position;
  opacity' : option Q;
  rotation' : option Q;
  fontSize' : option Q;
  color' : option Color
}.

(** The style keys of [wmOptions]. *)
Record Style : Type := mkStyle {
  position : Position;
  opacity : Q;
  rotation : Q;
  fontSize : Q;
  color : Color
}.

(** [position: inputOptions.position ?? 'center', opacity: ... ?? 0.3,
    rotation: ... ?? -45, fontSize: ... ?? 48,
    color: ... ?? { r: 0.5, g: 0.5, b: 0.5 }] *)
Definition resolveStyle (p : PartialStyle) : Style :=
  mkStyle (Watermark.orElse (position' p) center)
          (Watermark.orElse (opacity' p) (3 # 10))
          (Watermark.orElse (rotation' p) (-45 # 1))
          (Watermark.orElse (fontSize' p) 48)
          (Watermark.orElse (color' p) (mkColor (1 # 2) (1 # 2) (1 # 2))).

(** [x || d] on a number: 0 is falsy. *)
Definition orNumber (x d : Q) : Q := if Qeq_bool x 0 then d else x.

(** What [page.drawText] is given besides the text, the font and the
    place. *)
Record TextDraw : Type := mkTextDraw {
  size : Q;
  red : Q;
  green : Q;
  blue : Q;
  textOpacity : Q;
  textRotate : Q
}.

Definition drawText (o : Style) : TextDraw :=
  let fontSize := orNumber (fontSize o) 48 in
  let rotation :=
    match position o with
    | diagonal => -45 # 1
    | _ => orNumber (rotation o) 0
    end in
  mkTextDraw fontSize
             (orNumber (r (color o)) (1 # 2))
             (orNumber (g (color o)) (1 # 2))
             (orNumber (b (color o)) (1 # 2))
             (orNumber (opacity o) (3 # 10))
             rotation.

(** What [page.drawImage] is given besides the image and its box. *)
Record ImageDraw : Type := mkImageDraw {
  imageOpacity : Q;
  imageRotate : Q
}.

Definition drawImage (o : Style) : ImageDraw :=
  mkImageDraw (orNumber (opacity o) (3 # 10)) (orNumber (rotation o) 0).

End MarkStyle.

(* ================================================================== *)
(** * Properties *)

Import JsString PageRange PageIndices GridLayout Pdf Base Spec.
Open Scope string_scope.
Open Scope list_scope.
Open Scope Z_scope.

(** ** Arrays, sets and sorting *)

Section NumberLists.

Open Scope Z_scope.

Lemma arrayFrom_In (n k p : Z) :
  In p (arrayFrom n k) <-> k <= p < k + n.
Proof.
  unfold arrayFrom. rewrite in_map_iff. split.
  - intros [i [<- Hi]]. apply in_seq in Hi. lia.
  - intros Hp. exists (Z.to_nat (p - k)). split; [lia|].
    apply in_seq. lia.
Qed.

Lemma forRange_In (lo hi p : Z) :
  In p (forRange lo hi) <-> lo <= p <= hi.
Proof.
  unfold forRange. rewrite in_map_iff. split.
  - intros [i [<- Hi]]. apply in_seq in Hi. lia.
  - intros Hp. exists (Z.to_nat (p - lo)). split; [lia|].
    apply in_seq. lia.
Qed.

Lemma forRange_empty (lo hi : Z) : hi < lo -> forRange lo hi = [].
Proof.
  intros H. unfold forRange.
  replace (Z.to_nat (hi + 1 - lo)) with 0%nat by lia. reflexivity.
Qed.

Lemma seq_shift_sorted (f : nat -> Z) (len start : nat) :
  (forall i j, (i < j)%nat -> f i < f j) ->
  StronglySorted Z.lt (map f (seq start len)).
Proof.
  intros Hf. revert start. induction len as [|len IH]; intros start; simpl.
  - constructor.
  - constructor; [apply IH|].
    apply Forall_forall. intros x Hx.
    apply in_map_iff in Hx. destruct Hx as [j [<- Hj]].
    apply in_seq in Hj. apply Hf. lia.
Qed.

Lemma arrayFrom_sorted (n k : Z) : StronglySorted Z.lt (arrayFrom n k).
Proof. apply seq_shift_sorted. intros; lia. Qed.

Lemma setAdd_In (x p : Z) (s : list Z) :
  In p (setAdd x s) <-> p = x \/ In p s.
Proof.
  unfold setAdd. destruct (existsb (Z.eqb x) s) eqn:E.
  - apply existsb_exists in E. destruct E as [y [Hy Exy]].
    apply Z.eqb_eq in Exy. subst y. intuition congruence.
  - rewrite in_app_iff. simpl. intuition.
Qed.

Lemma setAdd_NoDup (x : Z) (s : list Z) : NoDup s -> NoDup (setAdd x s).
Proof.
  intros Hs. unfold setAdd. destruct (existsb (Z.eqb x) s) eqn:E; [exact Hs|].
  apply NoDup_app; [exact Hs | repeat constructor; intros [] |].
  intros y Hy [Exy|[]].
  assert (existsb (Z.eqb x) s = true) as C.
  { apply existsb_exists. exists y. split; [exact Hy | apply Z.eqb_eq, Exy]. }
  congruence.
Qed.

Lemma setAddAll_In (xs s : list Z) (p : Z) :
  In p (setAddAll xs s) <-> In p xs \/ In p s.
Proof.
  unfold setAddAll. revert s. induction xs as [|x xs IH]; intros s; simpl.
  - intuition.
  - rewrite IH, setAdd_In. intuition.
Qed.

Lemma setAddAll_NoDup (xs s : list Z) : NoDup s -> NoDup (setAddAll xs s).
Proof.
  unfold setAddAll. revert s. induction xs as [|x xs IH]; intros s Hs; simpl.
  - exact Hs.
  - apply IH, setAdd_NoDup, Hs.
Qed.

Lemma insertNum_In (x p : Z) (l : list Z) :
  In p (insertNum x l) <-> p = x \/ In p l.
Proof.
  induction l as [|y l IH]; simpl.
  - intuition.
  - destruct (x <=? y); simpl; [intuition|]. rewrite IH. intuition.
Qed.

Lemma sortNum_In (p : Z) (l : list Z) : In p (sortNum l) <-> In p l.
Proof.
  unfold sortNum. induction l as [|x l IH]; simpl.
  - reflexivity.
  - rewrite insertNum_In, IH. intuition.
Qed.

Lemma insertNum_sorted (x : Z) (l : list Z) :
  ~ In x l -> StronglySorted Z.lt l -> StronglySorted Z.lt (insertNum x l).
Proof.
  induction l as [|y l IH]; intros Hx Hl; simpl.
  - repeat constructor.
  - inversion Hl as [|? ? Hl' Hy]; subst.
    destruct (x <=? y) eqn:E.
    + apply Z.leb_le in E.
      assert (x < y) as Hxy by (simpl in Hx; lia).
      constructor; [exact Hl|].
      constructor; [exact Hxy|].
      eapply Forall_impl; [|exact Hy]. simpl. intros; lia.
    + apply Z.leb_gt in E.
      constructor; [apply IH; [simpl in Hx; tauto | exact Hl']|].
      apply Forall_forall. intros z Hz.
      apply insertNum_In in Hz. destruct Hz as [->|Hz]; [exact E|].
      rewrite Forall_forall in Hy. apply Hy, Hz.
Qed.

Lemma sortNum_sorted (l : list Z) :
  NoDup l -> StronglySorted Z.lt (sortNum l).
Proof.
  unfold sortNum. induction 1 as [|x l Hx Hl IH]; simpl.
  - constructor.
  - apply insertNum_sorted; [|exact IH].
    intros C. apply Hx. apply (sortNum_In x l). exact C.
Qed.

Lemma sortNum_nil (l : list Z) : (forall p, ~ In p l) -> sortNum l = [].
Proof.
  intros H. destruct l as [|x l]; [reflexivity|].
  exfalso. apply (H x). left. reflexivity.
Qed.

End NumberLists.

(** ** Page-range resolution *)

Section PageRangeFacts.

Import JsString PageRange.
Open Scope string_scope.
Open Scope Z_scope.

Lemma upTo_arrayFrom (n : Z) : arrayFrom n 1 = upTo n.
Proof.
  unfold arrayFrom, upTo. rewrite <- seq_shift, map_map.
  apply map_ext. intros i. lia.
Qed.

Lemma upTo_In (n p : Z) : In p (upTo n) <-> 1 <= p <= n.
Proof. rewrite <- upTo_arrayFrom, arrayFrom_In. lia. Qed.

Lemma partPages_bounds (part : string) (totalPages p : Z) :
  In p (partPages part totalPages) -> 1 <= p <= totalPages.
Proof.
  unfold partPages. destruct (includesChar "-" part).
  - destruct (map _ (split "-" part)) as [|[a|] [|[b|] r]]; simpl; try tauto.
    rewrite forRange_In. lia.
  - destruct (parseInt part) as [n|]; simpl; [|tauto].
    destruct ((1 <=? n) && (n <=? totalPages)) eqn:E; simpl; [|tauto].
    apply andb_true_iff in E. destruct E as [E1 E2].
    apply Z.leb_le in E1, E2. intros [<-|[]]. lia.
Qed.

Lemma partPages_invalid (part : string) (totalPages : Z) :
  isInvalid part totalPages = true -> partPages part totalPages = [].
Proof.
  unfold isInvalid, isNonNumeric, isReversed, isOutOfBounds, partPages, endpoints.
  destruct (includesChar "-" part); simpl.
  - destruct (map _ (split "-" part)) as [|[a|] [|[b|] r]]; simpl;
      try reflexivity; try discriminate.
    intros H. apply forRange_empty.
    apply orb_true_iff in H. destruct H as [H|H].
    + apply Z.ltb_lt in H. lia.
    + apply orb_true_iff in H. destruct H as [H|H]; apply Z.ltb_lt in H; lia.
  - destruct (parseInt part) as [n|]; simpl; [|reflexivity].
    intros H. apply orb_true_iff in H.
    destruct H as [H|H]; apply Z.ltb_lt in H.
    + replace (1 <=? n) with false by (symmetry; apply Z.leb_gt; lia).
      reflexivity.
    + replace (n <=? totalPages) with false by (symmetry; apply Z.leb_gt; lia).
      rewrite andb_false_r. reflexivity.
Qed.

Lemma collect_In (totalPages : Z) (parts : list string) (acc : list Z) (p : Z) :
  In p (collect totalPages parts acc) <->
  In p acc \/ exists part, In part parts /\ In p (partPages part totalPages).
Proof.
  unfold collect. revert acc. induction parts as [|part parts IH]; intros acc; simpl.
  - split; [tauto|]. intros [H|[part [[] _]]]. exact H.
  - rewrite IH, setAddAll_In. split.
    + intros [[H|H]|[q [Hq Hp]]].
      * right. exists part. tauto.
      * tauto.
      * right. exists q. tauto.
    + intros [H|[q [[<-|Hq] Hp]]].
      * tauto.
      * tauto.
      * right. exists q. tauto.
Qed.

Lemma collect_NoDup (totalPages : Z) (parts : list string) (acc : list Z) :
  NoDup acc -> NoDup (collect totalPages parts acc).
Proof.
  unfold collect. revert acc. induction parts as [|part parts IH]; intros acc H; simpl.
  - exact H.
  - apply IH, setAddAll_NoDup, H.
Qed.

Lemma parsePageRange_blank (rangeStr : string) (totalPages : Z) :
  isBlank rangeStr = true -> parsePageRange rangeStr totalPages = upTo totalPages.
Proof.
  unfold isBlank, parsePageRange. intros ->. apply upTo_arrayFrom.
Qed.

Lemma parsePageRange_nonblank (rangeStr : string) (totalPages : Z) :
  isBlank rangeStr = false ->
  parsePageRange rangeStr totalPages =
  sortNum (collect totalPages (tokens rangeStr) []).
Proof.
  unfold isBlank, parsePageRange. intros ->. reflexivity.
Qed.

Lemma parsePageRange_In (rangeStr : string) (totalPages p : Z) :
  isBlank rangeStr = false ->
  (In p (parsePageRange rangeStr totalPages) <->
   exists part, In part (tokens rangeStr) /\ In p (partPages part totalPages)).
Proof.
  intros Hb. rewrite (parsePageRange_nonblank _ _ Hb), sortNum_In, collect_In.
  simpl. tauto.
Qed.

Lemma parsePageRange_sorted (rangeStr : string) (totalPages : Z) :
  StronglySorted Z.lt (parsePageRange rangeStr totalPages).
Proof.
  destruct (isBlank rangeStr) eqn:Hb.
  - rewrite (parsePageRange_blank _ _ Hb), <- upTo_arrayFrom.
    apply arrayFrom_sorted.
  - rewrite (parsePageRange_nonblank _ _ Hb).
    apply sortNum_sorted, collect_NoDup. constructor.
Qed.

Lemma parsePageRange_bounds (rangeStr : string) (totalPages : Z) :
  Forall (fun p => 1 <= p <= totalPages) (parsePageRange rangeStr totalPages).
Proof.
  apply Forall_forall. intros p Hp.
  destruct (isBlank rangeStr) eqn:Hb.
  - rewrite (parsePageRange_blank _ _ Hb) in Hp. apply upTo_In, Hp.
  - apply (parsePageRange_In _ _ _ Hb) in Hp. destruct Hp as [part [_ Hp]].
    eapply partPages_bounds, Hp.
Qed.

Lemma parsePageRange_all_invalid (rangeStr : string) (totalPages : Z) :
  isBlank rangeStr = false ->
  (forall part, In part (tokens rangeStr) -> isInvalid part totalPages = true) ->
  parsePageRange rangeStr totalPages = [].
Proof.
  intros Hb Hall. rewrite (parsePageRange_nonblank _ _ Hb).
  apply sortNum_nil. intros p Hp. apply collect_In in Hp.
  destruct Hp as [[]|[part [Hpart Hp]]].
  rewrite (partPages_invalid _ _ (Hall part Hpart)) in Hp. exact Hp.
Qed.

End PageRangeFacts.

(** C3. For every page count [N] (in particular [N >= 1]): the empty
    string selects [1..N]; the reversed token ["2-1"] adds no page;
    ["1-3,2,5"] on 5 pages gives [1,2,3,5]; ["0,99"] on 5 pages gives
    nothing. For every input string and page count the parser returns a
    list (it is a total function: no operation of it raises), strictly
    increasing, hence without duplicates, and within [1..N]; a non-numeric
    or reversed token contributes no page, and for a string that is not
    blank the pages returned are exactly the ones its tokens contribute. *)
Theorem C3_parsePageRange :
  (forall N, parsePageRange "" N = upTo N) /\
  (forall N, parsePageRange "2-1" N = []) /\
  parsePageRange "1-3,2,5" 5 = [1; 2; 3; 5] /\
  parsePageRange "0,99" 5 = [] /\
  (forall s N, StronglySorted Z.lt (parsePageRange s N) /\
               Forall (fun p => 1 <= p <= N) (parsePageRange s N)) /\
  (forall part N, isNonNumeric part || isReversed part = true ->
                  partPages part N = []) /\
  (forall s N p, isBlank s = false ->
     (In p (parsePageRange s N) <->
      exists part, In part (tokens s) /\ In p (partPages part N))).
Proof.
  split; [|split; [|split; [|split; [|split; [|split]]]]].
  - intros N. apply parsePageRange_blank. reflexivity.
  - intros N. apply parsePageRange_all_invalid; [reflexivity|].
    intros part [<-|[]]. reflexivity.
  - reflexivity.
  - reflexivity.
  - intros s N. split; [apply parsePageRange_sorted | apply parsePageRange_bounds].
  - intros part N H. apply partPages_invalid. unfold isInvalid.
    rewrite H. reflexivity.
  - apply parsePageRange_In.
Qed.

Lemma C3_witness :
  isNonNumeric "x-3" || isReversed "x-3" = true /\
  isBlank "4-2, abc ,3" = false /\
  partPages "x-3" 7 = [] /\
  (In 3 (parsePageRange "4-2, abc ,3" 7) <->
   exists part, In part (tokens "4-2, abc ,3") /\ In 3 (partPages part 7)).
Proof.
  split; [reflexivity|]. split; [reflexivity|]. split.
  - exact (proj1 (proj2 (proj2 (proj2 (proj2 (proj2 C3_parsePageRange)))))
             "x-3" 7 eq_refl).
  - exact (proj2 (proj2 (proj2 (proj2 (proj2 (proj2 C3_parsePageRange)))))
             "4-2, abc ,3" 7 3 eq_refl).
Defined.

(** C4, as the code has it: a range string that is not blank and all of
    whose tokens are invalid (non-numeric, reversed or entirely out of
    bounds) selects no page at all; the full page set [1..N] is the answer
    to the blank string. *)
Theorem C4_all_invalid_selects_nothing :
  forall s N,
    (isBlank s = false ->
     forallb (fun part => isInvalid part N) (tokens s) = true ->
     parsePageRange s N = []) /\
    (isBlank s = true -> parsePageRange s N = upTo N).
Proof.
  intros s N. split.
  - intros Hb Hall. apply parsePageRange_all_invalid; [exact Hb|].
    rewrite forallb_forall in Hall. exact Hall.
  - apply parsePageRange_blank.
Qed.

Lemma C4_witness :
  isBlank "abc, 2-1, 0, 99" = false /\
  forallb (fun part => isInvalid part 5) (tokens "abc, 2-1, 0, 99") = true /\
  parsePageRange "abc, 2-1, 0, 99" 5 = [] /\
  isBlank "  " = true /\
  parsePageRange "  " 5 = [1; 2; 3; 4; 5].
Proof.
  split; [reflexivity|]. split; [reflexivity|]. split.
  - exact (proj1 (C4_all_invalid_selects_nothing "abc, 2-1, 0, 99" 5)
             eq_refl eq_refl).
  - split; [reflexivity|].
    exact (proj2 (C4_all_invalid_selects_nothing "  " 5) eq_refl).
Defined.

(** C4 as stated fails: on 5 pages the string ["abc, 2-1, 0, 99"] has only
    invalid tokens, and the parser returns the empty selection where the
    claim promises [1..5], the answer to the empty string. *)
Lemma C4_counterexample :
  forallb (fun part => isInvalid part 5) (tokens "abc, 2-1, 0, 99") = true /\
  parsePageRange "abc, 2-1, 0, 99" 5 = [] /\
  parsePageRange "" 5 = [1; 2; 3; 4; 5] /\
  parsePageRange "abc, 2-1, 0, 99" 5 <> parsePageRange "" 5.
Proof.
  split; [reflexivity|]. split; [reflexivity|]. split; [reflexivity|].
  discriminate.
Qed.

(** ** Page selection of the watermark processor *)

Section PageIndicesFacts.

Lemma filter_map_commute {A B} (f : A -> B) (P : B -> bool) (l : list A) :
  filter P (map f l) = map f (filter (fun a => P (f a)) l).
Proof.
  induction l as [|a l IH]; simpl; [reflexivity|].
  destruct (P (f a)); simpl; rewrite IH; reflexivity.
Qed.

Lemma upTo_succ_arrayFrom (n : Z) : upTo n = map Z.succ (arrayFrom n 0).
Proof.
  rewrite <- upTo_arrayFrom. unfold arrayFrom. rewrite map_map.
  apply map_ext. intros i. lia.
Qed.

Lemma rem2_even (i : Z) : (Z.rem i 2 =? 0) = Z.odd (Z.succ i).
Proof.
  rewrite Z.odd_succ.
  destruct (Z.even i) eqn:E.
  - apply Z.even_spec in E. destruct E as [k ->].
    apply Z.eqb_eq. rewrite Z.mul_comm. apply Z.rem_mul. lia.
  - apply Z.eqb_neq. intros C.
    assert (Z.even i = true) as E'.
    { apply Z.even_spec. exists (Z.quot i 2).
      pose proof (Z.quot_rem' i 2) as Hq. lia. }
    congruence.
Qed.

Lemma rem2_odd (i : Z) : 0 <= i -> (Z.rem i 2 =? 1) = Z.even (Z.succ i).
Proof.
  intros Hi. rewrite Z.even_succ.
  pose proof (Z.quot_rem' i 2) as Hq.
  pose proof (Z.rem_bound_pos i 2 Hi ltac:(lia)) as Hb.
  destruct (Z.odd i) eqn:E.
  - apply Z.odd_spec in E. destruct E as [k Hk].
    apply Z.eqb_eq.
    assert (Z.rem i 2 <> 0); [|lia].
    intros C. rewrite C in Hq. lia.
  - apply Z.eqb_neq. intros C.
    assert (Z.odd i = true) as E'.
    { apply Z.odd_spec. exists (Z.quot i 2). lia. }
    congruence.
Qed.

End PageIndicesFacts.

(** C10. [getPageIndices] reads its input as 1-based page numbers and
    returns 0-based indices: an array entry [p] is kept, as index [p - 1]
    and in the order of the input, exactly when [1 <= p <= totalPages];
    ['odd'] selects the odd page numbers, ['even'] the even ones, and
    ['all'] or any other keyword selects every page. The page numbers of
    the indices are the indices plus one. *)
Theorem C10_getPageIndices :
  (forall ps N,
     getPageIndices (PagesArray ps) N =
     map (fun p => p - 1) (filter (fun p => (1 <=? p) && (p <=? N)) ps)) /\
  (forall N,
     map Z.succ (getPageIndices (PagesKeyword "odd") N) = filter Z.odd (upTo N)) /\
  (forall N,
     map Z.succ (getPageIndices (PagesKeyword "even") N) = filter Z.even (upTo N)) /\
  (forall k N,
     String.eqb k "odd" = false -> String.eqb k "even" = false ->
     map Z.succ (getPageIndices (PagesKeyword k) N) = upTo N).
Proof.
  split; [|split; [|split]].
  - intros ps N. unfold getPageIndices. rewrite filter_map_commute.
    f_equal. apply filter_ext. intros p.
    destruct (Z.leb_spec 0 (p - 1)), (Z.leb_spec 1 p),
             (Z.ltb_spec (p - 1) N), (Z.leb_spec p N); simpl; lia || reflexivity.
  - intros N. simpl. rewrite upTo_succ_arrayFrom, filter_map_commute.
    f_equal. apply filter_ext. intros i. apply rem2_even.
  - intros N. simpl. rewrite upTo_succ_arrayFrom, filter_map_commute.
    f_equal. apply filter_ext_in. intros i Hi.
    apply arrayFrom_In in Hi. apply rem2_odd. lia.
  - intros k N Ho He. unfold getPageIndices. rewrite Ho, He.
    symmetry. apply upTo_succ_arrayFrom.
Qed.

Lemma C10_witness :
  String.eqb "all" "odd" = false /\ String.eqb "all" "even" = false /\
  map Z.succ (getPageIndices (PagesKeyword "all") 4) = [1; 2; 3; 4].
Proof.
  split; [reflexivity|]. split; [reflexivity|].
  exact (proj2 (proj2 (proj2 C10_getPageIndices)) "all" 4 eq_refl eq_refl).
Defined.

(** ** Grid grouping *)

Section GridFacts.

Lemma nth_seq_firstn {A} (d : A) (l : list A) (m : nat) :
  (m <= List.length l)%nat ->
  map (fun j => nth j l d) (seq 0 m) = firstn m l.
Proof.
  revert m. induction l as [|x l IH]; intros m Hm; simpl in Hm.
  - replace m with 0%nat by lia. reflexivity.
  - destruct m as [|m]; [reflexivity|].
    simpl. f_equal. rewrite <- seq_shift, map_map. apply IH. lia.
Qed.

Lemma groupAt_firstn (pre post : list Z) (pagesPerImage : Z) :
  0 <= pagesPerImage ->
  groupAt (pre ++ post) pagesPerImage (len pre) =
  firstn (Z.to_nat pagesPerImage) post.
Proof.
  intros Hp. unfold groupAt, len, at_. rewrite length_app.
  replace (Z.to_nat (Z.min pagesPerImage
             (Z.of_nat (List.length pre + List.length post)
              - Z.of_nat (List.length pre))))
    with (Nat.min (Z.to_nat pagesPerImage) (List.length post)) by lia.
  set (m := Nat.min (Z.to_nat pagesPerImage) (List.length post)).
  assert (firstn (Z.to_nat pagesPerImage) post = firstn m post) as ->.
  { destruct (Nat.le_gt_cases (Z.to_nat pagesPerImage) (List.length post)).
    - replace m with (Z.to_nat pagesPerImage) by lia. reflexivity.
    - replace m with (List.length post) by lia.
      rewrite firstn_all, firstn_all2 by lia. reflexivity. }
  rewrite <- (nth_seq_firstn 0) by lia.
  apply map_ext. intros j.
  replace (Z.to_nat (Z.of_nat (List.length pre) + Z.of_nat j))
    with (List.length pre + j)%nat by lia.
  apply app_nth2_plus.
Qed.

Lemma groupLoop_done (fuel : nat) (pages : list Z) (pagesPerImage i : Z)
    (acc : list (list Z)) :
  len pages <= i -> groupLoop fuel pages pagesPerImage i acc = Some acc.
Proof.
  intros H. destruct fuel; simpl;
    replace (i <? len pages) with false by (symmetry; apply Z.ltb_ge; exact H);
    reflexivity.
Qed.

Lemma batchesAux_fuel (size : nat) (fuel : nat) (l : list Z) :
  (1 <= size)%nat -> (List.length l <= fuel)%nat ->
  batchesAux fuel size l = batches size l.
Proof.
  intros Hs. unfold batches.
  remember (List.length l) as n eqn:Hn.
  revert fuel l Hn. induction n as [n IH] using lt_wf_ind.
  intros fuel l Hn Hf.
  destruct l as [|x l]; [destruct fuel; subst; reflexivity|].
  simpl in Hn. destruct fuel as [|fuel]; [lia|]. destruct n as [|n]; [lia|].
  cbn [batchesAux]. f_equal.
  assert (List.length (skipn size (x :: l)) <= n)%nat as Hk
    by (rewrite length_skipn; cbn [List.length]; lia).
  rewrite (IH (List.length (skipn size (x :: l))) ltac:(lia) fuel _ eq_refl ltac:(lia)).
  rewrite (IH (List.length (skipn size (x :: l))) ltac:(lia) n _ eq_refl Hk).
  reflexivity.
Qed.

Lemma batches_cons (size : nat) (x : Z) (l : list Z) :
  (1 <= size)%nat ->
  batches size (x :: l) =
  firstn size (x :: l) :: batches size (skipn size (x :: l)).
Proof.
  intros Hs. unfold batches at 1. cbn [List.length batchesAux]. f_equal.
  apply batchesAux_fuel; [exact Hs|]. rewrite length_skipn. cbn [List.length]. lia.
Qed.

Lemma groupLoop_batches (pagesPerImage : Z) (fuel : nat) :
  1 <= pagesPerImage ->
  forall (post pre : list Z) (acc : list (list Z)),
    (List.length post <= fuel)%nat ->
    groupLoop fuel (pre ++ post) pagesPerImage (len pre) acc =
    Some (acc ++ batches (Z.to_nat pagesPerImage) post).
Proof.
  intros Hp. induction fuel as [|fuel IH]; intros post pre acc Hf.
  - destruct post; [|simpl in Hf; lia].
    rewrite groupLoop_done; [|rewrite app_nil_r; lia].
    rewrite app_nil_r. reflexivity.
  - destruct post as [|x post].
    + rewrite groupLoop_done; [|rewrite app_nil_r; lia].
      rewrite app_nil_r. reflexivity.
    + cbn [groupLoop].
      replace (len pre <? len (pre ++ x :: post)) with true
        by (symmetry; apply Z.ltb_lt; unfold len; rewrite length_app; simpl; lia).
      rewrite groupAt_firstn by lia.
      rewrite batches_cons by lia.
      set (size := Z.to_nat pagesPerImage).
      destruct (Nat.le_gt_cases size (List.length (x :: post))) as [Hle|Hgt].
      * rewrite <- (firstn_skipn size (x :: post)) at 1.
        rewrite app_assoc.
        replace (len pre + pagesPerImage)
          with (len (pre ++ firstn size (x :: post)))
          by (unfold len; rewrite length_app, length_firstn; lia).
        rewrite IH.
        -- rewrite <- app_assoc. reflexivity.
        -- rewrite length_skipn. cbn [List.length] in *. lia.
      * rewrite groupLoop_done.
        -- rewrite skipn_all2 by lia. reflexivity.
        -- unfold len. rewrite length_app. lia.
Qed.

Lemma pageGroups_spec (fuel : nat) (skipFirst : bool) (pages : list Z)
    (pagesPerImage : Z) :
  1 <= pagesPerImage -> (List.length pages <= fuel)%nat ->
  pageGroups fuel skipFirst pages pagesPerImage =
  Some (specGroups skipFirst (Z.to_nat pagesPerImage) pages).
Proof.
  intros Hp Hf. unfold pageGroups, specGroups.
  destruct skipFirst, pages as [|x pages]; simpl andb; cbv iota.
  - apply (groupLoop_batches pagesPerImage fuel Hp [] [] []). exact Hf.
  - replace (0 <? len (x :: pages)) with true
      by (symmetry; apply Z.ltb_lt; unfold len; simpl; lia).
    apply (groupLoop_batches pagesPerImage fuel Hp pages [x] [[x]]).
    simpl in Hf. lia.
  - apply (groupLoop_batches pagesPerImage fuel Hp [] [] []). exact Hf.
  - apply (groupLoop_batches pagesPerImage fuel Hp (x :: pages) [] []). exact Hf.
Qed.

Lemma batches_concat (size : nat) (l : list Z) :
  (1 <= size)%nat -> List.concat (batches size l) = l.
Proof.
  intros Hs. remember (List.length l) as n eqn:Hn.
  revert l Hn. induction n as [n IH] using lt_wf_ind. intros l Hn.
  destruct l as [|x l]; [reflexivity|].
  rewrite batches_cons by exact Hs. cbn [List.concat].
  rewrite (IH (List.length (skipn size (x :: l)))); [apply firstn_skipn| |reflexivity].
  rewrite length_skipn. subst n. cbn [List.length]. lia.
Qed.

Lemma batches_sizes (size : nat) (l : list Z) :
  (1 <= size)%nat ->
  Forall (fun g => (1 <= List.length g <= size)%nat) (batches size l).
Proof.
  intros Hs. remember (List.length l) as n eqn:Hn.
  revert l Hn. induction n as [n IH] using lt_wf_ind. intros l Hn.
  destruct l as [|x l]; [constructor|].
  rewrite batches_cons by exact Hs. constructor.
  - rewrite length_firstn. simpl List.length. lia.
  - apply (IH (List.length (skipn size (x :: l)))); [|reflexivity].
    rewrite length_skipn. subst n. cbn [List.length]. lia.
Qed.

(** With a page count per image that is not positive the grouping loop
    never ends once it is entered. *)
Lemma groupLoop_diverges (fuel : nat) (pages : list Z) (pagesPerImage i : Z)
    (acc : list (list Z)) :
  pagesPerImage <= 0 -> i < len pages ->
  groupLoop fuel pages pagesPerImage i acc = None.
Proof.
  intros Hp. revert i acc. induction fuel as [|fuel IH]; intros i acc Hi;
    cbn [groupLoop];
    replace (i <? len pages) with true by (symmetry; apply Z.ltb_lt; exact Hi).
  - reflexivity.
  - apply IH. lia.
Qed.

End GridFacts.

(** C5. With [columns = 2], [rows = 2] and the 5 pages [1..5] the groups
    are [[1],[2,3,4,5]] when [skipFirstPage] is set and [[1,2,3,4],[5]] when
    it is not. In general, for a positive [columns * rows], the grouping
    loop ends (any fuel from the number of pages on is enough) and gives
    the ordered batches of [columns * rows] pages, the first page being a
    batch of its own when [skipFirstPage] is set; the groups put end to end
    are the pages in their order, every group holds between 1 and
    [columns * rows] pages, so the final partial batch is kept. *)
Theorem C5_grid_grouping :
  pageGroups 5 true [1; 2; 3; 4; 5] (2 * 2) = Some [[1]; [2; 3; 4; 5]] /\
  pageGroups 5 false [1; 2; 3; 4; 5] (2 * 2) = Some [[1; 2; 3; 4]; [5]] /\
  (forall skipFirst pages columns rows fuel,
     1 <= columns * rows -> (List.length pages <= fuel)%nat ->
     exists groups,
       pageGroups fuel skipFirst pages (columns * rows) = Some groups /\
       groups = specGroups skipFirst (Z.to_nat (columns * rows)) pages /\
       List.concat groups = pages /\
       Forall (fun g => 1 <= len g <= columns * rows) groups /\
       (skipFirst = true -> forall first rest,
          pages = first :: rest ->
          groups = [first] :: batches (Z.to_nat (columns * rows)) rest)).
Proof.
  split; [reflexivity|]. split; [reflexivity|].
  intros skipFirst pages columns rows fuel Hp Hf.
  exists (specGroups skipFirst (Z.to_nat (columns * rows)) pages).
  split; [apply pageGroups_spec; assumption|]. split; [reflexivity|].
  assert (1 <= Z.to_nat (columns * rows))%nat as Hs by lia.
  assert (forall l, Forall (fun g => 1 <= len g <= columns * rows)
                      (batches (Z.to_nat (columns * rows)) l)) as Hsz.
  { intros l. eapply Forall_impl; [|apply (batches_sizes _ l Hs)].
    unfold len. intros g Hg. simpl in Hg. lia. }
  split; [|split].
  - unfold specGroups. destruct skipFirst, pages as [|x pages];
      try apply batches_concat; try exact Hs.
    cbn [List.concat app]. f_equal. apply batches_concat, Hs.
  - unfold specGroups. destruct skipFirst, pages as [|x pages]; try apply Hsz.
    constructor; [|apply Hsz]. unfold len. simpl. lia.
  - intros -> first rest ->. reflexivity.
Qed.

Lemma C5_witness :
  1 <= 3 * 1 /\ (List.length [4; 5; 6; 7; 8; 9; 10] <= 7)%nat /\
  exists groups,
    pageGroups 7 true [4; 5; 6; 7; 8; 9; 10] (3 * 1) = Some groups /\
    groups = [[4]; [5; 6; 7]; [8; 9; 10]].
Proof.
  split; [lia|]. split; [simpl; lia|].
  destruct (proj2 (proj2 C5_grid_grouping) true [4; 5; 6; 7; 8; 9; 10] 3 1 7%nat
              ltac:(lia) ltac:(simpl; lia)) as [groups [Hg [Hs _]]].
  exists groups. split; [exact Hg|]. rewrite Hs. reflexivity.
Defined.

(** ** Reasoning about processor bodies *)

Section Triples.

Context {St : Type}.
Implicit Types (P : St -> Prop) (R : ProcessOutput -> St -> Prop)
               (E : Thrown -> St -> Prop).

Lemma triple_ret {A} P (a : A) (Q : A -> St -> Prop) R E :
  (forall s, P s -> Q a s) -> triple P (ret a) Q R E.
Proof. intros H s Hs. apply H, Hs. Qed.

Lemma triple_return {A} P (o : ProcessOutput) (Q : A -> St -> Prop) R E :
  (forall s, P s -> R o s) -> triple P (return_ o) Q R E.
Proof. intros H s Hs. apply H, Hs. Qed.

Lemma triple_throw {A} P (e : Thrown) (Q : A -> St -> Prop) R E :
  (forall s, P s -> E e s) -> triple P (throw e) Q R E.
Proof. intros H s Hs. apply H, Hs. Qed.

Lemma triple_hang {A} P (Q : A -> St -> Prop) R E :
  triple P (fun s => (Hang, s)) Q R E.
Proof. intros s _. exact I. Qed.

Lemma triple_bind {A B} P (m : M St A) (k : A -> M St B)
    (Qm : A -> St -> Prop) (Q : B -> St -> Prop) R E :
  triple P m Qm R E ->
  (forall a, triple (Qm a) (k a) Q R E) ->
  triple P (bind m k) Q R E.
Proof.
  intros Hm Hk s Hs. specialize (Hm s Hs). unfold bind.
  destruct (m s) as [[a| o | e |] s']; try exact Hm.
  apply Hk, Hm.
Qed.

Lemma triple_tryCatch {A} P (body : M St A) (handler : Thrown -> M St A)
    (Q : A -> St -> Prop) R E (Eb : Thrown -> St -> Prop) :
  triple P body Q R Eb ->
  (forall e, triple (Eb e) (handler e) Q R E) ->
  triple P (tryCatch body handler) Q R E.
Proof.
  intros Hb Hh s Hs. specialize (Hb s Hs). unfold tryCatch.
  destruct (body s) as [[a| o | e |] s']; try exact Hb.
  apply Hh, Hb.
Qed.

Lemma triple_await {A} P (o : Outcome A) (Q : A -> St -> Prop) R E :
  (forall a s, P s -> Q a s) -> (forall e s, P s -> E e s) ->
  triple P (await o) Q R E.
Proof.
  intros HQ HE. destruct o as [a|e]; simpl.
  - apply triple_ret. apply HQ.
  - apply triple_throw. apply HE.
Qed.

Lemma triple_modify P (f : St -> St) (Q : unit -> St -> Prop) R E :
  (forall s, P s -> Q tt (f s)) -> triple P (modify f) Q R E.
Proof. intros H s Hs. apply H, Hs. Qed.

Lemma triple_gets {A} P (f : St -> A) (Q : A -> St -> Prop) R E :
  (forall s, P s -> Q (f s) s) -> triple P (gets f) Q R E.
Proof. intros H s Hs. apply H, Hs. Qed.

Lemma triple_pre {A} P P' (m : M St A) (Q : A -> St -> Prop) R E :
  (forall s, P s -> P' s) -> triple P' m Q R E -> triple P m Q R E.
Proof. intros H Hm s Hs. apply Hm, H, Hs. Qed.

Lemma triple_post {A} P (m : M St A) (Q Q' : A -> St -> Prop) R E :
  (forall a s, Q' a s -> Q a s) -> triple P m Q' R E -> triple P m Q R E.
Proof.
  intros H Hm s Hs. specialize (Hm s Hs).
  destruct (m s) as [[a| o | e |] s']; try exact Hm. apply H, Hm.
Qed.

Lemma triple_settle P (m : M St ProcessOutput) R E :
  triple P m R R E ->
  forall s, P s ->
    match settle m s with
    | (Resolved o, s') => R o s'
    | (Rejected e, s') => E e s'
    | (Pending, _) => True
    end.
Proof.
  intros Hm s Hs. specialize (Hm s Hs). unfold settle.
  destruct (m s) as [[a| o | e |] s']; exact Hm.
Qed.

Context `{Processor St}.

Lemma triple_updateProgress P (p : Q) (Q' : unit -> St -> Prop) R E :
  (forall s, P s ->
     Q' tt (setBase (mkBase (clamp p) (reports (getBase s) ++ [clamp p])
                            (polls (getBase s))) s)) ->
  triple P (updateProgress p) Q' R E.
Proof. intros Hq. apply triple_modify. exact Hq. Qed.

Lemma triple_checkCancelled P (cancelledAt : nat -> bool)
    (Q' : bool -> St -> Prop) R E :
  (forall s, P s ->
     Q' (cancelledAt (polls (getBase s)))
        (setBase (mkBase (progress (getBase s)) (reports (getBase s))
                         (S (polls (getBase s)))) s)) ->
  triple P (checkCancelled cancelledAt) Q' R E.
Proof. intros Hq s Hs. apply Hq, Hs. Qed.

Lemma triple_reset P (Q' : unit -> St -> Prop) R E :
  (forall s, P s -> Q' tt (setBase (mkBase 0 [] 0) s)) ->
  triple P reset Q' R E.
Proof. intros Hq. apply triple_modify. exact Hq. Qed.

End Triples.

(** *** Envelopes a body can return, whatever the state *)

Section OnlyReturns.

Context {St : Type} `{Processor St} (G : ProcessOutput -> Prop).

Lemma only_ret {A} (a : A) : onlyReturns (St := St) G (ret a).
Proof. apply triple_ret. trivial. Qed.

Lemma only_return {A} (o : ProcessOutput) :
  G o -> onlyReturns (St := St) (A := A) G (return_ o).
Proof. intros Ho. apply triple_return. trivial. Qed.

Lemma only_throw {A} (e : Thrown) : onlyReturns (St := St) (A := A) G (throw e).
Proof. apply triple_throw. trivial. Qed.

Lemma only_hang {A} : onlyReturns (St := St) (A := A) G (fun s => (Hang, s)).
Proof. apply triple_hang. Qed.

Lemma only_await {A} (o : Outcome A) : onlyReturns (St := St) G (await o).
Proof. apply triple_await; trivial. Qed.

Lemma only_bind {A B} (m : M St A) (k : A -> M St B) :
  onlyReturns G m -> (forall a, onlyReturns G (k a)) -> onlyReturns G (bind m k).
Proof. intros Hm Hk. eapply triple_bind; [exact Hm | exact Hk]. Qed.

Lemma only_tryCatch {A} (body : M St A) (handler : Thrown -> M St A) :
  onlyReturns G body -> (forall e, onlyReturns G (handler e)) ->
  onlyReturns G (tryCatch body handler).
Proof. intros Hb Hh. eapply triple_tryCatch; [exact Hb | exact Hh]. Qed.

Lemma only_modify (f : St -> St) : onlyReturns G (modify f).
Proof. apply triple_modify. trivial. Qed.

Lemma only_gets {A} (f : St -> A) : onlyReturns G (gets f).
Proof. apply triple_gets. trivial. Qed.

Lemma only_updateProgress (p : Q) : onlyReturns G (updateProgress p).
Proof. apply only_modify. Qed.

Lemma only_reset : onlyReturns G reset.
Proof. apply only_modify. Qed.

Lemma only_getProgress : onlyReturns G getProgress.
Proof. apply only_gets. Qed.

Lemma only_checkCancelled (c : nat -> bool) : onlyReturns G (checkCancelled c).
Proof. apply triple_checkCancelled. trivial. Qed.

Lemma resolves_return (o : ProcessOutput) : G o -> resolvesIn (St := St) G (return_ o).
Proof. intros Ho. apply triple_return. trivial. Qed.

Lemma resolves_throw (e : Thrown) : resolvesIn (St := St) G (throw e).
Proof. apply triple_throw. trivial. Qed.

Lemma resolves_hang : resolvesIn (St := St) G (fun s => (Hang, s)).
Proof. apply triple_hang. Qed.

Lemma resolves_bind {A} (m : M St A) (k : A -> M St ProcessOutput) :
  onlyReturns G m -> (forall a, resolvesIn (St := St) G (k a)) -> resolvesIn (St := St) G (bind m k).
Proof. intros Hm Hk. eapply triple_bind; [exact Hm | exact Hk]. Qed.

Lemma resolves_tryCatch (body : M St ProcessOutput)
    (handler : Thrown -> M St ProcessOutput) :
  resolvesIn G body -> (forall e, resolvesIn (St := St) G (handler e)) ->
  resolvesIn (St := St) G (tryCatch body handler).
Proof. intros Hb Hh. eapply triple_tryCatch; [exact Hb | exact Hh]. Qed.

Lemma resolves_settle (m : M St ProcessOutput) (s : St) (o : ProcessOutput) :
  resolvesIn G m -> fst (settle m s) = Resolved o -> G o.
Proof.
  intros Hm. specialize (Hm s I). unfold settle.
  destruct (m s) as [[a| o' | e |] s'] eqn:Em; simpl; intros Ho;
    try discriminate; injection Ho as <-; exact Hm.
Qed.

End OnlyReturns.

(** One step of a proof that a body only returns envelopes in [G]. *)
Ltac only_step :=
  first
    [ apply only_bind; [|intros ?]
    | apply only_tryCatch; [|intros ?]
    | apply only_ret
    | apply only_throw
    | apply only_hang
    | apply only_await
    | apply only_updateProgress
    | apply only_reset
    | apply only_getProgress
    | apply only_checkCancelled
    | apply only_modify
    | apply only_gets
    | apply only_return
    | apply resolves_bind; [|intros ?]
    | apply resolves_tryCatch; [|intros ?]
    | apply resolves_throw
    | apply resolves_hang
    | apply resolves_return ].

Ltac only_case :=
  match goal with
  | |- onlyReturns _ (if ?c then _ else _) => destruct c
  | |- resolvesIn _ (if ?c then _ else _) => destruct c
  | |- onlyReturns _ (match ?x with _ => _ end) => destruct x
  | |- resolvesIn _ (match ?x with _ => _ end) => destruct x
  | |- onlyReturns _ (let _ := _ in _) => cbv zeta
  | |- resolvesIn _ (let _ := _ in _) => cbv zeta
  end.

(** The steps repeated, with [leaf] for the loops and for the envelopes. *)
Ltac only_with leaf := repeat first [ leaf | only_step | only_case ].

Ltac only_auto := only_with fail.

(** ** The envelopes of the rasterize and watermark processors *)

Section ProcessorEnvelopes.

Variable G : ProcessOutput -> Prop.
Hypothesis G_error :
  forall c msg det, c <> FILE_TYPE_INVALID -> G (createErrorOutput c msg det).
Hypothesis G_success : forall r f m, G (createSuccessOutput r f m).

Lemma G_cancelled : G cancelledOutput.
Proof. apply G_error. discriminate. Qed.

Ltac envelope :=
  first [ apply G_success | apply G_cancelled | apply G_error; discriminate ].

Lemma rasterize_pdfLoop_only env o doc n pages :
  forall i out, onlyReturns G (Rasterize.pdfLoop env o doc n pages i out).
Proof.
  induction pages as [|p pages IH]; intros i out; simpl;
    unfold Rasterize.useContext; only_with ltac:(first [envelope | apply IH]).
Qed.

Lemma rasterize_imageLoop_only env o doc baseName n pages :
  forall i images,
    onlyReturns G (Rasterize.imageLoop env o doc baseName n pages i images).
Proof.
  induction pages as [|p pages IH]; intros i images; simpl;
    unfold Rasterize.useContext, Rasterize.awaitBlob;
    only_with ltac:(first [envelope | apply IH]).
Qed.

Lemma rasterize_resolves env input :
  resolvesIn G (Rasterize.process env input).
Proof.
  unfold Rasterize.process, Rasterize.renderFailed.
  only_with ltac:(first [ envelope
                        | apply rasterize_pdfLoop_only
                        | apply rasterize_imageLoop_only ]).
Qed.

Lemma watermark_markLoop_only env doc o n indices :
  forall i marks, onlyReturns G (Watermark.markLoop env doc o n indices i marks).
Proof.
  induction indices as [|p indices IH]; intros i marks; simpl;
    only_with ltac:(first [envelope | apply IH]).
Qed.

Lemma watermark_resolves env input :
  resolvesIn G (Watermark.process env input).
Proof.
  unfold Watermark.process.
  only_with ltac:(first [envelope | apply watermark_markLoop_only]).
Qed.

End ProcessorEnvelopes.

(** ** The file type gate *)

Lemma looksLikePdf_false (file : File) :
  looksLikePdf file = false ->
  negb (includes "pdf" (type file)) &&
  negb (endsWith ".pdf" (toLowerCase (name file))) = true.
Proof.
  unfold looksLikePdf. intros H. apply orb_false_iff in H.
  destruct H as [-> ->]. reflexivity.
Qed.

(** C7, as the code has it. The PDF to DOCX and the PDF to image
    processors answer a single file that has neither a PDF MIME type nor a
    [.pdf] name with [FILE_TYPE_INVALID], before anything else is done: no
    progress is reported, the cancellation flag is not polled, no worker is
    created. The rasterize and the watermark processors have no file type
    check: no call of them resolves with [FILE_TYPE_INVALID]. *)
Theorem C7_file_type_gate :
  (forall env file s,
     looksLikePdf file = false ->
     exists o,
       PDFToDocx.run env (mkInput [file] tt) s =
         (Resolved o,
          PDFToDocx.mkState (mkBase 0 [] 0) (PDFToDocx.worker s)
            (PDFToDocx.workerReady s) (PDFToDocx.spawned s)
            (PDFToDocx.terminated s)) /\
       errorCode o = Some FILE_TYPE_INVALID) /\
  (forall env file opts,
     looksLikePdf file = false ->
     exists o,
       PDFToImage.run env (mkInput [file] opts) = (Resolved o, mkBase 0 [] 0) /\
       errorCode o = Some FILE_TYPE_INVALID) /\
  (forall env input o,
     fst (Rasterize.run env input) = Resolved o ->
     errorCode o <> Some FILE_TYPE_INVALID) /\
  (forall env input o,
     fst (Watermark.run env input) = Resolved o ->
     errorCode o <> Some FILE_TYPE_INVALID).
Proof.
  split; [|split; [|split]].
  - intros env file s Hf. eexists.
    unfold PDFToDocx.run, settle, PDFToDocx.process, bind, reset, modify.
    cbn [files]. rewrite (looksLikePdf_false file Hf). cbn. split; reflexivity.
  - intros env file opts Hf. eexists.
    unfold PDFToImage.run, settle, PDFToImage.process, bind, reset, modify.
    cbn [files]. rewrite (looksLikePdf_false file Hf). cbn. split; reflexivity.
  - intros env input o. unfold Rasterize.run.
    apply (resolves_settle (fun o => errorCode o <> Some FILE_TYPE_INVALID)).
    apply rasterize_resolves.
    + intros c msg det Hc. unfold errorCode. simpl. congruence.
    + intros r f m. discriminate.
  - intros env input o. unfold Watermark.run.
    apply (resolves_settle (fun o => errorCode o <> Some FILE_TYPE_INVALID)).
    apply watermark_resolves.
    + intros c msg det Hc. unfold errorCode. simpl. congruence.
    + intros r f m. discriminate.
Qed.

Lemma C7_witness :
  looksLikePdf Examples.disguisedFile = false /\
  (exists o,
     PDFToDocx.run (Examples.docxEnvLater Examples.workerOk 2000)
                   (Examples.docxInput Examples.disguisedFile)
                   Examples.docxReady =
       (Resolved o, Examples.docxReady) /\
     errorCode o = Some FILE_TYPE_INVALID) /\
  (exists o,
     PDFToImage.run (Examples.imageEnv (Examples.docOf 3 (fun _ => false)))
                    (mkInput [Examples.disguisedFile]
                       (PDFToImage.mkPartial None None None None None None)) =
       (Resolved o, mkBase 0 [] 0) /\
     errorCode o = Some FILE_TYPE_INVALID) /\
  fst (Rasterize.run (Examples.rasterEnv (Examples.docOf 3 (fun _ => false)))
         (Examples.rasterInput Examples.disguisedFile Rasterize.png "")) =
    Resolved Examples.scanImages /\
  errorCode Examples.scanImages <> Some FILE_TYPE_INVALID /\
  fst (Watermark.run (Examples.wmEnv 3)
         (Examples.wmInput Examples.disguisedFile (PagesKeyword "all"))) =
    Resolved Examples.scanMarked /\
  errorCode Examples.scanMarked <> Some FILE_TYPE_INVALID.
Proof.
  split; [reflexivity|]. split; [|split; [|split; [|split; [|split]]]].
  - exact (proj1 C7_file_type_gate
             (Examples.docxEnvLater Examples.workerOk 2000)
             Examples.disguisedFile Examples.docxReady eq_refl).
  - exact (proj1 (proj2 C7_file_type_gate) _ Examples.disguisedFile _ eq_refl).
  - reflexivity.
  - exact (proj1 (proj2 (proj2 C7_file_type_gate))
             (Examples.rasterEnv (Examples.docOf 3 (fun _ => false)))
             (Examples.rasterInput Examples.disguisedFile Rasterize.png "")
             Examples.scanImages eq_refl).
  - reflexivity.
  - exact (proj2 (proj2 (proj2 C7_file_type_gate))
             (Examples.wmEnv 3)
             (Examples.wmInput Examples.disguisedFile (PagesKeyword "all"))
             Examples.scanMarked eq_refl).
Defined.

(** C7 as stated fails for the rasterize processor: a PDF handed over
    under the name [scan.bin] with an empty MIME type has neither mark of a
    PDF, and the call loads it, renders its 3 pages and resolves with a
    success envelope; the watermark processor does the same. *)
Lemma C7_counterexample :
  looksLikePdf Examples.disguisedFile = false /\
  option_map success
    (match fst (Rasterize.run (Examples.rasterEnv (Examples.docOf 3 (fun _ => false)))
                  (Examples.rasterInput Examples.disguisedFile Rasterize.png ""))
     with Resolved o => Some o | _ => None end) = Some true /\
  reports (snd (Rasterize.run (Examples.rasterEnv (Examples.docOf 3 (fun _ => false)))
                  (Examples.rasterInput Examples.disguisedFile Rasterize.png "")))
    <> [] /\
  option_map success
    (match fst (Watermark.run (Examples.wmEnv 3)
                  (Examples.wmInput Examples.disguisedFile (PagesKeyword "all")))
     with Resolved o => Some o | _ => None end) = Some true.
Proof.
  split; [reflexivity|]. split; [reflexivity|]. split; [discriminate|].
  reflexivity.
Qed.

(** ** An empty page selection *)

(** Unfolding of the monad and of the methods of the base class. *)
Ltac run_unfold :=
  unfold settle, bind, tryCatch, reset, updateProgress, checkCancelled,
         getProgress, modify, gets, await, ret, return_, throw.

(** C8, as the code has it. When the resolved page selection is empty, the
    PDF to image processor resolves with [INVALID_PAGE_RANGE], the
    rasterize processor resolves with [INVALID_OPTIONS], and the watermark
    processor goes on, marks no page and resolves with the saved
    document. (The library and the document load and nothing is
    cancelled.) *)
Theorem C8_empty_selection :
  (forall env file opts doc,
     looksLikePdf file = true ->
     PDFToImage.loadPdfjs env = Done tt ->
     PDFToImage.cancelledAt env 0%nat = false ->
     PDFToImage.arrayBuffer env = Done tt ->
     PDFToImage.getDocument env = Done doc ->
     PDFToImage.pagesToConvert (PDFToImage.mergeOptions opts) (numPages doc) = [] ->
     exists o s,
       PDFToImage.run env (mkInput [file] opts) = (Resolved o, s) /\
       errorCode o = Some INVALID_PAGE_RANGE) /\
  (forall env file opts doc,
     Rasterize.loadPdfjs env = Done tt ->
     Rasterize.arrayBuffer env = Done tt ->
     Rasterize.getDocument env = Done doc ->
     Rasterize.cancelledAt env 0%nat = false ->
     Rasterize.pagesToRender (Rasterize.mergeOptions opts) (numPages doc) = [] ->
     exists o s,
       Rasterize.run env (mkInput [file] opts) = (Resolved o, s) /\
       errorCode o = Some INVALID_OPTIONS) /\
  (forall env file opts doc,
     Watermark.loadPdfLib env = Done tt ->
     Watermark.arrayBuffer env = Done tt ->
     Watermark.load env = Done doc ->
     Watermark.embedFont doc = Done tt ->
     Watermark.save doc = Done tt ->
     getPageIndices (Watermark.pages (Watermark.resolveOptions opts))
                    (Watermark.getPageCount doc) = [] ->
     exists o s,
       Watermark.run env (mkInput [file] opts) = (Resolved o, s) /\
       success o = true /\
       result o = Some (OneBlob (WatermarkedPdfBlob []))).
Proof.
  split; [|split].
  - intros env file opts doc Hf Hl Hc Ha Hd Hp.
    unfold PDFToImage.run, PDFToImage.process, PDFToImage.fresh.
    unfold looksLikePdf in Hf. run_unfold. cbn [files options].
    destruct (includes "pdf" (type file)) eqn:E1;
      [|simpl in Hf; rewrite Hf]; cbn [negb andb];
      rewrite Hl; cbn; rewrite Hc, Ha, Hd, Hp; cbn;
      do 2 eexists; split; reflexivity.
  - intros env file opts doc Hl Ha Hd Hc Hp.
    unfold Rasterize.run, Rasterize.process, Rasterize.fresh.
    run_unfold. cbn [files options].
    rewrite Hl; cbn; rewrite Ha, Hd; cbn; rewrite Hc, Hp; cbn.
    do 2 eexists; split; reflexivity.
  - intros env file opts doc Hl Ha Hd He Hs Hp.
    unfold Watermark.run, Watermark.process, Watermark.fresh.
    run_unfold. cbn [files options].
    rewrite Hl; cbn -[getPageIndices Watermark.resolveOptions];
      rewrite Ha, Hd; cbn -[getPageIndices Watermark.resolveOptions];
      rewrite He, Hp; cbn; rewrite Hs; cbn.
    do 2 eexists; split; [reflexivity|]. split; reflexivity.
Qed.

Lemma C8_witness :
  PDFToImage.pagesToConvert
    (PDFToImage.mergeOptions
       (options (Examples.imageInput Examples.pdfFile [9] None))) 3 = [] /\
  (exists o s,
     PDFToImage.run (Examples.imageEnv (Examples.docOf 3 (fun _ => false)))
                    (Examples.imageInput Examples.pdfFile [9] None) =
       (Resolved o, s) /\
     errorCode o = Some INVALID_PAGE_RANGE) /\
  (exists o s,
     Rasterize.run (Examples.rasterEnv (Examples.docOf 3 (fun _ => false)))
                   (Examples.rasterInput Examples.pdfFile Rasterize.png "9") =
       (Resolved o, s) /\
     errorCode o = Some INVALID_OPTIONS) /\
  (exists o s,
     Watermark.run (Examples.wmEnv 3)
                   (Examples.wmInput Examples.pdfFile (PagesArray [9])) =
       (Resolved o, s) /\
     success o = true /\ result o = Some (OneBlob (WatermarkedPdfBlob []))).
Proof.
  split; [reflexivity|]. split; [|split].
  - exact (proj1 C8_empty_selection
             (Examples.imageEnv (Examples.docOf 3 (fun _ => false)))
             Examples.pdfFile
             (options (Examples.imageInput Examples.pdfFile [9] None))
             (Examples.docOf 3 (fun _ => false))
             eq_refl eq_refl eq_refl eq_refl eq_refl eq_refl).
  - exact (proj1 (proj2 C8_empty_selection)
             (Examples.rasterEnv (Examples.docOf 3 (fun _ => false)))
             Examples.pdfFile
             (options (Examples.rasterInput Examples.pdfFile Rasterize.png "9"))
             (Examples.docOf 3 (fun _ => false))
             eq_refl eq_refl eq_refl eq_refl eq_refl).
  - exact (proj2 (proj2 C8_empty_selection)
             (Examples.wmEnv 3) Examples.pdfFile
             (options (Examples.wmInput Examples.pdfFile (PagesArray [9])))
             (Examples.wmDoc 3)
             eq_refl eq_refl eq_refl eq_refl eq_refl eq_refl).
Defined.

(** C8 as stated fails for the rasterize processor: on a document of 3
    pages the range ["9"] resolves to no page and the envelope carries
    [INVALID_OPTIONS], not [INVALID_PAGE_RANGE]; the watermark processor,
    asked for page 9 of 3, resolves with a success envelope. *)
Lemma C8_counterexample :
  numPages (Examples.docOf 3 (fun _ => false)) = 3 /\
  Rasterize.pagesToRender
    (Rasterize.mergeOptions
       (options (Examples.rasterInput Examples.pdfFile Rasterize.png "9"))) 3 = [] /\
  fst (Rasterize.run (Examples.rasterEnv (Examples.docOf 3 (fun _ => false)))
         (Examples.rasterInput Examples.pdfFile Rasterize.png "9")) =
    Resolved (createErrorOutput INVALID_OPTIONS "No valid pages specified."
                (Some "Please enter a valid page range.")) /\
  INVALID_OPTIONS <> INVALID_PAGE_RANGE /\
  getPageIndices (PagesArray [9]) 3 = [] /\
  option_map success
    (match fst (Watermark.run (Examples.wmEnv 3)
                  (Examples.wmInput Examples.pdfFile (PagesArray [9])))
     with Resolved o => Some o | _ => None end) = Some true.
Proof.
  repeat split; try reflexivity. discriminate.
Qed.

(** ** Failure of single pages *)

Section RasterizeLoops.

Variables (env : Rasterize.Env) (o : Rasterize.RasterizePDFOptions)
          (doc : PdfDocument).
Hypothesis never_cancelled : forall k, Rasterize.cancelledAt env k = false.

(** The [try] of a page in the image loop. *)
Lemma rasterize_image_try (baseName : string) (p : Z)
    (images : list Rasterize.Image) (s : BaseState) :
  tryCatch
    (await (getPage doc p) ;;
     Rasterize.useContext (Rasterize.canvas env) ;;
     await (render doc p) ;;
     Rasterize.awaitBlob (Rasterize.canvas env) [p] ;;
     ret (images ++ [Rasterize.imageFor o baseName p]))
    (fun _ => ret images) s =
  (Next (if Rasterize.pageRenders env doc p
         then images ++ [Rasterize.imageFor o baseName p] else images), s).
Proof.
  unfold Rasterize.pageRenders, Rasterize.pageDraws,
         Rasterize.useContext, Rasterize.awaitBlob.
  run_unfold.
  destruct (getPage doc p) as [size|e]; [|reflexivity].
  destruct (context2d (Rasterize.canvas env)); [|reflexivity].
  destruct (render doc p) as [u|e]; [|reflexivity].
  destruct (toBlob (Rasterize.canvas env) [p]); reflexivity.
Qed.

(** The image loop keeps exactly the pages that render, in order. *)
Lemma rasterize_imageLoop_run (baseName : string) (n : Z) (pages : list Z) :
  forall i images s,
    exists s',
      Rasterize.imageLoop env o doc baseName n pages i images s =
      (Next (images ++ map (Rasterize.imageFor o baseName)
                           (filter (Rasterize.pageRenders env doc) pages)), s').
Proof.
  induction pages as [|p pages IH]; intros i images s.
  - eexists. simpl. rewrite app_nil_r. reflexivity.
  - cbn [Rasterize.imageLoop filter].
    unfold bind at 1. unfold checkCancelled at 1. cbn beta iota.
    rewrite never_cancelled.
    unfold bind at 1. unfold updateProgress at 1, modify at 1. cbn beta iota.
    unfold bind at 1. rewrite rasterize_image_try.
    match goal with
    | |- context [Rasterize.imageLoop _ _ _ _ _ _ ?j ?im ?st] =>
        destruct (IH j im st) as [s' ->]
    end.
    exists s'. destruct (Rasterize.pageRenders env doc p); [|reflexivity].
    cbn [map]. rewrite <- app_assoc. reflexivity.
Qed.

End RasterizeLoops.

Section ImageLoops.

Variables (env : PDFToImage.Env) (o : PDFToImage.PDFToImageOptions)
          (doc : PdfDocument).
Hypothesis never_cancelled : forall k, PDFToImage.cancelledAt env k = false.

Lemma goesOnWhen_true {A} (value : A) : goesOnWhen true value (Next value).
Proof. split; [reflexivity | discriminate]. Qed.

Lemma goesOnWhen_false {A} (value : A) (e : Thrown) :
  goesOnWhen false value (Throw e).
Proof. split; [discriminate | intros _; exists e; reflexivity]. Qed.

(** [renderPageToImage] gives the image of the page or throws. *)
Lemma renderPageToImage_run (p : Z) (s : BaseState) :
  exists r,
    PDFToImage.renderPageToImage env doc p o s = (r, s) /\
    goesOnWhen (PDFToImage.pageRenders env doc p)
               (PDFToImage.imageOfGroup o [p]) r.
Proof.
  unfold PDFToImage.pageRenders, PDFToImage.renderPageToImage,
         PDFToImage.needContext, PDFToImage.awaitBlob.
  run_unfold.
  destruct (getPage doc p) as [size|e];
    [|eexists; split; [reflexivity | apply goesOnWhen_false]].
  destruct (context2d (PDFToImage.canvas env));
    [|eexists; split; [reflexivity | apply goesOnWhen_false]].
  destruct (render doc p) as [u|e];
    [|eexists; split; [reflexivity | apply goesOnWhen_false]].
  destruct (toBlob (PDFToImage.canvas env) [p]);
    eexists; (split; [reflexivity|]);
    [apply goesOnWhen_true | apply goesOnWhen_false].
Qed.

Lemma forEachM_run (g : Z -> M BaseState unit) (ok : Z -> bool)
    (Hg : forall n s, exists r, g n s = (r, s) /\ goesOnWhen (ok n) tt r)
    (ps : list Z) (s : BaseState) :
  exists r,
    PDFToImage.forEachM g ps s = (r, s) /\ goesOnWhen (forallb ok ps) tt r.
Proof.
  induction ps as [|p ps IH]; cbn [forallb PDFToImage.forEachM].
  - eexists. split; [reflexivity | apply goesOnWhen_true].
  - unfold bind. destruct (Hg p s) as [r [-> [Ht Hf]]].
    destruct (ok p); cbn [andb].
    + rewrite (Ht eq_refl). exact IH.
    + destruct (Hf eq_refl) as [e ->].
      eexists. split; [reflexivity | apply goesOnWhen_false].
Qed.

Lemma await_goesOn {A} (f : Outcome A) (s : BaseState) :
  exists r, (await f ;; ret tt) s = (r, s) /\ goesOnWhen (PDFToImage.isDone f) tt r.
Proof.
  destruct f as [a|e]; eexists; (split; [reflexivity|]);
    [apply goesOnWhen_true | apply goesOnWhen_false].
Qed.

Lemma await_unit_goesOn (f : Outcome unit) (s : BaseState) :
  exists r, await f s = (r, s) /\ goesOnWhen (PDFToImage.isDone f) tt r.
Proof.
  destruct f as [[]|e]; eexists; (split; [reflexivity|]);
    [apply goesOnWhen_true | apply goesOnWhen_false].
Qed.

(** [renderGridPagesToImage] gives the image of the group or throws. *)
Lemma renderGridPagesToImage_run (group : list Z) (s : BaseState) :
  exists r,
    PDFToImage.renderGridPagesToImage env doc group o s = (r, s) /\
    goesOnWhen
      (forallb (fun n => PDFToImage.isDone (getPage doc n)) group &&
       context2d (PDFToImage.canvas env) &&
       forallb (fun n => PDFToImage.isDone (render doc n)) group &&
       toBlob (PDFToImage.canvas env) group)
      (PDFToImage.imageOfGroup o group) r.
Proof.
  unfold PDFToImage.renderGridPagesToImage.
  unfold bind at 1.
  destruct (forEachM_run (fun n => await (getPage doc n) ;; ret tt)
              (fun n => PDFToImage.isDone (getPage doc n))
              (fun n s => await_goesOn (getPage doc n) s) group s)
    as [r1 [-> [Ht1 Hf1]]].
  destruct (forallb (fun n => PDFToImage.isDone (getPage doc n)) group);
    [rewrite (Ht1 eq_refl)
    | destruct (Hf1 eq_refl) as [e ->];
      eexists; split; [reflexivity | apply goesOnWhen_false]].
  unfold bind at 1. unfold PDFToImage.needContext.
  destruct (context2d (PDFToImage.canvas env)); cbn [andb];
    [|eexists; split; [reflexivity | apply goesOnWhen_false]].
  unfold ret at 1. unfold bind at 1.
  destruct (forEachM_run (fun n => await (render doc n))
              (fun n => PDFToImage.isDone (render doc n))
              (fun n s => await_unit_goesOn (render doc n) s) group s)
    as [r2 [-> [Ht2 Hf2]]].
  destruct (forallb (fun n => PDFToImage.isDone (render doc n)) group);
    [rewrite (Ht2 eq_refl)
    | destruct (Hf2 eq_refl) as [e ->];
      eexists; split; [reflexivity | apply goesOnWhen_false]].
  cbn [andb]. unfold bind at 1. unfold PDFToImage.awaitBlob.
  destruct (toBlob (PDFToImage.canvas env) group);
    eexists; (split; [reflexivity|]);
    [apply goesOnWhen_true | apply goesOnWhen_false].
Qed.

(** The [try] around the image of a page or of a group. *)
Lemma image_try_run (body : M BaseState Blob) (ok : bool) (image : Blob)
    (msg : string) (s : BaseState) :
  (exists r, body s = (r, s) /\ goesOnWhen ok image r) ->
  exists r,
    tryCatch body (fun error => return_ (PDFToImage.failedOutput msg error)) s
      = (r, s) /\
    (ok = true -> r = Next image) /\
    (ok = false -> exists out, r = Return out /\
                               errorCode out = Some PROCESSING_FAILED).
Proof.
  intros [r [Hb [Ht Hf]]]. unfold tryCatch. rewrite Hb.
  destruct ok.
  - rewrite (Ht eq_refl). eexists. split; [reflexivity|].
    split; [reflexivity | discriminate].
  - destruct (Hf eq_refl) as [e ->]. eexists. split; [reflexivity|].
    split; [discriminate|]. intros _. eexists. split; reflexivity.
Qed.

(** The loop of the single page mode stops at the first page that fails. *)
Lemma pageLoop_run (n : Z) (ps : list Z) :
  forall i images s,
    exists r s',
      PDFToImage.pageLoop env doc o n ps i images s = (r, s') /\
      allOrFailed (forallb (PDFToImage.pageRenders env doc) ps)
        (images ++ map (fun p => PDFToImage.imageOfGroup o [p]) ps) r.
Proof.
  induction ps as [|p ps IH]; intros i images s; cbn [forallb].
  - do 2 eexists. split; [reflexivity|]. simpl. rewrite app_nil_r.
    split; [reflexivity | discriminate].
  - cbn [PDFToImage.pageLoop].
    unfold bind at 1. unfold checkCancelled at 1. cbn beta iota.
    rewrite never_cancelled.
    unfold bind at 1. unfold updateProgress at 1, modify at 1. cbn beta iota.
    unfold bind at 1.
    match goal with
    | |- context [tryCatch ?b (fun error => return_ (PDFToImage.failedOutput ?m error)) ?st] =>
        destruct (image_try_run b (PDFToImage.pageRenders env doc p)
                    (PDFToImage.imageOfGroup o [p]) m st
                    (renderPageToImage_run p st)) as [r [-> [Ht Hf]]]
    end.
    destruct (PDFToImage.pageRenders env doc p); cbn [andb].
    + rewrite (Ht eq_refl).
      match goal with
      | |- context [PDFToImage.pageLoop _ _ _ _ _ ?j ?im ?st] =>
          destruct (IH j im st) as [r' [s' [-> Hr]]]
      end.
      exists r', s'. split; [reflexivity|].
      cbn [map]. rewrite <- app_assoc in Hr. exact Hr.
    + destruct (Hf eq_refl) as [out [-> Hc]].
      do 2 eexists. split; [reflexivity|].
      split; [discriminate|]. intros _. exists out. split; [reflexivity|exact Hc].
Qed.

(** The image of one group, by the branch of its size. *)
Lemma groupImage_run (g : list Z) (i n : Z) (s : BaseState) :
  exists r s',
    PDFToImage.groupImage env doc o n i g s = (r, s') /\
    (PDFToImage.groupRenders env doc g = true ->
       r = Next (PDFToImage.imageOfGroup o g)) /\
    (PDFToImage.groupRenders env doc g = false ->
       exists out, r = Return out /\ errorCode out = Some PROCESSING_FAILED).
Proof.
  unfold PDFToImage.groupRenders, PDFToImage.groupImage.
  destruct g as [|p [|q rest]]; cbv zeta;
    unfold bind at 1; unfold updateProgress at 1, modify at 1; cbn beta iota;
    match goal with
    | |- context [tryCatch (PDFToImage.renderPageToImage _ _ ?pg _)
                    (fun error => return_ (PDFToImage.failedOutput ?m error)) ?st] =>
        destruct (image_try_run (PDFToImage.renderPageToImage env doc pg o)
                    _ _ m st (renderPageToImage_run pg st)) as [r [-> Hr]]
    | |- context [tryCatch (PDFToImage.renderGridPagesToImage _ _ ?grp _)
                    (fun error => return_ (PDFToImage.failedOutput ?m error)) ?st] =>
        destruct (image_try_run (PDFToImage.renderGridPagesToImage env doc grp o)
                    _ _ m st (renderGridPagesToImage_run grp st)) as [r [-> Hr]]
    end;
    do 2 eexists; (split; [reflexivity | exact Hr]).
Qed.

(** The loop over the groups stops at the first group that fails. *)
Lemma groupsLoop_run (n : Z) (groups : list (list Z)) :
  forall i images s,
    exists r s',
      PDFToImage.groupsLoop env doc o n groups i images s = (r, s') /\
      allOrFailed (forallb (PDFToImage.groupRenders env doc) groups)
        (images ++ map (PDFToImage.imageOfGroup o) groups) r.
Proof.
  induction groups as [|g groups IH]; intros i images s; cbn [forallb].
  - do 2 eexists. split; [reflexivity|]. simpl. rewrite app_nil_r.
    split; [reflexivity | discriminate].
  - cbn [PDFToImage.groupsLoop].
    unfold bind at 1. unfold checkCancelled at 1. cbn beta iota.
    rewrite never_cancelled.
    unfold bind at 1.
    match goal with
    | |- context [PDFToImage.groupImage _ _ _ _ _ _ ?st] =>
        destruct (groupImage_run g i n st) as [r [s1 [-> [Ht Hf]]]]
    end.
    destruct (PDFToImage.groupRenders env doc g); cbn [andb].
    + rewrite (Ht eq_refl).
      match goal with
      | |- context [PDFToImage.groupsLoop _ _ _ _ _ ?j ?im ?st] =>
          destruct (IH j im st) as [r' [s' [-> Hr]]]
      end.
      exists r', s'. split; [reflexivity|].
      cbn [map]. rewrite <- app_assoc in Hr. exact Hr.
    + destruct (Hf eq_refl) as [out [-> Hc]].
      do 2 eexists. split; [reflexivity|].
      split; [discriminate|]. intros _. exists out. split; [reflexivity|exact Hc].
Qed.

End ImageLoops.

Lemma lengthZ_cons_neq {A} (x : A) (l : list A) :
  (Z.of_nat (List.length (x :: l)) =? 0) = false.
Proof. apply Z.eqb_neq. simpl List.length. lia. Qed.

(** The rasterize processor in image output mode keeps the pages that
    render. *)
Lemma rasterize_image_mode env file opts doc pages :
  (forall k, Rasterize.cancelledAt env k = false) ->
  Rasterize.loadPdfjs env = Done tt ->
  Rasterize.arrayBuffer env = Done tt ->
  Rasterize.getDocument env = Done doc ->
  Rasterize.importJSZip env = Done tt ->
  Rasterize.generateAsync env = Done tt ->
  Rasterize.format (Rasterize.mergeOptions opts) <> Rasterize.pdf ->
  Rasterize.pagesToRender (Rasterize.mergeOptions opts) (numPages doc) = pages ->
  pages <> [] ->
  exists out s,
    Rasterize.run env (mkInput [file] opts) = (Resolved out, s) /\
    (filter (Rasterize.pageRenders env doc) pages <> [] ->
       success out = true /\
       itemsOf out =
         map (fun p => [p]) (filter (Rasterize.pageRenders env doc) pages)) /\
    (filter (Rasterize.pageRenders env doc) pages = [] ->
       errorCode out = Some PROCESSING_FAILED).
Proof.
  intros Hc Hl Ha Hd Hz Hg Hf Hp Hne.
  unfold Rasterize.run, Rasterize.process, Rasterize.fresh.
  run_unfold. cbn [files options].
  rewrite Hl. cbn beta iota. rewrite Ha. cbn beta iota. rewrite Hd.
  cbn beta iota zeta. rewrite Hc. cbn beta iota. rewrite Hp.
  destruct pages as [|p0 pages0]; [congruence|].
  unfold Rasterize.lengthZ at 1. rewrite lengthZ_cons_neq.
  set (pages := p0 :: pages0) in *.
  assert (forall st,
    exists st',
      Rasterize.imageLoop env (Rasterize.mergeOptions opts) doc
        (stripPdfSuffix (name file)) (Rasterize.lengthZ pages) pages 0 [] st =
      (Next (map (Rasterize.imageFor (Rasterize.mergeOptions opts)
                    (stripPdfSuffix (name file)))
                 (filter (Rasterize.pageRenders env doc) pages)), st')) as Hloop.
  { intros st.
    destruct (rasterize_imageLoop_run env (Rasterize.mergeOptions opts) doc Hc
                (stripPdfSuffix (name file)) (Rasterize.lengthZ pages) pages
                0 [] st) as [st' Hst].
    exists st'. exact Hst. }
  destruct (Rasterize.format (Rasterize.mergeOptions opts)) eqn:Efmt;
    try congruence;
    match goal with
    | |- context [Rasterize.imageLoop _ _ _ _ _ _ _ _ ?st] =>
        destruct (Hloop st) as [st' ->]
    end;
    destruct (filter (Rasterize.pageRenders env doc) pages) as [|q [|q' rest]];
    cbn [map]; cbn beta iota; try rewrite Hz; cbn beta iota;
    try rewrite Hg; cbn beta iota;
    do 2 eexists; (split; [reflexivity|]);
    (split; [intros Hr | intros Hr]);
    try congruence; try (split; reflexivity);
    (split; [reflexivity|]);
    unfold itemsOf; cbn [result createSuccessOutput blobItems map];
    rewrite ?map_map; reflexivity.
Qed.

Lemma looksLikePdf_true (file : File) :
  looksLikePdf file = true ->
  negb (includes "pdf" (type file)) &&
  negb (endsWith ".pdf" (toLowerCase (name file))) = false.
Proof.
  unfold looksLikePdf. intros H. rewrite <- negb_orb, H. reflexivity.
Qed.

Lemma items_of_groups (o : PDFToImage.PDFToImageOptions) (groups : list (list Z)) :
  flat_map blobItems (map (PDFToImage.imageOfGroup o) groups) = groups.
Proof.
  induction groups as [|g groups IH]; [reflexivity|].
  cbn [map flat_map]. rewrite IH. reflexivity.
Qed.

(** The envelope the PDF to image processor builds from the images of the
    groups [groups]: a success that shows these groups. *)
Lemma image_success_items (o : PDFToImage.PDFToImageOptions)
    (groups : list (list Z)) (f1 f2 : string) (m1 m2 : list (string * MetaValue)) :
  groups <> [] ->
  itemsOf
    (match map (PDFToImage.imageOfGroup o) groups with
     | [image] => createSuccessOutput (OneBlob image) f1 m1
     | images => createSuccessOutput (ManyBlobs images) f2 m2
     end) = groups.
Proof.
  intros Hne. destruct groups as [|g [|g' rest]]; [congruence|reflexivity|].
  unfold itemsOf. cbn [map result createSuccessOutput].
  exact (items_of_groups o (g :: g' :: rest)).
Qed.

(** The PDF to image processor gives the images of all the groups or fails
    as a whole. [images] stands for the loop of the mode, [groups] for the
    groups it goes through. *)
Lemma image_process_run env file opts doc pages groups ok :
  (forall k, PDFToImage.cancelledAt env k = false) ->
  looksLikePdf file = true ->
  PDFToImage.loadPdfjs env = Done tt ->
  PDFToImage.arrayBuffer env = Done tt ->
  PDFToImage.getDocument env = Done doc ->
  PDFToImage.pagesToConvert (PDFToImage.mergeOptions opts) (numPages doc) = pages ->
  pages <> [] ->
  groups <> [] ->
  (forall st, exists r st',
     (if PDFToImage.columns (PDFToImage.pageLayout (PDFToImage.mergeOptions opts)) *
         PDFToImage.rows (PDFToImage.pageLayout (PDFToImage.mergeOptions opts)) =? 1
      then PDFToImage.pageLoop env doc (PDFToImage.mergeOptions opts)
             (PDFToImage.lengthZ pages) pages 0 []
      else match pageGroups (List.length pages)
                   (PDFToImage.skipFirstPage
                      (PDFToImage.pageLayout (PDFToImage.mergeOptions opts)))
                   pages
                   (PDFToImage.columns (PDFToImage.pageLayout (PDFToImage.mergeOptions opts)) *
                    PDFToImage.rows (PDFToImage.pageLayout (PDFToImage.mergeOptions opts)))
           with
           | None => fun s => (Hang, s)
           | Some gs =>
               PDFToImage.groupsLoop env doc (PDFToImage.mergeOptions opts)
                 (PDFToImage.lengthZ gs) gs 0 []
           end) st = (r, st') /\
     allOrFailed ok
       ([] ++ map (PDFToImage.imageOfGroup (PDFToImage.mergeOptions opts)) groups) r) ->
  exists out s,
    PDFToImage.run env (mkInput [file] opts) = (Resolved out, s) /\
    (ok = true -> success out = true /\ itemsOf out = groups) /\
    (ok = false -> errorCode out = Some PROCESSING_FAILED).
Proof.
  intros Hc Hf Hl Ha Hd Hp Hne Hgne Hloop.
  unfold PDFToImage.run, PDFToImage.process, PDFToImage.fresh.
  unfold settle, bind at 1, reset, modify. cbn [files options fst snd].
  rewrite (looksLikePdf_true file Hf).
  unfold tryCatch.
  unfold bind at 1, updateProgress at 1, modify. cbn beta iota.
  unfold bind at 1. rewrite Hl. unfold await at 1, ret at 1. cbn beta iota.
  unfold bind at 1, checkCancelled at 1. cbn beta iota. rewrite Hc.
  unfold bind at 1, updateProgress at 1, modify. cbn beta iota.
  unfold bind at 1. rewrite Ha. unfold await at 1, ret at 1. cbn beta iota.
  unfold bind at 1. rewrite Hd. unfold await at 1, ret at 1. cbn beta iota zeta.
  rewrite Hp.
  destruct pages as [|p0 pages0]; [congruence|].
  unfold PDFToImage.lengthZ at 1. rewrite lengthZ_cons_neq.
  unfold bind at 1, updateProgress at 1, modify. cbn beta iota.
  unfold bind at 1.
  match goal with
  | |- context [(if _ =? 1 then _ else _) ?st] =>
      destruct (Hloop st) as [r [st' [-> [Ht Hff]]]]
  end.
  destruct ok.
  - rewrite (Ht eq_refl). cbn [app].
    unfold bind at 1, updateProgress at 1, modify. cbn beta iota.
    destruct (map (PDFToImage.imageOfGroup (PDFToImage.mergeOptions opts)) groups)
      as [|im [|im' ims]] eqn:Eim.
    + destruct groups; [congruence | discriminate].
    + do 2 eexists. split; [reflexivity|]. split; [|discriminate]. intros _.
      split; [reflexivity|].
      pose proof (image_success_items (PDFToImage.mergeOptions opts) groups
                    "" "" [] [] Hgne) as Hi.
      rewrite Eim in Hi. exact Hi.
    + do 2 eexists. split; [reflexivity|]. split; [|discriminate]. intros _.
      split; [reflexivity|].
      pose proof (image_success_items (PDFToImage.mergeOptions opts) groups
                    "" "" [] [] Hgne) as Hi.
      rewrite Eim in Hi. exact Hi.
  - destruct (Hff eq_refl) as [out [-> Hcode]].
    do 2 eexists. split; [reflexivity|]. split; [discriminate|].
    intros _. exact Hcode.
Qed.

(** C1, as the code has it. In the image output mode of the rasterize
    processor a page that fails to render is skipped: the call resolves
    with a success envelope that holds exactly the pages that rendered, in
    order, and with [PROCESSING_FAILED] only when no page rendered; 10
    pages of which page 7 throws give 9 images. In the PDF to image
    processor the first page, or group of pages, that fails ends the call
    with [PROCESSING_FAILED]: the envelope is a success, with the images of
    all the pages or groups, only when every one of them rendered.
    (Nothing is cancelled, the libraries and the document load, the
    selection is not empty.) *)
Theorem C1_page_failures :
  (forall env file opts doc pages,
     (forall k, Rasterize.cancelledAt env k = false) ->
     Rasterize.loadPdfjs env = Done tt ->
     Rasterize.arrayBuffer env = Done tt ->
     Rasterize.getDocument env = Done doc ->
     Rasterize.importJSZip env = Done tt ->
     Rasterize.generateAsync env = Done tt ->
     Rasterize.format (Rasterize.mergeOptions opts) <> Rasterize.pdf ->
     Rasterize.pagesToRender (Rasterize.mergeOptions opts) (numPages doc) = pages ->
     pages <> [] ->
     exists out s,
       Rasterize.run env (mkInput [file] opts) = (Resolved out, s) /\
       (filter (Rasterize.pageRenders env doc) pages <> [] ->
          success out = true /\
          itemsOf out =
            map (fun p => [p]) (filter (Rasterize.pageRenders env doc) pages)) /\
       (filter (Rasterize.pageRenders env doc) pages = [] ->
          errorCode out = Some PROCESSING_FAILED)) /\
  (exists out s,
     Rasterize.run (Examples.rasterEnv (Examples.docOf 10 (fun p => p =? 7)))
                   (Examples.rasterInput Examples.pdfFile Rasterize.png "") =
       (Resolved out, s) /\
     success out = true /\
     itemsOf out = [[1]; [2]; [3]; [4]; [5]; [6]; [8]; [9]; [10]]) /\
  (forall env file opts doc pages,
     (forall k, PDFToImage.cancelledAt env k = false) ->
     looksLikePdf file = true ->
     PDFToImage.loadPdfjs env = Done tt ->
     PDFToImage.arrayBuffer env = Done tt ->
     PDFToImage.getDocument env = Done doc ->
     PDFToImage.pagesToConvert (PDFToImage.mergeOptions opts) (numPages doc) = pages ->
     pages <> [] ->
     PDFToImage.columns (PDFToImage.pageLayout (PDFToImage.mergeOptions opts)) *
     PDFToImage.rows (PDFToImage.pageLayout (PDFToImage.mergeOptions opts)) = 1 ->
     exists out s,
       PDFToImage.run env (mkInput [file] opts) = (Resolved out, s) /\
       (forallb (PDFToImage.pageRenders env doc) pages = true ->
          success out = true /\ itemsOf out = map (fun p => [p]) pages) /\
       (forallb (PDFToImage.pageRenders env doc) pages = false ->
          errorCode out = Some PROCESSING_FAILED)) /\
  (forall env file opts doc pages groups,
     (forall k, PDFToImage.cancelledAt env k = false) ->
     looksLikePdf file = true ->
     PDFToImage.loadPdfjs env = Done tt ->
     PDFToImage.arrayBuffer env = Done tt ->
     PDFToImage.getDocument env = Done doc ->
     PDFToImage.pagesToConvert (PDFToImage.mergeOptions opts) (numPages doc) = pages ->
     pages <> [] ->
     1 < PDFToImage.columns (PDFToImage.pageLayout (PDFToImage.mergeOptions opts)) *
         PDFToImage.rows (PDFToImage.pageLayout (PDFToImage.mergeOptions opts)) ->
     specGroups
       (PDFToImage.skipFirstPage (PDFToImage.pageLayout (PDFToImage.mergeOptions opts)))
       (Z.to_nat
          (PDFToImage.columns (PDFToImage.pageLayout (PDFToImage.mergeOptions opts)) *
           PDFToImage.rows (PDFToImage.pageLayout (PDFToImage.mergeOptions opts))))
       pages = groups ->
     exists out s,
       PDFToImage.run env (mkInput [file] opts) = (Resolved out, s) /\
       (forallb (PDFToImage.groupRenders env doc) groups = true ->
          success out = true /\ itemsOf out = groups) /\
       (forallb (PDFToImage.groupRenders env doc) groups = false ->
          errorCode out = Some PROCESSING_FAILED)).
Proof.
  split; [|split; [|split]].
  - apply rasterize_image_mode.
  - do 2 eexists. split; [vm_compute; reflexivity|]. split; reflexivity.
  - intros env file opts doc pages Hc Hf Hl Ha Hd Hp Hne H1.
    apply (image_process_run env file opts doc pages (map (fun p => [p]) pages)
             (forallb (PDFToImage.pageRenders env doc) pages));
      try assumption.
    + destruct pages; [congruence | discriminate].
    + intros st. rewrite H1. cbn [Z.eqb Pos.eqb].
      destruct (pageLoop_run env (PDFToImage.mergeOptions opts) doc Hc
                  (PDFToImage.lengthZ pages) pages 0 [] st) as [r [st' [Hr Ha']]].
      exists r, st'. split; [exact Hr|]. rewrite map_map. exact Ha'.
  - intros env file opts doc pages groups Hc Hf Hl Ha Hd Hp Hne H1 Hg.
    apply (image_process_run env file opts doc pages groups
             (forallb (PDFToImage.groupRenders env doc) groups));
      try assumption.
    + intros ->. destruct pages as [|p pages]; [congruence|].
      unfold specGroups in Hg.
      destruct (PDFToImage.skipFirstPage _); [discriminate|].
      rewrite batches_cons in Hg by lia. discriminate.
    + intros st.
      replace (_ * _ =? 1) with false by (symmetry; apply Z.eqb_neq; lia).
      rewrite pageGroups_spec by lia. rewrite Hg.
      apply (groupsLoop_run env (PDFToImage.mergeOptions opts) doc Hc).
Qed.

Lemma C1_witness :
  (exists out s,
     Rasterize.run (Examples.rasterEnv (Examples.docOf 4 (fun p => p =? 2)))
                   (Examples.rasterInput Examples.pdfFile Rasterize.jpeg "") =
       (Resolved out, s) /\
     (filter (Rasterize.pageRenders
                (Examples.rasterEnv (Examples.docOf 4 (fun p => p =? 2)))
                (Examples.docOf 4 (fun p => p =? 2))) [1; 2; 3; 4] <> [] ->
        success out = true /\
        itemsOf out =
          map (fun p => [p])
            (filter (Rasterize.pageRenders
                       (Examples.rasterEnv (Examples.docOf 4 (fun p => p =? 2)))
                       (Examples.docOf 4 (fun p => p =? 2))) [1; 2; 3; 4])) /\
     (filter (Rasterize.pageRenders
                (Examples.rasterEnv (Examples.docOf 4 (fun p => p =? 2)))
                (Examples.docOf 4 (fun p => p =? 2))) [1; 2; 3; 4] = [] ->
        errorCode out = Some PROCESSING_FAILED)) /\
  (exists out s,
     PDFToImage.run (Examples.imageEnv (Examples.docOf 4 (fun p => p =? 2)))
                    (Examples.imageInput Examples.pdfFile [] None) =
       (Resolved out, s) /\
     (forallb (PDFToImage.pageRenders
                 (Examples.imageEnv (Examples.docOf 4 (fun p => p =? 2)))
                 (Examples.docOf 4 (fun p => p =? 2))) [1; 2; 3; 4] = true ->
        success out = true /\ itemsOf out = map (fun p => [p]) [1; 2; 3; 4]) /\
     (forallb (PDFToImage.pageRenders
                 (Examples.imageEnv (Examples.docOf 4 (fun p => p =? 2)))
                 (Examples.docOf 4 (fun p => p =? 2))) [1; 2; 3; 4] = false ->
        errorCode out = Some PROCESSING_FAILED)) /\
  (exists out s,
     PDFToImage.run (Examples.imageEnv (Examples.docOf 5 (fun p => false)))
                    (Examples.imageInput Examples.pdfFile []
                       (Some (PDFToImage.mkLayout "2x2" 2 2 true))) =
       (Resolved out, s) /\
     (forallb (PDFToImage.groupRenders
                 (Examples.imageEnv (Examples.docOf 5 (fun p => false)))
                 (Examples.docOf 5 (fun p => false))) [[1]; [2; 3; 4; 5]] = true ->
        success out = true /\ itemsOf out = [[1]; [2; 3; 4; 5]]) /\
     (forallb (PDFToImage.groupRenders
                 (Examples.imageEnv (Examples.docOf 5 (fun p => false)))
                 (Examples.docOf 5 (fun p => false))) [[1]; [2; 3; 4; 5]] = false ->
        errorCode out = Some PROCESSING_FAILED)).
Proof.
  split; [|split].
  - apply (proj1 C1_page_failures
             (Examples.rasterEnv (Examples.docOf 4 (fun p => p =? 2)))
             Examples.pdfFile
             (options (Examples.rasterInput Examples.pdfFile Rasterize.jpeg ""))
             (Examples.docOf 4 (fun p => p =? 2)) [1; 2; 3; 4]);
      try reflexivity; discriminate.
  - apply (proj1 (proj2 (proj2 C1_page_failures))
             (Examples.imageEnv (Examples.docOf 4 (fun p => p =? 2)))
             Examples.pdfFile
             (options (Examples.imageInput Examples.pdfFile [] None))
             (Examples.docOf 4 (fun p => p =? 2)) [1; 2; 3; 4]);
      try reflexivity; discriminate.
  - apply (proj2 (proj2 (proj2 C1_page_failures))
             (Examples.imageEnv (Examples.docOf 5 (fun p => false)))
             Examples.pdfFile
             (options (Examples.imageInput Examples.pdfFile []
                         (Some (PDFToImage.mkLayout "2x2" 2 2 true))))
             (Examples.docOf 5 (fun p => false)) [1; 2; 3; 4; 5]
             [[1]; [2; 3; 4; 5]]);
      try reflexivity; discriminate.
Defined.

(** C1 as stated fails for the PDF to image processor: of 10 selected
    pages, 9 render and page 7 throws; the call does not resolve with the
    9 images but with [PROCESSING_FAILED] for page 7. *)
Lemma C1_counterexample :
  filter (PDFToImage.pageRenders
            (Examples.imageEnv (Examples.docOf 10 (fun p => p =? 7)))
            (Examples.docOf 10 (fun p => p =? 7)))
         [1; 2; 3; 4; 5; 6; 7; 8; 9; 10] = [1; 2; 3; 4; 5; 6; 8; 9; 10] /\
  fst (PDFToImage.run (Examples.imageEnv (Examples.docOf 10 (fun p => p =? 7)))
                      (Examples.imageInput Examples.pdfFile [] None)) =
    Resolved (createErrorOutput PROCESSING_FAILED "Failed to convert page 7."
                (Some "render failed")).
Proof.
  split; vm_compute; reflexivity.
Qed.

(** ** The combined PDF output of the rasterize processor *)

Section RasterizePdfLoop.

Variables (env : Rasterize.Env) (o : Rasterize.RasterizePDFOptions)
          (doc : PdfDocument).
Hypothesis never_cancelled : forall k, Rasterize.cancelledAt env k = false.

(** The [try] of a page in the PDF loop. *)
Lemma rasterize_pdf_try (i p : Z) (pdfOutput : option (list PdfPage))
    (s : BaseState) :
  tryCatch
    (size <- await (getPage doc p) ;;
     Rasterize.useContext (Rasterize.canvas env) ;;
     await (render doc p) ;;
     let page := Rasterize.pdfPageOf o p size in
     if i =? 0 then ret (Some [page])
     else match pdfOutput with
          | Some ps => ret (Some (ps ++ [page]))
          | None =>
              throw (ErrorObj "Cannot read properties of null (reading 'addPage')")
          end)
    (fun _ => ret pdfOutput) s =
  (Next (Rasterize.afterPage env o doc i p pdfOutput), s).
Proof.
  unfold Rasterize.afterPage, Rasterize.pageDraws, Rasterize.useContext.
  run_unfold.
  destruct (getPage doc p) as [size|e]; [|reflexivity].
  destruct (context2d (Rasterize.canvas env)); [|reflexivity].
  destruct (render doc p) as [u|e]; [|reflexivity].
  cbv zeta. destruct (i =? 0); [reflexivity|].
  destruct pdfOutput; reflexivity.
Qed.

Lemma rasterize_pdfLoop_step (n p : Z) (pages : list Z) (i : Z)
    (pdfOutput : option (list PdfPage)) (s : BaseState) :
  exists s1,
    Rasterize.pdfLoop env o doc n (p :: pages) i pdfOutput s =
    Rasterize.pdfLoop env o doc n pages (i + 1) (Rasterize.afterPage env o doc i p pdfOutput) s1.
Proof.
  cbn [Rasterize.pdfLoop].
  unfold bind at 1. unfold checkCancelled at 1. cbn beta iota.
  rewrite never_cancelled.
  unfold bind at 1. unfold updateProgress at 1, modify at 1. cbn beta iota.
  unfold bind at 1. rewrite rasterize_pdf_try.
  eexists. reflexivity.
Qed.

(** Past the first index, a document that was not created stays [null]:
    every later page throws on [addPage] and is skipped. *)
Lemma rasterize_pdfLoop_null (n : Z) (pages : list Z) :
  forall i s, 0 < i ->
    exists s',
      Rasterize.pdfLoop env o doc n pages i None s = (Next None, s').
Proof.
  induction pages as [|p pages IH]; intros i s Hi.
  - eexists. reflexivity.
  - destruct (rasterize_pdfLoop_step n p pages i None s) as [s1 ->].
    assert (Rasterize.afterPage env o doc i p None = None) as ->.
    { unfold Rasterize.afterPage. destruct (Rasterize.pageDraws env doc p); [|reflexivity].
      replace (i =? 0) with false by (symmetry; apply Z.eqb_neq; lia).
      reflexivity. }
    apply IH. lia.
Qed.

(** Past the first index, a document that exists gets one page for each
    page that draws. *)
Lemma rasterize_pdfLoop_append (n : Z) (pages : list Z) :
  forall i ps s, 0 < i ->
    exists s',
      Rasterize.pdfLoop env o doc n pages i (Some ps) s =
      (Next (Some (ps ++ Rasterize.pdfPagesFor env o doc pages)), s').
Proof.
  induction pages as [|p pages IH]; intros i ps s Hi.
  - eexists. simpl. rewrite app_nil_r. reflexivity.
  - destruct (rasterize_pdfLoop_step n p pages i (Some ps) s) as [s1 ->].
    unfold Rasterize.afterPage, Rasterize.pdfPagesFor. cbn [flat_map].
    replace (i =? 0) with false by (symmetry; apply Z.eqb_neq; lia).
    destruct (Rasterize.pageDraws env doc p) as [size|].
    + destruct (IH (i + 1) (ps ++ [Rasterize.pdfPageOf o p size]) s1 ltac:(lia))
        as [s' ->].
      exists s'. rewrite <- app_assoc. reflexivity.
    + destruct (IH (i + 1) ps s1 ltac:(lia)) as [s' ->].
      exists s'. reflexivity.
Qed.

End RasterizePdfLoop.

(** C9, what the code does. In the combined PDF output mode the output
    document is created at loop index 0 only. When the first selected page
    draws, the document starts with that page and gets one page, in its
    own format, for each later page that draws. When the first selected
    page fails, the document is never created, every later page is
    skipped, and the call resolves with [PROCESSING_FAILED], whatever the
    later pages do. (Nothing is cancelled and the libraries and the
    document load.) *)
Theorem C9_pdf_output_mode :
  forall env file opts doc first rest,
    (forall k, Rasterize.cancelledAt env k = false) ->
    Rasterize.loadPdfjs env = Done tt ->
    Rasterize.arrayBuffer env = Done tt ->
    Rasterize.getDocument env = Done doc ->
    Rasterize.importJsPDF env = Done tt ->
    Rasterize.format (Rasterize.mergeOptions opts) = Rasterize.pdf ->
    Rasterize.pagesToRender (Rasterize.mergeOptions opts) (numPages doc) =
      first :: rest ->
    exists out s,
      Rasterize.run env (mkInput [file] opts) = (Resolved out, s) /\
      (Rasterize.pageDraws env doc first = None ->
         out = Rasterize.renderFailed) /\
      (forall size,
         Rasterize.pageDraws env doc first = Some size ->
         success out = true /\
         result out =
           Some (OneBlob (RasterPdfBlob
             (Rasterize.pdfPageOf (Rasterize.mergeOptions opts) first size ::
              Rasterize.pdfPagesFor env (Rasterize.mergeOptions opts) doc rest)))).
Proof.
  intros env file opts doc first rest Hc Hl Ha Hd Hj Hf Hp.
  unfold Rasterize.run, Rasterize.process, Rasterize.fresh.
  unfold settle, bind at 1, reset, modify. cbn [files options fst snd].
  unfold tryCatch at 1.
  unfold bind at 1, updateProgress at 1, modify. cbn beta iota.
  unfold bind at 1. rewrite Hl. unfold await at 1, ret at 1. cbn beta iota.
  unfold bind at 1, updateProgress at 1, modify. cbn beta iota.
  unfold bind at 1. rewrite Ha. unfold await at 1, ret at 1. cbn beta iota.
  unfold bind at 1. rewrite Hd. unfold await at 1, ret at 1. cbn beta iota zeta.
  unfold bind at 1, checkCancelled at 1. cbn beta iota. rewrite Hc.
  unfold bind at 1, updateProgress at 1, modify. cbn beta iota.
  rewrite Hp. unfold Rasterize.lengthZ at 1. rewrite lengthZ_cons_neq.
  unfold bind at 1, updateProgress at 1, modify. cbn beta iota.
  rewrite Hf.
  unfold bind at 1. rewrite Hj. unfold await at 1, ret at 1. cbn beta iota.
  unfold bind at 1.
  match goal with
  | |- context [Rasterize.pdfLoop _ _ _ ?n _ 0 None ?st] =>
      destruct (rasterize_pdfLoop_step env (Rasterize.mergeOptions opts) doc Hc
                  n first rest 0 None st) as [s1 ->]
  end.
  unfold Rasterize.afterPage. cbn [Z.eqb Z.add].
  destruct (Rasterize.pageDraws env doc first) as [size|].
  - match goal with
    | |- context [Rasterize.pdfLoop _ _ _ ?n _ 1 (Some ?ps) ?st] =>
        destruct (rasterize_pdfLoop_append env (Rasterize.mergeOptions opts) doc
                    Hc n rest 1 ps st ltac:(lia)) as [s' ->]
    end.
    do 2 eexists. split; [reflexivity|]. split; [discriminate|].
    intros size' [= <-]. split; reflexivity.
  - match goal with
    | |- context [Rasterize.pdfLoop _ _ _ ?n _ 1 None ?st] =>
        destruct (rasterize_pdfLoop_null env (Rasterize.mergeOptions opts) doc
                    Hc n rest 1 st ltac:(lia)) as [s' ->]
    end.
    do 2 eexists. split; [reflexivity|]. split; [reflexivity|]. discriminate.
Qed.

Lemma C9_witness :
  Rasterize.pageDraws
    (Examples.rasterEnv (Examples.docOf 3 (fun p => p =? 1)))
    (Examples.docOf 3 (fun p => p =? 1)) 1 = None /\
  Rasterize.pdfPagesFor
    (Examples.rasterEnv (Examples.docOf 3 (fun p => p =? 1)))
    Rasterize.DEFAULT_RASTERIZE_OPTIONS
    (Examples.docOf 3 (fun p => p =? 1)) [2; 3] =
    [Rasterize.pdfPageOf Rasterize.DEFAULT_RASTERIZE_OPTIONS 2 (612%Q, 792%Q);
     Rasterize.pdfPageOf Rasterize.DEFAULT_RASTERIZE_OPTIONS 3 (612%Q, 792%Q)] /\
  exists out s,
    Rasterize.run (Examples.rasterEnv (Examples.docOf 3 (fun p => p =? 1)))
                  (Examples.rasterInput Examples.pdfFile Rasterize.pdf "") =
      (Resolved out, s) /\
    out = Rasterize.renderFailed.
Proof.
  split; [reflexivity|]. split; [reflexivity|].
  destruct (C9_pdf_output_mode
              (Examples.rasterEnv (Examples.docOf 3 (fun p => p =? 1)))
              Examples.pdfFile
              (options (Examples.rasterInput Examples.pdfFile Rasterize.pdf ""))
              (Examples.docOf 3 (fun p => p =? 1)) 1 [2; 3]
              ltac:(reflexivity) eq_refl eq_refl eq_refl eq_refl eq_refl eq_refl)
    as [out [s [Hrun [Hnone _]]]].
  exists out, s. split; [exact Hrun | exact (Hnone eq_refl)].
Defined.

(** ** Progress reports *)

Import Progress.

Section ProgressFacts.

Open Scope Q_scope.

Lemma clamp_le (p : Q) : 0 <= p -> clamp p <= p.
Proof.
  intros Hp. unfold clamp.
  eapply Qle_trans; [apply Q.le_min_r|].
  rewrite (Q.max_r 0 p Hp). apply Qle_refl.
Qed.

Lemma le_clamp (b p : Q) : b <= p -> b <= 100 -> b <= clamp p.
Proof.
  intros Hp Hb. unfold clamp. apply Q.min_glb; [exact Hb|].
  eapply Qle_trans; [exact Hp | apply Q.le_max_r].
Qed.

Lemma sorted_snoc (l : list Q) (p : Q) :
  StronglySorted Qle l -> Forall (fun x => x <= p) l ->
  StronglySorted Qle (l ++ [p]).
Proof.
  induction 1 as [|x l Hl IH Hx]; intros Hp; simpl.
  - repeat constructor.
  - inversion Hp as [|? ? Hxp Hlp]; subst.
    constructor; [apply IH, Hlp|].
    apply Forall_app. split; [exact Hx|]. constructor; [exact Hxp|constructor].
Qed.

Lemma started_snoc (l : list Q) (p : Q) : started l -> started (l ++ [p]).
Proof. destruct l; simpl; [intros []|trivial]. Qed.

Lemma reportedUpTo_snoc (b p : Q) (s : BaseState) :
  reportedUpTo b s -> b <= p -> p <= 100 -> 0 <= p ->
  reportedUpTo p (mkBase (clamp p) (reports s ++ [clamp p]) (polls s)).
Proof.
  intros [Hs [Hb Hst]] Hbp Hp100 Hp0. unfold reportedUpTo. cbn [reports].
  assert (b <= clamp p) as Hbc by (apply le_clamp; [exact Hbp | lra]).
  split; [|split].
  - apply sorted_snoc; [exact Hs|].
    eapply Forall_impl; [|exact Hb]. cbn beta. intros x Hx. lra.
  - apply Forall_app. split.
    + eapply Forall_impl; [|exact Hb]. cbn beta. intros x Hx. lra.
    + constructor; [apply clamp_le, Hp0 | constructor].
  - apply started_snoc, Hst.
Qed.

Lemma reportedUpTo_first (p : Q) (s : BaseState) :
  reports s = [] -> 0 <= p -> p <= 10 ->
  reportedUpTo p (mkBase (clamp p) (reports s ++ [clamp p]) (polls s)).
Proof.
  intros -> Hp0 Hp10. unfold reportedUpTo. cbn [reports app].
  pose proof (clamp_le p Hp0) as Hc.
  split; [|split].
  - repeat constructor.
  - repeat constructor. exact Hc.
  - simpl. lra.
Qed.

Lemma reportedUpTo_weaken (b b' : Q) (s : BaseState) :
  reportedUpTo b s -> b <= b' -> reportedUpTo b' s.
Proof.
  intros [Hs [Hb Hst]] Hbb. split; [exact Hs|]. split; [|exact Hst].
  eapply Forall_impl; [|exact Hb]. cbn beta. intros x Hx. lra.
Qed.

Lemma reportedUpTo_below (b : Q) (s : BaseState) :
  reportedUpTo b s -> b < 100 -> below100 s.
Proof.
  intros [_ [Hb _]] Hb100. unfold below100.
  eapply Forall_impl; [|exact Hb]. cbn beta. intros x Hx. lra.
Qed.

Lemma completed_after_100 (b : Q) (s : BaseState) :
  reportedUpTo b s -> b <= 100 ->
  completed (mkBase (clamp 100) (reports s ++ [clamp 100]) (polls s)).
Proof.
  intros [Hs [Hb Hst]] Hb100. unfold completed. cbn [reports].
  split; [|split].
  - apply sorted_snoc; [exact Hs|].
    eapply Forall_impl; [|exact Hb]. cbn beta. intros x Hx.
    change (clamp 100) with 100. lra.
  - apply started_snoc, Hst.
  - apply last_last.
Qed.

(** The progress formulas of the loops. *)

Lemma ratio_mono (i j n : Z) :
  (0 <= n)%Z -> (i <= j)%Z -> inject_Z i / inject_Z n <= inject_Z j / inject_Z n.
Proof.
  intros Hn Hij. unfold Qdiv. apply Qmult_le_compat_r.
  - rewrite <- Zle_Qle. exact Hij.
  - apply Qinv_le_0_compat. change 0 with (inject_Z 0). rewrite <- Zle_Qle. exact Hn.
Qed.

Lemma ratio_le_1 (i n : Z) :
  (0 < n)%Z -> (i <= n)%Z -> inject_Z i / inject_Z n <= 1.
Proof.
  intros Hn Hi. apply Qle_shift_div_r.
  - change 0 with (inject_Z 0). rewrite <- Zlt_Qlt. exact Hn.
  - rewrite Qmult_1_l. rewrite <- Zle_Qle. exact Hi.
Qed.

Lemma ratio_nonneg (i n : Z) :
  (0 <= n)%Z -> (0 <= i)%Z -> 0 <= inject_Z i / inject_Z n.
Proof.
  intros Hn Hi. unfold Qdiv. apply Qmult_le_0_compat.
  - change 0 with (inject_Z 0). rewrite <- Zle_Qle. exact Hi.
  - apply Qinv_le_0_compat. change 0 with (inject_Z 0). rewrite <- Zle_Qle. exact Hn.
Qed.

Lemma rasterize_progress_mono (i j n : Z) :
  (0 <= n)%Z -> (i <= j)%Z ->
  Rasterize.pageProgress i n <= Rasterize.pageProgress j n.
Proof.
  intros Hn Hij. unfold Rasterize.pageProgress.
  pose proof (ratio_mono i j n Hn Hij). lra.
Qed.

Lemma rasterize_progress_range (i n : Z) :
  (0 <= i <= n)%Z -> 15 <= Rasterize.pageProgress i n <= 90.
Proof.
  intros Hi. unfold Rasterize.pageProgress.
  pose proof (ratio_nonneg i n ltac:(lia) ltac:(lia)).
  destruct (Z.eq_dec n 0) as [->|Hn].
  - replace i with 0%Z by lia. cbn. unfold Qle; simpl; lia.
  - pose proof (ratio_le_1 i n ltac:(lia) ltac:(lia)). lra.
Qed.

End ProgressFacts.

Section ProgressRules.

Open Scope Q_scope.

Context {A : Type}.
Implicit Types (Qa : A -> BaseState -> Prop)
               (E : Thrown -> BaseState -> Prop).

Lemma prog_update (b p : Q) R E :
  b <= p -> 0 <= p -> p <= 100 ->
  triple (reportedUpTo b) (updateProgress p) (fun _ => reportedUpTo p) R E.
Proof.
  intros Hb H0 H100. apply triple_updateProgress. intros s Hs.
  apply (reportedUpTo_snoc b p s Hs Hb H100 H0).
Qed.

Lemma prog_first (p : Q) R E :
  0 <= p -> p <= 10 ->
  triple (fun s => reports s = []) (updateProgress p)
         (fun _ => reportedUpTo p) R E.
Proof.
  intros H0 H10. apply triple_updateProgress. intros s Hs.
  apply (reportedUpTo_first p s Hs H0 H10).
Qed.

Lemma prog_check (b : Q) (c : nat -> bool) R E :
  triple (reportedUpTo b) (checkCancelled c) (fun _ => reportedUpTo b) R E.
Proof. apply triple_checkCancelled. intros s Hs. exact Hs. Qed.

Lemma prog_await {B} (b : Q) (o : Outcome B) R :
  b < 100 ->
  triple (reportedUpTo b) (await o) (fun _ => reportedUpTo b) R
         (fun _ => below100).
Proof.
  intros Hb. apply triple_await.
  - intros _ s Hs. exact Hs.
  - intros _ s Hs. apply (reportedUpTo_below b s Hs Hb).
Qed.

Lemma prog_keep {B} (P : BaseState -> Prop) (m : M BaseState B)
    (f : BaseState -> B) R E :
  (forall s, m s = (Next (f s), s)) -> triple P m (fun _ => P) R E.
Proof. intros Hm s Hs. rewrite Hm. exact Hs. Qed.

Lemma prog_error (b : Q) (c : PDFErrorCode) (msg : string)
    (det : option string) Qa E :
  b < 100 ->
  triple (reportedUpTo b) (return_ (createErrorOutput c msg det)) Qa contract E.
Proof.
  intros Hb. apply triple_return. intros s Hs. split; [discriminate|].
  intros _. apply (reportedUpTo_below b s Hs Hb).
Qed.

Lemma prog_error_below (c : PDFErrorCode) (msg : string)
    (det : option string) Qa E :
  triple below100 (return_ (createErrorOutput c msg det)) Qa contract E.
Proof.
  apply triple_return. intros s Hs. split; [discriminate|]. intros _. exact Hs.
Qed.

Lemma prog_error_empty (c : PDFErrorCode) (msg : string)
    (det : option string) Qa E :
  triple (fun s => reports s = []) (return_ (createErrorOutput c msg det))
         Qa contract E.
Proof.
  apply triple_return. intros s Hs. split; [discriminate|]. intros _.
  unfold below100. rewrite Hs. constructor.
Qed.

Lemma prog_finish (b : Q) (o : ProcessOutput) Qa E :
  b <= 100 -> success o = true ->
  triple (reportedUpTo b) (updateProgress 100 ;; return_ o) Qa contract E.
Proof.
  intros Hb Ho. apply triple_bind with (Qm := fun _ => completed).
  - apply triple_updateProgress. intros s Hs.
    exact (completed_after_100 b s Hs Hb).
  - intros _. apply triple_return. intros s Hs. split; [intros _; exact Hs|].
    congruence.
Qed.

Lemma prog_weaken {B} (b b' : Q) (m : M BaseState B)
    (Qm : B -> BaseState -> Prop) R E :
  b <= b' -> triple (reportedUpTo b') m Qm R E -> triple (reportedUpTo b) m Qm R E.
Proof.
  intros Hb. apply triple_pre. intros s Hs. apply (reportedUpTo_weaken b b' s Hs Hb).
Qed.

End ProgressRules.

(** Side conditions on percentages. *)
Ltac prog_side :=
  first [ assumption
        | reflexivity
        | lra
        | unfold Qle, Qlt; simpl; lia ].

Ltac prog_atom :=
  first [ apply prog_update; prog_side
        | apply prog_first; prog_side
        | apply prog_check
        | apply prog_await; prog_side ].

Ltac prog_step :=
  lazymatch goal with
  | |- triple _ (bind (updateProgress 100) (fun _ => return_ _)) _ _ _ =>
      apply prog_finish; prog_side
  | |- triple _ (bind _ _) _ _ _ =>
      eapply triple_bind; [prog_atom | intros ?]
  | |- triple _ (if ?c then _ else _) _ _ _ => destruct c
  | |- triple _ (return_ (createErrorOutput _ _ _)) _ _ _ =>
      first [ apply prog_error; prog_side
            | apply prog_error_below
            | apply prog_error_empty ]
  | |- triple _ (return_ cancelledOutput) _ _ _ =>
      unfold cancelledOutput
  | |- triple _ (let _ := _ in _) _ _ _ => cbv zeta
  end.

Section RasterizeProgress.

Open Scope Q_scope.

Variables (env : Rasterize.Env) (o : Rasterize.RasterizePDFOptions)
          (doc : PdfDocument) (n : Z).

Lemma rasterize_imageLoop_progress (baseName : string) (pages : list Z) :
  forall i images,
    (0 <= i)%Z -> (i + Z.of_nat (List.length pages) = n)%Z ->
    triple (reportedUpTo (Rasterize.pageProgress i n))
           (Rasterize.imageLoop env o doc baseName n pages i images)
           (fun _ => reportedUpTo 90) contract (fun _ => below100).
Proof.
  induction pages as [|p pages IH]; intros i images Hi Hn;
    cbn [Rasterize.imageLoop List.length] in *.
  - apply triple_ret. intros s Hs.
    apply (reportedUpTo_weaken _ 90 s Hs).
    apply (rasterize_progress_range i n). lia.
  - pose proof (rasterize_progress_range i n ltac:(lia)) as Hr.
    repeat prog_step.
    eapply triple_bind.
    + apply (prog_keep _ _ _ _ _ (rasterize_image_try env o doc baseName p images)).
    + intros images'.
      apply (prog_weaken _ (Rasterize.pageProgress (i + 1) n));
        [apply rasterize_progress_mono; lia|].
      apply IH; lia.
Qed.

Lemma rasterize_pdfLoop_progress (pages : list Z) :
  forall i out,
    (0 <= i)%Z -> (i + Z.of_nat (List.length pages) = n)%Z ->
    triple (reportedUpTo (Rasterize.pageProgress i n))
           (Rasterize.pdfLoop env o doc n pages i out)
           (fun _ => reportedUpTo 90) contract (fun _ => below100).
Proof.
  induction pages as [|p pages IH]; intros i out Hi Hn;
    cbn [Rasterize.pdfLoop List.length] in *.
  - apply triple_ret. intros s Hs.
    apply (reportedUpTo_weaken _ 90 s Hs).
    apply (rasterize_progress_range i n). lia.
  - pose proof (rasterize_progress_range i n ltac:(lia)) as Hr.
    repeat prog_step.
    eapply triple_bind.
    + apply (prog_keep _ _ _ _ _ (rasterize_pdf_try env o doc i p out)).
    + intros out'.
      apply (prog_weaken _ (Rasterize.pageProgress (i + 1) n));
        [apply rasterize_progress_mono; lia|].
      apply IH; lia.
Qed.

End RasterizeProgress.

Lemma rasterize_progress_start (n : Z) :
  (0 <= n)%Z -> (15 <= Rasterize.pageProgress 0 n)%Q.
Proof.
  intros Hn. unfold Rasterize.pageProgress.
  pose proof (ratio_nonneg 0 n Hn ltac:(lia)). lra.
Qed.

Lemma rasterize_progress env input :
  triple (fun _ => True) (Rasterize.process env input)
         contract contract (fun _ _ => True).
Proof.
  unfold Rasterize.process.
  apply triple_bind with (Qm := fun _ s => reports s = []);
    [apply triple_reset; intros s _; reflexivity|].
  intros _. cbv zeta.
  destruct (files input) as [|file [|file' rest]]; try (repeat prog_step; fail).
  eapply triple_tryCatch with (Eb := fun _ => below100).
  - repeat prog_step.
    destruct (Rasterize.format (Rasterize.mergeOptions (options input))).
    all: try (eapply triple_bind;
              [ eapply prog_weaken;
                [ | apply rasterize_imageLoop_progress;
                    [lia | unfold Rasterize.lengthZ; lia] ];
                apply rasterize_progress_start; unfold Rasterize.lengthZ; lia
              | intros images; destruct images as [|im [|im' ims]];
                unfold Rasterize.renderFailed; repeat prog_step ]).
    repeat prog_step.
    eapply triple_bind;
      [ eapply prog_weaken;
        [ | apply rasterize_pdfLoop_progress;
            [lia | unfold Rasterize.lengthZ; lia] ];
        apply rasterize_progress_start; unfold Rasterize.lengthZ; lia
      | intros out; destruct out as [ps|];
        unfold Rasterize.renderFailed; repeat prog_step ].
  - intros e. destruct e as [m|t]; repeat prog_step.
Qed.

Lemma triple_conseq {St A} (P P' : St -> Prop) (m : M St A)
    (Q Q' : A -> St -> Prop) (R R' : ProcessOutput -> St -> Prop)
    (E E' : Thrown -> St -> Prop) :
  (forall s, P s -> P' s) ->
  (forall a s, Q' a s -> Q a s) ->
  (forall o s, R' o s -> R o s) ->
  (forall e s, E' e s -> E e s) ->
  triple P' m Q' R' E' -> triple P m Q R E.
Proof.
  intros HP HQ HR HE Hm s Hs. specialize (Hm s (HP s Hs)).
  destruct (m s) as [[a| o | e |] s']; auto.
Qed.

(** A step that leaves the state alone and goes on or throws. *)
Lemma triple_goesOn {A} (P : BaseState -> Prop) (m : M BaseState A)
    (ok : bool) (value : A) R :
  (forall s, exists r, m s = (r, s) /\ goesOnWhen ok value r) ->
  triple P m (fun _ => P) R (fun _ => P).
Proof.
  intros Hm s Hs. destruct (Hm s) as [r [-> [Ht Hf]]].
  destruct ok.
  - rewrite (Ht eq_refl). exact Hs.
  - destruct (Hf eq_refl) as [e ->]. exact Hs.
Qed.

Section ImageProgress.

Open Scope Q_scope.

Lemma step_progress_eq (i n : Z) :
  PDFToImage.stepProgress i n == 15 + 80 * (inject_Z i / inject_Z n).
Proof. unfold PDFToImage.stepProgress, Qdiv. ring. Qed.

Lemma step_progress_mono (i j n : Z) :
  (0 <= n)%Z -> (i <= j)%Z ->
  PDFToImage.stepProgress i n <= PDFToImage.stepProgress j n.
Proof.
  intros Hn Hij. rewrite !step_progress_eq.
  pose proof (ratio_mono i j n Hn Hij). lra.
Qed.

Lemma step_progress_range (i n : Z) :
  (0 <= i <= n)%Z -> 15 <= PDFToImage.stepProgress i n <= 95.
Proof.
  intros Hi. rewrite !step_progress_eq.
  pose proof (ratio_nonneg i n ltac:(lia) ltac:(lia)).
  destruct (Z.eq_dec n 0) as [->|Hn].
  - replace i with 0%Z by lia. cbn. unfold Qle; simpl; lia.
  - pose proof (ratio_le_1 i n ltac:(lia) ltac:(lia)). lra.
Qed.

Variables (env : PDFToImage.Env) (o : PDFToImage.PDFToImageOptions)
          (doc : PdfDocument) (n : Z).

Lemma image_try_progress (b : Q) (body : M BaseState Blob) (ok : bool)
    (image : Blob) (msg : string) :
  b < 100 ->
  (forall s, exists r, body s = (r, s) /\ goesOnWhen ok image r) ->
  triple (reportedUpTo b)
    (tryCatch body (fun error => return_ (PDFToImage.failedOutput msg error)))
    (fun _ => reportedUpTo b) contract (fun _ => below100).
Proof.
  intros Hb Hbody.
  apply triple_tryCatch with (Eb := fun _ => reportedUpTo b).
  - apply (triple_goesOn _ body ok image _ Hbody).
  - intros e. unfold PDFToImage.failedOutput. apply prog_error. exact Hb.
Qed.

Lemma pageLoop_progress (ps : list Z) :
  forall i images,
    (0 <= i)%Z -> (i + Z.of_nat (List.length ps) = n)%Z ->
    triple (reportedUpTo (PDFToImage.stepProgress i n))
           (PDFToImage.pageLoop env doc o n ps i images)
           (fun _ => reportedUpTo 95) contract (fun _ => below100).
Proof.
  induction ps as [|p ps IH]; intros i images Hi Hn;
    cbn [PDFToImage.pageLoop List.length] in *.
  - apply triple_ret. intros s Hs.
    apply (reportedUpTo_weaken _ 95 s Hs).
    apply (step_progress_range i n). lia.
  - pose proof (step_progress_range i n ltac:(lia)) as Hr.
    repeat prog_step.
    eapply triple_bind.
    + apply (image_try_progress _ _ (PDFToImage.pageRenders env doc p)
               (PDFToImage.imageOfGroup o [p])); [lra|].
      intros s. apply renderPageToImage_run.
    + intros image.
      apply (prog_weaken _ (PDFToImage.stepProgress (i + 1) n));
        [apply step_progress_mono; lia|].
      apply IH; lia.
Qed.

Lemma groupImage_progress (g : list Z) (i : Z) :
  (0 <= i)%Z -> (i + 1 <= n)%Z ->
  triple (reportedUpTo (PDFToImage.stepProgress i n))
         (PDFToImage.groupImage env doc o n i g)
         (fun _ => reportedUpTo (PDFToImage.stepProgress i n))
         contract (fun _ => below100).
Proof.
  intros Hi Hn. pose proof (step_progress_range i n ltac:(lia)) as Hr.
  unfold PDFToImage.groupImage.
  destruct g as [|p [|q rest]]; cbv zeta;
    (eapply triple_bind; [prog_atom | intros ?]).
  - eapply (image_try_progress _ _ _ (PDFToImage.imageOfGroup o [])); [lra|].
    intros s. apply renderGridPagesToImage_run.
  - apply (image_try_progress _ _ (PDFToImage.pageRenders env doc p)
             (PDFToImage.imageOfGroup o [p])); [lra|].
    intros s. apply renderPageToImage_run.
  - eapply (image_try_progress _ _ _ (PDFToImage.imageOfGroup o (p :: q :: rest)));
      [lra|].
    intros s. apply renderGridPagesToImage_run.
Qed.

Lemma groupsLoop_progress (groups : list (list Z)) :
  forall i images,
    (0 <= i)%Z -> (i + Z.of_nat (List.length groups) = n)%Z ->
    triple (reportedUpTo (PDFToImage.stepProgress i n))
           (PDFToImage.groupsLoop env doc o n groups i images)
           (fun _ => reportedUpTo 95) contract (fun _ => below100).
Proof.
  induction groups as [|g groups IH]; intros i images Hi Hn;
    cbn [PDFToImage.groupsLoop List.length] in *.
  - apply triple_ret. intros s Hs.
    apply (reportedUpTo_weaken _ 95 s Hs).
    apply (step_progress_range i n). lia.
  - pose proof (step_progress_range i n ltac:(lia)) as Hr.
    repeat prog_step.
    eapply triple_bind.
    + apply groupImage_progress; lia.
    + intros image.
      apply (prog_weaken _ (PDFToImage.stepProgress (i + 1) n));
        [apply step_progress_mono; lia|].
      apply IH; lia.
Qed.

End ImageProgress.

Lemma image_progress env input :
  triple (fun _ => True) (PDFToImage.process env input)
         contract contract (fun _ _ => True).
Proof.
  unfold PDFToImage.process.
  apply triple_bind with (Qm := fun _ s => reports s = []);
    [apply triple_reset; intros s _; reflexivity|].
  intros _. cbv zeta.
  destruct (files input) as [|file [|file' rest]]; try (repeat prog_step; fail).
  match goal with |- triple _ (if ?c then _ else _) _ _ _ => destruct c end;
    [repeat prog_step|].
  eapply triple_tryCatch with (Eb := fun _ => below100).
  - repeat prog_step.
    eapply triple_bind.
    + match goal with |- triple _ (if ?c then _ else _) _ _ _ => destruct c end.
      * eapply prog_weaken;
          [ | apply pageLoop_progress; [lia | unfold PDFToImage.lengthZ; lia] ].
        apply step_progress_range. unfold PDFToImage.lengthZ. lia.
      * match goal with
        | |- triple _ (match ?g with Some _ => _ | None => _ end) _ _ _ =>
            destruct g as [groups|]
        end; [|apply triple_hang].
        eapply prog_weaken;
          [ | apply groupsLoop_progress; [lia | unfold PDFToImage.lengthZ; lia] ].
        apply step_progress_range. unfold PDFToImage.lengthZ. lia.
    + intros images. cbv beta.
      eapply triple_bind; [prog_atom|]. intros ?.
      destruct images as [|im [|im' ims]]; repeat prog_step.
  - intros e. unfold PDFToImage.failedOutput. repeat prog_step.
Qed.

Section WatermarkProgress.

Open Scope Q_scope.

(** The percentage reported after [k] pages out of [n]. *)
Lemma watermark_progress_eq (i n : Z) :
  Watermark.pageProgress i n == 30 + 60 * (inject_Z (i + 1) / inject_Z n).
Proof.
  unfold Watermark.pageProgress, Qdiv. rewrite inject_Z_plus.
  change (inject_Z 1) with 1. ring.
Qed.

Lemma watermark_progress_range (i n : Z) :
  (0 <= i)%Z -> (i + 1 <= n)%Z -> 30 <= Watermark.pageProgress i n <= 90.
Proof.
  intros Hi Hn. rewrite !watermark_progress_eq.
  pose proof (ratio_nonneg (i + 1) n ltac:(lia) ltac:(lia)).
  pose proof (ratio_le_1 (i + 1) n ltac:(lia) ltac:(lia)). lra.
Qed.

Lemma watermark_progress_mono (i n : Z) :
  (0 <= n)%Z ->
  Watermark.pageProgress i n <= Watermark.pageProgress (i + 1) n.
Proof.
  intros Hn. rewrite !watermark_progress_eq.
  pose proof (ratio_mono (i + 1) (i + 1 + 1) n Hn ltac:(lia)). lra.
Qed.

Variables (env : Watermark.Env) (doc : Watermark.WmDocument)
          (o : Watermark.WatermarkOptions) (n : Z).

(** Before the page of index [i] the reports are at most [b], which is 30
    at the start and the percentage of the page before afterwards. *)
Lemma markLoop_progress (indices : list Z) :
  forall i marks b,
    (0 <= i)%Z -> (i + Z.of_nat (List.length indices) = n)%Z ->
    b <= 90 ->
    (indices <> [] -> b <= Watermark.pageProgress i n) ->
    triple (reportedUpTo b)
           (Watermark.markLoop env doc o n indices i marks)
           (fun _ => reportedUpTo 90) contract (fun _ => below100).
Proof.
  induction indices as [|p indices IH]; intros i marks b Hi Hn Hb90 Hb;
    cbn [Watermark.markLoop List.length] in *.
  - apply triple_ret. intros s Hs. apply (reportedUpTo_weaken b 90 s Hs Hb90).
  - pose proof (watermark_progress_range i n Hi ltac:(lia)) as Hr.
    specialize (Hb ltac:(discriminate)).
    repeat prog_step.
    apply triple_bind with (Qm := fun _ => reportedUpTo b).
    + match goal with |- triple _ (if ?c then _ else _) _ _ _ => destruct c end.
      { eapply triple_bind; [prog_atom|]. intros ?.
        eapply triple_bind; [prog_atom|]. intros ?.
        apply triple_ret. intros s Hs. exact Hs. }
      match goal with |- triple _ (if ?c then _ else _) _ _ _ => destruct c end;
        [|apply triple_ret; intros s Hs; exact Hs].
      eapply triple_bind; [prog_atom|]. intros ?.
      eapply triple_bind; [prog_atom|]. intros ?.
      apply triple_ret. intros s Hs. exact Hs.
    + intros marks'. cbv beta.
      eapply triple_bind; [prog_atom|]. intros ?.
      apply IH; try lia; [lra|].
      intros _. apply watermark_progress_mono. lia.
Qed.

End WatermarkProgress.

Lemma watermark_progress env input :
  triple (fun _ => True) (Watermark.process env input)
         contract contract (fun _ _ => True).
Proof.
  unfold Watermark.process.
  apply triple_bind with (Qm := fun _ s => reports s = []);
    [apply triple_reset; intros s _; reflexivity|].
  intros _. cbv zeta.
  destruct (files input) as [|file [|file' rest]]; try (repeat prog_step; fail).
  eapply triple_tryCatch with (Eb := fun _ => below100).
  - repeat prog_step.
    eapply triple_bind.
    + apply markLoop_progress; try lia.
      * unfold Watermark.lengthZ. lia.
      * unfold Qle; simpl; lia.
      * intros Hne.
        apply watermark_progress_range; [lia|].
        unfold Watermark.lengthZ.
        destruct (getPageIndices _ _); [congruence | simpl List.length; lia].
    + intros marks. cbv beta. repeat prog_step.
  - intros e. repeat prog_step.
Qed.

Section Keeps.

Context {St : Type} (P : St -> Prop).

Lemma keeps_ret {A} (a : A) : keeps P (ret a).
Proof. apply triple_ret. trivial. Qed.

Lemma keeps_return {A} (o : ProcessOutput) : keeps (A := A) P (return_ o).
Proof. apply triple_return. trivial. Qed.

Lemma keeps_throw {A} (e : Thrown) : keeps (A := A) P (throw e).
Proof. apply triple_throw. trivial. Qed.

Lemma keeps_hang {A} : keeps (A := A) P (fun s => (Hang, s)).
Proof. apply triple_hang. Qed.

Lemma keeps_await {A} (o : Outcome A) : keeps P (await o).
Proof. apply triple_await; trivial. Qed.

Lemma keeps_gets {A} (f : St -> A) : keeps P (gets f).
Proof. apply triple_gets. trivial. Qed.

Lemma keeps_modify (f : St -> St) :
  (forall s, P s -> P (f s)) -> keeps P (modify f).
Proof. intros Hf. apply triple_modify. exact Hf. Qed.

Lemma keeps_bind {A B} (m : M St A) (k : A -> M St B) :
  keeps P m -> (forall a, keeps P (k a)) -> keeps P (bind m k).
Proof. intros Hm Hk. eapply triple_bind; [exact Hm | exact Hk]. Qed.

Lemma keeps_tryCatch {A} (body : M St A) (handler : Thrown -> M St A) :
  keeps P body -> (forall e, keeps P (handler e)) ->
  keeps P (tryCatch body handler).
Proof. intros Hb Hh. eapply triple_tryCatch; [exact Hb | exact Hh]. Qed.

End Keeps.

Ltac keeps_step :=
  lazymatch goal with
  | |- keeps _ (bind _ _) => apply keeps_bind; [|intros ?]
  | |- keeps _ (tryCatch _ _) => apply keeps_tryCatch; [|intros ?]
  | |- keeps _ (ret _) => apply keeps_ret
  | |- keeps _ (return_ _) => apply keeps_return
  | |- keeps _ (throw _) => apply keeps_throw
  | |- keeps _ (fun s => (Hang, s)) => apply keeps_hang
  | |- keeps _ (await _) => apply keeps_await
  | |- keeps _ (gets _) => apply keeps_gets
  | |- keeps _ (modify _) => apply keeps_modify
  end.

Ltac keeps_case :=
  lazymatch goal with
  | |- keeps _ (if ?c then _ else _) => destruct c
  | |- keeps _ (match ?x with _ => _ end) => destruct x
  | |- keeps _ (let _ := _ in _) => cbv zeta
  end.

Ltac keeps_with leaf := repeat first [ leaf | keeps_step | keeps_case ].

Section DocxProgress.

Lemma failing_bind {St A B} (m : M St A) (k : A -> M St B)
    (Q' : B -> St -> Prop) (R : ProcessOutput -> St -> Prop) :
  (forall o s, failing o -> R o s) ->
  onlyReturns failing m ->
  (forall a, triple (fun _ => True) (k a) Q' R (fun _ _ => True)) ->
  triple (fun _ => True) (bind m k) Q' R (fun _ _ => True).
Proof.
  intros HR Hm Hk. apply triple_bind with (Qm := fun _ _ => True).
  - eapply triple_conseq; [| | | |exact Hm]; cbv beta; auto.
  - exact Hk.
Qed.

Lemma docx_awaitInit_only (events : list PDFToDocx.WorkerEvent) :
  onlyReturns failing (PDFToDocx.awaitInit events).
Proof.
  induction events as [|[m|t] events IH]; cbn [PDFToDocx.awaitInit];
    unfold PDFToDocx.initHandleMessage;
    only_with ltac:(first [reflexivity | apply IH]).
Qed.

Lemma docx_awaitConvert_only (msgId : string)
    (events : list PDFToDocx.WorkerEvent) :
  onlyReturns failing (PDFToDocx.awaitConvert msgId events).
Proof.
  induction events as [|[m|t] events IH]; cbn [PDFToDocx.awaitConvert];
    unfold PDFToDocx.initHandleMessage;
    only_with ltac:(first [reflexivity | apply IH]).
Qed.

Lemma docx_initWorker_only (env : PDFToDocx.Env) :
  onlyReturns failing (PDFToDocx.initWorker env).
Proof.
  unfold PDFToDocx.initWorker.
  only_with ltac:(first [reflexivity | apply docx_awaitInit_only]).
Qed.

Lemma docx_finish (o : ProcessOutput) (Q' : ProcessOutput -> PDFToDocx.State -> Prop) :
  triple (fun _ => True) (updateProgress 100 ;; return_ o) Q'
         (fun o s => success o = true -> PDFToDocx.endsAt100 s)
         (fun _ _ => True).
Proof.
  intros s _. cbn. intros _. unfold PDFToDocx.endsAt100. cbn.
  apply last_last.
Qed.

Lemma docx_progress env input :
  triple (fun _ => True) (PDFToDocx.process env input)
         (fun o s => success o = true -> PDFToDocx.endsAt100 s)
         (fun o s => success o = true -> PDFToDocx.endsAt100 s)
         (fun _ _ => True).
Proof.
  assert (forall o (s : PDFToDocx.State),
            failing o -> success o = true -> PDFToDocx.endsAt100 s) as Hfail
    by (unfold failing; intros; congruence).
  assert (forall c msg det,
            triple (fun _ : PDFToDocx.State => True)
              (return_ (createErrorOutput c msg det))
              (fun o s => success o = true -> PDFToDocx.endsAt100 s)
              (fun o s => success o = true -> PDFToDocx.endsAt100 s)
              (fun _ _ => True)) as Herr
    by (intros c msg det s _; cbn; discriminate).
  unfold PDFToDocx.process.
  apply failing_bind; [exact Hfail | apply only_reset|]. intros _.
  destruct (files input) as [|file [|file' rest]]; try apply Herr.
  match goal with |- triple _ (if ?c then _ else _) _ _ _ => destruct c end;
    [apply Herr|].
  apply triple_tryCatch with (Eb := fun _ _ => True).
  - apply failing_bind; [exact Hfail | apply only_updateProgress|]. intros _.
    apply failing_bind; [exact Hfail| |].
    { only_with ltac:(first [reflexivity | apply docx_initWorker_only]). }
    intros _.
    apply failing_bind; [exact Hfail | apply only_checkCancelled|]. intros c.
    destruct c; [apply Herr|].
    apply failing_bind; [exact Hfail | apply only_updateProgress|]. intros _.
    apply failing_bind; [exact Hfail | apply only_gets|]. intros w.
    apply failing_bind; [exact Hfail| |].
    { destruct w; [apply docx_awaitConvert_only | apply only_throw]. }
    intros docxBlob.
    apply failing_bind; [exact Hfail | apply only_checkCancelled|]. intros c.
    destruct c; [apply Herr|].
    apply docx_finish.
  - intros e.
    apply failing_bind; [exact Hfail | apply only_modify|]. intros _.
    apply Herr.
Qed.

(** The first report of a call that got past the checks of its input is
    the 10 of the initialisation, and it stays the first. *)
Lemma docx_awaitInit_started (events : list PDFToDocx.WorkerEvent) :
  keeps PDFToDocx.startsNear0 (PDFToDocx.awaitInit events).
Proof.
  induction events as [|[m|t] events IH]; cbn [PDFToDocx.awaitInit];
    unfold PDFToDocx.initHandleMessage, updateProgress;
    keeps_with ltac:(first
      [ apply IH
      | (intros s Hs; first [exact Hs | apply started_snoc; exact Hs]) ]).
Qed.

Lemma docx_awaitConvert_started (msgId : string)
    (events : list PDFToDocx.WorkerEvent) :
  keeps PDFToDocx.startsNear0 (PDFToDocx.awaitConvert msgId events).
Proof.
  induction events as [|[m|t] events IH]; cbn [PDFToDocx.awaitConvert];
    unfold PDFToDocx.initHandleMessage, updateProgress, getProgress;
    keeps_with ltac:(first
      [ apply IH
      | (intros s Hs; first [exact Hs | apply started_snoc; exact Hs]) ]).
Qed.

Lemma docx_started env input :
  triple (fun _ => True) (PDFToDocx.process env input)
         (fun o s => success o = true -> PDFToDocx.startsNear0 s)
         (fun o s => success o = true -> PDFToDocx.startsNear0 s)
         (fun _ _ => True).
Proof.
  assert (forall c msg det (P : PDFToDocx.State -> Prop),
            triple P (return_ (createErrorOutput c msg det))
              (fun o s => success o = true -> PDFToDocx.startsNear0 s)
              (fun o s => success o = true -> PDFToDocx.startsNear0 s)
              (fun _ _ => True)) as Herr
    by (intros c msg det P s _; cbn; discriminate).
  unfold PDFToDocx.process.
  apply triple_bind with (Qm := fun _ s => reports (PDFToDocx.base s) = []).
  { apply triple_reset. intros s _. reflexivity. }
  intros _.
  destruct (files input) as [|file [|file' rest]]; try apply Herr.
  match goal with |- triple _ (if ?c then _ else _) _ _ _ => destruct c end;
    [apply Herr|].
  apply triple_tryCatch with (Eb := fun _ _ => True).
  - apply triple_bind with (Qm := fun _ => PDFToDocx.startsNear0).
    { apply triple_updateProgress. intros s Hs.
      unfold PDFToDocx.startsNear0. cbn. rewrite Hs. cbn.
      unfold Qle. simpl. lia. }
    intros _.
    eapply triple_conseq
      with (P' := PDFToDocx.startsNear0)
           (Q' := fun _ => PDFToDocx.startsNear0)
           (R' := fun _ => PDFToDocx.startsNear0)
           (E' := fun _ => PDFToDocx.startsNear0);
      [auto | auto | auto | auto |].
    match goal with
    | |- triple _ ?m _ _ _ => change (keeps PDFToDocx.startsNear0 m)
    end.
    unfold PDFToDocx.initWorker, updateProgress.
    keeps_with ltac:(first
      [ apply docx_awaitInit_started
      | apply docx_awaitConvert_started
      | apply triple_checkCancelled; intros s Hs; exact Hs
      | (intros s Hs; first [exact Hs | apply started_snoc; exact Hs]) ]).
  - intros e. eapply triple_bind with (Qm := fun _ _ => True).
    + apply triple_modify. trivial.
    + intros _. apply Herr.
Qed.

(** As long as the worker sends no percentage of 100 or more, 100 is
    reported by the last step of a successful call only. *)
Lemma under100_update (p : Q) (s : PDFToDocx.State) :
  PDFToDocx.under100 s -> (p < 100)%Q ->
  PDFToDocx.under100
    (setBase (mkBase (clamp p) (reports (getBase s) ++ [clamp p])
                     (polls (getBase s))) s).
Proof.
  intros [Hr Hp] Hp100.
  assert (clamp p < 100)%Q as Hc.
  { unfold clamp. eapply Qle_lt_trans; [apply Q.le_min_r|].
    apply Q.max_lub_lt; [reflexivity | exact Hp100]. }
  split; cbn; [|exact Hc].
  unfold below100. cbn. apply Forall_app. split; [exact Hr|].
  constructor; [exact Hc | constructor].
Qed.

Lemma docx_initHandleMessage_under100 (settled : bool)
    (m : Worker.WorkerMessage) :
  keeps PDFToDocx.under100 (PDFToDocx.initHandleMessage settled m).
Proof.
  unfold PDFToDocx.initHandleMessage.
  keeps_with ltac:(first
    [ apply triple_updateProgress; intros s Hs;
      apply under100_update; [exact Hs | reflexivity]
    | (intros s Hs; exact Hs) ]).
Qed.

Lemma docx_awaitInit_under100 (events : list PDFToDocx.WorkerEvent) :
  keeps PDFToDocx.under100 (PDFToDocx.awaitInit events).
Proof.
  induction events as [|[m|t] events IH]; cbn [PDFToDocx.awaitInit];
    keeps_with ltac:(first
      [ apply IH | apply docx_initHandleMessage_under100 ]).
Qed.

Lemma docx_awaitConvert_under100 (msgId : string)
    (events : list PDFToDocx.WorkerEvent) :
  Forall PDFToDocx.percentBelow100 events ->
  keeps PDFToDocx.under100 (PDFToDocx.awaitConvert msgId events).
Proof.
  induction 1 as [|ev events Hev _ IH]; cbn [PDFToDocx.awaitConvert];
    [apply keeps_hang|].
  destruct ev as [m|t]; [|apply keeps_throw].
  apply keeps_bind; [apply docx_initHandleMessage_under100|]. intros _.
  destruct (String.eqb (Worker.type m) "status").
  { intros s Hs. unfold bind at 1, getProgress, gets. cbn beta iota.
    unfold bind at 1, updateProgress at 1, modify at 1. cbn beta iota.
    apply IH. apply under100_update; [exact Hs | exact (proj2 Hs)]. }
  destruct (String.eqb (Worker.type m) "progress").
  { intros s Hs. unfold bind at 1, getProgress, gets. cbn beta iota.
    unfold bind at 1, updateProgress at 1, modify at 1. cbn beta iota.
    apply IH. apply under100_update; [exact Hs|].
    cbn in Hev. destruct (Worker.percent m) as [v|];
      [exact Hev | exact (proj2 Hs)]. }
  keeps_with ltac:(apply IH).
Qed.

Lemma docx_never100 env input :
  Forall PDFToDocx.percentBelow100 (PDFToDocx.convertEvents env) ->
  triple (fun _ => True) (PDFToDocx.process env input)
         (fun o s => success o = false -> below100 (PDFToDocx.base s))
         (fun o s => success o = false -> below100 (PDFToDocx.base s))
         (fun _ _ => True).
Proof.
  intros Hev.
  assert (forall o,
            triple PDFToDocx.under100 (return_ o)
              (fun o s => success o = false -> below100 (PDFToDocx.base s))
              (fun o s => success o = false -> below100 (PDFToDocx.base s))
              (fun _ => PDFToDocx.under100)) as Hret
    by (intros o s Hs _; exact (proj1 Hs)).
  assert (forall {A} (m : M PDFToDocx.State A),
            keeps PDFToDocx.under100 m ->
            triple PDFToDocx.under100 m (fun _ => PDFToDocx.under100)
              (fun o s => success o = false -> below100 (PDFToDocx.base s))
              (fun _ => PDFToDocx.under100)) as Hkeep.
  { intros A m Hm. eapply triple_conseq; [| | | |exact Hm]; cbv beta; auto;
      try (intros o s Hs _; exact (proj1 Hs)). }
  unfold PDFToDocx.process.
  apply triple_bind with (Qm := fun _ => PDFToDocx.under100).
  { apply triple_reset. intros s _. split; cbn; [constructor | reflexivity]. }
  intros _.
  destruct (files input) as [|file [|file' rest]];
    try (eapply triple_conseq; [| | | |apply Hret]; cbv beta; auto; fail).
  match goal with |- triple _ (if ?c then _ else _) _ _ _ => destruct c end;
    [eapply triple_conseq; [| | | |apply Hret]; cbv beta; auto|].
  apply triple_tryCatch with (Eb := fun _ => PDFToDocx.under100).
  - eapply triple_bind; [apply Hkeep|intros ?; cbv beta].
    { apply triple_updateProgress. intros s Hs.
      apply under100_update; [exact Hs | reflexivity]. }
    eapply triple_bind; [|intros ?; cbv beta].
    { apply triple_tryCatch with (Eb := fun _ => PDFToDocx.under100).
      - apply Hkeep. unfold PDFToDocx.initWorker.
        keeps_with ltac:(first
          [ apply docx_awaitInit_under100 | (intros s Hs; exact Hs) ]).
      - intros e. apply Hret. }
    eapply triple_bind; [apply Hkeep|intros c].
    { apply triple_checkCancelled. intros s Hs. exact Hs. }
    destruct c; [apply Hret|].
    eapply triple_bind; [apply Hkeep|intros ?; cbv beta].
    { apply triple_updateProgress. intros s Hs.
      apply under100_update; [exact Hs | reflexivity]. }
    eapply triple_bind; [apply Hkeep|intros w].
    { apply triple_gets. intros s Hs. exact Hs. }
    eapply triple_bind; [apply Hkeep|intros docxBlob].
    { destruct w; [apply docx_awaitConvert_under100, Hev | apply keeps_throw]. }
    eapply triple_bind; [apply Hkeep|intros c].
    { apply triple_checkCancelled. intros s Hs. exact Hs. }
    destruct c; [apply Hret|].
    intros s _. cbn. discriminate.
  - intros e. eapply triple_bind with (Qm := fun _ => PDFToDocx.under100).
    + apply triple_modify. intros s Hs. unfold PDFToDocx.under100 in *.
      destruct (PDFToDocx.worker s); exact Hs.
    + intros _. eapply triple_conseq; [| | | |apply Hret]; cbv beta; auto.
Qed.

(** The worker code reports 5, 10, 85 and 90 only. *)
Lemma worker_percents_below100 (w : Worker.Env) (st : Worker.State)
    (rid : option string) :
  Forall PDFToDocx.percentBelow100
    (map PDFToDocx.MessageEvent (fst (Worker.onmessage w st "convert" rid))).
Proof.
  assert (forall st', Forall PDFToDocx.percentBelow100
            (map PDFToDocx.MessageEvent (Worker.convert w rid st'))) as Hconv.
  { intros st'. unfold Worker.convert.
    repeat match goal with
           | |- context [match ?x with Done _ => _ | Fails _ => _ end] =>
               destruct x
           | |- context [if ?c then _ else _] => destruct c
           end;
      repeat constructor. }
  assert (forall e, PDFToDocx.percentBelow100
            (PDFToDocx.MessageEvent (Worker.errorMsg rid e))) as Herr
    by (intros e; exact I).
  unfold Worker.onmessage.
  change (String.eqb "convert" "init") with false.
  change (String.eqb "convert" "convert") with true. cbv iota.
  destruct (Worker.pyodide st) eqn:Ep.
  { cbn [fst app]. apply Hconv. }
  unfold Worker.ensureInit. destruct (Worker.initPromise st) as [[[]|e]|].
  - cbn [fst app]. apply Hconv.
  - cbn [fst app map]. constructor; [apply Herr | constructor].
  - unfold Worker.init. rewrite Ep.
    repeat match goal with
           | |- context [match ?x with Done _ => _ | Fails _ => _ end] =>
               destruct x
           end;
      cbn [fst]; rewrite map_app; apply Forall_app; split;
      try apply Hconv; repeat constructor.
Qed.

End DocxProgress.

(** C2. For the rasterize, the PDF to image and the watermark processors,
    every call that resolves obeys the progress contract: when it
    succeeds the reported percentages are non-decreasing, the first is at
    most 10 and the last is 100; when it fails 100 was never reported.
    For the PDF to DOCX processor a successful call starts at most at 10
    and ends with 100, and a failed call never reported 100 as long as
    the worker sends no percentage of 100 or more, and the worker code
    never does (it sends 5, 10, 85 and 90); but its sequence is not
    monotone. On the first
    call of a fresh processor, served by the worker code, the call
    succeeds and the callback receives 10, then 0 for each status message
    of the initialisation, then 30 and the worker's own 5, 10, 85, 90,
    then 100. *)
Theorem C2_progress_reports :
  (forall env input o s,
     Rasterize.run env input = (Resolved o, s) -> contract o s) /\
  (forall env input o s,
     PDFToImage.run env input = (Resolved o, s) -> contract o s) /\
  (forall env input o s,
     Watermark.run env input = (Resolved o, s) -> contract o s) /\
  (forall env input s0 o s,
     PDFToDocx.run env input s0 = (Resolved o, s) ->
     success o = true ->
     PDFToDocx.startsNear0 s /\ PDFToDocx.endsAt100 s) /\
  (forall env input s0 o s,
     Forall PDFToDocx.percentBelow100 (PDFToDocx.convertEvents env) ->
     PDFToDocx.run env input s0 = (Resolved o, s) ->
     success o = false ->
     below100 (PDFToDocx.base s)) /\
  (forall w st t,
     Forall PDFToDocx.percentBelow100 (Examples.convertEventsOf w st t)) /\
  (exists o s,
     PDFToDocx.run (Examples.docxEnvFirst Examples.workerOk 1000)
                   (Examples.docxInput Examples.pdfFile) PDFToDocx.fresh =
       (Resolved o, s) /\
     success o = true /\
     reports (PDFToDocx.base s) =
       [10; 0; 0; 0; 0; 30; 5; 10; 85; 90; 100]%Q /\
     ~ StronglySorted Qle (reports (PDFToDocx.base s))).
Proof.
  split; [|split; [|split; [|split; [|split; [|split]]]]].
  - intros env input o s Hrun.
    pose proof (triple_settle _ _ _ _ (rasterize_progress env input)
                  Rasterize.fresh I) as H.
    unfold Rasterize.run in Hrun. rewrite Hrun in H. exact H.
  - intros env input o s Hrun.
    pose proof (triple_settle _ _ _ _ (image_progress env input)
                  PDFToImage.fresh I) as H.
    unfold PDFToImage.run in Hrun. rewrite Hrun in H. exact H.
  - intros env input o s Hrun.
    pose proof (triple_settle _ _ _ _ (watermark_progress env input)
                  Watermark.fresh I) as H.
    unfold Watermark.run in Hrun. rewrite Hrun in H. exact H.
  - intros env input s0 o s Hrun Hok. split.
    + pose proof (triple_settle _ _ _ _ (docx_started env input) s0 I) as H.
      unfold PDFToDocx.run in Hrun. rewrite Hrun in H. exact (H Hok).
    + pose proof (triple_settle _ _ _ _ (docx_progress env input) s0 I) as H.
      unfold PDFToDocx.run in Hrun. rewrite Hrun in H. exact (H Hok).
  - intros env input s0 o s Hev Hrun Hfail.
    pose proof (triple_settle _ _ _ _ (docx_never100 env input Hev) s0 I) as H.
    unfold PDFToDocx.run in Hrun. rewrite Hrun in H. exact (H Hfail).
  - intros w st t. apply worker_percents_below100.
  - do 2 eexists. split; [vm_compute; reflexivity|].
    split; [reflexivity|]. split; [reflexivity|].
    cbn [reports PDFToDocx.base].
    intros H. inversion H as [|x l Hl Hx]; subst.
    inversion Hx as [|y l' Hy Hl']; subst.
    revert Hy. unfold Qle. simpl. lia.
Qed.

Lemma C2_witness :
  (exists o s,
     Rasterize.run (Examples.rasterEnv (Examples.docOf 3 (fun p => p =? 2)))
                   (Examples.rasterInput Examples.pdfFile Rasterize.png "") =
       (Resolved o, s) /\
     success o = true /\
     map Qred (reports s) = [5; 10; 10; 15; 15; 40; 65; 92; 100]%Q /\
     contract o s) /\
  (exists o s,
     PDFToImage.run (Examples.imageEnv (Examples.docOf 5 (fun p => false)))
                    (Examples.imageInput Examples.pdfFile []
                       (Some (PDFToImage.mkLayout "2x2" 2 2 true))) =
       (Resolved o, s) /\
     success o = true /\
     map Qred (reports s) = [5; 10; 15; 15; 55; 95; 100]%Q /\
     contract o s) /\
  (exists o s,
     Watermark.run (Examples.wmEnv 3)
                   (Examples.wmInput Examples.pdfFile (PagesKeyword "odd")) =
       (Resolved o, s) /\
     success o = true /\
     map Qred (reports s) = [10; 20; 30; 60; 90; 95; 100]%Q /\
     contract o s) /\
  (exists o s,
     PDFToDocx.run (Examples.docxEnvFirst Examples.workerOk 1000)
                   (Examples.docxInput Examples.pdfFile) PDFToDocx.fresh =
       (Resolved o, s) /\
     success o = true /\
     PDFToDocx.startsNear0 s /\ PDFToDocx.endsAt100 s) /\
  (exists o s,
     PDFToDocx.run (Examples.docxEnvLater Examples.workerBadPdf 2000)
                   (Examples.docxInput Examples.pdfFile) Examples.docxReady =
       (Resolved o, s) /\
     success o = false /\
     map Qred (reports (PDFToDocx.base s)) = [10; 30; 5; 10]%Q /\
     below100 (PDFToDocx.base s)).
Proof.
  split; [|split; [|split; [|split]]].
  - do 2 eexists. split; [vm_compute; reflexivity|].
    split; [reflexivity|]. split; [reflexivity|].
    apply (proj1 C2_progress_reports
             (Examples.rasterEnv (Examples.docOf 3 (fun p => p =? 2)))
             (Examples.rasterInput Examples.pdfFile Rasterize.png "")).
    vm_compute. reflexivity.
  - do 2 eexists. split; [vm_compute; reflexivity|].
    split; [reflexivity|]. split; [reflexivity|].
    apply (proj1 (proj2 C2_progress_reports)
             (Examples.imageEnv (Examples.docOf 5 (fun p => false)))
             (Examples.imageInput Examples.pdfFile []
                (Some (PDFToImage.mkLayout "2x2" 2 2 true)))).
    vm_compute. reflexivity.
  - do 2 eexists. split; [vm_compute; reflexivity|].
    split; [reflexivity|]. split; [reflexivity|].
    apply (proj1 (proj2 (proj2 C2_progress_reports))
             (Examples.wmEnv 3)
             (Examples.wmInput Examples.pdfFile (PagesKeyword "odd"))).
    vm_compute. reflexivity.
  - do 2 eexists. split; [vm_compute; reflexivity|].
    split; [reflexivity|].
    apply (proj1 (proj2 (proj2 (proj2 C2_progress_reports)))
             (Examples.docxEnvFirst Examples.workerOk 1000)
             (Examples.docxInput Examples.pdfFile) PDFToDocx.fresh
             _ _ ltac:(vm_compute; reflexivity) eq_refl).
  - do 2 eexists. split; [vm_compute; reflexivity|].
    split; [reflexivity|]. split; [reflexivity|].
    apply (proj1 (proj2 (proj2 (proj2 (proj2 C2_progress_reports))))
             (Examples.docxEnvLater Examples.workerBadPdf 2000)
             (Examples.docxInput Examples.pdfFile) Examples.docxReady
             _ _
             ltac:(vm_compute; repeat constructor)
             ltac:(vm_compute; reflexivity) eq_refl).
Defined.

(** ** The life of the worker context *)

Section WorkerLife.

Import PDFToDocx.

Lemma sameWorkers_refl (s : State) : sameWorkers s s.
Proof. repeat split. Qed.

Lemma sameWorkers_trans (s1 s2 s3 : State) :
  sameWorkers s1 s2 -> sameWorkers s2 s3 -> sameWorkers s1 s3.
Proof.
  intros [A1 [B1 C1]] [A2 [B2 C2]]. repeat split; congruence.
Qed.

(** The listener of [initWorker], once its promise is settled, goes on and
    leaves the worker contexts alone. *)
Lemma initHandleMessage_settled (m : Worker.WorkerMessage) (s : State) :
  exists s', initHandleMessage true m s = (Next tt, s') /\ sameWorkers s s'.
Proof.
  unfold initHandleMessage.
  destruct (String.eqb (Worker.type m) "init-complete");
    [eexists; split; [reflexivity | repeat split]|].
  destruct (String.eqb (Worker.type m) "status");
    [eexists; split; [reflexivity | repeat split]|].
  destruct (String.eqb (Worker.type m) "error");
    eexists; (split; [reflexivity | repeat split]).
Qed.

(** The events that do not settle the request are consumed; they change
    the progress at most. *)
Lemma awaitConvert_quiet (msgId : string) (quiet rest : list WorkerEvent) :
  forallb (nonTerminal msgId) quiet = true ->
  forall s, exists s',
    awaitConvert msgId (quiet ++ rest) s = awaitConvert msgId rest s' /\
    sameWorkers s s'.
Proof.
  induction quiet as [|ev quiet IH]; intros Hq s.
  - exists s. split; [reflexivity | apply sameWorkers_refl].
  - cbn [forallb] in Hq. apply andb_true_iff in Hq. destruct Hq as [Hev Hq].
    destruct ev as [m|t]; [|discriminate].
    cbn [app awaitConvert]. unfold bind at 1.
    destruct (initHandleMessage_settled m s) as [s1 [-> H1]].
    unfold nonTerminal in Hev.
    destruct (String.eqb (Worker.type m) "status").
    { unfold bind at 1, getProgress at 1, gets at 1. cbn beta iota.
      unfold bind at 1, updateProgress at 1, modify at 1. cbn beta iota.
      match goal with
      | |- context [awaitConvert msgId (quiet ++ rest) ?st] =>
          destruct (IH Hq st) as [s' [-> H2]]
      end.
      exists s'. split; [reflexivity|].
      eapply sameWorkers_trans; [exact H1|].
      eapply sameWorkers_trans; [|exact H2]. repeat split. }
    destruct (String.eqb (Worker.type m) "progress").
    { unfold bind at 1, getProgress at 1, gets at 1. cbn beta iota.
      unfold bind at 1, updateProgress at 1, modify at 1. cbn beta iota.
      match goal with
      | |- context [awaitConvert msgId (quiet ++ rest) ?st] =>
          destruct (IH Hq st) as [s' [-> H2]]
      end.
      exists s'. split; [reflexivity|].
      eapply sameWorkers_trans; [exact H1|].
      eapply sameWorkers_trans; [|exact H2]. repeat split. }
    cbn [orb] in Hev.
    destruct (idMatches (Worker.id m) msgId); cbn [negb orb] in Hev |- *.
    + destruct (String.eqb (Worker.type m) "convert-complete");
        [discriminate|].
      destruct (String.eqb (Worker.type m) "error"); [discriminate|].
      destruct (IH Hq s1) as [s' [-> H2]].
      exists s'. split; [reflexivity|].
      eapply sameWorkers_trans; [exact H1 | exact H2].
    + destruct (IH Hq s1) as [s' [-> H2]].
      exists s'. split; [reflexivity|].
      eapply sameWorkers_trans; [exact H1 | exact H2].
Qed.

(** An application-level error rejects the promise of the conversion. *)
Lemma awaitConvert_app_error (msgId : string) (m : Worker.WorkerMessage)
    (rest : list WorkerEvent) (s : State) :
  isAppError msgId m = true ->
  awaitConvert msgId (MessageEvent m :: rest) s =
  (Throw (ErrorObj (orDefault (Worker.error m) "Conversion failed")), s).
Proof.
  unfold isAppError. intros H. apply andb_true_iff in H. destruct H as [Ht Hi].
  apply String.eqb_eq in Ht.
  cbn [awaitConvert]. unfold bind at 1, initHandleMessage.
  rewrite Ht, Hi. reflexivity.
Qed.

(** A failure of the channel rejects the promise of the conversion. *)
Lemma awaitConvert_transport_error (msgId : string) (text : string)
    (rest : list WorkerEvent) (s : State) :
  awaitConvert msgId (ErrorEvent text :: rest) s =
  (Throw (ErrorObj ("Worker error: " ++ text)%string), s).
Proof. reflexivity. Qed.

(** A call on a processor whose worker is alive, during which the promise
    of the conversion is rejected after some events that do not settle
    it: the call fails with [PROCESSING_FAILED] and the worker is shut
    down. *)
Lemma process_rejected (env : Env) (file : File) (s0 : State) (w : nat)
    (quiet : list WorkerEvent) (ev : WorkerEvent) (rest : list WorkerEvent)
    (text : string) :
  looksLikePdf file = true ->
  worker s0 = Some w ->
  cancelledAt env 0%nat = false ->
  convertEvents env = (quiet ++ ev :: rest)%list ->
  forallb (nonTerminal (msgIdOf env)) quiet = true ->
  (forall s, awaitConvert (msgIdOf env) (ev :: rest) s = (Throw (ErrorObj text), s)) ->
  exists s',
    run env (mkInput [file] tt) s0 =
      (Resolved (createErrorOutput PROCESSING_FAILED
                   "Failed to convert PDF to DOCX." (Some text)), s') /\
    worker s' = None /\ workerReady s' = false /\
    spawned s' = spawned s0 /\ terminated s' = w :: terminated s0.
Proof.
  intros Hf Hw Hc Hev Hq Hthrow.
  unfold run, process.
  unfold settle, bind at 1, reset, modify. cbn [files fst snd].
  rewrite (looksLikePdf_true file Hf).
  unfold initWorker, terminateWorker. run_unfold.
  cbn -[msgIdOf clamp awaitConvert]. rewrite Hw.
  cbn -[msgIdOf clamp awaitConvert]. rewrite Hc.
  cbn -[msgIdOf clamp awaitConvert]. rewrite Hev.
  match goal with
  | |- context [awaitConvert _ (quiet ++ ev :: rest) ?st] =>
      destruct (awaitConvert_quiet (msgIdOf env) quiet (ev :: rest) Hq st)
        as [s1 [-> [H1 [H2 H3]]]]
  end.
  rewrite Hthrow.
  cbn [worker spawned terminated] in H1, H2, H3.
  rewrite H1. eexists. split; [reflexivity|].
  cbn [worker workerReady spawned terminated]. rewrite H2, H3.
  repeat split.
Qed.

End WorkerLife.

Section WorkerRestart.

Import PDFToDocx.

Variable k : nat.

Ltac spawned_leaf :=
  match goal with
  | |- forall s, spawnedIs _ s -> spawnedIs _ _ =>
      let s := fresh "s" in
      let Hs := fresh "Hs" in
      intros s Hs; unfold spawnedIs in *; try destruct (worker s); exact Hs
  end.

Lemma awaitInit_keeps (events : list WorkerEvent) :
  keeps (spawnedIs k) (awaitInit events).
Proof.
  induction events as [|[m|t] events IH]; cbn [awaitInit];
    unfold initHandleMessage, updateProgress;
    keeps_with ltac:(first [spawned_leaf | apply IH]).
Qed.

Lemma awaitConvert_keeps (msgId : string) (events : list WorkerEvent) :
  keeps (spawnedIs k) (awaitConvert msgId events).
Proof.
  induction events as [|[m|t] events IH]; cbn [awaitConvert];
    unfold initHandleMessage, updateProgress, getProgress;
    keeps_with ltac:(first [spawned_leaf | apply IH]).
Qed.

Lemma setBase_keeps (b : BaseState) (s : State) :
  spawnedIs k s -> spawnedIs k (setBase b s).
Proof. intros Hs. exact Hs. Qed.

Lemma checkCancelled_keeps (c : nat -> bool) :
  keeps (spawnedIs k) (checkCancelled c).
Proof. apply triple_checkCancelled. intros s Hs. exact Hs. Qed.

(** After [initWorker] on a processor without a worker, one more context
    has been created. *)
Lemma initWorker_spawns (env : Env) :
  newWorker env = Done tt ->
  triple (fun s => worker s = None /\ spawned s = k) (initWorker env)
         (fun _ s => spawned s = S k) (fun _ s => spawned s = S k)
         (fun _ s => spawned s = S k).
Proof.
  intros Hnew s [Hw Hs]. unfold initWorker, bind at 1, gets. rewrite Hw, Hnew.
  unfold bind at 1, await, ret. unfold bind at 1, modify.
  match goal with
  | |- context [awaitInit _ ?st] => set (s1 := st)
  end.
  assert (spawned s1 = S k) as H1 by (subst s1; cbn; congruence).
  clearbody s1. revert s1 H1. clear s Hw Hs.
  induction (initEvents env) as [|[m|t] events IH]; intros s1 H1;
    cbn [awaitInit]; [exact I| |exact H1].
  unfold bind at 1, initHandleMessage.
  destruct (String.eqb (Worker.type m) "init-complete"); [exact H1|].
  destruct (String.eqb (Worker.type m) "status"); [apply IH; exact H1|].
  destruct (String.eqb (Worker.type m) "error"); [exact H1|].
  apply IH. exact H1.
Qed.

End WorkerRestart.

(** A call on a processor without a worker creates a new context. *)
Lemma process_restart (env : PDFToDocx.Env) (file : File)
    (s0 s' : PDFToDocx.State) (o : ProcessOutput) :
  looksLikePdf file = true ->
  PDFToDocx.worker s0 = None ->
  PDFToDocx.newWorker env = Done tt ->
  PDFToDocx.run env (mkInput [file] tt) s0 = (Resolved o, s') ->
  PDFToDocx.spawned s' = S (PDFToDocx.spawned s0).
Proof.
  intros Hf Hw Hnew Hrun.
  set (k := PDFToDocx.spawned s0).
  assert (triple (fun s => PDFToDocx.worker s = None /\ PDFToDocx.spawned s = k)
            (PDFToDocx.process env (mkInput [file] tt))
            (fun _ s => PDFToDocx.spawned s = S k)
            (fun _ s => PDFToDocx.spawned s = S k)
            (fun _ _ => True)) as Ht.
  { unfold PDFToDocx.process. cbn [files].
    rewrite (looksLikePdf_true file Hf).
    apply triple_bind
      with (Qm := fun _ s => PDFToDocx.worker s = None /\ PDFToDocx.spawned s = k).
    { apply triple_reset. intros s Hs. exact Hs. }
    intros _.
    apply triple_tryCatch with (Eb := fun _ s => PDFToDocx.spawned s = S k).
    - apply triple_bind
        with (Qm := fun _ s => PDFToDocx.worker s = None /\ PDFToDocx.spawned s = k).
      { apply triple_updateProgress. intros s Hs. exact Hs. }
      intros _.
      apply triple_bind with (Qm := fun _ s => PDFToDocx.spawned s = S k).
      { apply triple_tryCatch with (Eb := fun _ s => PDFToDocx.spawned s = S k).
        - apply initWorker_spawns. exact Hnew.
        - intros e. apply triple_return. trivial. }
      intros _.
      match goal with
      | |- triple _ ?m _ _ _ => change (keeps (PDFToDocx.spawnedIs (S k)) m)
      end.
      unfold updateProgress.
      keeps_with ltac:(first [ apply checkCancelled_keeps
                             | apply awaitConvert_keeps
                             | (intros s Hs; exact Hs) ]).
    - intros e. unfold PDFToDocx.terminateWorker.
      apply triple_bind with (Qm := fun _ s => PDFToDocx.spawned s = S k).
      + apply triple_modify. intros s Hs.
        destruct (PDFToDocx.worker s); exact Hs.
      + intros _. apply triple_return. trivial. }
  pose proof (triple_settle _ _ _ _ Ht s0 (conj Hw eq_refl)) as H.
  unfold PDFToDocx.run in Hrun. rewrite Hrun in H. exact H.
Qed.


(** ** The answers of the worker, as the processor receives them *)

Section WorkerAnswers.

Import PDFToDocx.

(** Status and progress messages do not settle the handshake. *)
Lemma awaitInit_notices (pre : list Worker.WorkerMessage) :
  Forall WorkerUse.isNotice pre ->
  forall rest s, exists s',
    awaitInit (map MessageEvent pre ++ rest) s = awaitInit rest s' /\
    worker s' = worker s /\ spawned s' = spawned s /\
    terminated s' = terminated s /\
    polls (base s') = polls (base s) /\
    workerReady s' = workerReady s.
Proof.
  induction 1 as [|m pre [[Ht|Ht] _] _ IH]; intros rest s.
  - exists s. repeat split.
  - cbn [map app awaitInit]. unfold bind at 1, initHandleMessage.
    rewrite Ht. cbn -[awaitInit clamp].
    match goal with
    | |- context [awaitInit _ ?st] => destruct (IH rest st) as [s' [-> Hs]]
    end.
    exists s'. split; [reflexivity | exact Hs].
  - cbn [map app awaitInit]. unfold bind at 1, initHandleMessage.
    rewrite Ht. cbn -[awaitInit clamp].
    destruct (IH rest s) as [s' [-> Hs]].
    exists s'. split; [reflexivity | exact Hs].
Qed.

(** [init-complete] resolves the handshake and marks the worker ready. *)
Lemma awaitInit_complete (m : Worker.WorkerMessage) (rest : list WorkerEvent)
    (s : State) :
  Worker.type m = "init-complete" ->
  awaitInit (MessageEvent m :: rest) s =
  (Next tt, mkState (base s) (worker s) true (spawned s) (terminated s)).
Proof.
  intros Ht. cbn [awaitInit]. unfold bind at 1, initHandleMessage.
  rewrite Ht. reflexivity.
Qed.

(** An [error] message rejects the handshake. *)
Lemma awaitInit_error (m : Worker.WorkerMessage) (rest : list WorkerEvent)
    (s : State) :
  Worker.type m = "error" ->
  awaitInit (MessageEvent m :: rest) s =
  (Throw (ErrorObj (orDefault (Worker.error m) "Worker initialization failed")),
   s).
Proof.
  intros Ht. cbn [awaitInit]. unfold bind at 1, initHandleMessage.
  rewrite Ht. reflexivity.
Qed.

(** Status and progress messages do not settle the conversion. *)
Lemma awaitConvert_notices (msgId : string) (pre : list Worker.WorkerMessage) :
  Forall WorkerUse.isNotice pre ->
  forall rest s, exists s',
    awaitConvert msgId (map MessageEvent pre ++ rest) s =
      awaitConvert msgId rest s' /\
    worker s' = worker s /\
    spawned s' = spawned s /\
    terminated s' = terminated s /\
    polls (base s') = polls (base s) /\
    workerReady s' = workerReady s.
Proof.
  induction 1 as [|m pre [[Ht|Ht] _] _ IH]; intros rest s.
  - exists s. repeat split.
  - cbn [map app awaitConvert].
    unfold bind at 1, initHandleMessage.
    rewrite Ht. cbn -[awaitConvert clamp].
    match goal with
    | |- context [awaitConvert _ _ ?st] =>
        destruct (IH rest st) as [s' [-> Hs]]
    end.
    exists s'. split; [reflexivity | exact Hs].
  - cbn [map app awaitConvert].
    unfold bind at 1, initHandleMessage.
    rewrite Ht. cbn -[awaitConvert clamp].
    match goal with
    | |- context [awaitConvert _ _ ?st] =>
        destruct (IH rest st) as [s' [-> Hs]]
    end.
    exists s'. split; [reflexivity | exact Hs].
Qed.

(** [convert-complete] with the id of the request resolves the
    conversion with the document of the message. *)
Lemma awaitConvert_complete (msgId : string) (t : Worker.WorkerMessage)
    (rest : list WorkerEvent) (s : State) :
  Worker.id t = Some msgId ->
  Worker.type t = "convert-complete" ->
  awaitConvert msgId (MessageEvent t :: rest) s = (Next (Worker.result t), s).
Proof.
  intros Hi Ht. cbn [awaitConvert]. unfold bind at 1, initHandleMessage.
  rewrite Ht, Hi. cbn -[String.eqb]. rewrite String.eqb_refl.
  reflexivity.
Qed.

End WorkerAnswers.


(** A call on a processor without a worker, up to the first event of the
    handshake that is not a notice. *)
Ltac docx_handshake Hf Hw Hnew Hev Hn :=
  unfold PDFToDocx.run, PDFToDocx.process;
  unfold settle, bind at 1, reset, modify; cbn [files fst snd];
  rewrite (looksLikePdf_true _ Hf);
  unfold PDFToDocx.initWorker, PDFToDocx.terminateWorker; run_unfold;
  cbn -[PDFToDocx.msgIdOf clamp PDFToDocx.awaitConvert PDFToDocx.awaitInit];
  rewrite Hw;
  cbn -[PDFToDocx.msgIdOf clamp PDFToDocx.awaitConvert PDFToDocx.awaitInit];
  rewrite Hnew;
  cbn -[PDFToDocx.msgIdOf clamp PDFToDocx.awaitConvert PDFToDocx.awaitInit];
  rewrite Hev;
  match goal with
  | |- context [PDFToDocx.awaitInit (map _ _ ++ ?more) ?st] =>
      let s1 := fresh "s1" in
      destruct (awaitInit_notices _ Hn more st)
        as [s1 [-> [Hw1 [Hs1 [Ht1 [Hp1 Hr1]]]]]];
      cbn [PDFToDocx.worker PDFToDocx.spawned PDFToDocx.terminated
           PDFToDocx.workerReady PDFToDocx.base polls] in Hw1, Hs1, Ht1, Hp1, Hr1
  end.

(** C6, as the code has it. On a processor whose worker is alive, an
    application-level [error] message that answers the conversion request
    fails the call with [PROCESSING_FAILED] and shuts the worker context
    down, exactly as a failure of the channel itself does; the next call
    then creates a new worker context and runs the handshake again. (The
    events before the failure do not settle the request; nothing is
    cancelled before the conversion.) The handshake of that next call is
    run in full: as long as the new worker has not answered the [init]
    request the call waits; when the worker answers it with an [error]
    message the call fails with [WORKER_FAILED] and the conversion is
    never asked for; and only after [init-complete] is the worker marked
    ready and the conversion request sent, whose document the call then
    returns. *)
Theorem C6_worker_errors_tear_down :
  (forall env file s0 w quiet m rest,
     looksLikePdf file = true ->
     PDFToDocx.worker s0 = Some w ->
     PDFToDocx.cancelledAt env 0%nat = false ->
     PDFToDocx.convertEvents env = quiet ++ PDFToDocx.MessageEvent m :: rest ->
     forallb (PDFToDocx.nonTerminal (PDFToDocx.msgIdOf env)) quiet = true ->
     PDFToDocx.isAppError (PDFToDocx.msgIdOf env) m = true ->
     exists o s',
       PDFToDocx.run env (mkInput [file] tt) s0 = (Resolved o, s') /\
       errorCode o = Some PROCESSING_FAILED /\
       PDFToDocx.worker s' = None /\
       PDFToDocx.workerReady s' = false /\
       PDFToDocx.terminated s' = w :: PDFToDocx.terminated s0) /\
  (forall env file s0 w quiet text rest,
     looksLikePdf file = true ->
     PDFToDocx.worker s0 = Some w ->
     PDFToDocx.cancelledAt env 0%nat = false ->
     PDFToDocx.convertEvents env = quiet ++ PDFToDocx.ErrorEvent text :: rest ->
     forallb (PDFToDocx.nonTerminal (PDFToDocx.msgIdOf env)) quiet = true ->
     exists o s',
       PDFToDocx.run env (mkInput [file] tt) s0 = (Resolved o, s') /\
       errorCode o = Some PROCESSING_FAILED /\
       PDFToDocx.worker s' = None /\
       PDFToDocx.workerReady s' = false /\
       PDFToDocx.terminated s' = w :: PDFToDocx.terminated s0) /\
  (forall env file s0 s' o,
     looksLikePdf file = true ->
     PDFToDocx.worker s0 = None ->
     PDFToDocx.newWorker env = Done tt ->
     PDFToDocx.run env (mkInput [file] tt) s0 = (Resolved o, s') ->
     PDFToDocx.spawned s' = S (PDFToDocx.spawned s0)) /\
  (forall env file s0 notices,
     looksLikePdf file = true ->
     PDFToDocx.worker s0 = None ->
     PDFToDocx.workerReady s0 = false ->
     PDFToDocx.newWorker env = Done tt ->
     Forall WorkerUse.isNotice notices ->
     (PDFToDocx.initEvents env = map PDFToDocx.MessageEvent notices ->
      exists s',
        PDFToDocx.run env (mkInput [file] tt) s0 = (Pending, s') /\
        PDFToDocx.worker s' = Some (PDFToDocx.spawned s0) /\
        PDFToDocx.workerReady s' = false) /\
     (forall m rest,
        PDFToDocx.initEvents env =
          map PDFToDocx.MessageEvent notices ++ PDFToDocx.MessageEvent m :: rest ->
        Worker.type m = "error" ->
        exists o s',
          PDFToDocx.run env (mkInput [file] tt) s0 = (Resolved o, s') /\
          errorCode o = Some WORKER_FAILED /\
          PDFToDocx.worker s' = Some (PDFToDocx.spawned s0) /\
          PDFToDocx.workerReady s' = false /\
          PDFToDocx.spawned s' = S (PDFToDocx.spawned s0) /\
          PDFToDocx.terminated s' = PDFToDocx.terminated s0 /\
          polls (PDFToDocx.base s') = 0%nat) /\
     (forall m rest pre t rest',
        PDFToDocx.initEvents env =
          map PDFToDocx.MessageEvent notices ++ PDFToDocx.MessageEvent m :: rest ->
        Worker.type m = "init-complete" ->
        PDFToDocx.cancelledAt env 0%nat = false ->
        PDFToDocx.cancelledAt env 1%nat = false ->
        PDFToDocx.convertEvents env =
          map PDFToDocx.MessageEvent pre ++ PDFToDocx.MessageEvent t :: rest' ->
        Forall WorkerUse.isNotice pre ->
        Worker.id t = Some (PDFToDocx.msgIdOf env) ->
        Worker.type t = "convert-complete" ->
        exists o s',
          PDFToDocx.run env (mkInput [file] tt) s0 = (Resolved o, s') /\
          success o = true /\
          result o = option_map OneBlob (Worker.result t) /\
          PDFToDocx.worker s' = Some (PDFToDocx.spawned s0) /\
          PDFToDocx.workerReady s' = true /\
          PDFToDocx.spawned s' = S (PDFToDocx.spawned s0) /\
          PDFToDocx.terminated s' = PDFToDocx.terminated s0)).
Proof.
  split; [|split; [|split]].
  - intros env file s0 w quiet m rest Hf Hw Hc Hev Hq Hm.
    destruct (process_rejected env file s0 w quiet (PDFToDocx.MessageEvent m) rest
                (PDFToDocx.orDefault (Worker.error m) "Conversion failed")
                Hf Hw Hc Hev Hq
                (fun s => awaitConvert_app_error _ m rest s Hm))
      as [s' [Hrun [H1 [H2 [_ H4]]]]].
    do 2 eexists. split; [exact Hrun|]. repeat split; assumption.
  - intros env file s0 w quiet text rest Hf Hw Hc Hev Hq.
    destruct (process_rejected env file s0 w quiet (PDFToDocx.ErrorEvent text) rest
                ("Worker error: " ++ text)%string
                Hf Hw Hc Hev Hq
                (fun s => awaitConvert_transport_error _ text rest s))
      as [s' [Hrun [H1 [H2 [_ H4]]]]].
    do 2 eexists. split; [exact Hrun|]. repeat split; assumption.
  - apply process_restart.
  - intros env file s0 notices Hf Hw Hready Hnew Hn.
    split; [|split].
    + intros Hev. rewrite <- (app_nil_r (map _ notices)) in Hev.
      docx_handshake Hf Hw Hnew Hev Hn.
      cbn [PDFToDocx.awaitInit]. cbn beta iota.
      eexists. split; [reflexivity|].
      split; [exact Hw1 | rewrite Hr1; exact Hready].
    + intros m rest Hev Hm.
      docx_handshake Hf Hw Hnew Hev Hn.
      rewrite (awaitInit_error m rest s1 Hm). cbn beta iota.
      do 2 eexists. split; [reflexivity|].
      split; [reflexivity|]. split; [exact Hw1|].
      split; [rewrite Hr1; exact Hready|]. split; [exact Hs1|].
      split; [exact Ht1 | exact Hp1].
    + intros m rest pre t rest' Hev Hm Hc0 Hc1 Hcev Hpre Hid Hty.
      docx_handshake Hf Hw Hnew Hev Hn.
      rewrite (awaitInit_complete m rest s1 Hm).
      cbn -[PDFToDocx.msgIdOf clamp PDFToDocx.awaitConvert].
      rewrite Hp1, Hc0.
      cbn -[PDFToDocx.msgIdOf clamp PDFToDocx.awaitConvert].
      rewrite Hw1, Hcev.
      match goal with
      | |- context [PDFToDocx.awaitConvert ?id (map _ pre ++ ?more) ?st] =>
          destruct (awaitConvert_notices id pre Hpre more st)
            as [s2 [-> [Hw2 [Hs2 [Ht2 [Hp2 Hr2]]]]]]
      end.
      cbn [PDFToDocx.worker PDFToDocx.spawned PDFToDocx.terminated
           PDFToDocx.workerReady PDFToDocx.base polls] in Hw2, Hs2, Ht2, Hp2, Hr2.
      rewrite (awaitConvert_complete _ t rest' s2 Hid Hty).
      cbn -[PDFToDocx.msgIdOf clamp].
      rewrite Hp2, Hc1.
      do 2 eexists. split; [reflexivity|].
      cbn [success result PDFToDocx.worker PDFToDocx.workerReady
           PDFToDocx.spawned PDFToDocx.terminated].
      split; [reflexivity|]. split; [reflexivity|].
      split; [exact Hw2|]. split; [exact Hr2|].
      split; [rewrite Hs2; exact Hs1 | rewrite Ht2; exact Ht1].
Qed.

Lemma C6_witness :
  (exists o s',
     PDFToDocx.run (Examples.docxEnvLater Examples.workerBadPdf 2000)
                   (Examples.docxInput Examples.pdfFile) Examples.docxReady =
       (Resolved o, s') /\
     errorCode o = Some PROCESSING_FAILED /\
     PDFToDocx.worker s' = None /\
     PDFToDocx.workerReady s' = false /\
     PDFToDocx.terminated s' = [0%nat]) /\
  (exists o s',
     PDFToDocx.run (Examples.docxEnvCrash 2000)
                   (Examples.docxInput Examples.pdfFile) Examples.docxReady =
       (Resolved o, s') /\
     errorCode o = Some PROCESSING_FAILED /\
     PDFToDocx.worker s' = None /\
     PDFToDocx.workerReady s' = false /\
     PDFToDocx.terminated s' = [0%nat]) /\
  (exists o s',
     PDFToDocx.run (Examples.docxEnvFirst Examples.workerOk 3000)
                   (Examples.docxInput Examples.pdfFile)
                   (PDFToDocx.mkState (mkBase 0 [] 0) None false 1 [0%nat]) =
       (Resolved o, s') /\
     success o = true /\
     PDFToDocx.worker s' = Some 1%nat /\
     PDFToDocx.spawned s' = 2%nat) /\
  (exists s',
     PDFToDocx.run
       (PDFToDocx.mkEnv Examples.never (Done tt)
          [PDFToDocx.MessageEvent
             (Worker.statusMsg "Loading Python environment...")]
          3000 [])
       (Examples.docxInput Examples.pdfFile)
       (PDFToDocx.mkState (mkBase 0 [] 0) None false 1 [0%nat]) =
       (Pending, s') /\
     PDFToDocx.worker s' = Some 1%nat /\
     PDFToDocx.workerReady s' = false) /\
  (exists o s',
     PDFToDocx.run
       (PDFToDocx.mkEnv Examples.never (Done tt)
          [PDFToDocx.MessageEvent
             (Worker.statusMsg "Loading Python environment...");
           PDFToDocx.MessageEvent
             (Worker.errorMsg (Some "init-3000") (ErrorObj "no network"))]
          3000 [])
       (Examples.docxInput Examples.pdfFile)
       (PDFToDocx.mkState (mkBase 0 [] 0) None false 1 [0%nat]) =
       (Resolved o, s') /\
     errorCode o = Some WORKER_FAILED /\
     PDFToDocx.worker s' = Some 1%nat /\
     PDFToDocx.workerReady s' = false) /\
  (exists o s',
     PDFToDocx.run
       (PDFToDocx.mkEnv Examples.never (Done tt)
          [PDFToDocx.MessageEvent
             (Worker.statusMsg "Loading Python environment...");
           PDFToDocx.MessageEvent
             (Worker.mkMsg "init-complete" (Some "init-3000") None None None
                           None)]
          3000
          [PDFToDocx.MessageEvent (Worker.progressMsg "Preparing PDF..." 5);
           PDFToDocx.MessageEvent
             (Worker.mkMsg "convert-complete" (Some "convert-3000")
                           (Some Worker.docxBlob) None None None)])
       (Examples.docxInput Examples.pdfFile)
       (PDFToDocx.mkState (mkBase 0 [] 0) None false 1 [0%nat]) =
       (Resolved o, s') /\
     success o = true /\
     result o = Some (OneBlob Worker.docxBlob) /\
     PDFToDocx.worker s' = Some 1%nat /\
     PDFToDocx.workerReady s' = true).
Proof.
  split; [|split; [|split; [|split; [|split]]]].
  - apply (proj1 C6_worker_errors_tear_down
             (Examples.docxEnvLater Examples.workerBadPdf 2000)
             Examples.pdfFile Examples.docxReady 0%nat
             [PDFToDocx.MessageEvent (Worker.progressMsg "Preparing PDF..." 5);
              PDFToDocx.MessageEvent (Worker.progressMsg "Converting to DOCX..." 10)]
             (Worker.errorMsg (Some "convert-2000")
                (ErrorObj "cannot open broken document"))
             []); reflexivity.
  - apply (proj1 (proj2 C6_worker_errors_tear_down)
             (Examples.docxEnvCrash 2000)
             Examples.pdfFile Examples.docxReady 0%nat
             [PDFToDocx.MessageEvent (Worker.progressMsg "Preparing PDF..." 5)]
             "out of memory" []); reflexivity.
  - do 2 eexists. split; [vm_compute; reflexivity|].
    split; [reflexivity|]. split; [reflexivity|].
    apply (proj1 (proj2 (proj2 C6_worker_errors_tear_down))
             (Examples.docxEnvFirst Examples.workerOk 3000)
             Examples.pdfFile
             (PDFToDocx.mkState (mkBase 0 [] 0) None false 1 [0%nat]) _ _
             eq_refl eq_refl eq_refl ltac:(vm_compute; reflexivity)).
  - exact (proj1 (proj2 (proj2 (proj2 C6_worker_errors_tear_down))
             (PDFToDocx.mkEnv Examples.never (Done tt)
                [PDFToDocx.MessageEvent
                   (Worker.statusMsg "Loading Python environment...")]
                3000 [])
             Examples.pdfFile
             (PDFToDocx.mkState (mkBase 0 [] 0) None false 1 [0%nat])
             [Worker.statusMsg "Loading Python environment..."]
             eq_refl eq_refl eq_refl eq_refl
             ltac:(constructor;
                   [split; [left|]; reflexivity | constructor]))
             eq_refl).
  - destruct (proj1 (proj2 (proj2 (proj2 (proj2 C6_worker_errors_tear_down))
             (PDFToDocx.mkEnv Examples.never (Done tt)
                [PDFToDocx.MessageEvent
                   (Worker.statusMsg "Loading Python environment...");
                 PDFToDocx.MessageEvent
                   (Worker.errorMsg (Some "init-3000") (ErrorObj "no network"))]
                3000 [])
             Examples.pdfFile
             (PDFToDocx.mkState (mkBase 0 [] 0) None false 1 [0%nat])
             [Worker.statusMsg "Loading Python environment..."]
             eq_refl eq_refl eq_refl eq_refl
             ltac:(constructor;
                   [split; [left|]; reflexivity | constructor])))
             (Worker.errorMsg (Some "init-3000") (ErrorObj "no network")) []
             eq_refl eq_refl)
      as [o [s' [Hrun [Hcode [Hw [Hr _]]]]]].
    exists o, s'. split; [exact Hrun|]. split; [exact Hcode|].
    split; [exact Hw | exact Hr].
  - destruct (proj2 (proj2 (proj2 (proj2 (proj2 C6_worker_errors_tear_down))
             (PDFToDocx.mkEnv Examples.never (Done tt)
                [PDFToDocx.MessageEvent
                   (Worker.statusMsg "Loading Python environment...");
                 PDFToDocx.MessageEvent
                   (Worker.mkMsg "init-complete" (Some "init-3000") None None
                                 None None)]
                3000
                [PDFToDocx.MessageEvent
                   (Worker.progressMsg "Preparing PDF..." 5);
                 PDFToDocx.MessageEvent
                   (Worker.mkMsg "convert-complete" (Some "convert-3000")
                                 (Some Worker.docxBlob) None None None)])
             Examples.pdfFile
             (PDFToDocx.mkState (mkBase 0 [] 0) None false 1 [0%nat])
             [Worker.statusMsg "Loading Python environment..."]
             eq_refl eq_refl eq_refl eq_refl
             ltac:(constructor;
                   [split; [left|]; reflexivity | constructor])))
             (Worker.mkMsg "init-complete" (Some "init-3000") None None None
                           None)
             []
             [Worker.progressMsg "Preparing PDF..." 5]
             (Worker.mkMsg "convert-complete" (Some "convert-3000")
                           (Some Worker.docxBlob) None None None)
             []
             eq_refl eq_refl eq_refl eq_refl eq_refl
             ltac:(constructor;
                   [split; [right|]; reflexivity | constructor])
             ltac:(vm_compute; reflexivity) eq_refl)
      as [o [s' [Hrun [Hok [Hres [Hw [Hr _]]]]]]].
    exists o, s'. split; [exact Hrun|]. split; [exact Hok|].
    split; [exact Hres|]. split; [exact Hw | exact Hr].
Defined.

(** C6 as stated fails: a processor holds an initialised, idle worker;
    the worker code answers the conversion of a broken document with an
    application-level [error] message carrying the id of the request; the
    call fails and the worker context is shut down, not kept for the next
    call. *)
Lemma C6_counterexample :
  PDFToDocx.worker Examples.docxReady = Some 0%nat /\
  Examples.convertEventsOf Examples.workerBadPdf
    (Examples.workerAfterInit Examples.workerOk) 2000 =
    [PDFToDocx.MessageEvent (Worker.progressMsg "Preparing PDF..." 5);
     PDFToDocx.MessageEvent (Worker.progressMsg "Converting to DOCX..." 10);
     PDFToDocx.MessageEvent
       (Worker.mkMsg "error" (Some "convert-2000") None
          (Some "cannot open broken document") None None)] /\
  fst (PDFToDocx.run (Examples.docxEnvLater Examples.workerBadPdf 2000)
         (Examples.docxInput Examples.pdfFile) Examples.docxReady) =
    Resolved (createErrorOutput PROCESSING_FAILED "Failed to convert PDF to DOCX."
                (Some "cannot open broken document")) /\
  PDFToDocx.worker
    (snd (PDFToDocx.run (Examples.docxEnvLater Examples.workerBadPdf 2000)
            (Examples.docxInput Examples.pdfFile) Examples.docxReady)) = None /\
  PDFToDocx.terminated
    (snd (PDFToDocx.run (Examples.docxEnvLater Examples.workerBadPdf 2000)
            (Examples.docxInput Examples.pdfFile) Examples.docxReady)) = [0%nat].
Proof.
  repeat split; vm_compute; reflexivity.
Qed.

(* ================================================================== *)
(** * Further properties of the code *)

(** ** The page field of the PDF to image tool *)

Section ToolPageRange.

Open Scope Z_scope.

Lemma sorted_same_elements (l1 l2 : list Z) :
  StronglySorted Z.lt l1 -> StronglySorted Z.lt l2 ->
  (forall p, In p l1 <-> In p l2) -> l1 = l2.
Proof.
  intros H1. revert l2.
  induction H1 as [|x l1 Hs1 IH Hx]; intros l2 H2 Hin.
  - destruct l2 as [|y l2]; [reflexivity|].
    exfalso. apply (Hin y). left. reflexivity.
  - inversion H2 as [|y l2' Hs2 Hy]; subst.
    + exfalso. apply (Hin x). left. reflexivity.
    + rewrite Forall_forall in Hx, Hy.
      assert (x = y) as ->.
      { destruct (proj1 (Hin x) (or_introl eq_refl)) as [E|E]; [congruence|].
        destruct (proj2 (Hin y) (or_introl eq_refl)) as [F|F]; [congruence|].
        specialize (Hx _ F). specialize (Hy _ E). lia. }
      f_equal. apply IH; [exact Hs2|]. intros p. split; intros Hp.
      * destruct (proj1 (Hin p) (or_intror Hp)) as [E|E]; [|exact E].
        specialize (Hx _ Hp). lia.
      * destruct (proj2 (Hin p) (or_intror Hp)) as [E|E]; [|exact E].
        specialize (Hy _ Hp). lia.
Qed.

Lemma filter_sorted (f : Z -> bool) (l : list Z) :
  StronglySorted Z.lt l -> StronglySorted Z.lt (filter f l).
Proof.
  induction 1 as [|x l Hs IH Hx]; simpl; [constructor|].
  destruct (f x); [|exact IH].
  constructor; [exact IH|].
  rewrite Forall_forall in *. intros y Hy. apply Hx.
  apply filter_In in Hy. tauto.
Qed.

Lemma isBlank_trim (s : string) : isBlank s = String.eqb (trim s) "".
Proof.
  unfold isBlank. destruct (String.eqb_spec s ""); [subst|]; reflexivity.
Qed.

Lemma tool_partPages_In (raw : string) (N p : Z) (asked : list Z) :
  ImageTool.partPages raw = Some asked ->
  (In p (partPages (trim raw) N) <-> In p asked /\ 1 <= p <= N).
Proof.
  unfold partPages, ImageTool.partPages. cbv zeta.
  destruct (includesChar "-" (trim raw)).
  - destruct (map _ (split "-" (trim raw))) as [|[a|] [|[b|] r]]; simpl;
      try (intros E; injection E as <-; simpl; tauto).
    destruct (JsNumber.isSafeInteger a && JsNumber.isSafeInteger b);
      [|discriminate].
    intros E. injection E as <-. rewrite !forRange_In. lia.
  - destruct (parseInt (trim raw)) as [n|]; simpl;
      [|intros E; injection E as <-; simpl; tauto].
    destruct (JsNumber.isSafeInteger n); [|discriminate].
    intros E. injection E as <-.
    destruct (Z.leb_spec 1 n) as [H1|H1], (Z.leb_spec n N) as [H2|H2]; simpl;
      split; try tauto;
      try (intros [[<-|[]] Hr]; lia || (left; reflexivity));
      intros [<-|[]]; split; [left; reflexivity | lia].
Qed.

Lemma tool_collect_none (parts : list string) :
  fold_left ImageTool.addPart parts None = None.
Proof. induction parts as [|part parts IH]; [reflexivity | exact IH]. Qed.

(** The array after the loop over the parts, when the loop is followed to
    its end: every part was followed, and the array holds what it held
    and what the parts ask for, once each. *)
Lemma tool_collect (parts : list string) :
  forall acc out,
    fold_left ImageTool.addPart parts (Some acc) = Some out ->
    (NoDup acc -> NoDup out) /\
    (forall part, In part parts ->
       exists asked, ImageTool.partPages part = Some asked) /\
    (forall p, In p out <->
       In p acc \/
       exists part asked,
         In part parts /\ ImageTool.partPages part = Some asked /\ In p asked).
Proof.
  induction parts as [|part parts IH]; intros acc out; cbn [fold_left].
  - intros E. injection E as <-. split; [trivial|]. split.
    + intros part [].
    + intros p. split; [tauto|]. intros [H|[part [asked [[] _]]]]. exact H.
  - unfold ImageTool.addPart at 2.
    destruct (ImageTool.partPages part) as [asked|] eqn:Ea;
      [|rewrite tool_collect_none; discriminate].
    cbv zeta.
    destruct (Z.of_nat (List.length (setAddAll asked acc)) <=?
              JsNumber.MAX_ARRAY_LENGTH);
      [|rewrite tool_collect_none; discriminate].
    intros E. destruct (IH _ _ E) as [Hnd [Hall Hin]].
    split; [|split].
    + intros Hacc. apply Hnd, setAddAll_NoDup, Hacc.
    + intros q [<-|Hq]; [exists asked; exact Ea | apply Hall, Hq].
    + intros p. rewrite Hin, setAddAll_In. split.
      * intros [[H|H]|[q [l [Hq Hp]]]].
        -- right. exists part, asked.
           split; [left; reflexivity | split; assumption].
        -- left. exact H.
        -- right. exists q, l. split; [right; exact Hq | exact Hp].
      * intros [H|[q [l [[<-|Hq] [Hl Hp]]]]].
        -- left. right. exact H.
        -- rewrite Ea in Hl. injection Hl as <-. left. left. exact Hp.
        -- right. exists q, l. split; [exact Hq | split; assumption].
Qed.

Lemma tool_parse_sorted (s : string) (pages : list Z) :
  ImageTool.parsePageRange s = Some pages -> StronglySorted Z.lt pages.
Proof.
  unfold ImageTool.parsePageRange. destruct (String.eqb (trim s) "").
  - intros E. injection E as <-. constructor.
  - destruct (fold_left _ _ _) as [out|] eqn:Eo; [|discriminate].
    intros E. injection E as <-.
    apply sortNum_sorted. apply (proj1 (tool_collect _ _ _ Eo)). constructor.
Qed.

Lemma tool_parse_In (s : string) (pages : list Z) :
  isBlank s = false ->
  ImageTool.parsePageRange s = Some pages ->
  (forall part, In part (split "," s) ->
     exists asked, ImageTool.partPages part = Some asked) /\
  (forall p, In p pages <->
     exists part asked,
       In part (split "," s) /\ ImageTool.partPages part = Some asked /\
       In p asked).
Proof.
  intros Hb. rewrite isBlank_trim in Hb.
  unfold ImageTool.parsePageRange. rewrite Hb.
  destruct (fold_left _ _ _) as [out|] eqn:Eo; [|discriminate].
  intros E. injection E as <-.
  destruct (tool_collect _ _ _ Eo) as [_ [Hall Hin]].
  split; [exact Hall|]. intros p. rewrite sortNum_In, Hin.
  simpl. tauto.
Qed.

Lemma tool_parse_filter (s : string) (N : Z) (pages : list Z) :
  isBlank s = false ->
  ImageTool.parsePageRange s = Some pages ->
  filter (fun p => (1 <=? p) && (p <=? N)) pages = parsePageRange s N.
Proof.
  intros Hb Hp. destruct (tool_parse_In s pages Hb Hp) as [Hall Hin].
  apply sorted_same_elements.
  - apply filter_sorted, (tool_parse_sorted s), Hp.
  - apply parsePageRange_sorted.
  - intros p. rewrite filter_In, Hin, (parsePageRange_In s N p Hb).
    unfold tokens. split.
    + intros [[part [asked [Hpart [Ha Hq]]]] Hr]. exists (trim part). split.
      * apply in_map, Hpart.
      * apply (tool_partPages_In part N p asked Ha). split; [exact Hq|].
        apply andb_true_iff in Hr. lia.
    + intros [part [Hpart Hq]]. apply in_map_iff in Hpart.
      destruct Hpart as [raw [<- Hraw]].
      destruct (Hall raw Hraw) as [asked Ha].
      apply (tool_partPages_In raw N p asked Ha) in Hq.
      split; [exists raw, asked; tauto|]. apply andb_true_iff. lia.
Qed.

Lemma tool_partPages_nothing (raw : string) (asked : list Z) :
  isNonNumeric (trim raw) || isReversed (trim raw) = true ->
  ImageTool.partPages raw = Some asked -> asked = [].
Proof.
  unfold isNonNumeric, isReversed, endpoints, ImageTool.partPages. cbv zeta.
  destruct (includesChar "-" (trim raw)); simpl.
  - destruct (map _ (split "-" (trim raw))) as [|[a|] [|[b|] r]]; simpl;
      try (intros _ E; injection E as <-; reflexivity); try discriminate.
    intros H. destruct (_ && _); [|discriminate].
    intros E. injection E as <-.
    apply forRange_empty. apply Z.ltb_lt in H. exact H.
  - destruct (parseInt (trim raw)); [discriminate|].
    intros _ E. injection E as <-. reflexivity.
Qed.

End ToolPageRange.

(** X1. The page field of the PDF to image tool and the range parser of
    the rasterize processor agree. Where the tool's parser is followed
    (every number of the field a safe integer, at most 2^32 - 1 pages
    asked for), the pages it returns, once the processor has dropped the
    ones the document does not have, are the pages [parsePageRange] of
    rasterize.ts gives for the same string, for every string that is not
    blank; for a blank string the tool parses no page at all. *)
Theorem tool_parser_agrees_with_rasterize :
  forall s N pages,
    ImageTool.parsePageRange s = Some pages ->
    filter (fun p => (1 <=? p) && (p <=? N)) pages =
    if isBlank s then [] else parsePageRange s N.
Proof.
  intros s N pages Hp. destruct (isBlank s) eqn:Hb.
  - rewrite isBlank_trim in Hb. unfold ImageTool.parsePageRange in Hp.
    rewrite Hb in Hp. injection Hp as <-. reflexivity.
  - apply tool_parse_filter; assumption.
Qed.

Lemma tool_parser_agrees_with_rasterize_witness :
  ImageTool.parsePageRange "4-2, 9, 3,1,2-3" = Some [1; 2; 3; 9] /\
  parsePageRange "4-2, 9, 3,1,2-3" 5 = [1; 2; 3].
Proof.
  split; [reflexivity|].
  symmetry.
  exact (tool_parser_agrees_with_rasterize "4-2, 9, 3,1,2-3" 5 [1; 2; 3; 9]
           eq_refl).
Defined.

(** X2. What the PDF to image processor converts for the tool, where the
    page field is followed: when the field yields no number (it is blank,
    or every token of it is non-numeric or a reversed range) every page
    [1..N] is converted; otherwise exactly the pages of the field that the
    document has, in increasing order and once each. *)
Theorem tool_selection :
  forall t N pages,
    ImageTool.parsePageRange (ImageTool.pageRange t) = Some pages ->
    exists sel,
      ImageTool.selection t N = Some sel /\
      (pages = [] -> sel = upTo N) /\
      (pages <> [] -> sel = parsePageRange (ImageTool.pageRange t) N) /\
      (forallb (fun part => isNonNumeric part || isReversed part)
               (tokens (ImageTool.pageRange t)) = true ->
       sel = upTo N) /\
      StronglySorted Z.lt sel /\
      Forall (fun p => 1 <= p <= N) sel.
Proof.
  intros t N pages Hp.
  exists (match pages with
          | [] => upTo N
          | _ => parsePageRange (ImageTool.pageRange t) N
          end).
  split.
  { unfold ImageTool.selection, ImageTool.convertOptions. rewrite Hp.
    cbn [option_map]. f_equal.
    unfold ImageTool.optionsWith, PDFToImage.pagesToConvert.
    destruct (ImageTool.getGridDimensions t) as [cols rows].
    cbn [PDFToImage.mergeOptions PDFToImage.pages PDFToImage.pages_
         PDFToImage.orElse].
    destruct (isBlank (ImageTool.pageRange t)) eqn:Hb.
    - rewrite isBlank_trim in Hb. unfold ImageTool.parsePageRange in Hp.
      rewrite Hb in Hp. injection Hp as <-. simpl. apply upTo_arrayFrom.
    - rewrite <- (tool_parse_filter _ N pages Hb Hp).
      destruct pages as [|x l].
      + simpl. apply upTo_arrayFrom.
      + replace (0 <? Z.of_nat (List.length (x :: l))) with true
          by (symmetry; apply Z.ltb_lt; simpl List.length; lia).
        reflexivity. }
  split; [|split; [|split]].
  - intros ->. reflexivity.
  - intros E. destruct pages; [congruence | reflexivity].
  - intros Hall.
    replace pages with (@nil Z); [reflexivity|].
    symmetry. unfold ImageTool.parsePageRange in Hp.
    destruct (String.eqb (trim (ImageTool.pageRange t)) "");
      [injection Hp as <-; reflexivity|].
    destruct (fold_left _ _ _) as [out|] eqn:Eo; [|discriminate].
    injection Hp as <-.
    destruct (tool_collect _ _ _ Eo) as [_ [_ Hin]].
    apply sortNum_nil. intros p Hq. apply Hin in Hq.
    destruct Hq as [[]|[part [asked [Hpart [Ha Hq]]]]].
    rewrite forallb_forall in Hall.
    rewrite (tool_partPages_nothing part asked) in Hq; [destruct Hq| |exact Ha].
    apply Hall. unfold tokens. apply in_map, Hpart.
  - destruct pages.
    + split.
      * rewrite <- upTo_arrayFrom. apply arrayFrom_sorted.
      * apply Forall_forall. intros p. apply upTo_In.
    + split; [apply parsePageRange_sorted | apply parsePageRange_bounds].
Qed.

Lemma tool_selection_witness :
  ImageTool.selection
    (ImageTool.mkTool PDFToImage.png (92 # 100) 2 "abc, 7-3" "1x1" 2 2 false) 5 =
    Some [1; 2; 3; 4; 5] /\
  ImageTool.selection
    (ImageTool.mkTool PDFToImage.png (92 # 100) 2 "4-2, 9, 3,1" "1x1" 2 2 false) 5 =
    Some [1; 3] /\
  ImageTool.selection
    (ImageTool.mkTool PDFToImage.png (92 # 100) 2 "x-1" "2x2" 2 2 true) 3 =
    Some (upTo 3).
Proof.
  split; [|split].
  - destruct (tool_selection
                (ImageTool.mkTool PDFToImage.png (92 # 100) 2 "abc, 7-3" "1x1"
                                  2 2 false)
                5 [] eq_refl) as [sel [Hsel [Hnone _]]].
    rewrite Hsel, (Hnone eq_refl). reflexivity.
  - destruct (tool_selection
                (ImageTool.mkTool PDFToImage.png (92 # 100) 2 "4-2, 9, 3,1"
                                  "1x1" 2 2 false)
                5 [1; 3; 9] eq_refl) as [sel [Hsel [_ [Hsome _]]]].
    rewrite Hsel, (Hsome ltac:(discriminate)). reflexivity.
  - destruct (tool_selection
                (ImageTool.mkTool PDFToImage.png (92 # 100) 2 "x-1" "2x2" 2 2
                                  true)
                3 [] eq_refl) as [sel [Hsel [_ [_ [Hall _]]]]].
    rewrite Hsel, (Hall eq_refl). reflexivity.
Defined.

(** ** The grid of the PDF to image tool *)

Lemma customSize_range (value : string) : 1 <= ImageTool.customSize value <= 10.
Proof. unfold ImageTool.customSize. cbv zeta. lia. Qed.

Lemma getGridDimensions_range (t : ImageTool.ToolState) :
  1 <= ImageTool.customColumns t <= 10 ->
  1 <= ImageTool.customRows t <= 10 ->
  1 <= fst (ImageTool.getGridDimensions t) <= 10 /\
  1 <= snd (ImageTool.getGridDimensions t) <= 10.
Proof.
  intros Hc Hr. unfold ImageTool.getGridDimensions. cbv zeta.
  repeat match goal with
         | |- context [if ?b then _ else _] => destruct b
         end; simpl; lia.
Qed.

(** X3. Every grid the PDF to image tool can ask for has between 1 and 10
    columns and rows: the two number fields of the custom grid keep what is
    typed within [1..10] (an empty, non-numeric or zero entry gives 1), the
    presets are fixed. So for a conversion started from the tool the
    grouping loop of the processor always ends, and gives the batches of
    [columns * rows] pages. *)
Theorem tool_grid_terminates :
  (forall value, 1 <= ImageTool.customSize value <= 10) /\
  (forall t pages,
     1 <= ImageTool.customColumns t <= 10 ->
     1 <= ImageTool.customRows t <= 10 ->
     1 <= PDFToImage.columns (ImageTool.layout t) *
          PDFToImage.rows (ImageTool.layout t) <= 100 /\
     pageGroups (List.length pages)
                (PDFToImage.skipFirstPage (ImageTool.layout t)) pages
                (PDFToImage.columns (ImageTool.layout t) *
                 PDFToImage.rows (ImageTool.layout t)) =
     Some (specGroups (PDFToImage.skipFirstPage (ImageTool.layout t))
             (Z.to_nat (PDFToImage.columns (ImageTool.layout t) *
                        PDFToImage.rows (ImageTool.layout t)))
             pages)).
Proof.
  split; [apply customSize_range|].
  intros t pages Hc Hr.
  destruct (getGridDimensions_range t Hc Hr) as [H1 H2].
  assert (PDFToImage.columns (ImageTool.layout t) =
          fst (ImageTool.getGridDimensions t) /\
          PDFToImage.rows (ImageTool.layout t) =
          snd (ImageTool.getGridDimensions t)) as [-> ->].
  { unfold ImageTool.layout, ImageTool.optionsWith.
    destruct (ImageTool.getGridDimensions t). split; reflexivity. }
  split; [nia|]. apply pageGroups_spec; [nia | lia].
Qed.

Lemma tool_grid_terminates_witness :
  pageGroups 5 true [1; 2; 3; 4; 5]
    (PDFToImage.columns
       (ImageTool.layout
          (ImageTool.mkTool PDFToImage.png (92 # 100) 2 "" "custom"
             (ImageTool.customSize "3") (ImageTool.customSize "0") true)) *
     PDFToImage.rows
       (ImageTool.layout
          (ImageTool.mkTool PDFToImage.png (92 # 100) 2 "" "custom"
             (ImageTool.customSize "3") (ImageTool.customSize "0") true))) =
  Some [[1]; [2; 3; 4]; [5]].
Proof.
  exact (proj2 (proj2 tool_grid_terminates
                  (ImageTool.mkTool PDFToImage.png (92 # 100) 2 "" "custom"
                     (ImageTool.customSize "3") (ImageTool.customSize "0") true)
                  [1; 2; 3; 4; 5]
                  ltac:(vm_compute; split; discriminate)
                  ltac:(vm_compute; split; discriminate))).
Defined.

(** X4. A grid without cells: when [columns * rows] is zero or negative
    and pages are left to group (one page at least, two when the first
    page is set apart), the grouping loop of the PDF to image processor
    never ends: whatever the number of iterations allowed, it is still
    running. The promise of such a call is never settled. *)
Theorem grid_without_cells_never_ends :
  (forall fuel skipFirst pages columns rows,
     columns * rows <= 0 ->
     (if skipFirst : bool then 1 else 0) < len pages ->
     pageGroups fuel skipFirst pages (columns * rows) = None) /\
  (forall env file opts doc,
     looksLikePdf file = true ->
     PDFToImage.loadPdfjs env = Done tt ->
     PDFToImage.cancelledAt env 0%nat = false ->
     PDFToImage.arrayBuffer env = Done tt ->
     PDFToImage.getDocument env = Done doc ->
     PDFToImage.columns (PDFToImage.pageLayout (PDFToImage.mergeOptions opts)) *
     PDFToImage.rows (PDFToImage.pageLayout (PDFToImage.mergeOptions opts)) <= 0 ->
     (if PDFToImage.skipFirstPage
           (PDFToImage.pageLayout (PDFToImage.mergeOptions opts))
      then 1 else 0) <
     len (PDFToImage.pagesToConvert (PDFToImage.mergeOptions opts) (numPages doc)) ->
     fst (PDFToImage.run env (mkInput [file] opts)) = Pending).
Proof.
  assert (forall fuel skipFirst pages ppi,
            ppi <= 0 -> (if skipFirst : bool then 1 else 0) < len pages ->
            pageGroups fuel skipFirst pages ppi = None) as Hloop.
  { intros fuel skipFirst pages ppi Hp Hl. unfold pageGroups.
    destruct skipFirst; simpl andb.
    - replace (0 <? len pages) with true by (symmetry; apply Z.ltb_lt; lia).
      apply groupLoop_diverges; assumption.
    - apply groupLoop_diverges; assumption. }
  split.
  - intros fuel skipFirst pages columns rows. apply Hloop.
  - intros env file opts doc Hf Hl Hc Ha Hd Hp Hn.
    unfold PDFToImage.run, PDFToImage.process, PDFToImage.fresh.
    unfold looksLikePdf in Hf. run_unfold. cbn [files options].
    remember (PDFToImage.mergeOptions opts) as o eqn:Eo.
    remember (PDFToImage.pagesToConvert o (numPages doc)) as pages eqn:Epages.
    assert ((PDFToImage.lengthZ pages =? 0) = false) as Hz.
    { apply Z.eqb_neq. unfold PDFToImage.lengthZ. unfold len in Hn.
      destruct (PDFToImage.skipFirstPage (PDFToImage.pageLayout o)); lia. }
    assert ((PDFToImage.columns (PDFToImage.pageLayout o) *
            PDFToImage.rows (PDFToImage.pageLayout o) =? 1) = false) as H1.
    { apply Z.eqb_neq. lia. }
    destruct (includes "pdf" (type file)) eqn:E1;
      [|simpl in Hf; rewrite Hf]; cbn [negb andb];
      rewrite Hl; cbn -[PDFToImage.pagesToConvert pageGroups];
      rewrite Hc, Ha, Hd; cbn -[PDFToImage.pagesToConvert pageGroups];
      rewrite <- Epages, Hz, H1, (Hloop _ _ _ _ Hp Hn); reflexivity.
Qed.

Lemma grid_without_cells_never_ends_witness :
  pageGroups 1000 true [1; 2] (0 * 3) = None /\
  fst (PDFToImage.run (Examples.imageEnv (Examples.docOf 2 (fun _ => false)))
         (Examples.imageInput Examples.pdfFile []
            (Some (PDFToImage.mkLayout "custom" 0 3 false)))) = Pending.
Proof.
  split.
  - exact (proj1 grid_without_cells_never_ends 1000%nat true [1; 2] 0 3
             ltac:(vm_compute; discriminate) ltac:(vm_compute; reflexivity)).
  - exact (proj2 grid_without_cells_never_ends
             (Examples.imageEnv (Examples.docOf 2 (fun _ => false)))
             Examples.pdfFile
             (PDFToImage.mkPartial None None None (Some [])
                None (Some (PDFToImage.mkLayout "custom" 0 3 false)))
             (Examples.docOf 2 (fun _ => false))
             eq_refl eq_refl eq_refl eq_refl eq_refl
             ltac:(vm_compute; discriminate) ltac:(vm_compute; reflexivity)).
Defined.

(** ** The canvas of a grid image *)

Section GridCanvasFacts.

Import GridCanvas.
Open Scope Q_scope.

Lemma fold_max_le (f : Viewport -> Q) (vs : list Viewport) (m : Q) :
  m <= fold_left (fun m v => Qmax m (f v)) vs m.
Proof.
  revert m. induction vs as [|v vs IH]; intros m; simpl.
  - apply Qle_refl.
  - eapply Qle_trans; [|apply IH]. apply Q.le_max_l.
Qed.

Lemma fold_max_ge (f : Viewport -> Q) (vs : list Viewport) (m : Q)
    (v : Viewport) :
  In v vs -> f v <= fold_left (fun m v => Qmax m (f v)) vs m.
Proof.
  revert m. induction vs as [|w vs IH]; intros m Hin; [destruct Hin|].
  destruct Hin as [E|Hin]; simpl.
  - subst w. eapply Qle_trans; [|apply fold_max_le]. apply Q.le_max_r.
  - apply IH, Hin.
Qed.

Lemma maxCellWidth_nonneg (vs : list Viewport) : 0 <= maxCellWidth vs.
Proof. apply fold_max_le. Qed.

Lemma maxCellHeight_nonneg (vs : list Viewport) : 0 <= maxCellHeight vs.
Proof. apply fold_max_le. Qed.

Lemma placeFrom_nth (columns : Z) (cw ch : Q) (vs : list Viewport) :
  forall (i0 : Z) (k : nat) (v : Viewport),
    nth_error vs k = Some v ->
    nth_error (placeFrom columns cw ch i0 vs) k =
    Some (place columns cw ch (i0 + Z.of_nat k) v).
Proof.
  induction vs as [|w vs IH]; intros i0 k v Hk.
  - destruct k; discriminate.
  - destruct k as [|k]; simpl in *.
    + injection Hk as ->. rewrite Z.add_0_r. reflexivity.
    + rewrite (IH (i0 + 1)%Z k v Hk). do 2 f_equal. lia.
Qed.

Lemma place_col_row (columns : Z) (cw ch : Q) (i : Z) (v : Viewport) :
  (1 <= columns)%Z -> (0 <= i)%Z ->
  col (place columns cw ch i v) = (i mod columns)%Z /\
  row (place columns cw ch i v) = (i / columns)%Z.
Proof.
  intros Hc Hi. unfold place. cbn [col row]. split.
  - apply Z.rem_mod_nonneg; lia.
  - symmetry. apply Zdiv_Qdiv.
Qed.

Lemma cell_in_strip (n total : Z) (size : Q) :
  (0 <= n < total)%Z -> 0 <= size ->
  0 <= inject_Z n * size /\ inject_Z n * size + size <= size * inject_Z total.
Proof.
  intros Hn Hs.
  assert (0 <= inject_Z n) as H0.
  { change 0 with (inject_Z 0). rewrite <- Zle_Qle. lia. }
  assert (inject_Z n + 1 <= inject_Z total) as H1.
  { change 1 with (inject_Z 1). rewrite <- inject_Z_plus, <- Zle_Qle. lia. }
  split; nra.
Qed.

Lemma strips_apart (n m : Z) (size : Q) :
  (n < m)%Z -> 0 <= size ->
  inject_Z n * size + size <= inject_Z m * size.
Proof.
  intros Hn Hs.
  assert (inject_Z n + 1 <= inject_Z m) as H1.
  { change 1 with (inject_Z 1). rewrite <- inject_Z_plus, <- Zle_Qle. lia. }
  nra.
Qed.

End GridCanvasFacts.

(** Where the page of index [k] of a group goes. *)
Lemma grid_place_inside :
  forall columns rows viewports k v,
    1 <= columns ->
    Z.of_nat (List.length viewports) <= columns * rows ->
    nth_error viewports k = Some v ->
    exists p,
      nth_error (GridCanvas.placements (GridCanvas.gridLayout columns rows viewports)) k
        = Some p /\
      GridCanvas.col p = Z.of_nat k mod columns /\
      GridCanvas.row p = Z.of_nat k / columns /\
      GridCanvas.drawnWithin p v
        (GridCanvas.cellX p) (GridCanvas.cellY p)
        (GridCanvas.cellX p + GridCanvas.maxCellWidth viewports)%Q
        (GridCanvas.cellY p + GridCanvas.maxCellHeight viewports)%Q /\
      GridCanvas.drawnWithin p v 0%Q 0%Q
        (GridCanvas.canvasWidth (GridCanvas.gridLayout columns rows viewports))
        (GridCanvas.canvasHeight (GridCanvas.gridLayout columns rows viewports)) /\
      (GridCanvas.xOffset p - GridCanvas.cellX p ==
       GridCanvas.cellX p + GridCanvas.maxCellWidth viewports -
       (GridCanvas.xOffset p + GridCanvas.width v))%Q /\
      (GridCanvas.yOffset p - GridCanvas.cellY p ==
       GridCanvas.cellY p + GridCanvas.maxCellHeight viewports -
       (GridCanvas.yOffset p + GridCanvas.height v))%Q.
Proof.
  intros columns rows viewports k v Hc Hn Hk.
  set (cw := GridCanvas.maxCellWidth viewports).
  set (ch := GridCanvas.maxCellHeight viewports).
  exists (GridCanvas.place columns cw ch (Z.of_nat k) v).
  assert (k < List.length viewports)%nat as Hlt.
  { apply nth_error_Some. congruence. }
  assert (In v viewports) as Hin by (eapply nth_error_In; exact Hk).
  destruct (place_col_row columns cw ch (Z.of_nat k) v Hc ltac:(lia))
    as [Hcol Hrow].
  assert (0 <= Z.of_nat k mod columns < columns) as Hcr
    by (apply Z.mod_pos_bound; lia).
  assert (0 <= Z.of_nat k / columns < rows) as Hrr.
  { split; [apply Z.div_pos; lia|].
    apply Z.div_lt_upper_bound; lia. }
  assert (GridCanvas.width v <= cw)%Q as Hw
    by (apply (fold_max_ge GridCanvas.width); exact Hin).
  assert (GridCanvas.height v <= ch)%Q as Hh
    by (apply (fold_max_ge GridCanvas.height); exact Hin).
  pose proof (maxCellWidth_nonneg viewports) as Hcw. fold cw in Hcw.
  pose proof (maxCellHeight_nonneg viewports) as Hch. fold ch in Hch.
  destruct (cell_in_strip _ _ cw Hcr Hcw) as [Hx0 Hx1].
  destruct (cell_in_strip _ _ ch Hrr Hch) as [Hy0 Hy1].
  split.
  { unfold GridCanvas.gridLayout. cbn [GridCanvas.placements].
    fold cw; fold ch.
    rewrite (placeFrom_nth columns cw ch viewports 0 k v Hk). reflexivity. }
  split; [exact Hcol|]. split; [exact Hrow|].
  unfold GridCanvas.drawnWithin, GridCanvas.gridLayout.
  cbn [GridCanvas.canvasWidth GridCanvas.canvasHeight].
  fold cw; fold ch.
  unfold GridCanvas.place in *.
  cbn [GridCanvas.xOffset GridCanvas.yOffset GridCanvas.cellX GridCanvas.cellY
       GridCanvas.col GridCanvas.row] in *.
  rewrite Hcol, Hrow.
  set (X := (inject_Z (Z.of_nat k mod columns) * cw)%Q) in *.
  set (Y := (inject_Z (Z.of_nat k / columns) * ch)%Q) in *.
  set (W := (cw * inject_Z columns)%Q) in *.
  set (H := (ch * inject_Z rows)%Q) in *.
  clearbody X Y W H cw ch.
  unfold Qdiv. change (/ 2)%Q with (1 # 2)%Q.
  repeat split; try lra; ring.
Qed.

(** X5. The layout of a grid image: with at least one column and no more
    pages than cells, the page of index [k] goes to column [k mod columns]
    of row [k / columns] (row-major order), it is drawn entirely inside its
    cell, centred in it in both directions, and the cell lies entirely
    inside the canvas: nothing is drawn outside the image. *)
Theorem grid_pages_inside_canvas :
  forall columns rows viewports k v,
    1 <= columns ->
    Z.of_nat (List.length viewports) <= columns * rows ->
    nth_error viewports k = Some v ->
    exists p,
      nth_error (GridCanvas.placements (GridCanvas.gridLayout columns rows viewports)) k
        = Some p /\
      GridCanvas.col p = Z.of_nat k mod columns /\
      GridCanvas.row p = Z.of_nat k / columns /\
      GridCanvas.drawnWithin p v
        (GridCanvas.cellX p) (GridCanvas.cellY p)
        (GridCanvas.cellX p + GridCanvas.maxCellWidth viewports)%Q
        (GridCanvas.cellY p + GridCanvas.maxCellHeight viewports)%Q /\
      GridCanvas.drawnWithin p v 0%Q 0%Q
        (GridCanvas.canvasWidth (GridCanvas.gridLayout columns rows viewports))
        (GridCanvas.canvasHeight (GridCanvas.gridLayout columns rows viewports)) /\
      (GridCanvas.xOffset p - GridCanvas.cellX p ==
       GridCanvas.cellX p + GridCanvas.maxCellWidth viewports -
       (GridCanvas.xOffset p + GridCanvas.width v))%Q /\
      (GridCanvas.yOffset p - GridCanvas.cellY p ==
       GridCanvas.cellY p + GridCanvas.maxCellHeight viewports -
       (GridCanvas.yOffset p + GridCanvas.height v))%Q.
Proof. exact grid_place_inside. Qed.

Lemma grid_pages_inside_canvas_witness :
  exists p,
    nth_error
      (GridCanvas.placements
         (GridCanvas.gridLayout 2 2
            [GridCanvas.mkViewport 1224 1584; GridCanvas.mkViewport 1584 1224;
             GridCanvas.mkViewport 1224 1584])) 2 = Some p /\
    GridCanvas.col p = 0 /\ GridCanvas.row p = 1 /\
    GridCanvas.drawnWithin p (GridCanvas.mkViewport 1224 1584) 0%Q 0%Q
      (GridCanvas.canvasWidth
         (GridCanvas.gridLayout 2 2
            [GridCanvas.mkViewport 1224 1584; GridCanvas.mkViewport 1584 1224;
             GridCanvas.mkViewport 1224 1584]))
      (GridCanvas.canvasHeight
         (GridCanvas.gridLayout 2 2
            [GridCanvas.mkViewport 1224 1584; GridCanvas.mkViewport 1584 1224;
             GridCanvas.mkViewport 1224 1584])).
Proof.
  destruct (grid_pages_inside_canvas 2 2
              [GridCanvas.mkViewport 1224 1584; GridCanvas.mkViewport 1584 1224;
               GridCanvas.mkViewport 1224 1584]
              2%nat (GridCanvas.mkViewport 1224 1584)
              ltac:(lia) ltac:(simpl; lia) eq_refl)
    as [p [Hp [Hc [Hr [_ [Hin _]]]]]].
  exists p. split; [exact Hp|]. split; [exact Hc|]. split; [exact Hr|].
  exact Hin.
Defined.

Section GridCells.

Import GridCanvas.

Lemma placeFrom_length (columns : Z) (cw ch : Q) (vs : list Viewport) :
  forall i0, List.length (placeFrom columns cw ch i0 vs) = List.length vs.
Proof.
  induction vs as [|v vs IH]; intros i0; simpl; [reflexivity|].
  rewrite IH. reflexivity.
Qed.

Lemma placeFrom_nth_inv (columns : Z) (cw ch : Q) (vs : list Viewport)
    (k : nat) (p : Placement) :
  nth_error (placeFrom columns cw ch 0 vs) k = Some p ->
  exists v, nth_error vs k = Some v /\
            p = place columns cw ch (Z.of_nat k) v.
Proof.
  intros Hp.
  assert (k < List.length vs)%nat as Hk.
  { rewrite <- (placeFrom_length columns cw ch vs 0).
    apply nth_error_Some. congruence. }
  destruct (nth_error vs k) as [v|] eqn:Ev.
  - exists v. split; [reflexivity|].
    rewrite (placeFrom_nth columns cw ch vs 0 k v Ev) in Hp.
    injection Hp as <-. reflexivity.
  - apply nth_error_None in Ev. lia.
Qed.

End GridCells.

(** X6. Two pages of a grid image never share a cell: for two different
    indices the cells are side by side or one above the other, so the
    pages, each inside its cell, do not overlap. *)
Theorem grid_cells_do_not_overlap :
  forall columns rows viewports j k p q,
    1 <= columns -> j <> k ->
    nth_error (GridCanvas.placements (GridCanvas.gridLayout columns rows viewports)) j
      = Some p ->
    nth_error (GridCanvas.placements (GridCanvas.gridLayout columns rows viewports)) k
      = Some q ->
    GridCanvas.cellsApart (GridCanvas.maxCellWidth viewports)
                          (GridCanvas.maxCellHeight viewports) p q.
Proof.
  intros columns rows viewports j k p q Hc Hjk Hp Hq.
  unfold GridCanvas.gridLayout in Hp, Hq. cbn [GridCanvas.placements] in Hp, Hq.
  apply placeFrom_nth_inv in Hp, Hq.
  destruct Hp as [v [_ ->]], Hq as [w [_ ->]].
  set (cw := GridCanvas.maxCellWidth viewports).
  set (ch := GridCanvas.maxCellHeight viewports).
  pose proof (maxCellWidth_nonneg viewports) as Hcw. fold cw in Hcw.
  pose proof (maxCellHeight_nonneg viewports) as Hch. fold ch in Hch.
  destruct (place_col_row columns cw ch (Z.of_nat j) v Hc ltac:(lia))
    as [Hcj Hrj].
  destruct (place_col_row columns cw ch (Z.of_nat k) w Hc ltac:(lia))
    as [Hck Hrk].
  unfold GridCanvas.cellsApart.
  unfold GridCanvas.place in *.
  cbn [GridCanvas.cellX GridCanvas.cellY GridCanvas.col GridCanvas.row] in *.
  rewrite Hcj, Hrj, Hck, Hrk.
  pose proof (Z.div_mod (Z.of_nat j) columns ltac:(lia)) as Dj.
  pose proof (Z.div_mod (Z.of_nat k) columns ltac:(lia)) as Dk.
  destruct (Z.lt_total (Z.of_nat j mod columns) (Z.of_nat k mod columns))
    as [Hlt|[Heq|Hgt]].
  - left. apply strips_apart; assumption.
  - destruct (Z.lt_total (Z.of_nat j / columns) (Z.of_nat k / columns))
      as [Hlt|[Heq'|Hgt]].
    + right; right; left. apply strips_apart; assumption.
    + exfalso. apply Hjk. rewrite Heq, Heq' in Dj. lia.
    + right; right; right. apply strips_apart; assumption.
  - right; left. apply strips_apart; [lia | assumption].
Qed.

Lemma grid_cells_do_not_overlap_witness :
  GridCanvas.cellsApart 1584 1584
    (GridCanvas.place 2 1584 1584 1 (GridCanvas.mkViewport 1584 1224))
    (GridCanvas.place 2 1584 1584 2 (GridCanvas.mkViewport 1224 1584)).
Proof.
  exact (grid_cells_do_not_overlap 2 2
           [GridCanvas.mkViewport 1224 1584; GridCanvas.mkViewport 1584 1224;
            GridCanvas.mkViewport 1224 1584]
           1%nat 2%nat _ _ ltac:(lia) ltac:(discriminate) eq_refl eq_refl).
Defined.

(** ** The pages of the rasterized document *)

(** X7. In the PDF output mode of the rasterize processor a page of the
    output document has the physical size of the source page, whatever the
    DPI: a page of [w] by [h] points (1/72 inch) becomes a page of
    [w * 25.4 / 72] by [h * 25.4 / 72] millimetres; the DPI only sets the
    resolution of the raster. The page is landscape exactly when the source
    page is wider than high. *)
Theorem rasterized_page_keeps_its_size :
  forall o pageNum w h,
    ~ (Rasterize.dpi o == 0)%Q ->
    (widthMm (Rasterize.pdfPageOf o pageNum (w, h)) == w * (254 # 720))%Q /\
    (heightMm (Rasterize.pdfPageOf o pageNum (w, h)) == h * (254 # 720))%Q /\
    (orientation (Rasterize.pdfPageOf o pageNum (w, h)) = landscape <->
     (h < w)%Q) /\
    imageOf (Rasterize.pdfPageOf o pageNum (w, h)) = pageNum.
Proof.
  intros o pageNum w h Hd.
  unfold Rasterize.pdfPageOf. cbv zeta.
  cbn [widthMm heightMm orientation imageOf fst snd].
  set (WM := (w * (Rasterize.dpi o / 72) / Rasterize.dpi o * (254 # 10))%Q).
  set (HM := (h * (Rasterize.dpi o / 72) / Rasterize.dpi o * (254 # 10))%Q).
  assert (WM == w * (254 # 720))%Q as Hw by (unfold WM; field; exact Hd).
  assert (HM == h * (254 # 720))%Q as Hh by (unfold HM; field; exact Hd).
  split; [exact Hw|]. split; [exact Hh|]. split; [|reflexivity].
  clearbody WM HM.
  destruct (Qle_bool WM HM) eqn:E.
  - apply Qle_bool_iff in E. split; [discriminate|]. intros C. lra.
  - split; [intros _|reflexivity].
    destruct (Qlt_le_dec h w) as [Hlt|Hle]; [exact Hlt|].
    exfalso. assert (Qle_bool WM HM = true) as C
      by (apply Qle_bool_iff; lra).
    congruence.
Qed.

Lemma rasterized_page_keeps_its_size_witness :
  (widthMm (Rasterize.pdfPageOf
              (Rasterize.mkOptions 300 Rasterize.pdf (92 # 100) None "white")
              4 (612%Q, 792%Q)) == 612 * (254 # 720))%Q /\
  (widthMm (Rasterize.pdfPageOf
              (Rasterize.mkOptions 72 Rasterize.pdf (92 # 100) None "white")
              4 (612%Q, 792%Q)) == 612 * (254 # 720))%Q.
Proof.
  split.
  - exact (proj1 (rasterized_page_keeps_its_size
                    (Rasterize.mkOptions 300 Rasterize.pdf (92 # 100) None "white")
                    4 612%Q 792%Q ltac:(discriminate))).
  - exact (proj1 (rasterized_page_keeps_its_size
                    (Rasterize.mkOptions 72 Rasterize.pdf (92 # 100) None "white")
                    4 612%Q 792%Q ltac:(discriminate))).
Defined.

(** ** Numbers written by [String(n)] and read by [parseInt] *)

Section NumberText.

Open Scope string_scope.
Open Scope Z_scope.

Lemma readDigits_uint (d : Decimal.uint) :
  forall (l : Decimal.uint) (seen : bool),
    readDigits (NilEmpty.string_of_uint d)
               (Z.of_N (DecimalPos.Unsigned.of_lu l)) seen =
    (Z.of_N (DecimalPos.Unsigned.of_lu (Decimal.revapp d l)),
     match d with Decimal.Nil => seen | _ => true end).
Proof.
  induction d; intros l seen; cbn [NilEmpty.string_of_uint Decimal.revapp];
    [reflexivity|..];
    cbn [readDigits];
    match goal with
    | |- context [digitValue ?c] =>
        let v := eval vm_compute in (digitValue c) in
        change (digitValue c) with v
    end;
    cbv iota beta;
    match goal with
    | |- readDigits _ ?acc _ = (Z.of_N (DecimalPos.Unsigned.of_lu (Decimal.revapp _ ?l')), _) =>
        replace acc with (Z.of_N (DecimalPos.Unsigned.of_lu l'))
          by (cbn [DecimalPos.Unsigned.of_lu]; lia)
    end;
    rewrite IHd; destruct d; reflexivity.
Qed.

Lemma digit_not_space (c : ascii) :
  digitValue c <> None -> isWhiteSpace c = false.
Proof.
  unfold digitValue, isWhiteSpace. cbv zeta.
  destruct (Nat.leb_spec 48 (nat_of_ascii c)), (Nat.leb_spec (nat_of_ascii c) 57);
    simpl; try congruence. intros _.
  destruct (Nat.leb_spec 9 (nat_of_ascii c)), (Nat.leb_spec (nat_of_ascii c) 13),
           (Nat.eqb_spec (nat_of_ascii c) 32),
           (Nat.eqb_spec (nat_of_ascii c) 160); simpl; try reflexivity; lia.
Qed.

Lemma parseInt_digit_head (c : ascii) (r : string) :
  digitValue c <> None ->
  parseInt (String c r) =
  match readDigits (String c r) 0 false with
  | (v, true) => Some v
  | (_, false) => None
  end.
Proof.
  intros H.
  destruct c as [[] [] [] [] [] [] [] []];
    try (exfalso; apply H; reflexivity); reflexivity.
Qed.

Lemma parseInt_minus_head (c : ascii) (r : string) :
  parseInt (String "-" (String c r)) =
  match readDigits (String c r) 0 false with
  | (v, true) => Some (- v)
  | (_, false) => None
  end.
Proof. reflexivity. Qed.

Lemma uint_head (d : Decimal.uint) :
  d <> Decimal.Nil ->
  exists c r, NilEmpty.string_of_uint d = String c r /\ digitValue c <> None.
Proof.
  intros Hd. destruct d; [congruence|..]; cbn [NilEmpty.string_of_uint];
    do 2 eexists; (split; [reflexivity | discriminate]).
Qed.

Lemma readDigits_uint_value (d : Decimal.uint) :
  d <> Decimal.Nil ->
  readDigits (NilEmpty.string_of_uint d) 0 false =
  (Z.of_N (Pos.of_uint d), true).
Proof.
  intros Hd.
  change 0 with (Z.of_N (DecimalPos.Unsigned.of_lu Decimal.Nil)).
  rewrite readDigits_uint, DecimalPos.Unsigned.of_uint_alt.
  destruct d; [congruence|..]; reflexivity.
Qed.

Lemma parseInt_uint (d : Decimal.uint) :
  d <> Decimal.Nil ->
  parseInt (NilZero.string_of_uint d) = Some (Z.of_N (Pos.of_uint d)) /\
  parseInt (String "-" (NilZero.string_of_uint d)) =
    Some (- Z.of_N (Pos.of_uint d)).
Proof.
  intros Hn.
  pose proof (readDigits_uint_value _ Hn) as Hr.
  destruct (uint_head _ Hn) as [c [r [Hs Hc]]].
  replace (NilZero.string_of_uint d) with (NilEmpty.string_of_uint d)
    by (destruct d; [congruence|..]; reflexivity).
  rewrite Hs in *.
  rewrite (parseInt_digit_head c r Hc), (parseInt_minus_head c r), Hr.
  split; reflexivity.
Qed.

Lemma parseInt_ofZ (n : Z) : parseInt (ofZ n) = Some n.
Proof.
  unfold ofZ. destruct n as [|p|p]; [reflexivity|..];
    cbn [Z.to_int NilZero.string_of_int];
    destruct (parseInt_uint _ (DecimalPos.Unsigned.to_uint_nonnil p)) as [H1 H2];
    [rewrite H1 | rewrite H2];
    rewrite DecimalPos.Unsigned.of_to; reflexivity.
Qed.

Lemma ofZ_inj (a b : Z) : ofZ a = ofZ b -> a = b.
Proof.
  intros H. apply (f_equal parseInt) in H. rewrite !parseInt_ofZ in H.
  congruence.
Qed.

Lemma uint_chars (d : Decimal.uint) (c : ascii) :
  includesChar c (NilEmpty.string_of_uint d) = true -> digitValue c <> None.
Proof.
  induction d; cbn [NilEmpty.string_of_uint includesChar];
    [discriminate|..];
    (intros H; apply orb_true_iff in H; destruct H as [H|H];
     [apply Ascii.eqb_eq in H; subst c; discriminate | apply IHd, H]).
Qed.

Lemma ofZ_chars (n : Z) (c : ascii) :
  0 <= n -> includesChar c (ofZ n) = true -> digitValue c <> None.
Proof.
  intros Hn. unfold ofZ. destruct n as [|p|p]; [| |lia].
  - change (NilZero.string_of_int (Z.to_int 0)) with "0".
    cbn [includesChar]. rewrite orb_false_r. intros H.
    apply Ascii.eqb_eq in H. subst c. discriminate.
  - cbn [Z.to_int NilZero.string_of_int]. unfold NilZero.string_of_uint.
    pose proof (DecimalPos.Unsigned.to_uint_nonnil p) as Hnil.
    destruct (Pos.to_uint p) eqn:Ep; try congruence; rewrite <- Ep;
      apply uint_chars.
Qed.

Lemma ofZ_nonempty (n : Z) : ofZ n <> "".
Proof.
  intros C. pose proof (parseInt_ofZ n) as H. rewrite C in H. discriminate.
Qed.

Lemma trimStart_id (s : string) :
  (forall c, includesChar c s = true -> isWhiteSpace c = false) ->
  trimStart s = s.
Proof.
  destruct s as [|c r]; [reflexivity|]. intros H. simpl.
  rewrite (H c); [reflexivity|]. simpl. rewrite Ascii.eqb_refl. reflexivity.
Qed.

Lemma trimEnd_id (s : string) :
  (forall c, includesChar c s = true -> isWhiteSpace c = false) ->
  trimEnd s = s.
Proof.
  induction s as [|c r IH]; [reflexivity|]. intros H. simpl.
  rewrite IH.
  - destruct r; [|reflexivity].
    rewrite (H c); [reflexivity|]. simpl. rewrite Ascii.eqb_refl. reflexivity.
  - intros d Hd. apply H. simpl. rewrite Hd. apply orb_true_r.
Qed.

Lemma trim_id (s : string) :
  (forall c, includesChar c s = true -> isWhiteSpace c = false) ->
  trim s = s.
Proof.
  intros H. unfold trim. rewrite (trimStart_id s H). apply trimEnd_id, H.
Qed.

Lemma trim_ofZ (n : Z) : 0 <= n -> trim (ofZ n) = ofZ n.
Proof.
  intros Hn. apply trim_id. intros c Hc.
  apply digit_not_space. apply (ofZ_chars n c Hn Hc).
Qed.

Lemma includesChar_app (c : ascii) (a b : string) :
  includesChar c (a ++ b) = includesChar c a || includesChar c b.
Proof.
  induction a as [|x a IH]; simpl; [reflexivity|].
  rewrite IH. apply orb_assoc.
Qed.

Lemma split_none (sep : ascii) (s : string) :
  includesChar sep s = false -> split sep s = [s].
Proof.
  induction s as [|c r IH]; simpl; [reflexivity|].
  intros H. apply orb_false_iff in H. destruct H as [H1 H2].
  rewrite H1, (IH H2). reflexivity.
Qed.

Lemma split_app (sep : ascii) (a b : string) :
  includesChar sep a = false ->
  split sep (a ++ String sep b) = a :: split sep b.
Proof.
  induction a as [|c r IH]; simpl.
  - intros _. rewrite Ascii.eqb_refl. reflexivity.
  - intros H. apply orb_false_iff in H. destruct H as [H1 H2].
    rewrite H1, (IH H2). reflexivity.
Qed.

Lemma ofZ_without (sep : ascii) (n : Z) :
  0 <= n -> digitValue sep = None -> includesChar sep (ofZ n) = false.
Proof.
  intros Hn Hs. destruct (includesChar sep (ofZ n)) eqn:E; [|reflexivity].
  exfalso. apply (ofZ_chars n sep Hn E Hs).
Qed.

Lemma setAddAll_fresh (l acc : list Z) :
  NoDup (acc ++ l)%list -> setAddAll l acc = (acc ++ l)%list.
Proof.
  unfold setAddAll. revert acc. induction l as [|x l IH]; intros acc H; simpl.
  - symmetry. apply app_nil_r.
  - assert (existsb (Z.eqb x) acc = false) as E.
    { destruct (existsb (Z.eqb x) acc) eqn:E; [|reflexivity].
      apply existsb_exists in E. destruct E as [y [Hy Exy]].
      apply Z.eqb_eq in Exy. subst y.
      apply NoDup_remove_2 in H. exfalso. apply H.
      apply in_or_app. left. exact Hy. }
    unfold setAdd. rewrite E. rewrite IH; rewrite <- app_assoc; [reflexivity|].
    exact H.
Qed.

Lemma sortNum_sorted_id (l : list Z) :
  StronglySorted Z.lt l -> sortNum l = l.
Proof.
  unfold sortNum. induction 1 as [|x l Hs IH Hx]; simpl; [reflexivity|].
  rewrite IH. destruct l as [|y l]; [reflexivity|]. simpl.
  inversion Hx as [|? ? Hxy _]; subst.
  replace (x <=? y) with true by (symmetry; apply Z.leb_le; lia).
  reflexivity.
Qed.

Lemma forRange_sorted (lo hi : Z) : StronglySorted Z.lt (forRange lo hi).
Proof.
  unfold forRange. apply seq_shift_sorted. intros i j Hij. lia.
Qed.

Lemma sorted_NoDup (l : list Z) : StronglySorted Z.lt l -> NoDup l.
Proof.
  induction 1 as [|x l Hs IH Hx]; constructor; [|exact IH].
  intros C. rewrite Forall_forall in Hx. specialize (Hx x C). lia.
Qed.

Lemma collect_one (l : list Z) :
  StronglySorted Z.lt l -> sortNum (setAddAll l []) = l.
Proof.
  intros H. rewrite setAddAll_fresh by (apply sorted_NoDup, H).
  apply sortNum_sorted_id, H.
Qed.

End NumberText.

Section TypedRanges.

Open Scope string_scope.
Open Scope Z_scope.

Lemma single_text (p : Z) :
  0 <= p ->
  trim (ofZ p) = ofZ p /\
  String.eqb (ofZ p) "" = false /\
  split "," (ofZ p) = [ofZ p] /\
  includesChar "-" (ofZ p) = false.
Proof.
  intros Hp. split; [apply trim_ofZ, Hp|]. split.
  - apply String.eqb_neq, ofZ_nonempty.
  - split; [apply split_none|]; apply ofZ_without; try exact Hp; reflexivity.
Qed.

Lemma range_text (a b : Z) :
  0 <= a -> 0 <= b ->
  trim (ofZ a ++ "-" ++ ofZ b) = ofZ a ++ "-" ++ ofZ b /\
  String.eqb (ofZ a ++ "-" ++ ofZ b) "" = false /\
  split "," (ofZ a ++ "-" ++ ofZ b) = [ofZ a ++ "-" ++ ofZ b] /\
  includesChar "-" (ofZ a ++ "-" ++ ofZ b) = true /\
  map (fun n => parseInt (trim n)) (split "-" (ofZ a ++ "-" ++ ofZ b)) =
    [Some a; Some b].
Proof.
  intros Ha Hb.
  change ("-" ++ ofZ b) with (String "-" (ofZ b)).
  assert (forall c, includesChar c (ofZ a ++ String "-" (ofZ b)) = true ->
                    digitValue c <> None \/ c = "-"%char) as Hchars.
  { intros c Hc. rewrite includesChar_app in Hc. cbn [includesChar] in Hc.
    apply orb_true_iff in Hc. destruct Hc as [Hc|Hc].
    - left. apply (ofZ_chars a c Ha Hc).
    - apply orb_true_iff in Hc. destruct Hc as [Hc|Hc].
      + right. apply Ascii.eqb_eq in Hc. congruence.
      + left. apply (ofZ_chars b c Hb Hc). }
  split; [|split; [|split; [|split]]].
  - apply trim_id. intros c Hc. destruct (Hchars c Hc) as [H | ->].
    + apply digit_not_space, H.
    + reflexivity.
  - apply String.eqb_neq. intros C.
    destruct (ofZ a); discriminate C.
  - apply split_none. destruct (includesChar "," _) eqn:E; [|reflexivity].
    destruct (Hchars _ E) as [H|H]; [exfalso; apply H; reflexivity|discriminate].
  - rewrite includesChar_app. cbn [includesChar]. rewrite Ascii.eqb_refl.
    apply orb_true_r.
  - rewrite split_app by (apply ofZ_without; [exact Ha | reflexivity]).
    rewrite split_none by (apply ofZ_without; [exact Hb | reflexivity]).
    cbn [map]. rewrite !trim_ofZ, !parseInt_ofZ by assumption. reflexivity.
Qed.

End TypedRanges.

Lemma forRange_length (lo hi : Z) :
  Z.of_nat (List.length (forRange lo hi)) = Z.max 0 (hi + 1 - lo).
Proof.
  unfold forRange. rewrite length_map, length_seq. lia.
Qed.

(** X8. What is written is what is read: [parseInt(String(n), 10)] is [n]
    for every safe integer [n] (of magnitude at most 2^53 - 1), so two
    different safe integers never have the same text. A page number of
    the document typed in the page field selects that page; a range [a-b]
    of safe integers selects the pages from [a] to [b] that the document
    has. The tool's parser returns all the pages of such a range, as long
    as they fit in an array; the processor drops the ones the document
    does not have later. *)
Theorem typed_numbers_select_their_pages :
  (forall n, JsNumber.isSafeInteger n = true -> parseInt (ofZ n) = Some n) /\
  (forall a b,
     JsNumber.isSafeInteger a = true -> JsNumber.isSafeInteger b = true ->
     ofZ a = ofZ b -> a = b) /\
  (forall p N,
     1 <= p <= N -> N <= JsNumber.MAX_SAFE_INTEGER ->
     parsePageRange (ofZ p) N = [p]) /\
  (forall a b N,
     0 <= a <= JsNumber.MAX_SAFE_INTEGER ->
     0 <= b <= JsNumber.MAX_SAFE_INTEGER ->
     parsePageRange (ofZ a ++ "-" ++ ofZ b) N =
     forRange (Z.max 1 a) (Z.min N b)) /\
  (forall p,
     0 <= p <= JsNumber.MAX_SAFE_INTEGER ->
     ImageTool.parsePageRange (ofZ p) = Some [p]) /\
  (forall a b,
     0 <= a <= JsNumber.MAX_SAFE_INTEGER ->
     0 <= b <= JsNumber.MAX_SAFE_INTEGER ->
     b - a < JsNumber.MAX_ARRAY_LENGTH ->
     ImageTool.parsePageRange (ofZ a ++ "-" ++ ofZ b) = Some (forRange a b)).
Proof.
  assert (forall n, 0 <= n <= JsNumber.MAX_SAFE_INTEGER ->
                    JsNumber.isSafeInteger n = true) as Hsafe.
  { intros n Hn. unfold JsNumber.isSafeInteger, JsNumber.MAX_SAFE_INTEGER in *.
    apply andb_true_iff. split; apply Z.leb_le; lia. }
  split; [intros n _; apply parseInt_ofZ|].
  split; [intros a b _ _; apply ofZ_inj|].
  split; [|split; [|split]].
  - intros p N Hp _.
    destruct (single_text p ltac:(lia)) as [Ht [He [Hs Hm]]].
    unfold parsePageRange. rewrite Ht, He, Hs. cbn [orb map fold_left].
    rewrite Ht. unfold partPages. rewrite Hm, parseInt_ofZ.
    replace (1 <=? p) with true by (symmetry; apply Z.leb_le; lia).
    replace (p <=? N) with true by (symmetry; apply Z.leb_le; lia).
    reflexivity.
  - intros a b N [Ha _] [Hb _].
    destruct (range_text a b Ha Hb) as [Ht [He [Hs [Hm Hp]]]].
    unfold parsePageRange. rewrite Ht, He, Hs. cbn [orb map fold_left].
    rewrite Ht. unfold partPages. rewrite Hm, Hp.
    apply collect_one, forRange_sorted.
  - intros p Hp.
    destruct (single_text p (proj1 Hp)) as [Ht [He [Hs Hm]]].
    unfold ImageTool.parsePageRange. rewrite Ht, He, Hs. cbn [fold_left].
    unfold ImageTool.addPart, ImageTool.partPages. cbv zeta.
    rewrite Ht, Hm, parseInt_ofZ, (Hsafe p Hp).
    reflexivity.
  - intros a b Ha Hb Hlen.
    destruct (range_text a b (proj1 Ha) (proj1 Hb)) as [Ht [He [Hs [Hm Hp]]]].
    unfold ImageTool.parsePageRange. rewrite Ht, He, Hs. cbn [fold_left].
    unfold ImageTool.addPart, ImageTool.partPages. cbv zeta.
    rewrite Ht, Hm, Hp, (Hsafe a Ha), (Hsafe b Hb). cbn [andb].
    rewrite setAddAll_fresh
      by (cbn [app]; apply sorted_NoDup, forRange_sorted).
    cbn [app].
    replace (Z.of_nat (List.length (forRange a b)) <=?
             JsNumber.MAX_ARRAY_LENGTH) with true
      by (symmetry; apply Z.leb_le; rewrite forRange_length;
          unfold JsNumber.MAX_ARRAY_LENGTH in *; lia).
    cbn [option_map]. f_equal. apply sortNum_sorted_id, forRange_sorted.
Qed.

Lemma typed_numbers_select_their_pages_witness :
  parseInt (ofZ 9007199254740991) = Some 9007199254740991 /\
  parsePageRange (ofZ 12) 40 = [12] /\
  parsePageRange (ofZ 38 ++ "-" ++ ofZ 45) 40 = [38; 39; 40] /\
  ImageTool.parsePageRange (ofZ 7) = Some [7] /\
  ImageTool.parsePageRange (ofZ 38 ++ "-" ++ ofZ 41) = Some [38; 39; 40; 41].
Proof.
  split; [|split; [|split; [|split]]].
  - exact (proj1 typed_numbers_select_their_pages 9007199254740991 eq_refl).
  - exact (proj1 (proj2 (proj2 typed_numbers_select_their_pages)) 12 40
             ltac:(lia) ltac:(vm_compute; discriminate)).
  - exact (proj1 (proj2 (proj2 (proj2 typed_numbers_select_their_pages)))
             38 45 40 ltac:(vm_compute; split; discriminate)
             ltac:(vm_compute; split; discriminate)).
  - exact (proj1 (proj2 (proj2 (proj2 (proj2 typed_numbers_select_their_pages))))
             7 ltac:(vm_compute; split; discriminate)).
  - exact (proj2 (proj2 (proj2 (proj2 (proj2 typed_numbers_select_their_pages))))
             38 41 ltac:(vm_compute; split; discriminate)
             ltac:(vm_compute; split; discriminate)
             ltac:(vm_compute; reflexivity)).
Defined.

(** ** Cancellation of a rasterize call *)

Section RasterizeCancel.

Variables (env : Rasterize.Env) (o : Rasterize.RasterizePDFOptions)
          (doc : PdfDocument).

(** The image loop, whatever the polls answer: it returns the
    cancellation envelope when one of its polls finds the flag raised, and
    gives the images of the pages that render otherwise. *)
Lemma rasterize_imageLoop_outcome (baseName : string) (n : Z) (pages : list Z) :
  forall i images s,
    exists s',
      Rasterize.imageLoop env o doc baseName n pages i images s =
      ((if existsb (Rasterize.cancelledAt env)
                   (seq (polls s) (List.length pages))
        then Return cancelledOutput
        else Next (images ++ map (Rasterize.imageFor o baseName)
                                 (filter (Rasterize.pageRenders env doc) pages))),
       s').
Proof.
  induction pages as [|p pages IH]; intros i images s.
  - eexists. simpl. rewrite app_nil_r. reflexivity.
  - cbn [Rasterize.imageLoop filter List.length seq existsb].
    unfold bind at 1. unfold checkCancelled at 1. cbn beta iota.
    cbn [getBase BaseProcessor].
    destruct (Rasterize.cancelledAt env (polls s)) eqn:Ec.
    + eexists. reflexivity.
    + unfold bind at 1. unfold updateProgress at 1, modify at 1. cbn beta iota.
      unfold bind at 1. rewrite rasterize_image_try.
      match goal with
      | |- context [Rasterize.imageLoop _ _ _ _ _ _ ?j ?im ?st] =>
          destruct (IH j im st) as [s' ->]
      end.
      cbn [getBase setBase BaseProcessor polls orb].
      exists s'.
      destruct (existsb _ _); [reflexivity|].
      destruct (Rasterize.pageRenders env doc p); [|reflexivity].
      cbn [map]. rewrite <- app_assoc. reflexivity.
Qed.

(** The PDF loop: the same for the polls. *)
Lemma rasterize_pdfLoop_outcome (n : Z) (pages : list Z) :
  forall i pdfOutput s,
    exists s' r,
      Rasterize.pdfLoop env o doc n pages i pdfOutput s =
      ((if existsb (Rasterize.cancelledAt env)
                   (seq (polls s) (List.length pages))
        then Return cancelledOutput
        else Next r), s').
Proof.
  induction pages as [|p pages IH]; intros i pdfOutput s.
  - do 2 eexists. reflexivity.
  - cbn [Rasterize.pdfLoop List.length seq existsb].
    unfold bind at 1. unfold checkCancelled at 1. cbn beta iota.
    cbn [getBase BaseProcessor].
    destruct (Rasterize.cancelledAt env (polls s)) eqn:Ec.
    + eexists. exists pdfOutput. reflexivity.
    + unfold bind at 1. unfold updateProgress at 1, modify at 1. cbn beta iota.
      unfold bind at 1. rewrite rasterize_pdf_try.
      match goal with
      | |- context [Rasterize.pdfLoop _ _ _ _ _ ?j ?out ?st] =>
          destruct (IH j out st) as [s' [r ->]]
      end.
      cbn [getBase setBase BaseProcessor polls orb].
      exists s', r. reflexivity.
Qed.

End RasterizeCancel.

Lemma existsb_seq_true (f : nat -> bool) (start len k : nat) :
  (start <= k < start + len)%nat -> f k = true ->
  existsb f (seq start len) = true.
Proof.
  intros Hk Hf. apply existsb_exists. exists k. split; [|exact Hf].
  apply in_seq. exact Hk.
Qed.

(** X9. Cooperative cancellation of the rasterize processor: the flag is
    polled once after the document is loaded and once before every page.
    When one of these polls finds it raised, the call resolves with
    [PROCESSING_CANCELLED], in the image output mode and in the PDF output
    mode alike, whatever was rendered before and whether pages failed or
    not; no partial result is returned. *)
Theorem rasterize_cancellation :
  forall env file opts doc k,
    Rasterize.loadPdfjs env = Done tt ->
    Rasterize.arrayBuffer env = Done tt ->
    Rasterize.getDocument env = Done doc ->
    (Rasterize.format (Rasterize.mergeOptions opts) = Rasterize.pdf ->
     Rasterize.importJsPDF env = Done tt) ->
    (k <= List.length (Rasterize.pagesToRender (Rasterize.mergeOptions opts)
                                               (numPages doc)))%nat ->
    Rasterize.cancelledAt env k = true ->
    fst (Rasterize.run env (mkInput [file] opts)) = Resolved cancelledOutput.
Proof.
  intros env file opts doc k Hl Ha Hd Hj Hk Hc.
  unfold Rasterize.run, Rasterize.process, Rasterize.fresh.
  run_unfold. cbn [files options].
  rewrite Hl. cbn beta iota. rewrite Ha. cbn beta iota. rewrite Hd.
  cbn beta iota zeta. cbn [getBase setBase BaseProcessor polls].
  destruct (Rasterize.cancelledAt env 0) eqn:E0; [reflexivity|].
  cbn beta iota.
  remember (Rasterize.mergeOptions opts) as o eqn:Eo.
  remember (Rasterize.pagesToRender o (numPages doc)) as pages eqn:Ep.
  assert (1 <= k)%nat as Hk1.
  { destruct k; [congruence | lia]. }
  assert ((Rasterize.lengthZ pages =? 0) = false) as Hz.
  { apply Z.eqb_neq. unfold Rasterize.lengthZ. lia. }
  rewrite Hz.
  destruct (Rasterize.format o) eqn:Efmt.
  4: { rewrite (Hj eq_refl). cbn beta iota.
       match goal with
       | |- context [Rasterize.pdfLoop ?e ?oo ?d ?n ?ps ?i ?out ?st] =>
           assert (polls st = 1%nat) as Hpolls by reflexivity;
           destruct (rasterize_pdfLoop_outcome e oo d n ps i out st)
             as [s' [r Hr]]
       end.
       rewrite Hpolls in Hr.
       rewrite (existsb_seq_true _ 1 _ k) in Hr by (lia || exact Hc).
       rewrite Hr. reflexivity. }
  all: match goal with
       | |- context [Rasterize.imageLoop ?e ?oo ?d ?b ?n ?ps ?i ?im ?st] =>
           assert (polls st = 1%nat) as Hpolls by reflexivity;
           destruct (rasterize_imageLoop_outcome e oo d b n ps i im st)
             as [s' Hr]
       end;
       rewrite Hpolls in Hr;
       rewrite (existsb_seq_true _ 1 _ k) in Hr by (lia || exact Hc);
       rewrite Hr; reflexivity.
Qed.

Lemma rasterize_cancellation_witness :
  fst (Rasterize.run
         (Rasterize.mkEnv (fun k => Nat.eqb k 3) (Done tt) (Done tt)
            (Done (Examples.docOf 5 (fun p => p =? 2))) Examples.goodCanvas
            (Done tt) (Done tt) (Done tt))
         (mkInput [Examples.pdfFile]
            (Rasterize.mkPartial None (Some Rasterize.pdf) None None None))) =
  Resolved cancelledOutput.
Proof.
  exact (rasterize_cancellation
           (Rasterize.mkEnv (fun k => Nat.eqb k 3) (Done tt) (Done tt)
              (Done (Examples.docOf 5 (fun p => p =? 2))) Examples.goodCanvas
              (Done tt) (Done tt) (Done tt))
           Examples.pdfFile
           (Rasterize.mkPartial None (Some Rasterize.pdf) None None None)
           (Examples.docOf 5 (fun p => p =? 2)) 3%nat
           eq_refl eq_refl eq_refl (fun _ => eq_refl)
           ltac:(vm_compute; lia) eq_refl).
Defined.

(** ** The names of the entries of an archive *)

Section StringAppend.

Open Scope string_scope.

Lemma string_length_app (a b : string) :
  String.length (a ++ b) = (String.length a + String.length b)%nat.
Proof. induction a as [|c a IH]; simpl; [reflexivity|]. rewrite IH. reflexivity. Qed.

Lemma string_app_inv_head (a x y : string) : a ++ x = a ++ y -> x = y.
Proof.
  induction a as [|c a IH]; simpl; intros H; [exact H|].
  injection H as H. apply IH, H.
Qed.

Lemma string_app_inv_tail (e x y : string) : x ++ e = y ++ e -> x = y.
Proof.
  revert y. induction x as [|c x IH]; intros [|d y] H; simpl in H.
  - reflexivity.
  - exfalso. apply (f_equal String.length) in H. simpl in H.
    rewrite string_length_app in H. lia.
  - exfalso. apply (f_equal String.length) in H. simpl in H.
    rewrite string_length_app in H. lia.
  - injection H as -> H. f_equal. apply IH, H.
Qed.

Lemma imageFor_name_inj (o : Rasterize.RasterizePDFOptions) (baseName : string)
    (p q : Z) :
  Rasterize.filename (Rasterize.imageFor o baseName p) =
  Rasterize.filename (Rasterize.imageFor o baseName q) -> p = q.
Proof.
  unfold Rasterize.imageFor. cbn [Rasterize.filename]. intros H.
  apply string_app_inv_head in H. apply string_app_inv_head in H.
  apply string_app_inv_tail in H. apply ofZ_inj, H.
Qed.

End StringAppend.

Lemma NoDup_map_injective {A B} (f : A -> B) (l : list A) :
  (forall x y, f x = f y -> x = y) -> NoDup l -> NoDup (map f l).
Proof.
  intros Hf. induction 1 as [|x l Hx Hl IH]; simpl; constructor; [|exact IH].
  intros C. apply in_map_iff in C. destruct C as [y [E Hy]].
  apply Hf in E. subst y. exact (Hx Hy).
Qed.

Lemma filter_NoDup {A} (f : A -> bool) (l : list A) :
  NoDup l -> NoDup (filter f l).
Proof.
  induction 1 as [|x l Hx Hl IH]; simpl; [constructor|].
  destruct (f x); [|exact IH]. constructor; [|exact IH].
  intros C. apply filter_In in C. tauto.
Qed.

(** The envelopes without an archive. *)
Ltac names_done :=
  cbn [fst]; intros Hout; injection Hout as <-;
  unfold Envelope.entryNames, cancelledOutput;
  cbn [result createErrorOutput createSuccessOutput];
  (split; [apply NoDup_nil | intros ? []]).

Ltac handler_done :=
  repeat match goal with
         | |- context [match ?e with ErrorObj _ => _ | OtherValue _ => _ end] =>
             destruct e
         | |- context [if includes ?a ?b then _ else _] =>
             destruct (includes a b)
         end;
  names_done.

(** X10. The archive of the rasterize processor never holds two entries
    of the same name: every entry is named
    [<base name>_page_<N><extension>] for the page [N] it shows, the pages
    are distinct and two different numbers are written differently. *)
Theorem archive_names_distinct :
  forall env file opts out,
    fst (Rasterize.run env (mkInput [file] opts)) = Resolved out ->
    NoDup (Envelope.entryNames out) /\
    (forall entry, In entry (Envelope.entryNames out) ->
       exists p,
         entry = (stripPdfSuffix (name file) ++ "_page_" ++ ofZ p ++
                  Rasterize.getFileExtension
                    (Rasterize.format (Rasterize.mergeOptions opts)))%string).
Proof.
  intros env file opts out.
  unfold Rasterize.run, Rasterize.process, Rasterize.fresh, Rasterize.renderFailed.
  run_unfold. cbn [files options].
  remember (Rasterize.mergeOptions opts) as o eqn:Eo.
  destruct (Rasterize.loadPdfjs env) as [[]|e]; cbn beta iota;
    [|handler_done].
  destruct (Rasterize.arrayBuffer env) as [[]|e]; cbn beta iota;
    [|handler_done].
  destruct (Rasterize.getDocument env) as [doc|e]; cbn beta iota zeta;
    [|handler_done].
  destruct (Rasterize.cancelledAt env _); cbn beta iota; [names_done|].
  remember (Rasterize.pagesToRender o (numPages doc)) as pages eqn:Ep.
  destruct (Rasterize.lengthZ pages =? 0); [names_done|].
  cbn beta iota.
  assert (NoDup pages) as Hnd.
  { subst pages. apply sorted_NoDup. unfold Rasterize.pagesToRender.
    apply parsePageRange_sorted. }
  destruct (Rasterize.format o) eqn:Efmt.
  4: { destruct (Rasterize.importJsPDF env) as [[]|e]; cbn beta iota;
         [|handler_done].
       match goal with
       | |- context [Rasterize.pdfLoop ?e ?oo ?d ?n ?ps ?i ?out ?st] =>
           destruct (rasterize_pdfLoop_outcome e oo d n ps i out st)
             as [s' [r Hr]]
       end.
       rewrite Hr. destruct (existsb _ _); [names_done|].
       destruct r; names_done. }
  all: match goal with
       | |- context [Rasterize.imageLoop ?e ?oo ?d ?b ?n ?ps ?i ?im ?st] =>
           destruct (rasterize_imageLoop_outcome e oo d b n ps i im st)
             as [s' Hr]
       end;
       rewrite Hr; destruct (existsb _ _); [names_done|];
       cbn [app];
       pose proof (filter_NoDup (Rasterize.pageRenders env doc) pages Hnd) as Hf;
       remember (map (Rasterize.imageFor o (stripPdfSuffix (name file)))
                     (filter (Rasterize.pageRenders env doc) pages))
         as images eqn:Ei;
       destruct images as [|x [|y r]];
       cbn beta iota; [names_done | names_done |];
       destruct (Rasterize.importJSZip env) as [[]|e]; cbn beta iota;
         [|handler_done];
       destruct (Rasterize.generateAsync env) as [[]|e]; cbn beta iota;
         [|handler_done];
       cbn [fst]; intros Hout; injection Hout as <-;
       unfold Envelope.entryNames; cbn [result createSuccessOutput];
       match goal with
       | |- NoDup ?L /\ _ =>
           replace L with (map Rasterize.filename (x :: y :: r))
             by (cbn [map fst]; rewrite map_map; reflexivity)
       end;
       rewrite Ei, map_map;
       (split;
        [ apply NoDup_map_injective; [apply imageFor_name_inj | exact Hf]
        | intros entry He; apply in_map_iff in He;
          destruct He as [p [<- _]]; exists p;
          unfold Rasterize.imageFor; cbn [Rasterize.filename];
          rewrite Efmt; reflexivity ]).
Qed.

Lemma archive_names_distinct_witness :
  NoDup (Envelope.entryNames Examples.scanImages).
Proof.
  exact (proj1 (archive_names_distinct
                  (Examples.rasterEnv (Examples.docOf 3 (fun _ => false)))
                  Examples.disguisedFile
                  (Rasterize.mkPartial None (Some Rasterize.png) None (Some "") None)
                  Examples.scanImages ltac:(vm_compute; reflexivity))).
Defined.

(** ** No exception leaves [process] *)

Section NeverRejects.

Context {St : Type}.

Lemma triple_any {A} (P : St -> Prop) (m : M St A) :
  triple P m (fun _ _ => True) (fun _ _ => True) (fun _ _ => True).
Proof. intros s _. destruct (m s) as [[a|o|e|] s']; exact I. Qed.

Lemma settle_notRejected (m : M St ProcessOutput) (s : St) :
  triple (fun _ => True) m (fun _ _ => True) (fun _ _ => True)
         (fun _ _ => False) ->
  Envelope.notRejected (fst (settle m s)).
Proof.
  intros Hm. specialize (Hm s I). unfold settle.
  destruct (m s) as [[a|o|e|] s']; simpl; trivial.
Qed.

End NeverRejects.

(** The body of [process] once the files are counted: a [return], or a
    [try] whose handler returns. *)
Ltac no_throw :=
  repeat first
    [ apply triple_return; trivial
    | apply triple_tryCatch with (Eb := fun _ _ => True);
        [apply triple_any | intros ?]
    | apply triple_bind with (Qm := fun _ _ => True);
        [apply triple_modify; trivial | intros ?]
    | match goal with
      | |- triple _ (if ?c then _ else _) _ _ _ => destruct c
      | |- triple _ (match ?x with _ => _ end) _ _ _ => destruct x
      end ].

(** X11. The promise of [process] is never rejected: whatever the
    libraries, the document, the canvas or the worker do, and whatever the
    input is, a call of one of the four processors resolves with an
    envelope (or, for a worker that never answers, stays pending); every
    failure travels in the envelope. *)
Theorem process_never_rejects :
  (forall env input, Envelope.notRejected (fst (Rasterize.run env input))) /\
  (forall env input, Envelope.notRejected (fst (PDFToImage.run env input))) /\
  (forall env input, Envelope.notRejected (fst (Watermark.run env input))) /\
  (forall env input s,
     Envelope.notRejected (fst (PDFToDocx.run env input s))).
Proof.
  split; [|split; [|split]]; intros env input; [| | |intros s];
    apply settle_notRejected.
  - unfold Rasterize.process. no_throw.
  - unfold PDFToImage.process. no_throw.
  - unfold Watermark.process. no_throw.
  - unfold PDFToDocx.process, PDFToDocx.terminateWorker. no_throw.
Qed.

(** ** The envelopes and the error codes of each processor *)

Lemma triple_pure {St A} (phi : Prop) (m : M St A) (Q : A -> St -> Prop)
    (R : ProcessOutput -> St -> Prop) (E : Thrown -> St -> Prop) :
  (phi -> triple (fun _ => True) m Q R E) -> triple (fun _ => phi) m Q R E.
Proof. intros H s Hs. apply (H Hs s I). Qed.

Section AnswerLoops.

Variable G : ProcessOutput -> Prop.
Hypothesis G_cancelled : G cancelledOutput.
Hypothesis G_failed :
  forall msg det, G (createErrorOutput PROCESSING_FAILED msg det).

Lemma rasterize_pdfLoop_answers env o doc n pages :
  forall i out, onlyReturns G (Rasterize.pdfLoop env o doc n pages i out).
Proof.
  induction pages as [|p pages IH]; intros i out; simpl;
    unfold Rasterize.useContext;
    only_with ltac:(first [apply G_cancelled | apply IH]).
Qed.

Lemma rasterize_imageLoop_answers env o doc baseName n pages :
  forall i images,
    onlyReturns G (Rasterize.imageLoop env o doc baseName n pages i images).
Proof.
  induction pages as [|p pages IH]; intros i images; simpl;
    unfold Rasterize.useContext, Rasterize.awaitBlob;
    only_with ltac:(first [apply G_cancelled | apply IH]).
Qed.

Lemma watermark_markLoop_answers env doc o n indices :
  forall i marks, onlyReturns G (Watermark.markLoop env doc o n indices i marks).
Proof.
  induction indices as [|p indices IH]; intros i marks; simpl;
    only_with ltac:(first [apply G_cancelled | apply IH]).
Qed.

Lemma image_forEachM_answers {A} (f : A -> M BaseState unit) (xs : list A) :
  (forall x, onlyReturns G (f x)) -> onlyReturns G (PDFToImage.forEachM f xs).
Proof.
  intros Hf. induction xs as [|x xs IH]; simpl;
    only_with ltac:(first [apply Hf | apply IH]).
Qed.

Lemma image_renderPage_answers env doc p o :
  onlyReturns (St := BaseState) G (PDFToImage.renderPageToImage env doc p o).
Proof.
  unfold PDFToImage.renderPageToImage, PDFToImage.needContext,
         PDFToImage.awaitBlob.
  only_auto.
Qed.

Lemma image_renderGrid_answers env doc group o :
  onlyReturns (St := BaseState) G
    (PDFToImage.renderGridPagesToImage env doc group o).
Proof.
  unfold PDFToImage.renderGridPagesToImage, PDFToImage.needContext,
         PDFToImage.awaitBlob.
  only_with ltac:(apply image_forEachM_answers; intros ?).
Qed.

Lemma image_pageLoop_answers env doc o n ps :
  forall i images, onlyReturns G (PDFToImage.pageLoop env doc o n ps i images).
Proof.
  induction ps as [|p ps IH]; intros i images; simpl;
    unfold PDFToImage.failedOutput;
    only_with ltac:(first [ apply G_cancelled | apply G_failed | apply IH
                          | apply image_renderPage_answers ]).
Qed.

Lemma image_groupsLoop_answers env doc o n groups :
  forall i images,
    onlyReturns G (PDFToImage.groupsLoop env doc o n groups i images).
Proof.
  induction groups as [|g groups IH]; intros i images; simpl;
    unfold PDFToImage.groupImage, PDFToImage.failedOutput;
    only_with ltac:(first [ apply G_cancelled | apply G_failed | apply IH
                          | apply image_renderPage_answers
                          | apply image_renderGrid_answers ]).
Qed.

Lemma docx_awaitInit_answers (events : list PDFToDocx.WorkerEvent) :
  onlyReturns G (PDFToDocx.awaitInit events).
Proof.
  induction events as [|[m|t] events IH]; cbn [PDFToDocx.awaitInit];
    unfold PDFToDocx.initHandleMessage;
    only_with ltac:(apply IH).
Qed.

Lemma docx_awaitConvert_answers (msgId : string)
    (events : list PDFToDocx.WorkerEvent) :
  onlyReturns G (PDFToDocx.awaitConvert msgId events).
Proof.
  induction events as [|[m|t] events IH]; cbn [PDFToDocx.awaitConvert];
    unfold PDFToDocx.initHandleMessage;
    only_with ltac:(apply IH).
Qed.

(** The conversion resolves with a document when every
    [convert-complete] message carries one. *)
Lemma docx_awaitConvert_document (msgId : string)
    (events : list PDFToDocx.WorkerEvent) :
  Forall WorkerUse.carriesDocument events ->
  triple (fun _ => True) (PDFToDocx.awaitConvert msgId events)
         (fun r _ => r <> None) (fun o _ => G o) (fun _ _ => True).
Proof.
  induction 1 as [|ev events Hev _ IH]; cbn [PDFToDocx.awaitConvert];
    [apply triple_hang|].
  destruct ev as [m|t]; [|apply triple_throw; trivial].
  apply triple_bind with (Qm := fun _ _ => True).
  { unfold PDFToDocx.initHandleMessage.
    repeat match goal with
           | |- triple _ (if ?c then _ else _) _ _ _ => destruct c
           end;
      first [ apply triple_modify; trivial
            | apply triple_updateProgress; trivial
            | apply triple_ret; trivial
            | apply triple_throw; trivial ]. }
  intros _.
  destruct (String.eqb (Worker.type m) "status").
  { apply triple_bind with (Qm := fun _ _ => True);
      [apply triple_gets; trivial|]. intros p.
    apply triple_bind with (Qm := fun _ _ => True);
      [apply triple_updateProgress; trivial|]. intros _. exact IH. }
  destruct (String.eqb (Worker.type m) "progress").
  { apply triple_bind with (Qm := fun _ _ => True);
      [apply triple_gets; trivial|]. intros p.
    apply triple_bind with (Qm := fun _ _ => True);
      [apply triple_updateProgress; trivial|]. intros _. exact IH. }
  destruct (negb (PDFToDocx.idMatches (Worker.id m) msgId)); [exact IH|].
  destruct (String.eqb (Worker.type m) "convert-complete") eqn:Et.
  { apply triple_ret. intros s _. apply Hev. apply String.eqb_eq, Et. }
  destruct (String.eqb (Worker.type m) "error");
    [apply triple_throw; trivial | exact IH].
Qed.

Lemma docx_initWorker_answers (env : PDFToDocx.Env) :
  onlyReturns G (PDFToDocx.initWorker env).
Proof.
  unfold PDFToDocx.initWorker.
  only_with ltac:(apply docx_awaitInit_answers).
Qed.

End AnswerLoops.

(** An envelope built by one of the two constructors is an answer. *)
Ltac answer_leaf :=
  first
    [ solve [ left; unfold Envelope.isSuccess; cbn; repeat split; discriminate ]
    | solve [ right; unfold Envelope.isError, errorCode, cancelledOutput; cbn;
              repeat split; eexists; split; [reflexivity | simpl; tauto] ]
    | solve [ left; split; reflexivity ] ].

Ltac answer_loops :=
  first
    [ apply rasterize_pdfLoop_answers; intros; answer_leaf
    | apply rasterize_imageLoop_answers; intros; answer_leaf
    | apply watermark_markLoop_answers; intros; answer_leaf
    | apply image_pageLoop_answers; intros; answer_leaf
    | apply image_groupsLoop_answers; intros; answer_leaf
    | apply docx_initWorker_answers
    | apply docx_awaitConvert_answers
    | answer_leaf ].

(** X12. The envelopes of each processor. A call that resolves gives
    either a success envelope, with a result and a file name and no error,
    or an error envelope, with no result and one of the error codes of the
    processor: the rasterize processor (at a resolution that is not 0)
    never answers with [FILE_TYPE_INVALID], [INVALID_PAGE_RANGE] or
    [WORKER_FAILED]; the PDF to image processor never with
    [PDF_ENCRYPTED] or [WORKER_FAILED]; the watermark processor only with
    [INVALID_OPTIONS], [PROCESSING_CANCELLED] and [PROCESSING_FAILED]; the
    PDF to DOCX processor never with [INVALID_PAGE_RANGE] or
    [PDF_ENCRYPTED], as long as the [convert-complete] messages of the
    worker carry the document (the result of a success is what the
    message carries). *)
Theorem processors_answer_with_their_codes :
  (forall env input o,
     ~ (Rasterize.dpi (Rasterize.mergeOptions (options input)) == 0)%Q ->
     fst (Rasterize.run env input) = Resolved o ->
     Envelope.answers [INVALID_OPTIONS; PROCESSING_CANCELLED; PROCESSING_FAILED;
                       PDF_ENCRYPTED] o) /\
  (forall env input o,
     fst (PDFToImage.run env input) = Resolved o ->
     Envelope.answers [INVALID_OPTIONS; FILE_TYPE_INVALID; INVALID_PAGE_RANGE;
                       PROCESSING_CANCELLED; PROCESSING_FAILED] o) /\
  (forall env input o,
     fst (Watermark.run env input) = Resolved o ->
     Envelope.answers [INVALID_OPTIONS; PROCESSING_CANCELLED; PROCESSING_FAILED]
                      o) /\
  (forall env input s o,
     Forall WorkerUse.carriesDocument (PDFToDocx.convertEvents env) ->
     fst (PDFToDocx.run env input s) = Resolved o ->
     Envelope.answers [INVALID_OPTIONS; FILE_TYPE_INVALID; WORKER_FAILED;
                       PROCESSING_CANCELLED; PROCESSING_FAILED] o).
Proof.
  split; [|split; [|split]].
  - intros env input o _. unfold Rasterize.run. apply resolves_settle.
    unfold Rasterize.process, Rasterize.renderFailed, Envelope.answers.
    only_with answer_loops.
  - intros env input o. unfold PDFToImage.run. apply resolves_settle.
    unfold PDFToImage.process, PDFToImage.failedOutput, Envelope.answers.
    only_with answer_loops.
  - intros env input o. unfold Watermark.run. apply resolves_settle.
    unfold Watermark.process, Envelope.answers.
    only_with answer_loops.
  - intros env input s o Hev. unfold PDFToDocx.run.
    apply (resolves_settle
             (Envelope.answers [INVALID_OPTIONS; FILE_TYPE_INVALID;
                                WORKER_FAILED; PROCESSING_CANCELLED;
                                PROCESSING_FAILED])).
    unfold PDFToDocx.process, PDFToDocx.terminateWorker, Envelope.answers.
    apply resolves_bind; [apply only_reset|]. intros _.
    destruct (files input) as [|file [|file' rest]];
      try (apply resolves_return; answer_leaf).
    match goal with
    | |- resolvesIn _ (if ?c then _ else _) => destruct c
    end; [apply resolves_return; answer_leaf|].
    apply resolves_tryCatch.
    + apply resolves_bind; [apply only_updateProgress|]. intros _.
      apply resolves_bind; [only_with answer_loops|]. intros _.
      apply resolves_bind; [apply only_checkCancelled|]. intros c.
      destruct c; [apply resolves_return; answer_leaf|].
      apply resolves_bind; [apply only_updateProgress|]. intros _.
      apply resolves_bind; [apply only_gets|]. intros w.
      apply triple_bind with (Qm := fun r _ => r <> None).
      * destruct w;
          [apply docx_awaitConvert_document, Hev | apply triple_throw; trivial].
      * intros docxBlob. apply triple_pure. intros Hdoc.
        apply resolves_bind; [apply only_checkCancelled|]. intros c.
        destruct c; [apply resolves_return; answer_leaf|].
        apply resolves_bind; [apply only_updateProgress|]. intros _.
        apply resolves_return. left. unfold Envelope.isSuccess. cbn.
        destruct docxBlob; [repeat split; discriminate | contradiction].
    + intros e. apply resolves_bind; [apply only_modify|]. intros _.
      apply resolves_return. answer_leaf.
Qed.

Lemma processors_answer_with_their_codes_witness :
  Envelope.answers [INVALID_OPTIONS; PROCESSING_CANCELLED; PROCESSING_FAILED;
                    PDF_ENCRYPTED] Examples.scanImages /\
  Envelope.answers [INVALID_OPTIONS; FILE_TYPE_INVALID; INVALID_PAGE_RANGE;
                    PROCESSING_CANCELLED; PROCESSING_FAILED]
    (createErrorOutput INVALID_PAGE_RANGE "No valid pages to convert."
       (Some "PDF has 3 pages.")) /\
  Envelope.answers [INVALID_OPTIONS; FILE_TYPE_INVALID; WORKER_FAILED;
                    PROCESSING_CANCELLED; PROCESSING_FAILED]
    (mkOutput true (Some (OneBlob Worker.docxBlob)) (Some "report.docx")
              None [("format", MetaStr "docx")]).
Proof.
  split; [|split].
  - exact (proj1 processors_answer_with_their_codes
             (Examples.rasterEnv (Examples.docOf 3 (fun _ => false)))
             (Examples.rasterInput Examples.disguisedFile Rasterize.png "")
             Examples.scanImages ltac:(vm_compute; discriminate)
             ltac:(vm_compute; reflexivity)).
  - exact (proj1 (proj2 processors_answer_with_their_codes)
             (Examples.imageEnv (Examples.docOf 3 (fun _ => false)))
             (Examples.imageInput Examples.pdfFile [7; 9] None)
             _ ltac:(vm_compute; reflexivity)).
  - exact (proj2 (proj2 (proj2 processors_answer_with_their_codes))
             (PDFToDocx.mkEnv Examples.never (Done tt) [] 2000
                [PDFToDocx.MessageEvent
                   (Worker.progressMsg "Preparing PDF..." 5);
                 PDFToDocx.MessageEvent
                   (Worker.mkMsg "convert-complete" (Some "convert-2000")
                                 (Some Worker.docxBlob) None None None)])
             (Examples.docxInput Examples.pdfFile) Examples.docxReady
             _
             ltac:(repeat constructor; cbn; discriminate)
             ltac:(vm_compute; reflexivity)).
Defined.

(** ** The answer to an encrypted document *)

Ltac encrypted_done :=
  cbn [fst]; intros Hout; injection Hout as <-;
  unfold cancelledOutput, errorCode; cbn; intros Hcode;
  first [ discriminate Hcode
        | eexists; split; [eassumption | tauto] ].

Ltac encrypted_handler :=
  repeat match goal with
         | |- context [match ?e with ErrorObj _ => _ | OtherValue _ => _ end] =>
             destruct e
         | |- context [if includes ?a ?b then _ else _] =>
             destruct (includes a b) eqn:?
         end;
  encrypted_done.

(** X13. The rasterize processor answers [PDF_ENCRYPTED] only when one of
    the steps outside the rendering of the pages (loading pdf.js, reading
    the file, opening the document, importing jsPDF or JSZip, building the
    archive) throws an [Error] whose message contains ["encrypt"]; a page
    that throws such an error is skipped like any other. When opening the
    document throws an [Error], the answer is [PDF_ENCRYPTED] if the
    message contains ["encrypt"], and [PROCESSING_FAILED] with that message
    as details otherwise. *)
Theorem rasterize_encrypted_answer :
  (forall env input o,
     fst (Rasterize.run env input) = Resolved o ->
     errorCode o = Some PDF_ENCRYPTED ->
     exists m,
       includes "encrypt" m = true /\
       (Rasterize.loadPdfjs env = Fails (ErrorObj m) \/
        Rasterize.arrayBuffer env = Fails (ErrorObj m) \/
        Rasterize.getDocument env = Fails (ErrorObj m) \/
        Rasterize.importJsPDF env = Fails (ErrorObj m) \/
        Rasterize.importJSZip env = Fails (ErrorObj m) \/
        Rasterize.generateAsync env = Fails (ErrorObj m))) /\
  (forall env file opts m,
     Rasterize.loadPdfjs env = Done tt ->
     Rasterize.arrayBuffer env = Done tt ->
     Rasterize.getDocument env = Fails (ErrorObj m) ->
     fst (Rasterize.run env (mkInput [file] opts)) =
     Resolved (if includes "encrypt" m
               then createErrorOutput PDF_ENCRYPTED "The PDF file is encrypted."
                      (Some "Please decrypt the file first.")
               else createErrorOutput PROCESSING_FAILED
                      "Failed to rasterize PDF." (Some m))).
Proof.
  split.
  - intros env input o.
    unfold Rasterize.run, Rasterize.process, Rasterize.fresh,
           Rasterize.renderFailed.
    run_unfold.
    remember (Rasterize.mergeOptions (options input)) as opt eqn:Eo.
    destruct (files input) as [|file [|file' rest]]; [encrypted_done| |encrypted_done].
    destruct (Rasterize.loadPdfjs env) as [[]|e] eqn:?; cbn beta iota;
      [|encrypted_handler].
    destruct (Rasterize.arrayBuffer env) as [[]|e] eqn:?; cbn beta iota;
      [|encrypted_handler].
    destruct (Rasterize.getDocument env) as [doc|e] eqn:?; cbn beta iota zeta;
      [|encrypted_handler].
    destruct (Rasterize.cancelledAt env _); cbn beta iota; [encrypted_done|].
    remember (Rasterize.pagesToRender opt (numPages doc)) as pages eqn:Ep.
    destruct (Rasterize.lengthZ pages =? 0); [encrypted_done|].
    cbn beta iota.
    destruct (Rasterize.format opt) eqn:Efmt.
    4: { destruct (Rasterize.importJsPDF env) as [[]|e] eqn:?; cbn beta iota;
           [|encrypted_handler].
         match goal with
         | |- context [Rasterize.pdfLoop ?e ?oo ?d ?n ?ps ?i ?out ?st] =>
             destruct (rasterize_pdfLoop_outcome e oo d n ps i out st)
               as [s' [r Hr]]
         end.
         rewrite Hr. destruct (existsb _ _); [encrypted_done|].
         destruct r; encrypted_done. }
    all: match goal with
         | |- context [Rasterize.imageLoop ?e ?oo ?d ?b ?n ?ps ?i ?im ?st] =>
             destruct (rasterize_imageLoop_outcome e oo d b n ps i im st)
               as [s' Hr]
         end;
         rewrite Hr; destruct (existsb _ _); [encrypted_done|];
         cbn [app];
         destruct (map _ (filter (Rasterize.pageRenders env doc) pages))
           as [|x [|y r]];
         cbn beta iota; [encrypted_done | encrypted_done |];
         destruct (Rasterize.importJSZip env) as [[]|e] eqn:?; cbn beta iota;
           [|encrypted_handler];
         destruct (Rasterize.generateAsync env) as [[]|e] eqn:?; cbn beta iota;
           [|encrypted_handler];
         encrypted_done.
  - intros env file opts m Hl Ha Hd.
    unfold Rasterize.run, Rasterize.process, Rasterize.fresh.
    run_unfold. cbn [files options].
    rewrite Hl. cbn beta iota. rewrite Ha. cbn beta iota. rewrite Hd.
    cbn beta iota. destruct (includes "encrypt" m); reflexivity.
Qed.

Lemma rasterize_encrypted_answer_witness :
  fst (Rasterize.run
         (Rasterize.mkEnv Examples.never (Done tt) (Done tt)
            (Fails (ErrorObj "Cannot open an encrypted document"))
            Examples.goodCanvas (Done tt) (Done tt) (Done tt))
         (mkInput [Examples.pdfFile]
            (Rasterize.mkPartial None None None None None))) =
  Resolved (createErrorOutput PDF_ENCRYPTED "The PDF file is encrypted."
              (Some "Please decrypt the file first.")) /\
  exists m,
    includes "encrypt" m = true /\
    Fails (ErrorObj "Cannot open an encrypted document") = Fails (A := PdfDocument) (ErrorObj m).
Proof.
  split.
  - exact (proj2 rasterize_encrypted_answer
             (Rasterize.mkEnv Examples.never (Done tt) (Done tt)
                (Fails (ErrorObj "Cannot open an encrypted document"))
                Examples.goodCanvas (Done tt) (Done tt) (Done tt))
             Examples.pdfFile (Rasterize.mkPartial None None None None None)
             "Cannot open an encrypted document" eq_refl eq_refl eq_refl).
  - destruct (proj1 rasterize_encrypted_answer
                (Rasterize.mkEnv Examples.never (Done tt) (Done tt)
                   (Fails (ErrorObj "Cannot open an encrypted document"))
                   Examples.goodCanvas (Done tt) (Done tt) (Done tt))
                (mkInput [Examples.pdfFile]
                   (Rasterize.mkPartial None None None None None))
                _ ltac:(vm_compute; reflexivity) eq_refl)
      as [m [Hm [H|[H|[H|[H|[H|H]]]]]]]; try discriminate H.
    exists m. split; [exact Hm | exact H].
Defined.

(** ** The answers of the conversion worker *)

Section WorkerAnswers.

Open Scope string_scope.

Lemma notice_status (m : string) : WorkerUse.isNotice (Worker.statusMsg m).
Proof. split; [left|]; reflexivity. Qed.

Lemma notice_progress (m : string) (p : Q) :
  WorkerUse.isNotice (Worker.progressMsg m p).
Proof. split; [right|]; reflexivity. Qed.

Lemma percents_app (a b : list Worker.WorkerMessage) :
  WorkerUse.percents (a ++ b)%list =
  (WorkerUse.percents a ++ WorkerUse.percents b)%list.
Proof. unfold WorkerUse.percents. apply flat_map_app. Qed.

(** [init()] posts status messages only. *)
Lemma init_posts (env : Worker.Env) (st : Worker.State) :
  exists posted settled st',
    Worker.init env st = (posted, settled, st') /\
    Forall WorkerUse.isNotice posted /\
    WorkerUse.percents posted = [] /\
    Worker.initPromise st' = Worker.initPromise st /\
    (Worker.pyodide st = false ->
     WorkerUse.isDone settled = WorkerUse.initSteps env /\
     (WorkerUse.isDone settled = true -> Worker.helpers st' = true)).
Proof.
  unfold Worker.init, WorkerUse.initSteps.
  destruct (Worker.pyodide st).
  { do 3 eexists. split; [reflexivity|]. repeat split; try constructor;
      discriminate. }
  destruct (Worker.loadPyodide env) as [[]|e];
    [destruct (Worker.installDependencies env) as [[]|e];
     [destruct (Worker.installPdf2docx env) as [[]|e];
      [destruct (Worker.defineHelpers env) as [[]|e]|]|]|];
    do 3 eexists; (split; [reflexivity|]);
    repeat split; repeat constructor; try apply notice_status;
    discriminate.
Qed.

(** [initPromise] is created once: the first request runs [init()], the
    later ones only read how it settled. *)
Lemma ensureInit_posts (env : Worker.Env) (st : Worker.State) :
  exists posted settled st',
    Worker.ensureInit env st = (posted, settled, st') /\
    Forall WorkerUse.isNotice posted /\
    WorkerUse.percents posted = [] /\
    Worker.initPromise st' = Some settled /\
    (forall r, Worker.initPromise st = Some r ->
               posted = [] /\ settled = r /\ st' = st) /\
    (Worker.initPromise st = None -> Worker.pyodide st = false ->
     WorkerUse.isDone settled = WorkerUse.initSteps env /\
     (WorkerUse.isDone settled = true -> Worker.helpers st' = true)).
Proof.
  unfold Worker.ensureInit.
  destruct (Worker.initPromise st) as [r|] eqn:Ep.
  - exists [], r, st. split; [reflexivity|].
    repeat split; try constructor; try congruence; discriminate.
  - destruct (init_posts env st) as [posted [settled [st' [-> [H1 [H2 [H3 H4]]]]]]].
    do 3 eexists. split; [reflexivity|]. cbn [Worker.initPromise Worker.helpers].
    repeat split; try assumption; try discriminate; apply H4; assumption.
Qed.

(** The messages of the conversion steps. *)
Lemma convert_posts (env : Worker.Env) (rid : option string)
    (st : Worker.State) :
  exists pre t,
    Worker.convert env rid st = (pre ++ [t])%list /\
    Forall WorkerUse.isNotice pre /\
    Worker.id t = rid /\
    ((Worker.type t = "convert-complete" /\
      Worker.result t = Some Worker.docxBlob /\
      Worker.helpers st = true /\ WorkerUse.convertSteps env = true) \/
     (Worker.type t = "error" /\ Worker.result t = None /\
      Worker.helpers st && WorkerUse.convertSteps env = false)) /\
    exists n,
      WorkerUse.percents (Worker.convert env rid st) =
      firstn n [5%Q; 10%Q; 85%Q; 90%Q].
Proof.
  unfold Worker.convert, WorkerUse.convertSteps.
  destruct (Worker.fileBytes env) as [[]|e].
  2: { exists [], (Worker.errorMsg rid e). split; [reflexivity|].
       split; [constructor|]. split; [reflexivity|].
       split; [right; repeat split; apply andb_false_r|].
       exists 0%nat. reflexivity. }
  destruct (Worker.helpers st); cbn [negb].
  2: { eexists [_], _. split; [reflexivity|].
       split; [repeat constructor; apply notice_progress|].
       split; [reflexivity|]. split; [right; repeat split|].
       exists 1%nat. reflexivity. }
  destruct (Worker.pdf_write_input env) as [[]|e].
  2: { eexists [_], _. split; [reflexivity|].
       split; [repeat constructor; apply notice_progress|].
       split; [reflexivity|]. split; [right; repeat split|].
       exists 1%nat. reflexivity. }
  destruct (Worker.pdf_convert env) as [n|e].
  2: { eexists [_; _], _. split; [reflexivity|].
       split; [repeat constructor; apply notice_progress|].
       split; [reflexivity|]. split; [right; repeat split|].
       exists 2%nat. reflexivity. }
  destruct (Worker.pdf_read_result env) as [[]|e].
  2: { eexists [_; _; _; _], _. split; [reflexivity|].
       split; [repeat constructor; apply notice_progress|].
       split; [reflexivity|]. split; [right; repeat split|].
       exists 4%nat. reflexivity. }
  eexists [_; _; _; _], _. split; [reflexivity|].
  split; [repeat constructor; apply notice_progress|].
  split; [reflexivity|]. split; [left; repeat split|].
  exists 4%nat. reflexivity.
Qed.

End WorkerAnswers.

(** X14. Every request is answered once. To an [init] or a [convert]
    request the worker posts status and progress messages that carry no
    id, and then exactly one message with the id of the request, the last
    one: [init-complete] or [error] for [init], [convert-complete] with
    the document or [error] for [convert]. The document is sent only when
    the Python helpers are defined and the four steps of the conversion
    succeeded. The percentages the worker reports are the first ones of
    5, 10, 85, 90. A request of another type is not answered at all and
    leaves the worker as it is. *)
Theorem worker_answers_once :
  (forall env st rid,
     exists pre t,
       fst (Worker.onmessage env st "init" rid) = (pre ++ [t])%list /\
       Forall WorkerUse.isNotice pre /\
       Worker.id t = rid /\
       (Worker.type t = "init-complete" \/ Worker.type t = "error")) /\
  (forall env st rid,
     exists pre t,
       fst (Worker.onmessage env st "convert" rid) = (pre ++ [t])%list /\
       Forall WorkerUse.isNotice pre /\
       Worker.id t = rid /\
       ((Worker.type t = "convert-complete" /\
         Worker.result t = Some Worker.docxBlob /\
         Worker.helpers (snd (Worker.onmessage env st "convert" rid)) = true /\
         WorkerUse.convertSteps env = true) \/
        (Worker.type t = "error" /\ Worker.result t = None)) /\
       exists n,
         WorkerUse.percents (fst (Worker.onmessage env st "convert" rid)) =
         firstn n [5%Q; 10%Q; 85%Q; 90%Q]) /\
  (forall env st reqType rid,
     String.eqb reqType "init" = false ->
     String.eqb reqType "convert" = false ->
     Worker.onmessage env st reqType rid = ([], st)).
Proof.
  split; [|split].
  - intros env st rid. unfold Worker.onmessage.
    cbn [String.eqb Ascii.eqb Bool.eqb andb].
    destruct (ensureInit_posts env st)
      as [posted [settled [st' [-> [H1 [H2 [H3 [H4 H5]]]]]]]].
    destruct settled as [[]|e]; cbn [fst]; do 2 eexists;
      (split; [reflexivity|]); (split; [exact H1|]); split;
      [reflexivity | left; reflexivity | reflexivity | right; reflexivity].
  - intros env st rid. unfold Worker.onmessage.
    cbn [String.eqb Ascii.eqb Bool.eqb andb].
    assert (exists posted settled st',
              (if Worker.pyodide st then ([], Done tt, st)
               else Worker.ensureInit env st) = (posted, settled, st') /\
              Forall WorkerUse.isNotice posted /\
              WorkerUse.percents posted = []) as Hinit.
    { destruct (Worker.pyodide st).
      - do 3 eexists. split; [reflexivity|]. split; constructor.
      - destruct (ensureInit_posts env st)
          as [posted [settled [st' [-> [H1 [H2 _]]]]]].
        do 3 eexists. split; [reflexivity|]. split; assumption. }
    destruct Hinit as [posted [settled [st' [-> [H1 H2]]]]].
    destruct settled as [[]|e]; cbn [fst snd].
    + destruct (convert_posts env rid st')
        as [pre [t [Hc [Hn [Hid [Ht [n Hp]]]]]]].
      exists (posted ++ pre)%list, t. rewrite Hc, app_assoc.
      split; [reflexivity|].
      split; [apply Forall_app; split; assumption|].
      split; [exact Hid|]. split.
      * destruct Ht as [[A [B [C D]]]|[A [B _]]]; [left | right]; auto.
      * exists n. rewrite <- app_assoc, <- Hc, percents_app, H2. exact Hp.
    + exists posted, (Worker.errorMsg rid e).
      split; [reflexivity|]. split; [exact H1|]. split; [reflexivity|].
      split; [right; split; reflexivity|].
      exists 0%nat. rewrite percents_app, H2. reflexivity.
  - intros env st reqType rid H1 H2. unfold Worker.onmessage.
    rewrite H1, H2. reflexivity.
Qed.

Lemma worker_answers_once_witness :
  Worker.onmessage Examples.workerOk Worker.initial "terminate" (Some "t-1") =
  ([], Worker.initial).
Proof.
  exact (proj2 (proj2 worker_answers_once) Examples.workerOk Worker.initial
           "terminate" (Some "t-1") eq_refl eq_refl).
Defined.

(** X15. The worker initialises once. The first [init] request creates the
    promise of [init()]; from then on an [init] request only reads how
    that promise settled: it posts no status message, runs no step again
    and is answered as the first one was, whatever the environment has
    become. So a worker whose initialisation failed answers every later
    [init] request with the same error. For a fresh worker the
    initialisation succeeds exactly when its four steps do. *)
Theorem worker_initialises_once :
  (forall env st r rid,
     Worker.initPromise st = Some r ->
     Worker.onmessage env st "init" rid = ([WorkerUse.initAnswer r rid], st)) /\
  (forall env st rid,
     exists r,
       Worker.initPromise (snd (Worker.onmessage env st "init" rid)) = Some r /\
       last (fst (Worker.onmessage env st "init" rid)) (Worker.statusMsg "") =
         WorkerUse.initAnswer r rid /\
       (Worker.initPromise st = None -> Worker.pyodide st = false ->
        WorkerUse.isDone r = WorkerUse.initSteps env) /\
       forall env' rid',
         Worker.onmessage env' (snd (Worker.onmessage env st "init" rid))
                          "init" rid' =
         ([WorkerUse.initAnswer r rid'],
          snd (Worker.onmessage env st "init" rid))).
Proof.
  assert (forall env st r rid,
            Worker.initPromise st = Some r ->
            Worker.onmessage env st "init" rid =
            ([WorkerUse.initAnswer r rid], st)) as Hagain.
  { intros env st r rid Hp. unfold Worker.onmessage, Worker.ensureInit.
    cbn [String.eqb Ascii.eqb Bool.eqb andb]. rewrite Hp.
    destruct r as [[]|e]; reflexivity. }
  split; [exact Hagain|].
  intros env st rid.
  destruct (ensureInit_posts env st)
    as [posted [settled [st' [He [H1 [H2 [H3 [H4 H5]]]]]]]].
  assert (Worker.onmessage env st "init" rid =
          ((posted ++ [WorkerUse.initAnswer settled rid])%list, st')) as Hon.
  { unfold Worker.onmessage. cbn [String.eqb Ascii.eqb Bool.eqb andb].
    rewrite He. destruct settled as [[]|e]; reflexivity. }
  exists settled. rewrite Hon. cbn [fst snd].
  split; [exact H3|]. split; [apply last_last|]. split.
  - intros Hn Hp. apply (H5 Hn Hp).
  - intros env' rid'. apply Hagain, H3.
Qed.

Lemma worker_initialises_once_witness :
  Worker.onmessage Examples.workerOk
    (Worker.mkState true false (Some (Fails (ErrorObj "no network"))))
    "init" (Some "init-2") =
  ([Worker.errorMsg (Some "init-2") (ErrorObj "no network")],
   Worker.mkState true false (Some (Fails (ErrorObj "no network")))) /\
  exists r,
    Worker.initPromise
      (snd (Worker.onmessage Examples.workerOk Worker.initial "init" None)) =
      Some r /\
    WorkerUse.isDone r = true.
Proof.
  split.
  - exact (proj1 worker_initialises_once Examples.workerOk
             (Worker.mkState true false (Some (Fails (ErrorObj "no network"))))
             (Fails (ErrorObj "no network")) (Some "init-2") eq_refl).
  - destruct (proj2 worker_initialises_once Examples.workerOk Worker.initial None)
      as [r [H1 [_ [H3 _]]]].
    exists r. split; [exact H1 | exact (H3 eq_refl eq_refl)].
Defined.

(** ** The worker of the PDF to DOCX processor *)

Section WorkerKept.

Import PDFToDocx.

Variable s0 : State.

Lemma kept_refl : WorkerUse.kept s0 s0.
Proof. split; [reflexivity | intros _; split; reflexivity]. Qed.

Ltac kept_leaf :=
  match goal with
  | |- forall s, WorkerUse.kept _ s -> WorkerUse.kept _ _ =>
      let s := fresh "s" in
      let H1 := fresh "H1" in
      let H2 := fresh "H2" in
      intros s [H1 H2]; split; [exact H1 | exact H2]
  end.

Lemma checkCancelled_kept (c : nat -> bool) :
  keeps (WorkerUse.kept s0) (checkCancelled c).
Proof.
  apply triple_checkCancelled. intros s [H1 H2]. split; [exact H1 | exact H2].
Qed.

Lemma awaitInit_kept (events : list WorkerEvent) :
  keeps (WorkerUse.kept s0) (awaitInit events).
Proof.
  induction events as [|[m|t] events IH]; cbn [awaitInit];
    unfold initHandleMessage, updateProgress;
    keeps_with ltac:(first [kept_leaf | apply IH]).
Qed.

Lemma awaitConvert_kept (msgId : string) (events : list WorkerEvent) :
  keeps (WorkerUse.kept s0) (awaitConvert msgId events).
Proof.
  induction events as [|[m|t] events IH]; cbn [awaitConvert];
    unfold initHandleMessage, updateProgress, getProgress;
    keeps_with ltac:(first [kept_leaf | apply IH]).
Qed.

(** [initWorker] creates a worker only when there is none. *)
Lemma initWorker_kept (env : Env) :
  keeps (WorkerUse.kept s0) (initWorker env).
Proof.
  unfold initWorker.
  apply triple_bind
    with (Qm := fun w s => WorkerUse.kept s0 s /\ worker s = w).
  { apply triple_gets. intros s Hs. split; [exact Hs | reflexivity]. }
  intros [w|].
  - apply triple_ret. intros s [Hs _]. exact Hs.
  - apply triple_bind
      with (Qm := fun _ s => WorkerUse.kept s0 s /\ worker s = None).
    { apply triple_await; intros; tauto. }
    intros _.
    apply triple_bind with (Qm := fun _ s => WorkerUse.kept s0 s).
    { apply triple_modify. intros s [[H1 H2] Hw]. split; [exact H1|].
      intros Hn. destruct (H2 Hn) as [E _]. congruence. }
    intros _. apply awaitInit_kept.
Qed.

Lemma triple_kept_codes (G : ProcessOutput -> Prop)
    (m : M State ProcessOutput) (R : ProcessOutput -> State -> Prop) :
  keeps (WorkerUse.kept s0) m ->
  resolvesIn G m ->
  (forall o s, WorkerUse.kept s0 s -> G o -> R o s) ->
  triple (WorkerUse.kept s0) m R R (fun _ => WorkerUse.kept s0).
Proof.
  intros Hk Hg HR s Hs. specialize (Hk s Hs). specialize (Hg s I).
  destruct (m s) as [[a|o|e|] s']; auto.
Qed.

End WorkerKept.

Ltac kept_leaves s0 :=
  first
    [ match goal with
      | |- forall s, WorkerUse.kept _ s -> WorkerUse.kept _ _ =>
          let s := fresh "s" in
          let H1 := fresh "H1" in
          let H2 := fresh "H2" in
          intros s [H1 H2]; split; [exact H1 | exact H2]
      end
    | apply checkCancelled_kept
    | apply initWorker_kept
    | apply awaitConvert_kept ].

(** X16. The worker of the PDF to DOCX processor is shut down by a call
    exactly when the call answers [PROCESSING_FAILED]. Whatever else the
    call answers (success, cancellation, a wrong file, a failed
    initialisation) no worker context is shut down and a worker that was
    alive before the call is still the worker afterwards, with no new
    context created: it is reused. After [PROCESSING_FAILED] the processor
    has no worker, and the worker it had before the call is the one that
    was shut down. *)
Theorem docx_worker_teardown :
  forall env input s o s',
    PDFToDocx.run env input s = (Resolved o, s') ->
    (errorCode o <> Some PROCESSING_FAILED -> WorkerUse.kept s s') /\
    (errorCode o = Some PROCESSING_FAILED ->
     PDFToDocx.worker s' = None /\
     forall w, PDFToDocx.worker s = Some w ->
               PDFToDocx.terminated s' = w :: PDFToDocx.terminated s).
Proof.
  intros env input s o s' Hrun.
  set (R := fun (o : ProcessOutput) (s' : PDFToDocx.State) =>
              (errorCode o <> Some PROCESSING_FAILED -> WorkerUse.kept s s') /\
              (errorCode o = Some PROCESSING_FAILED ->
               PDFToDocx.worker s' = None /\
               forall w, PDFToDocx.worker s = Some w ->
                         PDFToDocx.terminated s' = w :: PDFToDocx.terminated s)).
  assert (forall c msg det,
            c <> PROCESSING_FAILED ->
            triple (WorkerUse.kept s) (return_ (createErrorOutput c msg det))
                   R R (fun _ _ => True)) as Hret.
  { intros c msg det Hc. apply triple_return. intros st Hst. split.
    - intros _. exact Hst.
    - unfold errorCode. cbn. congruence. }
  assert (triple (WorkerUse.kept s) (PDFToDocx.process env input) R R
                 (fun _ _ => True)) as Ht.
  { unfold PDFToDocx.process.
    apply triple_bind with (Qm := fun _ => WorkerUse.kept s).
    { apply triple_reset. intros st [H1 H2]. split; [exact H1 | exact H2]. }
    intros _.
    destruct (files input) as [|file [|file' rest]];
      try (apply Hret; discriminate).
    destruct (negb _ && negb _); [apply Hret; discriminate|].
    apply triple_tryCatch with (Eb := fun _ => WorkerUse.kept s).
    - apply triple_kept_codes
        with (G := fun o => errorCode o <> Some PROCESSING_FAILED).
      + unfold updateProgress.
        keeps_with ltac:(kept_leaves s).
      + only_with ltac:(first [ apply docx_initWorker_answers
                              | apply docx_awaitConvert_answers
                              | discriminate ]).
      + intros o1 st Hst Hg. split; [intros _; exact Hst | intros C; contradiction].
    - intros e st [H1 H2].
      unfold bind, PDFToDocx.terminateWorker, modify, return_.
      unfold R, errorCode. cbn. split; [congruence|]. intros _.
      destruct (PDFToDocx.worker st) as [w'|] eqn:Ew; cbn.
      + split; [reflexivity|]. intros w Hw.
        destruct (H2 ltac:(congruence)) as [E _]. congruence.
      + split; [exact Ew|]. intros w Hw.
        destruct (H2 ltac:(congruence)) as [E _]. congruence. }
  pose proof (triple_settle _ _ _ _ Ht s (kept_refl s)) as Hs.
  unfold PDFToDocx.run in Hrun. rewrite Hrun in Hs. exact Hs.
Qed.

Lemma docx_worker_teardown_witness :
  WorkerUse.kept Examples.docxReady
    (snd (PDFToDocx.run (Examples.docxEnvLater Examples.workerOk 2000)
            (Examples.docxInput Examples.pdfFile) Examples.docxReady)) /\
  PDFToDocx.terminated
    (snd (PDFToDocx.run (Examples.docxEnvCrash 2000)
            (Examples.docxInput Examples.pdfFile) Examples.docxReady)) =
  [0%nat].
Proof.
  split.
  - exact (proj1 (docx_worker_teardown
                    (Examples.docxEnvLater Examples.workerOk 2000)
                    (Examples.docxInput Examples.pdfFile) Examples.docxReady
                    _ _ ltac:(vm_compute; reflexivity))
             ltac:(discriminate)).
  - exact (proj2 (proj2 (docx_worker_teardown
                           (Examples.docxEnvCrash 2000)
                           (Examples.docxInput Examples.pdfFile)
                           Examples.docxReady
                           _ _ ltac:(vm_compute; reflexivity))
                    eq_refl) 0%nat eq_refl).
Defined.

Section Handshake.

Import PDFToDocx.

Lemma resolves_to_triple {St} (G : ProcessOutput -> Prop)
    (m : M St ProcessOutput) (P : St -> Prop)
    (R : ProcessOutput -> St -> Prop) :
  resolvesIn G m -> (forall o s, G o -> R o s) ->
  triple P m R R (fun _ _ => True).
Proof.
  intros Hm HR s _. specialize (Hm s I).
  destruct (m s) as [[a|o|e|] s']; auto.
Qed.

Lemma awaitInit_same (P : State -> Prop) (events : list WorkerEvent) :
  (forall s b, P s -> P (setBase b s)) ->
  (forall s, P s ->
     P (mkState (base s) (worker s) true (spawned s) (terminated s))) ->
  keeps P (awaitInit events).
Proof.
  intros Hb Hr.
  induction events as [|[m|t] events IH]; cbn [awaitInit];
    unfold initHandleMessage, updateProgress;
    keeps_with ltac:(first [ apply IH
                           | intros s Hs; first [apply Hr, Hs | apply Hb, Hs] ]).
Qed.

End Handshake.

(** X17. The handshake with the worker. A processor that has a worker
    never creates another one nor repeats the handshake: its call does
    not depend on the [Worker] constructor nor on what the worker would
    answer to [init]. A call answers [WORKER_FAILED] only when the
    processor had no worker; if the constructor threw there is still none,
    and if the handshake failed the new worker, though never initialised,
    stays the worker of the processor and is not shut down, so the next
    call sends it the conversion request without a new handshake. *)
Theorem docx_handshake_once :
  (forall env newWorker initEvents input s,
     PDFToDocx.worker s <> None ->
     PDFToDocx.run (WorkerUse.withHandshake env newWorker initEvents) input s =
     PDFToDocx.run env input s) /\
  (forall env input s o s',
     PDFToDocx.run env input s = (Resolved o, s') ->
     errorCode o = Some WORKER_FAILED ->
     PDFToDocx.worker s = None /\
     PDFToDocx.terminated s' = PDFToDocx.terminated s /\
     (PDFToDocx.newWorker env = Done tt ->
      PDFToDocx.worker s' = Some (PDFToDocx.spawned s) /\
      PDFToDocx.spawned s' = S (PDFToDocx.spawned s)) /\
     (PDFToDocx.newWorker env <> Done tt ->
      PDFToDocx.worker s' = None /\
      PDFToDocx.spawned s' = PDFToDocx.spawned s)).
Proof.
  split.
  - intros env nw ie input s Hw.
    destruct (PDFToDocx.worker s) as [w|] eqn:Ew; [|congruence].
    unfold PDFToDocx.run, PDFToDocx.process, PDFToDocx.initWorker.
    unfold settle, bind at 1, reset, modify.
    unfold settle, bind at 1, reset, modify.
    destruct (files input) as [|file [|file' rest]]; try reflexivity.
    destruct (negb _ && negb _); [reflexivity|].
    run_unfold. cbn [getBase setBase PDFToDocx.DocxProcessor PDFToDocx.worker
                     PDFToDocx.base].
    rewrite Ew. reflexivity.
  - intros env input s o s' Hrun Hcode.
    set (Phi := fun st : PDFToDocx.State =>
           PDFToDocx.worker s = None /\
           PDFToDocx.terminated st = PDFToDocx.terminated s /\
           (PDFToDocx.newWorker env = Done tt ->
            PDFToDocx.worker st = Some (PDFToDocx.spawned s) /\
            PDFToDocx.spawned st = S (PDFToDocx.spawned s)) /\
           (PDFToDocx.newWorker env <> Done tt ->
            PDFToDocx.worker st = None /\
            PDFToDocx.spawned st = PDFToDocx.spawned s)).
    set (Same := fun st : PDFToDocx.State =>
           PDFToDocx.worker st = PDFToDocx.worker s /\
           PDFToDocx.spawned st = PDFToDocx.spawned s /\
           PDFToDocx.terminated st = PDFToDocx.terminated s).
    set (R := fun (o : ProcessOutput) (st : PDFToDocx.State) =>
           errorCode o = Some WORKER_FAILED -> Phi st).
    assert (forall c msg det P,
              c <> WORKER_FAILED ->
              triple P (return_ (createErrorOutput c msg det))
                     R R (fun _ (_ : PDFToDocx.State) => True)) as Hret.
    { intros c msg det P Hc. apply triple_return. intros st _.
      unfold R, errorCode. cbn. congruence. }
    assert (triple Same (PDFToDocx.process env input) R R
                   (fun _ _ => True)) as Ht.
    { unfold PDFToDocx.process.
      apply triple_bind with (Qm := fun _ => Same).
      { apply triple_reset. intros st Hst. exact Hst. }
      intros _.
      destruct (files input) as [|file [|file' rest]];
        try (apply Hret; discriminate).
      destruct (negb _ && negb _); [apply Hret; discriminate|].
      apply triple_tryCatch with (Eb := fun _ _ => True).
      2: { intros e. unfold PDFToDocx.terminateWorker.
           apply triple_bind with (Qm := fun _ _ => True);
             [apply triple_modify; trivial|].
           intros _. apply Hret. discriminate. }
      apply triple_bind with (Qm := fun _ => Same).
      { apply triple_updateProgress. intros st Hst. exact Hst. }
      intros _.
      apply triple_bind with (Qm := fun _ _ => True).
      2: { intros _.
           apply resolves_to_triple
             with (G := fun o => errorCode o <> Some WORKER_FAILED).
           - only_with ltac:(first [ apply docx_awaitConvert_answers
                                   | discriminate ]).
           - intros o1 st Hg C. contradiction. }
      apply triple_tryCatch with (Eb := fun _ => Phi).
      2: { intros e. apply triple_return. intros st Hst _. exact Hst. }
      unfold PDFToDocx.initWorker.
      apply triple_bind
        with (Qm := fun w st => Same st /\ PDFToDocx.worker s = w).
      { apply triple_gets. intros st Hst. split; [exact Hst|].
        symmetry. apply Hst. }
      intros [w|]; [apply triple_ret; trivial|].
      destruct (PDFToDocx.newWorker env) as [[]|e] eqn:En; cbn [await].
      + apply triple_bind
          with (Qm := fun _ st => Same st /\ PDFToDocx.worker s = None);
          [apply triple_ret; trivial|].
        intros _.
        apply triple_bind with (Qm := fun _ => Phi).
        { apply triple_modify. intros st [[H1 [H2 H3]] Hw]. unfold Phi.
          cbn. rewrite H2. repeat split; try assumption; congruence. }
        intros _.
        apply triple_conseq
          with (P' := Phi) (Q' := fun _ => Phi) (R' := fun _ => Phi)
               (E' := fun _ => Phi); trivial.
        { intros o1 st Hst _. exact Hst. }
        apply awaitInit_same.
        * intros st b Hst. exact Hst.
        * intros st Hst. exact Hst.
      + apply triple_throw. intros st [[H1 [H2 H3]] Hw]. unfold Phi.
        repeat split; try assumption; try congruence. }
    assert (Same s) as Hs0 by (repeat split).
    pose proof (triple_settle _ _ _ _ Ht s Hs0) as Hs.
    unfold PDFToDocx.run in Hrun. rewrite Hrun in Hs. exact (Hs Hcode).
Qed.

Lemma docx_handshake_once_witness :
  PDFToDocx.run
    (WorkerUse.withHandshake (Examples.docxEnvLater Examples.workerOk 2000)
       (Fails (ErrorObj "no more workers")) [])
    (Examples.docxInput Examples.pdfFile) Examples.docxReady =
  PDFToDocx.run (Examples.docxEnvLater Examples.workerOk 2000)
    (Examples.docxInput Examples.pdfFile) Examples.docxReady /\
  PDFToDocx.worker
    (snd (PDFToDocx.run
            (PDFToDocx.mkEnv Examples.never (Done tt)
               [PDFToDocx.MessageEvent
                  (Worker.errorMsg (Some "init-1000") (ErrorObj "no network"))]
               2000 [])
            (Examples.docxInput Examples.pdfFile) PDFToDocx.fresh)) =
  Some 0%nat.
Proof.
  split.
  - exact (proj1 docx_handshake_once
             (Examples.docxEnvLater Examples.workerOk 2000)
             (Fails (ErrorObj "no more workers")) []
             (Examples.docxInput Examples.pdfFile) Examples.docxReady
             ltac:(discriminate)).
  - exact (proj1 (proj1 (proj2 (proj2
             (proj2 docx_handshake_once
                (PDFToDocx.mkEnv Examples.never (Done tt)
                   [PDFToDocx.MessageEvent
                      (Worker.errorMsg (Some "init-1000") (ErrorObj "no network"))]
                   2000 [])
                (Examples.docxInput Examples.pdfFile) PDFToDocx.fresh
                _ _ ltac:(vm_compute; reflexivity) eq_refl))) eq_refl)).
Defined.

(** ** The processor served by the worker *)

Section Served.

Import PDFToDocx.

Lemma awaitInit_answer (settled : Outcome unit) (rid : option string)
    (s : State) :
  awaitInit [MessageEvent (WorkerUse.initAnswer settled rid)] s =
  match settled with
  | Done _ =>
      (Next tt, mkState (base s) (worker s) true (spawned s) (terminated s))
  | Fails e =>
      (Throw (ErrorObj (orDefault (Some (Worker.errorText e))
                                  "Worker initialization failed")), s)
  end.
Proof. destruct settled as [[]|e]; reflexivity. Qed.

Lemma notices_quiet (msgId : string) (pre : list Worker.WorkerMessage) :
  Forall WorkerUse.isNotice pre ->
  forallb (nonTerminal msgId) (map MessageEvent pre) = true.
Proof.
  induction 1 as [|m pre [[Ht|Ht] _] _ IH]; [reflexivity| |];
    cbn [map forallb]; rewrite IH; unfold nonTerminal; rewrite Ht; reflexivity.
Qed.

End Served.

(** X18. The processor and the worker code together. A first call on a
    fresh processor, served by the worker of [pdf-to-docx.worker.js] and
    not cancelled, always resolves: the handshake and the conversion
    request are both answered. It answers [WORKER_FAILED] when a step of
    the initialisation of the worker fails, [PROCESSING_FAILED] (and the
    worker is shut down) when the initialisation succeeds and a step of
    the conversion fails, and otherwise succeeds with the document of the
    worker, named after the file with the extension [.docx]; the worker
    then stays alive and the last percentage reported is 100. *)
Theorem docx_served_by_the_worker :
  forall w t file,
    looksLikePdf file = true ->
    exists o s',
      PDFToDocx.run (Examples.docxEnvFirst w t) (Examples.docxInput file)
                    PDFToDocx.fresh = (Resolved o, s') /\
      (WorkerUse.initSteps w = false ->
       errorCode o = Some WORKER_FAILED /\
       PDFToDocx.worker s' = Some 0%nat /\ PDFToDocx.terminated s' = []) /\
      (WorkerUse.initSteps w = true -> WorkerUse.convertSteps w = false ->
       errorCode o = Some PROCESSING_FAILED /\
       PDFToDocx.worker s' = None /\ PDFToDocx.terminated s' = [0%nat]) /\
      (WorkerUse.initSteps w = true -> WorkerUse.convertSteps w = true ->
       success o = true /\
       result o = Some (OneBlob Worker.docxBlob) /\
       filename o = Some (stripPdfSuffix (name file) ++ ".docx")%string /\
       PDFToDocx.worker s' = Some 0%nat /\ PDFToDocx.terminated s' = [] /\
       PDFToDocx.endsAt100 s').
Proof.
  intros w t file Hf.
  destruct (ensureInit_posts w Worker.initial)
    as [posted [settled [st' [He [Hn [_ [Hp [_ Hsteps]]]]]]]].
  destruct (Hsteps eq_refl eq_refl) as [Hdone Hhelp]. clear Hsteps.
  assert (Worker.onmessage w Worker.initial "init" (Some "init-1000") =
          ((posted ++ [WorkerUse.initAnswer settled (Some "init-1000")])%list,
           st')) as Hon.
  { unfold Worker.onmessage. cbn [String.eqb Ascii.eqb Bool.eqb andb].
    rewrite He. destruct settled as [[]|e]; reflexivity. }
  unfold Examples.docxEnvFirst, Examples.initEventsOf, Examples.workerAfterInit.
  rewrite Hon. cbn [fst snd]. rewrite map_app. cbn [map].
  remember (Examples.convertEventsOf w st' t) as cevents eqn:Ece.
  unfold PDFToDocx.run, PDFToDocx.process, Examples.docxInput.
  unfold settle, bind at 1, reset, modify. cbn [files fst snd].
  rewrite (looksLikePdf_true file Hf).
  unfold PDFToDocx.initWorker, PDFToDocx.terminateWorker. run_unfold.
  cbn -[PDFToDocx.msgIdOf clamp PDFToDocx.awaitConvert PDFToDocx.awaitInit].
  match goal with
  | |- context [PDFToDocx.awaitInit (map _ posted ++ ?rest) ?st] =>
      destruct (awaitInit_notices posted Hn rest st)
        as [s1 [-> [Hw1 [Hs1 [Ht1 [Hp1 _]]]]]]
  end.
  rewrite awaitInit_answer.
  cbn [PDFToDocx.worker PDFToDocx.spawned PDFToDocx.terminated] in Hw1, Hs1, Ht1.
  destruct settled as [[]|e]; cbn [WorkerUse.isDone] in Hdone, Hhelp.
  2: { do 2 eexists. split; [reflexivity|]. rewrite <- Hdone.
       split; [|split; discriminate].
       intros _. split; [reflexivity|]. split; assumption. }
  cbn beta iota. cbn [PDFToDocx.worker]. rewrite Hw1. cbn beta iota.
  (* the answers to the conversion request *)
  assert (Worker.onmessage w st' "convert" (Some ("convert-" ++ ofZ t)%string) =
          (Worker.convert w (Some ("convert-" ++ ofZ t)%string) st', st'))
    as Hconv.
  { unfold Worker.onmessage. cbn [String.eqb Ascii.eqb Bool.eqb andb].
    destruct (Worker.pyodide st'); [reflexivity|].
    destruct (ensureInit_posts w st')
      as [p2 [sd2 [st2 [-> [_ [_ [_ [Hagain _]]]]]]]].
    destruct (Hagain _ Hp) as [-> [-> ->]]. reflexivity. }
  destruct (convert_posts w (Some ("convert-" ++ ofZ t)%string) st')
    as [pre [tm [Hc [Hpre [Hid [Hterm _]]]]]].
  unfold Examples.convertEventsOf in Ece.
  rewrite Hconv in Ece. cbn [fst] in Ece. rewrite Hc, map_app in Ece.
  cbn [map] in Ece. subst cevents.
  change (PDFToDocx.msgIdOf _) with ("convert-" ++ ofZ t)%string.
  match goal with
  | |- context [PDFToDocx.awaitConvert ?id (map _ pre ++ ?rest) ?st] =>
      destruct (awaitConvert_quiet id (map PDFToDocx.MessageEvent pre) rest
                  (notices_quiet id pre Hpre) st)
        as [s2 [-> [Hw2 [Hs2 Ht2]]]]
  end.
  cbn [PDFToDocx.worker PDFToDocx.spawned PDFToDocx.terminated] in Hw2, Hs2, Ht2.
  rewrite <- Hdone.
  destruct Hterm as [[Hty [Hres [_ Hsteps]]]|[Hty [_ Hsteps]]].
  - rewrite (awaitConvert_complete _ tm [] s2 Hid Hty), Hres.
    cbn -[clamp]. do 2 eexists. split; [reflexivity|].
    split; [discriminate|]. split; [rewrite Hsteps; discriminate|].
    intros _ _. cbn [success result filename PDFToDocx.worker
                     PDFToDocx.terminated].
    repeat split; try assumption; try congruence.
    unfold PDFToDocx.endsAt100. cbn [PDFToDocx.base reports].
    apply last_last.
  - rewrite (Hhelp eq_refl) in Hsteps. cbn [andb] in Hsteps.
    rewrite (awaitConvert_app_error _ tm [] s2).
    2: { unfold PDFToDocx.isAppError, PDFToDocx.idMatches.
         rewrite Hty, Hid, !String.eqb_refl. reflexivity. }
    cbn -[clamp]. rewrite Hw2. do 2 eexists. split; [reflexivity|].
    split; [discriminate|]. split; [|rewrite Hsteps; discriminate].
    intros _ _. cbn [PDFToDocx.worker PDFToDocx.terminated].
    split; [reflexivity|]. split; [reflexivity|]. rewrite Ht2, Ht1.
    reflexivity.
Qed.

Lemma docx_served_by_the_worker_witness :
  exists o s',
    PDFToDocx.run (Examples.docxEnvFirst Examples.workerOk 1000)
                  (Examples.docxInput Examples.pdfFile) PDFToDocx.fresh =
      (Resolved o, s') /\
    success o = true /\
    result o = Some (OneBlob Worker.docxBlob) /\
    filename o = Some "report.docx"%string.
Proof.
  destruct (docx_served_by_the_worker Examples.workerOk 1000 Examples.pdfFile
              eq_refl) as [o [s' [Hrun [_ [_ Hok]]]]].
  destruct (Hok eq_refl eq_refl) as [H1 [H2 [H3 _]]].
  exists o, s'. split; [exact Hrun|]. split; [exact H1|].
  split; [exact H2 | exact H3].
Defined.

(** ** The names of the output files *)

Section FileNames.

Open Scope string_scope.

Lemma toLowerCase_app (a b : string) :
  toLowerCase (a ++ b) = toLowerCase a ++ toLowerCase b.
Proof. induction a as [|c a IH]; simpl; [reflexivity|]. rewrite IH. reflexivity. Qed.

Lemma toLowerCase_length (a : string) :
  String.length (toLowerCase a) = String.length a.
Proof. induction a as [|c a IH]; simpl; [reflexivity|]. rewrite IH. reflexivity. Qed.

Lemma endsWith_refl (p : string) : endsWith p p = true.
Proof. destruct p; simpl; [reflexivity|]. rewrite Ascii.eqb_refl, String.eqb_refl. reflexivity. Qed.

Lemma endsWith_app (p a : string) : endsWith p (a ++ p) = true.
Proof.
  induction a as [|c a IH]; [apply endsWith_refl|].
  cbn [append endsWith]. rewrite IH. apply orb_true_r.
Qed.

Lemma substring_prefix (a b : string) :
  String.substring 0 (String.length a) (a ++ b) = a.
Proof.
  induction a as [|c a IH]; simpl.
  - destruct b; reflexivity.
  - rewrite IH. reflexivity.
Qed.

Lemma stripPdfSuffix_app (base ext : string) :
  toLowerCase ext = ".pdf" -> stripPdfSuffix (base ++ ext) = base.
Proof.
  intros He. unfold stripPdfSuffix.
  rewrite toLowerCase_app, He, endsWith_app.
  assert (String.length ext = 4%nat) as Hl.
  { rewrite <- toLowerCase_length, He. reflexivity. }
  rewrite string_length_app, Hl.
  replace (String.length base + 4 - 4)%nat with (String.length base) by lia.
  apply substring_prefix.
Qed.

Lemma replaceFirst_absent (pat rep s : string) :
  includes pat s = false -> replaceFirst pat rep s = s.
Proof.
  induction s as [|c r IH]; intros H.
  - cbn [includes] in H. apply orb_false_iff in H. destruct H as [H _].
    cbn [replaceFirst]. rewrite H. reflexivity.
  - cbn [includes] in H. apply orb_false_iff in H. destruct H as [H1 H2].
    cbn [replaceFirst]. rewrite H1, (IH H2). reflexivity.
Qed.

Lemma startsWith_pdf_app (c : ascii) (r : string) :
  startsWith ".pdf" (String c r) = false ->
  startsWith ".pdf" (String c r ++ ".pdf") = false.
Proof.
  destruct r as [|c1 [|c2 [|c3 r]]]; cbn [append startsWith]; intros H.
  - destruct (Ascii.eqb "." c); reflexivity.
  - destruct (Ascii.eqb "." c), (Ascii.eqb "p" c1); reflexivity.
  - destruct (Ascii.eqb "." c), (Ascii.eqb "p" c1), (Ascii.eqb "d" c2);
      reflexivity.
  - exact H.
Qed.

Lemma replaceFirst_suffix (rep base : string) :
  includes ".pdf" base = false ->
  replaceFirst ".pdf" rep (base ++ ".pdf") = base ++ rep.
Proof.
  induction base as [|c r IH]; intros H.
  - cbn. destruct rep; [reflexivity|]. cbn. f_equal.
    clear. induction rep as [|d rep IH]; [reflexivity|]. cbn. f_equal. exact IH.
  - cbn [includes] in H. apply orb_false_iff in H. destruct H as [H1 H2].
    pose proof (startsWith_pdf_app c r H1) as H3.
    cbn [append] in H3 |- *. cbn [replaceFirst]. rewrite H3, (IH H2).
    reflexivity.
Qed.

End FileNames.

(** X19. The names of the output files. The base name of an output is the
    name of the input without its [.pdf] extension, in whatever case the
    extension is written; a name that does not end in [.pdf] is kept
    whole. The watermark processor replaces the first [.pdf] of the name,
    in lower case only, by [_watermarked.pdf]: a name without [.pdf] in
    lower case (as [SCAN.PDF]) is not changed at all, and the output then
    carries the name of the input. *)
Theorem output_file_names :
  (forall base ext,
     toLowerCase ext = ".pdf"%string ->
     stripPdfSuffix (base ++ ext)%string = base) /\
  (forall name,
     endsWith ".pdf" (toLowerCase name) = false -> stripPdfSuffix name = name) /\
  (forall base,
     includes ".pdf" base = false ->
     replaceFirst ".pdf" "_watermarked.pdf" (base ++ ".pdf")%string =
     (base ++ "_watermarked.pdf")%string) /\
  (forall name,
     includes ".pdf" name = false ->
     replaceFirst ".pdf" "_watermarked.pdf" name = name).
Proof.
  split; [exact stripPdfSuffix_app|]. split.
  - intros name H. unfold stripPdfSuffix. rewrite H. reflexivity.
  - split.
    + intros base. apply replaceFirst_suffix.
    + intros name. apply replaceFirst_absent.
Qed.

Lemma output_file_names_witness :
  stripPdfSuffix "Annual Report.PdF" = "Annual Report"%string /\
  stripPdfSuffix "notes.txt" = "notes.txt"%string /\
  replaceFirst ".pdf" "_watermarked.pdf" "contract.v2.pdf" =
    "contract.v2_watermarked.pdf"%string /\
  replaceFirst ".pdf" "_watermarked.pdf" "SCAN.PDF" = "SCAN.PDF"%string.
Proof.
  split; [|split; [|split]].
  - exact (proj1 output_file_names "Annual Report" ".PdF" eq_refl).
  - exact (proj1 (proj2 output_file_names) "notes.txt" eq_refl).
  - exact (proj1 (proj2 (proj2 output_file_names)) "contract.v2" eq_refl).
  - exact (proj2 (proj2 (proj2 output_file_names)) "SCAN.PDF" eq_refl).
Defined.

(** ** The marks of the watermark processor *)

Section WatermarkRun.

Variables (env : Watermark.Env) (doc : Watermark.WmDocument)
          (o : Watermark.WatermarkOptions).
Hypothesis never_cancelled : forall k, Watermark.cancelledAt env k = false.
Hypothesis text_measured :
  Watermark.drawsText o = true -> Watermark.widthOfTextAtSize doc = Done tt.
Hypothesis image_embeds :
  Watermark.drawsImage o = true -> Watermark.embedPng doc = Done tt.

Lemma markLoop_run (n : Z) (indices : list Z) :
  (forall i, In i indices -> Watermark.getPage doc i = Done tt) ->
  (Watermark.drawsText o = true ->
   forall i, In i indices -> Watermark.drawText doc i = Done tt) ->
  (Watermark.drawsImage o = true ->
   forall i, In i indices -> Watermark.drawImage doc i = Done tt) ->
  forall i marks s,
    exists s',
      Watermark.markLoop env doc o n indices i marks s =
      (Next (marks ++ Marks.expected o indices), s').
Proof.
  induction indices as [|p indices IH]; intros Hpages Htext Himage i marks s.
  - eexists. cbn [Watermark.markLoop]. unfold ret.
    replace (Marks.expected o []) with (@nil (Z * WatermarkKind))
      by (unfold Marks.expected;
          destruct (Watermark.drawsText o), (Watermark.drawsImage o);
          reflexivity).
    rewrite app_nil_r. reflexivity.
  - cbn [Watermark.markLoop].
    unfold bind at 1. unfold checkCancelled at 1. cbn beta iota.
    rewrite never_cancelled.
    unfold bind at 1. rewrite (Hpages p (or_introl eq_refl)).
    cbn [await]. unfold ret at 1. cbn beta iota.
    assert (forall st : BaseState, exists marks',
              (if Watermark.drawsText o
               then await (Watermark.widthOfTextAtSize doc) ;;
                    await (Watermark.drawText doc p) ;;
                    ret (marks ++ [(p, TextMark)])
               else if Watermark.drawsImage o
                    then await (Watermark.embedPng doc) ;;
                         await (Watermark.drawImage doc p) ;;
                         ret (marks ++ [(p, ImageMark)])
                    else ret marks : M BaseState _) st = (Next marks', st) /\
              marks' ++ Marks.expected o indices =
              marks ++ Marks.expected o (p :: indices)) as Hdraw.
    { intros st. unfold Marks.expected.
      destruct (Watermark.drawsText o).
      - rewrite (text_measured eq_refl),
          (Htext eq_refl p (or_introl eq_refl)).
        eexists. split; [reflexivity|]. cbn [map]. rewrite <- app_assoc.
        reflexivity.
      - destruct (Watermark.drawsImage o).
        + rewrite (image_embeds eq_refl),
            (Himage eq_refl p (or_introl eq_refl)).
          eexists. split; [reflexivity|].
          cbn [map]. rewrite <- app_assoc. reflexivity.
        + eexists. split; reflexivity. }
    unfold bind at 1.
    match goal with
    | |- context [(if Watermark.drawsText o then _ else _) ?st] =>
        destruct (Hdraw st) as [marks' [-> Hm]]
    end.
    unfold bind at 1. unfold updateProgress at 1, modify at 1. cbn beta iota.
    match goal with
    | |- context [Watermark.markLoop _ _ _ _ _ ?j ?mk ?st] =>
        destruct (IH (fun q Hq => Hpages q (or_intror Hq))
                    (fun Ht q Hq => Htext Ht q (or_intror Hq))
                    (fun Hi q Hq => Himage Hi q (or_intror Hq)) j mk st)
          as [s' ->]
    end.
    exists s'. rewrite Hm. reflexivity.
Qed.

End WatermarkRun.

Lemma getPageIndices_valid (pages : PagesOption) (N i : Z) :
  In i (getPageIndices pages N) -> 0 <= i < N.
Proof.
  unfold getPageIndices. destruct pages as [ps|k].
  - intros H. apply filter_In in H. destruct H as [_ H].
    apply andb_true_iff in H. lia.
  - destruct (String.eqb k "odd"); [|destruct (String.eqb k "even")];
      intros H; try (apply filter_In in H; destruct H as [H _]);
      apply arrayFrom_In in H; lia.
Qed.

(** X20. What a watermark call draws. When nothing is cancelled, the
    library and the document load, the pages of the document can be
    fetched, the library measures and draws the text (or embeds and draws
    the image) on every selected page and the document can be saved, the
    call succeeds and marks exactly the selected pages, each once and in
    the order of the selection: with the text when the type is text and a
    text is given, with the image when the type is image and image data
    are given. With the type text and no text, or an empty one, and with
    the type image and no data, the call still succeeds: it saves the
    document without any mark. Every mark is on a page of the document.
    When the library refuses the text on the first selected page (it
    throws an [Error] while measuring it), the whole call fails with
    [PROCESSING_FAILED] and the message of that error: no page is
    skipped and no document is returned. *)
Theorem watermark_marks :
  (forall env file opts doc,
     (forall k, Watermark.cancelledAt env k = false) ->
     Watermark.loadPdfLib env = Done tt ->
     Watermark.arrayBuffer env = Done tt ->
     Watermark.load env = Done doc ->
     Watermark.embedFont doc = Done tt ->
     Watermark.save doc = Done tt ->
     (forall i, 0 <= i < Watermark.getPageCount doc ->
                Watermark.getPage doc i = Done tt) ->
     (Watermark.drawsText (Watermark.resolveOptions opts) = true ->
      Watermark.widthOfTextAtSize doc = Done tt /\
      forall i, 0 <= i < Watermark.getPageCount doc ->
                Watermark.drawText doc i = Done tt) ->
     (Watermark.drawsImage (Watermark.resolveOptions opts) = true ->
      Watermark.embedPng doc = Done tt /\
      forall i, 0 <= i < Watermark.getPageCount doc ->
                Watermark.drawImage doc i = Done tt) ->
     exists o s,
       Watermark.run env (mkInput [file] opts) = (Resolved o, s) /\
       success o = true /\
       Marks.marksOf o =
         Marks.expected (Watermark.resolveOptions opts)
           (getPageIndices (Watermark.pages (Watermark.resolveOptions opts))
                           (Watermark.getPageCount doc)) /\
       (Watermark.drawsText (Watermark.resolveOptions opts) = false ->
        Watermark.drawsImage (Watermark.resolveOptions opts) = false ->
        Marks.marksOf o = []) /\
       Forall (fun m => 0 <= fst m < Watermark.getPageCount doc)
              (Marks.marksOf o)) /\
  (forall env file opts doc first others m,
     Watermark.cancelledAt env 0%nat = false ->
     Watermark.loadPdfLib env = Done tt ->
     Watermark.arrayBuffer env = Done tt ->
     Watermark.load env = Done doc ->
     Watermark.embedFont doc = Done tt ->
     getPageIndices (Watermark.pages (Watermark.resolveOptions opts))
                    (Watermark.getPageCount doc) = first :: others ->
     Watermark.getPage doc first = Done tt ->
     Watermark.drawsText (Watermark.resolveOptions opts) = true ->
     Watermark.widthOfTextAtSize doc = Fails (ErrorObj m) ->
     fst (Watermark.run env (mkInput [file] opts)) =
     Resolved (createErrorOutput PROCESSING_FAILED "Failed to add watermark."
                 (Some m))).
Proof.
  split.
  - intros env file opts doc Hc Hl Ha Hd Hfont Hsave Hpages Htxt Himg.
    remember (Watermark.resolveOptions opts) as o eqn:Eo.
    remember (getPageIndices (Watermark.pages o) (Watermark.getPageCount doc))
      as indices eqn:Ei.
    assert (forall i, In i indices -> 0 <= i < Watermark.getPageCount doc) as Hv.
    { intros i Hi. subst indices. eapply getPageIndices_valid. exact Hi. }
    unfold Watermark.run, Watermark.process, Watermark.fresh.
    run_unfold. cbn [files options].
    rewrite Hl. cbn beta iota. rewrite Ha. cbn beta iota. rewrite Hd.
    cbn beta iota. rewrite Hfont. cbn beta iota zeta.
    rewrite <- Eo, <- Ei.
    match goal with
    | |- context [Watermark.markLoop ?e ?d ?oo ?n ?ix ?j ?mk ?st] =>
        destruct (markLoop_run e d oo Hc
                    (fun Ht => proj1 (Htxt Ht)) (fun Hi => proj1 (Himg Hi))
                    n ix
                    (fun q Hq => Hpages q (Hv q Hq))
                    (fun Ht q Hq => proj2 (Htxt Ht) q (Hv q Hq))
                    (fun Hi q Hq => proj2 (Himg Hi) q (Hv q Hq))
                    j mk st) as [s' ->]
    end.
    cbn beta iota. rewrite Hsave. cbn beta iota.
    do 2 eexists. split; [reflexivity|].
    unfold Marks.marksOf. cbn [success result createSuccessOutput app].
    split; [reflexivity|]. split; [reflexivity|]. split.
    + intros Ht Him. unfold Marks.expected. rewrite Ht, Him. reflexivity.
    + unfold Marks.expected.
      destruct (Watermark.drawsText o); [|destruct (Watermark.drawsImage o)];
        try constructor; apply Forall_forall; intros mk Hm;
        apply in_map_iff in Hm; destruct Hm as [i [<- Hi]]; apply Hv, Hi.
  - intros env file opts doc first others m Hc Hl Ha Hd Hfont Hix Hpage Ht Hw.
    unfold Watermark.run, Watermark.process, Watermark.fresh.
    run_unfold. cbn [files options].
    rewrite Hl. cbn beta iota. rewrite Ha. cbn beta iota. rewrite Hd.
    cbn beta iota. rewrite Hfont. cbn beta iota zeta.
    rewrite Hix. cbn [Watermark.markLoop].
    run_unfold. cbn [getBase setBase BaseProcessor polls].
    rewrite Hc. cbn beta iota. rewrite Hpage. cbn beta iota.
    rewrite Ht. rewrite Hw. reflexivity.
Qed.

Lemma watermark_marks_witness :
  (exists o s,
     Watermark.run (Examples.wmEnv 4)
       (Examples.wmInput Examples.pdfFile (PagesKeyword "even")) =
       (Resolved o, s) /\
     success o = true /\
     Marks.marksOf o = [(1, TextMark); (3, TextMark)]) /\
  fst (Watermark.run
         (Watermark.mkEnv Examples.never (Done tt) (Done tt)
            (Done (Watermark.mkWmDoc (Done tt) 4 (fun _ => Done tt)
                     (Fails (ErrorObj "WinAnsi cannot encode"))
                     (fun _ => Done tt) (Done tt) (fun _ => Done tt)
                     (Done tt))))
         (Examples.wmInput Examples.pdfFile (PagesKeyword "even"))) =
  Resolved (createErrorOutput PROCESSING_FAILED "Failed to add watermark."
              (Some "WinAnsi cannot encode"%string)).
Proof.
  split.
  - destruct (proj1 watermark_marks (Examples.wmEnv 4) Examples.pdfFile
                (Watermark.mkPartial None (Some "DRAFT"%string) false
                   (Some (PagesKeyword "even")))
                (Examples.wmDoc 4)
                (fun _ => eq_refl) eq_refl eq_refl eq_refl eq_refl eq_refl
                (fun _ _ => eq_refl)
                (fun _ => conj eq_refl (fun _ _ => eq_refl))
                (fun _ => conj eq_refl (fun _ _ => eq_refl)))
      as [o [s [Hrun [Hok [Hm _]]]]].
    exists o, s. split; [exact Hrun|]. split; [exact Hok | exact Hm].
  - exact (proj2 watermark_marks
             (Watermark.mkEnv Examples.never (Done tt) (Done tt)
                (Done (Watermark.mkWmDoc (Done tt) 4 (fun _ => Done tt)
                         (Fails (ErrorObj "WinAnsi cannot encode"))
                         (fun _ => Done tt) (Done tt) (fun _ => Done tt)
                         (Done tt))))
             Examples.pdfFile
             (Watermark.mkPartial None (Some "DRAFT"%string) false
                (Some (PagesKeyword "even")))
             (Watermark.mkWmDoc (Done tt) 4 (fun _ => Done tt)
                (Fails (ErrorObj "WinAnsi cannot encode"))
                (fun _ => Done tt) (Done tt) (fun _ => Done tt) (Done tt))
             1 [3] "WinAnsi cannot encode"%string
             eq_refl eq_refl eq_refl eq_refl eq_refl eq_refl eq_refl eq_refl
             eq_refl).
Defined.

(** ** The encoder settings of the PDF to image processor *)

Section ImageEncodings.

Variables (env : PDFToImage.Env) (doc : PdfDocument)
          (o : PDFToImage.PDFToImageOptions).

Lemma encodings_error (c : PDFErrorCode) (msg : string) (det : option string) :
  Envelope.encodedFor o (createErrorOutput c msg det).
Proof. constructor. Qed.

Lemma renderPage_encoded (p : Z) :
  triple (fun _ : BaseState => True) (PDFToImage.renderPageToImage env doc p o)
         (fun b _ => Envelope.imageFor o b)
         (fun out _ => Envelope.encodedFor o out) (fun _ _ => True).
Proof.
  unfold PDFToImage.renderPageToImage, PDFToImage.needContext,
         PDFToImage.awaitBlob.
  intros s _. run_unfold.
  destruct (getPage doc p); [|exact I].
  destruct (context2d (PDFToImage.canvas env)); [|exact I].
  destruct (render doc p); [|exact I].
  destruct (toBlob (PDFToImage.canvas env) [p]); [|exact I].
  exists [p]. reflexivity.
Qed.

Lemma forEachM_next (f : Z -> M BaseState unit) (xs : list Z) :
  (forall x, triple (fun _ => True) (f x) (fun _ _ => True)
                    (fun _ _ => False) (fun _ _ => True)) ->
  triple (fun _ => True) (PDFToImage.forEachM f xs) (fun _ _ => True)
         (fun _ _ => False) (fun _ _ => True).
Proof.
  intros Hf. induction xs as [|x xs IH]; cbn [PDFToImage.forEachM].
  - apply triple_ret. trivial.
  - apply triple_bind with (Qm := fun _ _ => True); [apply Hf | intros _; exact IH].
Qed.

Lemma renderGrid_encoded (group : list Z) :
  triple (fun _ : BaseState => True)
         (PDFToImage.renderGridPagesToImage env doc group o)
         (fun b _ => Envelope.imageFor o b)
         (fun out _ => Envelope.encodedFor o out) (fun _ _ => True).
Proof.
  unfold PDFToImage.renderGridPagesToImage, PDFToImage.needContext,
         PDFToImage.awaitBlob.
  apply triple_bind with (Qm := fun _ _ => True).
  { eapply triple_conseq; [| | | |apply forEachM_next]; cbv beta; auto.
    - intros ? ? [].
    - intros x. apply triple_bind with (Qm := fun _ _ => True);
        [apply triple_await; trivial | intros _; apply triple_ret; trivial]. }
  intros _. apply triple_bind with (Qm := fun _ _ => True).
  { destruct (context2d _); [apply triple_ret | apply triple_throw]; trivial. }
  intros _. apply triple_bind with (Qm := fun _ _ => True).
  { eapply triple_conseq; [| | | |apply forEachM_next]; cbv beta; auto.
    - intros ? ? [].
    - intros x. apply triple_await; trivial. }
  intros _. apply triple_bind with (Qm := fun _ _ => True).
  { destruct (toBlob _ _); [apply triple_ret | apply triple_throw]; trivial. }
  intros _. apply triple_ret. intros s _. exists group. reflexivity.
Qed.

Lemma pageLoop_encoded (n : Z) (ps : list Z) :
  forall i images,
    Forall (Envelope.imageFor o) images ->
    triple (fun _ => True) (PDFToImage.pageLoop env doc o n ps i images)
           (fun out _ => Forall (Envelope.imageFor o) out)
           (fun out _ => Envelope.encodedFor o out)
           (fun _ _ => True).
Proof.
  induction ps as [|p ps IH]; intros i images Him; cbn [PDFToImage.pageLoop].
  - apply triple_ret. intros _ _. exact Him.
  - apply triple_bind with (Qm := fun _ _ => True);
      [apply triple_checkCancelled; trivial|].
    intros [|]; [apply triple_return; intros; apply encodings_error|].
    apply triple_bind with (Qm := fun _ _ => True);
      [apply triple_updateProgress; trivial|].
    intros _.
    apply triple_bind with (Qm := fun b _ => Envelope.imageFor o b).
    + apply triple_tryCatch with (Eb := fun _ _ => True);
        [apply renderPage_encoded|].
      intros e. apply triple_return. intros; apply encodings_error.
    + intros b. intros s Hb.
      apply (IH (i + 1) (images ++ [b])%list); [|exact I].
      apply Forall_app. split; [exact Him | constructor; [exact Hb | constructor]].
Qed.

Lemma groupImage_encoded (n i : Z) (group : list Z) :
  triple (fun _ => True) (PDFToImage.groupImage env doc o n i group)
         (fun b _ => Envelope.imageFor o b)
         (fun out _ => Envelope.encodedFor o out) (fun _ _ => True).
Proof.
  unfold PDFToImage.groupImage.
  destruct group as [|p [|q group]];
    (apply triple_bind with (Qm := fun _ _ => True);
     [apply triple_updateProgress; trivial|]; intros _;
     apply triple_tryCatch with (Eb := fun _ _ => True);
     [ first [apply renderPage_encoded | apply renderGrid_encoded]
     | intros e; apply triple_return; intros; apply encodings_error ]).
Qed.

Lemma groupsLoop_encoded (n : Z) (groups : list (list Z)) :
  forall i images,
    Forall (Envelope.imageFor o) images ->
    triple (fun _ => True) (PDFToImage.groupsLoop env doc o n groups i images)
           (fun out _ => Forall (Envelope.imageFor o) out)
           (fun out _ => Envelope.encodedFor o out)
           (fun _ _ => True).
Proof.
  induction groups as [|g groups IH]; intros i images Him;
    cbn [PDFToImage.groupsLoop].
  - apply triple_ret. intros _ _. exact Him.
  - apply triple_bind with (Qm := fun _ _ => True);
      [apply triple_checkCancelled; trivial|].
    intros [|]; [apply triple_return; intros; apply encodings_error|].
    apply triple_bind with (Qm := fun b _ => Envelope.imageFor o b);
      [apply groupImage_encoded|].
    intros b. intros s Hb.
    apply (IH (i + 1) (images ++ [b])%list); [|exact I].
    apply Forall_app. split; [exact Him | constructor; [exact Hb | constructor]].
Qed.

Lemma encodings_success (images : list Blob) (fname : string)
    (meta : list (string * MetaValue)) :
  Forall (Envelope.imageFor o) images ->
  Envelope.encodedFor o (createSuccessOutput (ManyBlobs images) fname meta) /\
  (forall image, images = [image] ->
                 Envelope.encodedFor o (createSuccessOutput (OneBlob image) fname meta)).
Proof.
  intros Him. unfold Envelope.encodedFor, Envelope.encodings.
  cbn [result createSuccessOutput].
  assert (Forall
            (fun enc => enc = (PDFToImage.FORMAT_MIME_TYPES (PDFToImage.format o),
                               PDFToImage.qualityFor o))
            (flat_map
               (fun b => match b with
                         | ImageBlob r => [(mimeType r, quality r)]
                         | ZipBlob entries =>
                             map (fun e => (mimeType (snd e), quality (snd e)))
                                 entries
                         | _ => []
                         end) images)) as H.
  { induction Him as [|b images [g ->] _ IH]; cbn [flat_map]; [constructor|].
    apply Forall_app. split; [|exact IH].
    constructor; [reflexivity | constructor]. }
  split; [exact H|].
  intros image ->. cbn [flat_map] in H. rewrite app_nil_r in H. exact H.
Qed.

End ImageEncodings.

(** X21. The encoder settings of the PDF to image processor. Every image
    of a result, in the single page mode and in the grid mode, is encoded
    with the MIME type of the requested format; the quality option reaches
    the encoder only for the formats [jpg], [jpeg] and [webp]: a [png],
    [bmp] or [tiff] image is encoded without a quality, whatever the
    option says. *)
Theorem image_encodings :
  (forall env input out,
     fst (PDFToImage.run env input) = Resolved out ->
     Envelope.encodedFor (PDFToImage.mergeOptions (options input)) out) /\
  (forall o,
     PDFToImage.qualityFor o =
     match PDFToImage.format o with
     | PDFToImage.jpg | PDFToImage.jpeg | PDFToImage.webp =>
         Some (PDFToImage.quality o)
     | PDFToImage.png | PDFToImage.bmp | PDFToImage.tiff => None
     end).
Proof.
  split; [|intros o; unfold PDFToImage.qualityFor;
           destruct (PDFToImage.format o); reflexivity].
  intros env input out Hrun.
  set (o := PDFToImage.mergeOptions (options input)).
  set (G := Envelope.encodedFor o).
  assert (forall P c msg det,
            triple (St := BaseState) P (return_ (createErrorOutput c msg det))
                   (fun out _ => G out) (fun out _ => G out)
                   (fun _ _ => True)) as Hret.
  { intros P c msg det. apply triple_return. intros. constructor. }
  assert (triple (fun _ => True) (PDFToImage.process env input)
                 (fun out _ => G out) (fun out _ => G out) (fun _ _ => True))
    as Ht.
  { unfold PDFToImage.process. fold o.
    apply triple_bind with (Qm := fun _ _ => True);
      [apply triple_reset; trivial|].
    intros _. cbv zeta.
    destruct (files input) as [|file [|file' rest]]; try apply Hret.
    destruct (negb _ && negb _); [apply Hret|].
    apply triple_tryCatch with (Eb := fun _ _ => True);
      [|intros e; unfold PDFToImage.failedOutput; apply Hret].
    apply triple_bind with (Qm := fun _ _ => True);
      [apply triple_updateProgress; trivial|]. intros _.
    apply triple_bind with (Qm := fun _ _ => True);
      [apply triple_await; trivial|]. intros _.
    apply triple_bind with (Qm := fun _ _ => True);
      [apply triple_checkCancelled; trivial|].
    intros [|]; [apply Hret|].
    apply triple_bind with (Qm := fun _ _ => True);
      [apply triple_updateProgress; trivial|]. intros _.
    apply triple_bind with (Qm := fun _ _ => True);
      [apply triple_await; trivial|]. intros _.
    apply triple_bind with (Qm := fun _ _ => True);
      [apply triple_await; trivial|]. intros pdf.
    destruct (PDFToImage.lengthZ _ =? 0); [apply Hret|].
    apply triple_bind with (Qm := fun _ _ => True);
      [apply triple_updateProgress; trivial|]. intros _.
    apply triple_bind
      with (Qm := fun images _ => Forall (Envelope.imageFor o) images).
    { destruct (_ =? 1).
      - apply pageLoop_encoded. constructor.
      - destruct (pageGroups _ _ _ _); [|apply triple_hang].
        apply groupsLoop_encoded. constructor. }
    intros images.
    apply triple_bind
      with (Qm := fun _ _ => Forall (Envelope.imageFor o) images).
    { apply triple_updateProgress. trivial. }
    intros _. apply triple_pure. intros Him.
    destruct images as [|image [|image' images]];
      (apply triple_bind with (Qm := fun _ _ => True);
       [apply triple_updateProgress; trivial|]; intros _;
       apply triple_return; intros s _).
    - exact (proj1 (encodings_success o [] _ _ Him)).
    - exact (proj2 (encodings_success o [image] _ _ Him) image eq_refl).
    - exact (proj1 (encodings_success o (image :: image' :: images) _ _ Him)). }
  pose proof (triple_settle _ _ _ _ Ht PDFToImage.fresh I) as Hs.
  unfold PDFToImage.run in Hrun.
  destruct (settle (PDFToImage.process env input) PDFToImage.fresh)
    as [[o1|e|] s']; cbn [fst] in Hrun; try discriminate.
  injection Hrun as <-. exact Hs.
Qed.

Lemma image_encodings_witness :
  exists out,
    fst (PDFToImage.run (Examples.imageEnv (Examples.docOf 3 (fun _ => false)))
           (Examples.imageInput Examples.pdfFile [1; 3] None)) = Resolved out /\
    Envelope.encodedFor
      (PDFToImage.mergeOptions
         (PDFToImage.mkPartial None None None (Some [1; 3]) None None)) out /\
    Envelope.encodings out =
      [("image/png"%string, None); ("image/png"%string, None)].
Proof.
  eexists. split; [vm_compute; reflexivity|]. split; [|reflexivity].
  exact (proj1 image_encodings
           (Examples.imageEnv (Examples.docOf 3 (fun _ => false)))
           (Examples.imageInput Examples.pdfFile [1; 3] None) _
           ltac:(vm_compute; reflexivity)).
Defined.

(** ** The number of files and the convenience calls *)

(** X22. The number of files. Each of the four processors answers an
    input that does not hold exactly one file with [INVALID_OPTIONS],
    before anything else: nothing is loaded, no progress is reported, the
    worker is not touched. The convenience calls [pdfToImages] and
    [rasterizePDF] always pass one file: [pdfToImages] never answers
    [INVALID_OPTIONS], and [rasterizePDF] answers it only for a page
    selection that is empty. *)
Theorem file_count :
  (forall env input,
     (forall file, files input <> [file]) ->
     exists o,
       Rasterize.run env input = (Resolved o, mkBase 0 [] 0) /\
       errorCode o = Some INVALID_OPTIONS) /\
  (forall env input,
     (forall file, files input <> [file]) ->
     exists o,
       PDFToImage.run env input = (Resolved o, mkBase 0 [] 0) /\
       errorCode o = Some INVALID_OPTIONS) /\
  (forall env input,
     (forall file, files input <> [file]) ->
     exists o,
       Watermark.run env input = (Resolved o, mkBase 0 [] 0) /\
       errorCode o = Some INVALID_OPTIONS) /\
  (forall env input s,
     (forall file, files input <> [file]) ->
     exists o,
       PDFToDocx.run env input s =
         (Resolved o,
          PDFToDocx.mkState (mkBase 0 [] 0) (PDFToDocx.worker s)
            (PDFToDocx.workerReady s) (PDFToDocx.spawned s)
            (PDFToDocx.terminated s)) /\
       errorCode o = Some INVALID_OPTIONS) /\
  (forall env file options o,
     fst (ImageTool.pdfToImages env file options) = Resolved o ->
     errorCode o <> Some INVALID_OPTIONS) /\
  (forall env file options o,
     fst (RasterizeCall.rasterizePDF env file options) = Resolved o ->
     errorCode o = Some INVALID_OPTIONS ->
     error o = Some (mkPDFError INVALID_OPTIONS "No valid pages specified."
                       (Some "Please enter a valid page range."%string))).
Proof.
  split; [|split; [|split; [|split; [|split]]]].
  - intros env input Hn. unfold Rasterize.run, Rasterize.process, Rasterize.fresh.
    run_unfold. destruct (files input) as [|file [|file' rest]];
      [|exfalso; apply (Hn file); reflexivity|];
      eexists; split; reflexivity.
  - intros env input Hn.
    unfold PDFToImage.run, PDFToImage.process, PDFToImage.fresh.
    run_unfold. destruct (files input) as [|file [|file' rest]];
      [|exfalso; apply (Hn file); reflexivity|];
      eexists; split; reflexivity.
  - intros env input Hn.
    unfold Watermark.run, Watermark.process, Watermark.fresh.
    run_unfold. destruct (files input) as [|file [|file' rest]];
      [|exfalso; apply (Hn file); reflexivity|];
      eexists; split; reflexivity.
  - intros env input s Hn. unfold PDFToDocx.run, PDFToDocx.process.
    run_unfold. destruct (files input) as [|file [|file' rest]];
      [|exfalso; apply (Hn file); reflexivity|];
      eexists; split; reflexivity.
  - intros env file options o. unfold ImageTool.pdfToImages, PDFToImage.run.
    apply (resolves_settle (fun o => errorCode o <> Some INVALID_OPTIONS)).
    unfold PDFToImage.process, PDFToImage.failedOutput. cbn [files].
    only_with ltac:(first [ apply image_pageLoop_answers; intros; discriminate
                          | apply image_groupsLoop_answers; intros; discriminate
                          | discriminate ]).
  - intros env file options o.
    unfold RasterizeCall.rasterizePDF, Rasterize.run.
    apply (resolves_settle
             (fun o => errorCode o = Some INVALID_OPTIONS ->
                       error o = Some (mkPDFError INVALID_OPTIONS
                                         "No valid pages specified."
                                         (Some "Please enter a valid page range."%string)))).
    unfold Rasterize.process, Rasterize.renderFailed. cbn [files].
    only_with ltac:(first [ apply rasterize_pdfLoop_answers; intros; discriminate
                          | apply rasterize_imageLoop_answers; intros; discriminate
                          | discriminate
                          | (intros _; reflexivity) ]).
Qed.

Lemma file_count_witness :
  (exists o,
     Rasterize.run (Examples.rasterEnv (Examples.docOf 3 (fun _ => false)))
       (mkInput [] (Rasterize.mkPartial None None None None None)) =
       (Resolved o, mkBase 0 [] 0) /\
     errorCode o = Some INVALID_OPTIONS) /\
  errorCode
    (createErrorOutput INVALID_PAGE_RANGE "No valid pages to convert."
       (Some "PDF has 3 pages."%string)) <> Some INVALID_OPTIONS.
Proof.
  split.
  - exact (proj1 file_count
             (Examples.rasterEnv (Examples.docOf 3 (fun _ => false)))
             (mkInput [] (Rasterize.mkPartial None None None None None))
             ltac:(discriminate)).
  - exact (proj1 (proj2 (proj2 (proj2 (proj2 file_count))))
             (Examples.imageEnv (Examples.docOf 3 (fun _ => false)))
             Examples.pdfFile
             (Some (PDFToImage.mkPartial None None None (Some [7; 9]) None None))
             _ ltac:(vm_compute; reflexivity)).
Defined.

(** ** The grid images of a conversion started from the tool *)

Lemma specGroups_sizes (skipFirst : bool) (size : nat) (pages : list Z) :
  (1 <= size)%nat ->
  Forall (fun g => (List.length g <= size)%nat)
         (specGroups skipFirst size pages).
Proof.
  intros Hs.
  assert (forall l, Forall (fun g => (List.length g <= size)%nat)
                           (batches size l)) as Hb.
  { intros l. eapply Forall_impl; [|apply (batches_sizes size l Hs)].
    cbv beta. intros g Hg. lia. }
  unfold specGroups. destruct skipFirst, pages as [|x pages]; try apply Hb.
  constructor; [simpl; lia | apply Hb].
Qed.

(** X23. For a conversion started from the tool, nothing of a grid image
    is drawn outside the image: whatever the pages measure, every page of
    every group the processor forms for the grid of the tool is placed
    inside the canvas of the image of its group. *)
Theorem tool_grid_images_inside_canvas :
  forall t pages group sizes k size,
    1 <= ImageTool.customColumns t <= 10 ->
    1 <= ImageTool.customRows t <= 10 ->
    In group
       (specGroups (PDFToImage.skipFirstPage (ImageTool.layout t))
          (Z.to_nat (PDFToImage.columns (ImageTool.layout t) *
                     PDFToImage.rows (ImageTool.layout t)))
          pages) ->
    List.length sizes = List.length group ->
    nth_error sizes k = Some size ->
    exists p,
      nth_error
        (GridCanvas.placements
           (GridCanvas.gridLayout
              (PDFToImage.columns (ImageTool.layout t))
              (PDFToImage.rows (ImageTool.layout t))
              (map (GridCanvas.getViewport (ImageTool.scale t)) sizes))) k =
        Some p /\
      GridCanvas.drawnWithin p
        (GridCanvas.getViewport (ImageTool.scale t) size) 0%Q 0%Q
        (GridCanvas.canvasWidth
           (GridCanvas.gridLayout
              (PDFToImage.columns (ImageTool.layout t))
              (PDFToImage.rows (ImageTool.layout t))
              (map (GridCanvas.getViewport (ImageTool.scale t)) sizes)))
        (GridCanvas.canvasHeight
           (GridCanvas.gridLayout
              (PDFToImage.columns (ImageTool.layout t))
              (PDFToImage.rows (ImageTool.layout t))
              (map (GridCanvas.getViewport (ImageTool.scale t)) sizes))).
Proof.
  intros t pages group sizes k size Hc Hr Hg Hlen Hk.
  destruct (getGridDimensions_range t Hc Hr) as [H1 H2].
  assert (PDFToImage.columns (ImageTool.layout t) =
          fst (ImageTool.getGridDimensions t) /\
          PDFToImage.rows (ImageTool.layout t) =
          snd (ImageTool.getGridDimensions t)) as [Ec Er].
  { unfold ImageTool.layout, ImageTool.optionsWith.
    destruct (ImageTool.getGridDimensions t). split; reflexivity. }
  rewrite <- Ec in H1. rewrite <- Er in H2.
  set (c := PDFToImage.columns (ImageTool.layout t)) in *.
  set (r := PDFToImage.rows (ImageTool.layout t)) in *.
  assert (List.length group <= Z.to_nat (c * r))%nat as Hsize.
  { pose proof (specGroups_sizes
                  (PDFToImage.skipFirstPage (ImageTool.layout t))
                  (Z.to_nat (c * r)) pages ltac:(nia)) as Hall.
    rewrite Forall_forall in Hall. apply Hall, Hg. }
  destruct (grid_place_inside c r
              (map (GridCanvas.getViewport (ImageTool.scale t)) sizes) k
              (GridCanvas.getViewport (ImageTool.scale t) size))
    as [p [Hp [_ [_ [_ [Hin _]]]]]].
  - lia.
  - rewrite length_map, Hlen. nia.
  - rewrite nth_error_map, Hk. reflexivity.
  - exists p. split; [exact Hp | exact Hin].
Qed.

Lemma tool_grid_images_inside_canvas_witness :
  exists p,
    nth_error
      (GridCanvas.placements
         (GridCanvas.gridLayout 2 2
            (map (GridCanvas.getViewport 2)
                 [(612%Q, 792%Q); (792%Q, 612%Q); (612%Q, 792%Q); (595%Q, 842%Q)])))
      3 = Some p /\
    GridCanvas.drawnWithin p (GridCanvas.getViewport 2 (595%Q, 842%Q)) 0%Q 0%Q
      (GridCanvas.canvasWidth
         (GridCanvas.gridLayout 2 2
            (map (GridCanvas.getViewport 2)
                 [(612%Q, 792%Q); (792%Q, 612%Q); (612%Q, 792%Q); (595%Q, 842%Q)])))
      (GridCanvas.canvasHeight
         (GridCanvas.gridLayout 2 2
            (map (GridCanvas.getViewport 2)
                 [(612%Q, 792%Q); (792%Q, 612%Q); (612%Q, 792%Q); (595%Q, 842%Q)]))).
Proof.
  exact (tool_grid_images_inside_canvas
           (ImageTool.mkTool PDFToImage.png (92 # 100) 2 "" "2x2" 2 2 true)
           [1; 2; 3; 4; 5] [2; 3; 4; 5]
           [(612%Q, 792%Q); (792%Q, 612%Q); (612%Q, 792%Q); (595%Q, 842%Q)]
           3%nat (595%Q, 842%Q)
           ltac:(vm_compute; split; discriminate)
           ltac:(vm_compute; split; discriminate)
           ltac:(vm_compute; right; left; reflexivity) eq_refl eq_refl).
Defined.

(** ** Calls that always resolve *)

Section Settles.

Context {St : Type}.

Lemma settles_ret {A} (a : A) : Envelope.settles (St := St) (ret a).
Proof. intros s. discriminate. Qed.

Lemma settles_return {A} (o : ProcessOutput) :
  Envelope.settles (St := St) (A := A) (return_ o).
Proof. intros s. discriminate. Qed.

Lemma settles_throw {A} (e : Thrown) :
  Envelope.settles (St := St) (A := A) (throw e).
Proof. intros s. discriminate. Qed.

Lemma settles_await {A} (o : Outcome A) : Envelope.settles (St := St) (await o).
Proof. destruct o; intros s; discriminate. Qed.

Lemma settles_modify (f : St -> St) : Envelope.settles (modify f).
Proof. intros s. discriminate. Qed.

Lemma settles_gets {A} (f : St -> A) : Envelope.settles (gets f).
Proof. intros s. discriminate. Qed.

Lemma settles_bind {A B} (m : M St A) (k : A -> M St B) :
  Envelope.settles m -> (forall a, Envelope.settles (k a)) ->
  Envelope.settles (bind m k).
Proof.
  intros Hm Hk s. specialize (Hm s). unfold bind.
  destruct (m s) as [[a|o|e|] s']; cbn [fst] in *;
    try discriminate; [apply Hk | congruence].
Qed.

Lemma settles_tryCatch {A} (body : M St A) (handler : Thrown -> M St A) :
  Envelope.settles body -> (forall e, Envelope.settles (handler e)) ->
  Envelope.settles (tryCatch body handler).
Proof.
  intros Hb Hh s. specialize (Hb s). unfold tryCatch.
  destruct (body s) as [[a|o|e|] s']; cbn [fst] in *;
    try discriminate; [apply Hh | congruence].
Qed.

Context `{Processor St}.

Lemma settles_checkCancelled (c : nat -> bool) :
  Envelope.settles (checkCancelled c).
Proof. intros s. discriminate. Qed.

(** A body that settles and does not throw resolves. *)
Lemma settles_resolves (m : M St ProcessOutput) (s : St) :
  Envelope.settles m ->
  triple (fun _ => True) m (fun _ _ => True) (fun _ _ => True)
         (fun _ _ => False) ->
  exists o s', settle m s = (Resolved o, s').
Proof.
  intros Hs Ht. specialize (Hs s). specialize (Ht s I). unfold settle.
  destruct (m s) as [[a|o|e|] s']; cbn [fst] in *;
    [do 2 eexists; reflexivity | do 2 eexists; reflexivity
    | contradiction | congruence].
Qed.

End Settles.

Ltac settles_step :=
  lazymatch goal with
  | |- Envelope.settles (bind _ _) => apply settles_bind; [|intros ?]
  | |- Envelope.settles (tryCatch _ _) => apply settles_tryCatch; [|intros ?]
  | |- Envelope.settles (ret _) => apply settles_ret
  | |- Envelope.settles (return_ _) => apply settles_return
  | |- Envelope.settles (throw _) => apply settles_throw
  | |- Envelope.settles (await _) => apply settles_await
  | |- Envelope.settles (gets _) => apply settles_gets
  | |- Envelope.settles (modify _) => apply settles_modify
  | |- Envelope.settles (checkCancelled _) => apply settles_checkCancelled
  | |- Envelope.settles (if ?c then _ else _) => destruct c
  | |- Envelope.settles (match ?x with _ => _ end) => destruct x
  | |- Envelope.settles (let _ := _ in _) => cbv zeta
  end.

Ltac settles_with leaf := repeat first [ leaf | settles_step ].

Section SettlingLoops.

Lemma rasterize_pdfLoop_settles env o doc n pages :
  forall i out, Envelope.settles (Rasterize.pdfLoop env o doc n pages i out).
Proof.
  induction pages as [|p pages IH]; intros i out; cbn [Rasterize.pdfLoop];
    unfold Rasterize.useContext, updateProgress;
    settles_with ltac:(apply IH).
Qed.

Lemma rasterize_imageLoop_settles env o doc baseName n pages :
  forall i images,
    Envelope.settles (Rasterize.imageLoop env o doc baseName n pages i images).
Proof.
  induction pages as [|p pages IH]; intros i images; cbn [Rasterize.imageLoop];
    unfold Rasterize.useContext, Rasterize.awaitBlob, updateProgress;
    settles_with ltac:(apply IH).
Qed.

Lemma watermark_markLoop_settles env doc o n indices :
  forall i marks,
    Envelope.settles (Watermark.markLoop env doc o n indices i marks).
Proof.
  induction indices as [|p indices IH]; intros i marks;
    cbn [Watermark.markLoop]; unfold updateProgress;
    settles_with ltac:(apply IH).
Qed.

Lemma image_forEachM_settles {A} (f : A -> M BaseState unit) (xs : list A) :
  (forall x, Envelope.settles (f x)) ->
  Envelope.settles (PDFToImage.forEachM f xs).
Proof.
  intros Hf. induction xs as [|x xs IH]; cbn [PDFToImage.forEachM];
    settles_with ltac:(first [apply Hf | apply IH]).
Qed.

Lemma image_renderPage_settles env doc p o :
  Envelope.settles (St := BaseState)
    (PDFToImage.renderPageToImage env doc p o).
Proof.
  unfold PDFToImage.renderPageToImage, PDFToImage.needContext,
         PDFToImage.awaitBlob.
  settles_with fail.
Qed.

Lemma image_renderGrid_settles env doc group o :
  Envelope.settles (St := BaseState)
    (PDFToImage.renderGridPagesToImage env doc group o).
Proof.
  unfold PDFToImage.renderGridPagesToImage, PDFToImage.needContext,
         PDFToImage.awaitBlob.
  settles_with ltac:(apply image_forEachM_settles; intros ?).
Qed.

Lemma image_pageLoop_settles env doc o n ps :
  forall i images,
    Envelope.settles (PDFToImage.pageLoop env doc o n ps i images).
Proof.
  induction ps as [|p ps IH]; intros i images; cbn [PDFToImage.pageLoop];
    unfold updateProgress;
    settles_with ltac:(first [apply IH | apply image_renderPage_settles]).
Qed.

Lemma image_groupsLoop_settles env doc o n groups :
  forall i images,
    Envelope.settles (PDFToImage.groupsLoop env doc o n groups i images).
Proof.
  induction groups as [|g groups IH]; intros i images;
    cbn [PDFToImage.groupsLoop];
    unfold PDFToImage.groupImage, updateProgress;
    settles_with ltac:(first [ apply IH | apply image_renderPage_settles
                             | apply image_renderGrid_settles ]).
Qed.

Lemma image_process_settles env input :
  1 <= PDFToImage.columns
         (PDFToImage.pageLayout (PDFToImage.mergeOptions (options input))) *
       PDFToImage.rows
         (PDFToImage.pageLayout (PDFToImage.mergeOptions (options input))) ->
  Envelope.settles (PDFToImage.process env input).
Proof.
  intros Hg. unfold PDFToImage.process, reset, updateProgress.
  cbv zeta.
  remember (PDFToImage.mergeOptions (options input)) as o eqn:Eo.
  settles_with ltac:(first [ apply image_pageLoop_settles
                           | apply image_groupsLoop_settles
                           | rewrite pageGroups_spec by (exact Hg || lia) ]).
Qed.

End SettlingLoops.

(** X24. Calls that always resolve. As long as every call into a library
    answers, with a value or with an exception, and whenever the
    cancellation flag is raised, a call of the rasterize processor and a
    call of the watermark processor resolve with an envelope: they never
    stay pending and never reject.
    So does a call of the PDF to image processor whose grid has at least
    one cell, and so every conversion started from the tool whose page
    field is followed (every number of it a safe integer, at most
    2^32 - 1 pages asked for). *)
Theorem calls_always_resolve :
  (forall env input,
     exists o s, Rasterize.run env input = (Resolved o, s)) /\
  (forall env input,
     exists o s, Watermark.run env input = (Resolved o, s)) /\
  (forall env input,
     1 <= PDFToImage.columns
            (PDFToImage.pageLayout (PDFToImage.mergeOptions (options input))) *
          PDFToImage.rows
            (PDFToImage.pageLayout (PDFToImage.mergeOptions (options input))) ->
     exists o s, PDFToImage.run env input = (Resolved o, s)) /\
  (forall env file t pages,
     1 <= ImageTool.customColumns t <= 10 ->
     1 <= ImageTool.customRows t <= 10 ->
     ImageTool.parsePageRange (ImageTool.pageRange t) = Some pages ->
     exists o s, ImageTool.handleConvert env file t = Some (Resolved o, s)).
Proof.
  assert (forall env input,
            1 <= PDFToImage.columns
                   (PDFToImage.pageLayout (PDFToImage.mergeOptions (options input))) *
                 PDFToImage.rows
                   (PDFToImage.pageLayout (PDFToImage.mergeOptions (options input))) ->
            exists o s, PDFToImage.run env input = (Resolved o, s)) as Himage.
  { intros env input Hg. apply settles_resolves.
    - apply image_process_settles, Hg.
    - unfold PDFToImage.process. no_throw. }
  split; [|split; [|split]].
  - intros env input. apply settles_resolves.
    + unfold Rasterize.process, Rasterize.renderFailed, reset, updateProgress.
      settles_with ltac:(first [ apply rasterize_pdfLoop_settles
                               | apply rasterize_imageLoop_settles ]).
    + unfold Rasterize.process. no_throw.
  - intros env input. apply settles_resolves.
    + unfold Watermark.process, reset, updateProgress.
      settles_with ltac:(apply watermark_markLoop_settles).
    + unfold Watermark.process. no_throw.
  - exact Himage.
  - intros env file t pages Hc Hr Hp.
    unfold ImageTool.handleConvert, ImageTool.convertOptions.
    rewrite Hp. cbn [option_map]. unfold ImageTool.pdfToImages.
    destruct (Himage env (mkInput [file] (ImageTool.optionsWith t pages)))
      as [o [s Hrun]]; [|exists o, s; rewrite Hrun; reflexivity].
    cbn [options].
    destruct (getGridDimensions_range t Hc Hr) as [H1 H2].
    assert (PDFToImage.columns
              (PDFToImage.pageLayout
                 (PDFToImage.mergeOptions (ImageTool.optionsWith t pages))) =
            fst (ImageTool.getGridDimensions t) /\
            PDFToImage.rows
              (PDFToImage.pageLayout
                 (PDFToImage.mergeOptions (ImageTool.optionsWith t pages))) =
            snd (ImageTool.getGridDimensions t)) as [-> ->].
    { unfold ImageTool.optionsWith.
      destruct (ImageTool.getGridDimensions t). split; reflexivity. }
    nia.
Qed.

Lemma calls_always_resolve_witness :
  (exists o s,
     PDFToImage.run (Examples.imageEnv (Examples.docOf 3 (fun p => p =? 2)))
       (Examples.imageInput Examples.pdfFile []
          (Some (PDFToImage.mkLayout "custom" 2 3 false))) = (Resolved o, s)) /\
  (exists o s,
     ImageTool.handleConvert
       (Examples.imageEnv (Examples.docOf 3 (fun p => p =? 2))) Examples.pdfFile
       (ImageTool.mkTool PDFToImage.jpg (80 # 100) 2 "1-2" "custom"
          (ImageTool.customSize "4") (ImageTool.customSize "") false) =
     Some (Resolved o, s)).
Proof.
  split.
  - exact (proj1 (proj2 (proj2 calls_always_resolve))
             (Examples.imageEnv (Examples.docOf 3 (fun p => p =? 2)))
             (Examples.imageInput Examples.pdfFile []
                (Some (PDFToImage.mkLayout "custom" 2 3 false)))
             ltac:(vm_compute; discriminate)).
  - exact (proj2 (proj2 (proj2 calls_always_resolve))
             (Examples.imageEnv (Examples.docOf 3 (fun p => p =? 2)))
             Examples.pdfFile
             (ImageTool.mkTool PDFToImage.jpg (80 # 100) 2 "1-2" "custom"
                (ImageTool.customSize "4") (ImageTool.customSize "") false)
             [1; 2]
             ltac:(vm_compute; split; discriminate)
             ltac:(vm_compute; split; discriminate)
             eq_refl).
Defined.

(** ** The order of the tokens of a page range *)

Section TokenOrder.

Open Scope string_scope.
Open Scope Z_scope.

Lemma split_join (sep : ascii) (a b : string) :
  split sep (a ++ String sep b) = (split sep a ++ split sep b)%list.
Proof.
  induction a as [|c a IH]; cbn [append split].
  - rewrite Ascii.eqb_refl. reflexivity.
  - rewrite IH. destruct (Ascii.eqb c sep); [reflexivity|].
    destruct (split sep a) as [|p ps] eqn:E; [|reflexivity].
    exfalso. destruct a; cbn [split] in E; [discriminate|].
    destruct (Ascii.eqb a sep); [discriminate|].
    destruct (split sep a0); discriminate.
Qed.

Lemma trimStart_chars (c : ascii) (s : string) :
  includesChar c s = true ->
  isWhiteSpace c = true \/ includesChar c (trimStart s) = true.
Proof.
  induction s as [|d s IH]; [discriminate|].
  cbn [includesChar trimStart]. intros H.
  destruct (isWhiteSpace d) eqn:Ed.
  - apply orb_true_iff in H. destruct H as [H|H].
    + apply Ascii.eqb_eq in H. subst d. left. exact Ed.
    + apply IH, H.
  - right. exact H.
Qed.

Lemma trimEnd_empty (c : ascii) (s : string) :
  trimEnd s = "" -> includesChar c s = true -> isWhiteSpace c = true.
Proof.
  induction s as [|d s IH]; [discriminate|].
  cbn [trimEnd includesChar]. intros He H.
  destruct (trimEnd s) eqn:Et; [|discriminate].
  destruct (isWhiteSpace d) eqn:Ed; [|discriminate].
  apply orb_true_iff in H. destruct H as [H|H].
  - apply Ascii.eqb_eq in H. subst d. exact Ed.
  - apply IH; [reflexivity | exact H].
Qed.

(** A string with a character that is not white space is not blank. *)
Lemma not_blank (c : ascii) (s : string) :
  includesChar c s = true -> isWhiteSpace c = false -> isBlank s = false.
Proof.
  intros Hc Hw. rewrite isBlank_trim. apply String.eqb_neq. intros Ht.
  unfold trim in Ht.
  destruct (trimStart_chars c s Hc) as [H|H]; [congruence|].
  pose proof (trimEnd_empty c _ Ht H). congruence.
Qed.

Lemma joined_not_blank (a b : string) : isBlank (a ++ "," ++ b) = false.
Proof.
  apply (not_blank ","); [|reflexivity].
  change ("," ++ b) with (String "," b).
  rewrite includesChar_app. cbn [includesChar]. rewrite Ascii.eqb_refl.
  apply orb_true_r.
Qed.

Lemma joined_In (a b : string) (N p : Z) :
  In p (parsePageRange (a ++ "," ++ b) N) <->
  exists part, (In part (tokens a) \/ In part (tokens b)) /\
               In p (partPages part N).
Proof.
  rewrite (parsePageRange_In _ N p (joined_not_blank a b)).
  unfold tokens. change ("," ++ b) with (String "," b).
  rewrite split_join, map_app.
  split; intros [part [Hpart Hp]]; exists part; (split; [|exact Hp]).
  - apply in_app_or, Hpart.
  - apply in_or_app, Hpart.
Qed.

End TokenOrder.

(** X25. The selection of [parsePageRange] does not depend on the order
    in which the tokens are written, nor on their repetition: two range
    strings joined by a comma select the same pages in either order, the
    pages of both when neither is blank; a string joined to itself selects
    what it selects alone. *)
Theorem token_order_does_not_matter :
  (forall a b N,
     parsePageRange (a ++ "," ++ b)%string N =
     parsePageRange (b ++ "," ++ a)%string N) /\
  (forall a b N p,
     isBlank a = false -> isBlank b = false ->
     (In p (parsePageRange (a ++ "," ++ b)%string N) <->
      In p (parsePageRange a N) \/ In p (parsePageRange b N))) /\
  (forall a N,
     isBlank a = false ->
     parsePageRange (a ++ "," ++ a)%string N = parsePageRange a N).
Proof.
  split; [|split].
  - intros a b N. apply sorted_same_elements;
      try apply parsePageRange_sorted.
    intros p. rewrite !joined_In.
    split; intros [part [Hpart Hp]]; exists part; tauto.
  - intros a b N p Ha Hb.
    rewrite joined_In, (parsePageRange_In a N p Ha), (parsePageRange_In b N p Hb).
    split.
    + intros [part [[H|H] Hp]]; [left | right]; exists part; tauto.
    + intros [[part [H Hp]]|[part [H Hp]]]; exists part; tauto.
  - intros a N Ha. apply sorted_same_elements;
      try apply parsePageRange_sorted.
    intros p. rewrite joined_In, (parsePageRange_In a N p Ha).
    split; intros [part [Hpart Hp]]; exists part; tauto.
Qed.

Lemma token_order_does_not_matter_witness :
  (In 4 (parsePageRange ("1-2" ++ "," ++ "4, 9")%string 5) <->
   In 4 (parsePageRange "1-2" 5) \/ In 4 (parsePageRange "4, 9" 5)) /\
  parsePageRange ("3-4" ++ "," ++ "3-4")%string 5 = parsePageRange "3-4" 5.
Proof.
  split.
  - exact (proj1 (proj2 token_order_does_not_matter) "1-2"%string "4, 9"%string
             5 4 eq_refl eq_refl).
  - exact (proj2 (proj2 token_order_does_not_matter) "3-4"%string 5 eq_refl).
Defined.

(** ** Cancellation of a PDF to DOCX call *)

(** X26. Cancellation of a PDF to DOCX call on a processor whose worker
    is alive. The flag is polled twice: before the conversion request is
    sent and after the worker has answered it. Raised at the first poll,
    the call answers [PROCESSING_CANCELLED] at once: the worker is not
    asked anything, whatever it would have answered. Raised at the second
    poll, when the worker has already delivered the document, the call
    answers [PROCESSING_CANCELLED] all the same and the document is
    dropped. In both cases the worker is kept for the next call. *)
Theorem docx_cancellation :
  (forall env file s w,
     looksLikePdf file = true ->
     PDFToDocx.worker s = Some w ->
     PDFToDocx.cancelledAt env 0%nat = true ->
     exists s',
       PDFToDocx.run env (mkInput [file] tt) s = (Resolved cancelledOutput, s') /\
       WorkerUse.kept s s' /\
       reports (PDFToDocx.base s') = [clamp 10]) /\
  (forall env file s w pre t rest,
     looksLikePdf file = true ->
     PDFToDocx.worker s = Some w ->
     PDFToDocx.cancelledAt env 0%nat = false ->
     PDFToDocx.cancelledAt env 1%nat = true ->
     PDFToDocx.convertEvents env =
       (map PDFToDocx.MessageEvent pre ++ PDFToDocx.MessageEvent t :: rest)%list ->
     Forall WorkerUse.isNotice pre ->
     Worker.id t = Some (PDFToDocx.msgIdOf env) ->
     Worker.type t = "convert-complete"%string ->
     exists s',
       PDFToDocx.run env (mkInput [file] tt) s = (Resolved cancelledOutput, s') /\
       WorkerUse.kept s s').
Proof.
  split.
  - intros env file s w Hf Hw Hc.
    unfold PDFToDocx.run, PDFToDocx.process.
    unfold settle, bind at 1, reset, modify. cbn [files fst snd].
    rewrite (looksLikePdf_true file Hf).
    unfold PDFToDocx.initWorker, PDFToDocx.terminateWorker. run_unfold.
    cbn -[PDFToDocx.msgIdOf clamp PDFToDocx.awaitConvert]. rewrite Hw.
    cbn -[PDFToDocx.msgIdOf clamp PDFToDocx.awaitConvert]. rewrite Hc.
    eexists. split; [reflexivity|]. split; [|reflexivity].
    split; [reflexivity|]. intros _. split; [symmetry; exact Hw | reflexivity].
  - intros env file s w pre t rest Hf Hw Hc0 Hc1 Hev Hpre Hid Hty.
    unfold PDFToDocx.run, PDFToDocx.process.
    unfold settle, bind at 1, reset, modify. cbn [files fst snd].
    rewrite (looksLikePdf_true file Hf).
    unfold PDFToDocx.initWorker, PDFToDocx.terminateWorker. run_unfold.
    cbn -[PDFToDocx.msgIdOf clamp PDFToDocx.awaitConvert]. rewrite Hw.
    cbn -[PDFToDocx.msgIdOf clamp PDFToDocx.awaitConvert]. rewrite Hc0.
    cbn -[PDFToDocx.msgIdOf clamp PDFToDocx.awaitConvert]. rewrite Hev.
    match goal with
    | |- context [PDFToDocx.awaitConvert ?id (map _ pre ++ ?more) ?st] =>
        destruct (awaitConvert_notices id pre Hpre more st)
          as [s2 [-> [Hw2 [Hs2 [Ht2 [Hp2 _]]]]]]
    end.
    cbn [PDFToDocx.worker PDFToDocx.spawned PDFToDocx.terminated
         PDFToDocx.base polls] in Hw2, Hs2, Ht2, Hp2.
    rewrite (awaitConvert_complete _ t rest s2 Hid Hty).
    cbn -[PDFToDocx.msgIdOf clamp]. rewrite Hp2, Hc1.
    eexists. split; [reflexivity|].
    split; [exact Ht2|]. intros _. split; [|exact Hs2].
    cbn. rewrite Hw2. symmetry. exact Hw.
Qed.

Lemma docx_cancellation_witness :
  fst (PDFToDocx.run
         (PDFToDocx.mkEnv (fun _ => true) (Done tt) [] 2000 [])
         (Examples.docxInput Examples.pdfFile) Examples.docxReady) =
    Resolved cancelledOutput /\
  fst (PDFToDocx.run
         (PDFToDocx.mkEnv (Nat.eqb 1) (Done tt) [] 2000
            [PDFToDocx.MessageEvent (Worker.progressMsg "Preparing PDF..." 5);
             PDFToDocx.MessageEvent
               (Worker.mkMsg "convert-complete" (Some "convert-2000"%string)
                             (Some Worker.docxBlob) None None None)])
         (Examples.docxInput Examples.pdfFile) Examples.docxReady) =
    Resolved cancelledOutput.
Proof.
  split.
  - destruct (proj1 docx_cancellation
                (PDFToDocx.mkEnv (fun _ => true) (Done tt) [] 2000 [])
                Examples.pdfFile Examples.docxReady 0%nat
                eq_refl eq_refl eq_refl) as [s' [H _]].
    unfold Examples.docxInput. rewrite H. reflexivity.
  - destruct (proj2 docx_cancellation
                (PDFToDocx.mkEnv (Nat.eqb 1) (Done tt) [] 2000
                   [PDFToDocx.MessageEvent
                      (Worker.progressMsg "Preparing PDF..." 5);
                    PDFToDocx.MessageEvent
                      (Worker.mkMsg "convert-complete"
                         (Some "convert-2000"%string)
                         (Some Worker.docxBlob) None None None)])
                Examples.pdfFile Examples.docxReady 0%nat
                [Worker.progressMsg "Preparing PDF..." 5]
                (Worker.mkMsg "convert-complete" (Some "convert-2000"%string)
                              (Some Worker.docxBlob) None None None)
                []
                eq_refl eq_refl eq_refl eq_refl eq_refl
                ltac:(constructor; [split; [right|]; reflexivity | constructor])
                ltac:(vm_compute; reflexivity) eq_refl) as [s' [H _]].
    unfold Examples.docxInput. rewrite H. reflexivity.
Defined.

(** ** The style of a watermark *)

Lemma orNumber_nonzero (x d : Q) :
  ~ (d == 0)%Q -> ~ (MarkStyle.orNumber x d == 0)%Q.
Proof.
  intros Hd. unfold MarkStyle.orNumber.
  destruct (Qeq_bool x 0) eqn:E; [exact Hd|].
  apply Qeq_bool_neq. exact E.
Qed.

Lemma orNumber_kept (x d : Q) :
  ~ (x == 0)%Q -> MarkStyle.orNumber x d = x.
Proof.
  intros Hx. unfold MarkStyle.orNumber.
  destruct (Qeq_bool x 0) eqn:E; [|reflexivity].
  apply Qeq_bool_iff in E. contradiction.
Qed.

(** X27. The style of a watermark, from the options of the call to what
    [drawText] and [drawImage] are given. A font size, an opacity or a
    colour channel of 0 is never used: the text is drawn with the default
    in its place (48, 0.3, 0.5), so a fully transparent or a black text
    cannot be asked for; an image never has opacity 0 either. Any other
    opacity is used as given. At position [diagonal] the text is turned
    by -45 degrees whatever rotation is asked; at every other position it
    is turned as an image is; and when the call gives no rotation, that is
    by -45 degrees. *)
Theorem watermark_style (p : MarkStyle.PartialStyle) :
  (~ (MarkStyle.size (MarkStyle.drawText (MarkStyle.resolveStyle p)) == 0)%Q /\
   ~ (MarkStyle.textOpacity (MarkStyle.drawText (MarkStyle.resolveStyle p)) == 0)%Q /\
   ~ (MarkStyle.red (MarkStyle.drawText (MarkStyle.resolveStyle p)) == 0)%Q /\
   ~ (MarkStyle.green (MarkStyle.drawText (MarkStyle.resolveStyle p)) == 0)%Q /\
   ~ (MarkStyle.blue (MarkStyle.drawText (MarkStyle.resolveStyle p)) == 0)%Q /\
   ~ (MarkStyle.imageOpacity (MarkStyle.drawImage (MarkStyle.resolveStyle p)) == 0)%Q) /\
  (forall v, MarkStyle.opacity' p = Some v -> ~ (v == 0)%Q ->
     MarkStyle.textOpacity (MarkStyle.drawText (MarkStyle.resolveStyle p)) = v /\
     MarkStyle.imageOpacity (MarkStyle.drawImage (MarkStyle.resolveStyle p)) = v) /\
  (MarkStyle.position' p = Some MarkStyle.diagonal ->
     MarkStyle.textRotate (MarkStyle.drawText (MarkStyle.resolveStyle p)) =
       (-45 # 1)%Q) /\
  (MarkStyle.position' p <> Some MarkStyle.diagonal ->
     MarkStyle.textRotate (MarkStyle.drawText (MarkStyle.resolveStyle p)) =
     MarkStyle.imageRotate (MarkStyle.drawImage (MarkStyle.resolveStyle p))) /\
  (MarkStyle.rotation' p = None ->
     MarkStyle.imageRotate (MarkStyle.drawImage (MarkStyle.resolveStyle p)) =
       (-45 # 1)%Q).
Proof.
  destruct p as [pos op rot fs col].
  unfold MarkStyle.resolveStyle, MarkStyle.drawText, MarkStyle.drawImage.
  cbn [MarkStyle.position' MarkStyle.opacity' MarkStyle.rotation'
       MarkStyle.fontSize' MarkStyle.color' MarkStyle.position
       MarkStyle.opacity MarkStyle.rotation MarkStyle.fontSize
       MarkStyle.color MarkStyle.size MarkStyle.red MarkStyle.green
       MarkStyle.blue MarkStyle.textOpacity MarkStyle.textRotate
       MarkStyle.imageOpacity MarkStyle.imageRotate].
  split; [|split; [|split; [|split]]].
  - repeat split; apply orNumber_nonzero; discriminate.
  - intros v Hv Hnz. subst op. cbn [Watermark.orElse].
    rewrite (orNumber_kept v _ Hnz). split; reflexivity.
  - intros Hpos. subst pos. reflexivity.
  - intros Hpos. destruct pos as [[| | | | |]|]; cbn [Watermark.orElse];
      try reflexivity. contradiction Hpos. reflexivity.
  - intros Hrot. subst rot. reflexivity.
Qed.

Lemma watermark_style_witness :
  MarkStyle.textOpacity
    (MarkStyle.drawText
       (MarkStyle.resolveStyle
          (MarkStyle.mkPartialStyle (Some MarkStyle.diagonal) (Some (1 # 2)%Q)
             (Some 30%Q) (Some 0%Q)
             (Some (MarkStyle.mkColor 0 0 0))))) = (1 # 2)%Q /\
  MarkStyle.textRotate
    (MarkStyle.drawText
       (MarkStyle.resolveStyle
          (MarkStyle.mkPartialStyle (Some MarkStyle.diagonal) (Some (1 # 2)%Q)
             (Some 30%Q) (Some 0%Q)
             (Some (MarkStyle.mkColor 0 0 0))))) = (-45 # 1)%Q /\
  MarkStyle.textRotate
    (MarkStyle.drawText
       (MarkStyle.resolveStyle
          (MarkStyle.mkPartialStyle (Some MarkStyle.top_left) None
             None None None))) =
  MarkStyle.imageRotate
    (MarkStyle.drawImage
       (MarkStyle.resolveStyle
          (MarkStyle.mkPartialStyle (Some MarkStyle.top_left) None
             None None None))) /\
  MarkStyle.imageRotate
    (MarkStyle.drawImage
       (MarkStyle.resolveStyle
          (MarkStyle.mkPartialStyle (Some MarkStyle.top_left) None
             None None None))) = (-45 # 1)%Q.
Proof.
  split; [|split; [|split]].
  - exact (proj1 (proj1 (proj2 (watermark_style
             (MarkStyle.mkPartialStyle (Some MarkStyle.diagonal)
                (Some (1 # 2)%Q) (Some 30%Q) (Some 0%Q)
                (Some (MarkStyle.mkColor 0 0 0)))))
             (1 # 2)%Q eq_refl ltac:(discriminate))).
  - exact (proj1 (proj2 (proj2 (watermark_style
             (MarkStyle.mkPartialStyle (Some MarkStyle.diagonal)
                (Some (1 # 2)%Q) (Some 30%Q) (Some 0%Q)
                (Some (MarkStyle.mkColor 0 0 0)))))) eq_refl).
  - exact (proj1 (proj2 (proj2 (proj2 (watermark_style
             (MarkStyle.mkPartialStyle (Some MarkStyle.top_left) None
                None None None))))) ltac:(discriminate)).
  - exact (proj2 (proj2 (proj2 (proj2 (watermark_style
             (MarkStyle.mkPartialStyle (Some MarkStyle.top_left) None
                None None None))))) eq_refl).
Defined.

(** ** A rasterize call from the tool *)

Lemma existsb_never (f : nat -> bool) (l : list nat) :
  (forall k, f k = false) -> existsb f l = false.
Proof.
  intros Hf. induction l as [|k l IH]; [reflexivity|].
  cbn [existsb]. rewrite Hf, IH. reflexivity.
Qed.

Lemma toolOptions_pages (dpi : Q) (fmt : Rasterize.RasterizeFormat)
    (quality : Q) (field bg : string) (totalPages : Z) :
  Rasterize.pagesToRender
    (Rasterize.mergeOptions
       (RasterizeCall.toolOptions dpi fmt quality field bg)) totalPages =
  parsePageRange field totalPages.
Proof.
  unfold Rasterize.pagesToRender, Rasterize.mergeOptions,
    RasterizeCall.toolOptions.
  cbn [Rasterize.pageRange_ Rasterize.pageRange].
  destruct (String.eqb field "") eqn:E; [|reflexivity].
  apply String.eqb_eq in E. subst field. reflexivity.
Qed.

(** X28. A rasterize call from the tool, end to end. With an image format,
    the libraries working, nothing cancelled and at least two of the
    pages the page field selects rendering, the call resolves with a
    success whose file is [<base name>_images.zip] and whose archive holds
    one entry per selected page that renders, in ascending page order,
    named [<base name>_page_<N><extension>]; a selected page that fails
    leaves no entry. An empty page field is passed as no range at all and
    selects as the parser does for the empty string. *)
Theorem rasterize_tool_archive :
  forall env file dpi fmt quality field bg doc,
    fmt <> Rasterize.pdf ->
    (forall k, Rasterize.cancelledAt env k = false) ->
    Rasterize.loadPdfjs env = Done tt ->
    Rasterize.arrayBuffer env = Done tt ->
    Rasterize.getDocument env = Done doc ->
    Rasterize.importJSZip env = Done tt ->
    Rasterize.generateAsync env = Done tt ->
    (2 <= List.length (filter (Rasterize.pageRenders env doc)
                              (parsePageRange field (numPages doc))))%nat ->
    exists out s',
      RasterizeCall.rasterizePDF env file
        (Some (RasterizeCall.toolOptions dpi fmt quality field bg)) =
        (Resolved out, s') /\
      success out = true /\
      filename out = Some (stripPdfSuffix (name file) ++ "_images.zip")%string /\
      Envelope.entryNames out =
        map (fun p => (stripPdfSuffix (name file) ++ "_page_" ++ ofZ p ++
                       Rasterize.getFileExtension fmt)%string)
            (filter (Rasterize.pageRenders env doc)
                    (parsePageRange field (numPages doc))).
Proof.
  intros env file dpi fmt quality field bg doc Hfmt Hc Hl Ha Hd Hz Hg Hlen.
  unfold RasterizeCall.rasterizePDF, Rasterize.run, Rasterize.process,
    Rasterize.fresh.
  run_unfold. cbn [files options].
  rewrite Hl. cbn beta iota. rewrite Ha. cbn beta iota. rewrite Hd.
  cbn beta iota zeta. cbn [getBase setBase BaseProcessor polls].
  rewrite Hc. cbn beta iota.
  rewrite toolOptions_pages.
  remember (parsePageRange field (numPages doc)) as pages eqn:Ep.
  assert ((Rasterize.lengthZ pages =? 0) = false) as Hnz.
  { apply Z.eqb_neq. unfold Rasterize.lengthZ.
    pose proof (filter_length_le (Rasterize.pageRenders env doc) pages). lia. }
  rewrite Hnz.
  remember (Rasterize.mergeOptions
              (RasterizeCall.toolOptions dpi fmt quality field bg)) as o eqn:Eo.
  assert (Rasterize.format o = fmt) as Ef by (subst o; reflexivity).
  rewrite Ef.
  destruct fmt; [| | |contradiction Hfmt; reflexivity].
  all: match goal with
       | |- context [Rasterize.imageLoop ?e ?oo ?d ?b ?n ?ps ?i ?im ?st] =>
           destruct (rasterize_imageLoop_outcome e oo d b n ps i im st)
             as [s' Hr]
       end;
       rewrite (existsb_never _ _ Hc) in Hr; rewrite Hr; cbn [app];
       destruct (filter (Rasterize.pageRenders env doc) pages)
         as [|x [|y r]] eqn:Efl;
       [cbn [List.length] in Hlen; lia | cbn [List.length] in Hlen; lia |];
       cbn [map]; cbn beta iota;
       rewrite Hz; cbn beta iota; rewrite Hg; cbn beta iota;
       do 2 eexists; split; [reflexivity|];
       split; [reflexivity|]; split; [reflexivity|];
       unfold Envelope.entryNames; cbn [result createSuccessOutput map fst];
       unfold Rasterize.imageFor; rewrite !map_map;
       cbn [fst Rasterize.filename]; rewrite ?Ef; reflexivity.
Qed.

Lemma rasterize_tool_archive_witness :
  exists out s',
    RasterizeCall.rasterizePDF
      (Examples.rasterEnv (Examples.docOf 5 (fun p => p =? 2)))
      Examples.pdfFile
      (Some (RasterizeCall.toolOptions 300 Rasterize.jpeg (9 # 10) ""
                                       "white")) = (Resolved out, s') /\
    Envelope.entryNames out =
      ["report_page_1.jpg"; "report_page_3.jpg"; "report_page_4.jpg";
       "report_page_5.jpg"]%string.
Proof.
  destruct (rasterize_tool_archive
              (Examples.rasterEnv (Examples.docOf 5 (fun p => p =? 2)))
              Examples.pdfFile 300 Rasterize.jpeg (9 # 10) "" "white"
              (Examples.docOf 5 (fun p => p =? 2))
              ltac:(discriminate) (fun _ => eq_refl)
              eq_refl eq_refl eq_refl eq_refl eq_refl
              ltac:(vm_compute; lia))
    as [out [s' [Hrun [_ [_ Hnames]]]]].
  exists out, s'. split; [exact Hrun|].
  rewrite Hnames. vm_compute. reflexivity.
Defined.
